(* ===== verification/_CoqProject ===== *)
-Q . S2P
Prelude.v
Stats.v
Pattern.v
Phases.v
Timing.v
FolderData.v
FolderCodec.v
FileAccess.v
HiddenReport.v
PhaseStats.v
Regression.v
JsonData.v
Calibration.v
Multifactor.v
Trial5Calib.v
ImprovedParser.v
PerfGraph.v
Phase2Rel.v
