(* ===== verification/Prelude.v ===== *)
(** * A verification library for the Bookkeeper speed-test tooling

    The repository is a set of Python batch scripts that calibrate a time
    estimate for a browser-based file deduplication tool.  They read console
    logs dumped to Markdown, extract timing events and folder metrics, group
    the events into test runs, derive phase durations, write CSV tables,
    and fit or validate calibration constants.  Separate scripts count the
    files of a directory that a browser can read.  This development models
    that code in Rocq and proves what makes it correct.  It also proves where
    the code departs from its spec ([spec.md]).

    ** How the parts interact

    A console log is one Python [str].  Three parsers read it:
    - [src/docs/speed_tests/parse_console_log.py] (the first version, "v1");
    - [src/docs/plans/Bookkeeper/speed_tests/parse_console_log.py] (the
      three-stage version, "v2");
    - [src/docs/plans/Bookkeeper/speed_tests/improved_parser_json.py] and
      [src/docs/speed_tests/trial5_parser.py] (later variants, which read
      the folder records as JSON);
    - [src/docs/speed_tests/improved_parser.py] (folder records only).
    Each parser finds timing lines with [re.finditer] or [re.findall]
    ([Pattern.v]).  It groups the events into runs at each
    [PROCESSING_START] event ([Timing.v]).  It derives phase durations from
    each run's timestamp dict ([Phases.v]).  It extracts one folder-metric
    record per [FOLDER_ANALYSIS_DATA] blob ([FolderData.v]).  The run index
    joins timing rows to folder records in the calibration scripts.

    ** Files, in dependency order
    - [Prelude.v] (this file): the text model, Python's character classes,
      the generic lemmas on lists and strings, the [bk] hint database and
      the tactics.  A Python [str] is a [list Z] of code points ([text]).
      Positions are code-point indices, as [match.start()] returns them.
    - [Stats.v]: Python floats and float64 cells as [pyfloat] (an exact
      rational, an infinity or [NaN]) with IEEE's rules for the special
      values, an equivalence [≡] with [Proper] instances for the
      operations, [float()]'s overflow to [inf], [round] and the [:.Nf]
      formatting (round half to even), the exceptions [exc] with their
      monad and [int()] of a float ([ValueError] on [NaN],
      [OverflowError] on an infinity), the reductions of pandas
      ([skipna]) and numpy, series with their index labels and pandas'
      alignment on labels, and the one-feature least-squares fit of
      [LinearRegression].
    - [Pattern.v]: the regular expressions of the parsers, written as
      matchers.  They are the timing line
      [<tag>\.js:\d+\s+([A-Z_]+):\s+(\d+)], the worker markers of
      [detect_execution_mode], [re.finditer] and [re.search] with fuel, and
      [in] on strings.  Each matcher is proved sound and complete against
      an inductive reading of its regular expression.
    - [Phases.v]: the phase-duration code.  This is the v2 and
      improved-parser [None] policy, the trial-5 default-0 policy, and
      [calculate_phase_durations] of [src/analyze_processing_phases.py]
      with its fallbacks and coercion to 0.
    - [Timing.v]: [parse_timing_data] of v1, v2, the JSON parser and trial
      5.  The state is the counter [current_test_run], the
      [defaultdict(dict)] [test_run_data] as a [gmap nat (gmap text Z)] and
      [test_run_positions] as a [gmap nat nat].  The events of the two
      sources are merged by [sort] on position, modelled with stdpp's
      [merge_sort].  The abstract specification is [split_runs]: the events
      before the first marker are dropped, and each run is the segment from
      its marker to the next one.  The refinement theorem proves that the
      mutable grouping of v2 computes this specification.
    - [FolderData.v]: [parse_folder_analysis_data] of v1 and v2.  The
      blob pattern is a matcher that backtracks over the length of
      [([^}]+)] as Python's engine does; each field is found by
      [re.search] of [key:\s*(\d+)] or [key:\s*([\d.]+)] and read by
      [int()] (which refuses more than 4300 digits) or [float()].  The
      record loop ([Section FolderLoop]) is a step function over the state
      [(folder_data, test_run, warnings)]; a record whose conversion raises
      is skipped with its warning and does not advance [test_run].  The v1
      row computes the derived metrics, with [round(x, 2)] as round half
      to even.
    - [FolderCodec.v]: a writer for the v2 log line (the format the
      application prints, from the spec) and the round trip: a log of
      written records is read back as the same records.
    - [FileAccess.v]: the four file counters at the root of [src/].  The
      file system is an oracle record ([file_system]): what [os.stat]
      returns or raises, what [open] and [read(1)] raise, and whether a
      path is a directory.  [os.walk] is its output, the list of
      [(root, files)]; the paths are joined by [ntpath] or [posixpath].
      Each counter is a step function folded over the walked paths, its
      state the [counts] dict as a record; [exclusions] is an association
      list in insertion order.
    - [HiddenReport.v]: what [main] of [count_hidden_files.py] does with
      the counts: [print_results] (the printed percentages, the first five access
      errors) and the [--show-examples] rescan, two nested loops over the
      walk whose [break]s stop at ten hidden files.
    - [PhaseStats.v]: [analyze_phase_statistics] and
      [identify_major_phases] of [src/analyze_processing_phases.py] on the
      durations of [Phases.Analysis]; [sort_values] is the interface
      [SortDesc] (a permutation by decreasing total), since its quicksort
      orders equal totals as the library does.
    - [Regression.v]: what the later scripts call in [sklearn]: a
      [LinearRegression] with an intercept on several feature columns,
      [predict], [r2_score] (with its cases for fewer than two samples and
      a constant target), Python's [max] with a key (the first maximum
      wins), and [max] over [(r2, model, name)] tuples, which raises
      [TypeError] when two scores are equal.  Errors are values of
      [exc + A] ([Stats.v]).  The solver is an interface, the class
      [LeastSquares]: coefficients that solve the normal equations.  The
      scripts' definitions take any such solver, so the theorems hold for
      [sklearn]'s minimum-norm solver as well.  [lstsq], Gram-Schmidt
      with coefficient tracking on exact rationals, is one instance and
      runs the examples.
    - [Calibration.v]: the merged frame of [pd.merge] and the validation
      and calibration scripts that use it, one Module each
      ([Estimation], [NewFormula], [Final], [Simple], [ThreeStage],
      [Recalibrate]); each [main] returns what the script prints or saves,
      and whether a conversion raised on the way.
    - [Multifactor.v]: [robust_calibration.py] (Module [Robust]),
      [size_aware_calibration.py] ([SizeAware]) and
      [verified_calibration.py] ([Verified]) on the merged worker frame:
      the fits, the choice of models, the predictions, the label-aligned
      accuracy, the detailed table and the saved columns.
    - [JsonData.v]: the Python values of a row ([pyval]), a JSON object
      as a [gmap], [json.loads] as an oracle, [csv.DictWriter] (its
      [ValueError] on an extra key, [restval] for a missing one), the
      folder rows of [improved_parser_json.py] ([JsonFolder]) and the
      folder loop, [merge_data] and [save_results] of [trial5_parser.py]
      ([Trial5Merge]).
    - [Trial5Calib.v]: [trial5_comprehensive_calibration.py]
      ([Comprehensive], down to the JavaScript constants that
      [generate_implementation_formula] prints, as [js_line]s) and
      [trial5_enhanced_optimization.py] ([Enhanced]) on the rows of
      [5_CompleteAnalysisData.csv].
    - [ImprovedParser.v]: [improved_parser.py] (Module [Improved]): its
      lazy [DOTALL] pattern with a look-ahead as a matcher, the field loop
      with the ASCII classes [[0-9]] and [[0-9.]] and unguarded
      conversions (errors as [exc + A]), [show_sample_matches] as the
      numbers of the lines it prints, and [main] with its exits and the
      [DictWriter] output.
    - [PerfGraph.v]: [generate_performance_graph.py], a module-level
      script, as its statements in order over a state of bound global
      names and produced output; reading an unbound name raises
      [NameError].  [np.polyfit] of degree 1 is a [LeastSquares] solver.
    - [Phase2Rel.v]: [phase2_relationship_analysis.py]: its table, the
      column [H], the linear model fitted by a [LeastSquares] solver, the
      [R^2] and MAE, the choice of the best model and the printed tables;
      the four non-linear fits are an oracle.

    ** What the theorems show
    - Pattern: soundness and completeness of each matcher, that
      [re.finditer] terminates within [length s] steps (the fuel), and that
      each match lies in the text at its position.
    - Timing: the number of runs equals the number of markers, each run
      holds exactly its segment with last-write-wins, and every run has a
      [PROCESSING_START] and a position.  V1 numbers runs from 2 and keeps
      the prelude as run 1 (a divergence from the spec).  The grouping of
      trial 5 agrees with v2.
    - Phases: each duration is [end - start] when both endpoints are
      present and [None] otherwise.  The three phases sum to the total.
      The trial-5 policy yields a raw timestamp as a duration when
      [DEDUPLICATION_START] is missing (a bug).
    - FolderData: the v2 matcher reads up to the first [}]; the optional
      group [(?:, …)?] of v1 is dead; a malformed record is skipped with a
      warning and the rows stay numbered 1, 2, ...; the counts of a v1 row
      satisfy [uniqueFilesTotal = min(totalFiles, main + sub)] and
      [unique + identical = total]; [float()] fails on a [[\d.]+] capture
      exactly when it has no digit or two dots; [round] is within half a
      unit and even on ties.
    - FolderCodec: the round trip of the spec, on any list of records.
    - The JSON-log parser writes the same runs and phases as v2.
    - FileAccess: each counter counts every walked file once and its
      counters partition the total; the example lists are the first 15 or
      20 excluded files.  The fast check never reports "Permission denied"
      (its handler is shadowed), the cloud-placeholder branches are dead
      (the [stat] module lacks the constant), [.ds_store] is shadowed by
      the dot check, [count_files_in_directory] always reports 0 errors,
      the fast and full checks disagree on [~] names, the full check
      accepts what the fast one accepts, and an error message that names a
      [hidden] path is counted as a hidden file.
    - HiddenReport: the rescan lists exactly the first ten hidden files of
      the walk, as many as [min(10, hidden_files)] of the count; on POSIX
      the percentages as [:.1f] prints them (one decimal, ties to even,
      [format_fixed] of [Stats.v]) are [0.0] for system files, [0.0] for
      hidden files exactly when they are at most a two-thousandth of all
      files, in [[0, 100]], and the visible and hidden ones add up to 100
      within [0.1].  The quotients themselves are exact rationals: binary64
      moves them by less than [2^-52] relative, far below the printed digit.
    - Stats: the fit of [LinearRegression] is the least-squares line.
    - Calibration: the accuracy is [NaN] or at most 100; a worker run
      without a total makes both validation scripts raise before their
      last section; [final_calibration.py] turns every prediction into
      [NaN] when no run has duplicate candidates; the saved and printed
      predictions of [simple_calibration.py] and
      [recalibrate_constants.py] are aligned on labels, so they belong to
      other runs when a main-thread run precedes the worker runs (and to
      their own runs otherwise); the size-based formula drops at 200 MB;
      the ratio-of-sums constants reproduce each phase's total.
    - PhaseStats: ['Total Time'] is summarised as a phase, scores 100%,
      and is the only "major phase" whenever it has the largest total (a
      bug).
    - Regression: [lstsq] solves the normal equations, so no coefficients
      fit better.  All solutions have the same fitted values.  A fit on
      more columns never has a larger error and never scores lower.  The
      closed form of [Stats.v] agrees with [lstsq].  Between two nested
      fits, choosing by score never changes a fitted prediction.  On a
      constant target every fit scores 1.0.
    - Multifactor: in the size-aware and verified scripts the choice by
      [r2_score] never changes a prediction.  The robust and verified
      tables raise on their first line ([ValueError] from [int(nan)], or
      an earlier [OverflowError] from an infinite cell) when the first
      merged run is not a worker run (pandas aligns the errors on labels).
    - Trial5Calib: the comprehensive calibration either raises or picks
      the full model for phases 2 and 3.  It always raises [TypeError]
      when the phase-2 time is constant.  When it completes, the
      constants it prints for [fileAnalysis.js], each read as its name
      says ([label_column]), give on every run the total its validated
      model predicts, up to half a unit of each constant's last printed
      decimal times its column ([print_tolerance]).  Every accuracy the enhanced
      script reports is [NaN] or within [0, 100].  A [NaN] mean accuracy
      of its first model freezes the choice on that model.
    - JsonData: [merge_data] returns one record per run of either source
      in increasing order, the timing fields winning; [save_results]
      writes every record under a field list without duplicates; the
      JSON folder rows are numbered without gaps and always written; a
      string [totalSizeMB] ends trial 5's script with [ValueError].
    - ImprovedParser: the matcher returns exactly the shortest body before
      the look-ahead; every row is typed (an [int], or a [float] that is
      never negative nor [NaN] and [inf] beyond binary64, in each of its
      twelve fields); [main] writes every record with every cell filled,
      raises exactly when a record has a field [int()] or [float()]
      rejects, and then [ValueError], and on a
      log without [U+00F0] (every UTF-8 log of the application) finds
      nothing, because its marker is double-encoded (a bug).
    - PerfGraph: for any table the script saves the figure and then raises
      [NameError] at line 109 (a bug); the UI trend is the least-squares
      line of exactly the pairs with a positive UI time.
    - Phase2Rel: the [R^2] of the linear model is in [0, 1] for any
      least-squares fit whenever the phase-2 times are not all equal.

    ** Bounds and fuel
    [re.finditer] consumes at least one code point per step, so
    [length s] steps are enough, and more fuel changes nothing
    ([finditer_fuel_enough]).  Python integers are unbounded and are modelled by [Z].  The
    folder extractor models [int()]'s limit of 4300 digits, whose
    [ValueError] skips a record; in the timing parsers the same error
    would stop the script, and there [int()] is modelled without the limit
    (a timestamp has 13 digits).
    Python floats parsed from [[\d.]+] are modelled by their exact decimal
    value in [Q], and by [inf] from the overflow threshold [2^1024 - 2^970]
    on ([float_of_Q]).  The rounding to binary64 is not modelled; every
    property stated on them is an exact identity or a bound that rounding
    cannot break, except the printed constants of the trial-5 script,
    whose bound is stated of the exact prediction.  Where a theorem speaks
    of printed numbers, the [:.Nf] formatting is modelled
    ([format_fixed]: the nearest decimal, ties to even).
    The least-squares solver works on exact rationals and keeps its
    entries in lowest terms ([Qred], which changes no value), so the
    examples evaluate by [vm_compute].  The theorems about the scripts do
    not depend on the solver, only on the normal equations.  A score tie
    in exact arithmetic is a tie in binary64 in the cases the findings
    name: integer times and exact fits.

    ** Not modelled
    File I/O and printing (only the values printed are modelled), pandas,
    numpy and sklearn beyond the arithmetic the scripts do with them, and
    the drawing of [matplotlib] in [generate_performance_graph.py] (only
    the values it shows are modelled).  The logarithmic, power,
    exponential and square-root fits of [phase2_relationship_analysis.py]
    need transcendental functions and [scipy]'s iterative optimiser, whose
    numerics are outside an exact model; their outcomes are an oracle, and
    its linear fit is taken to reach the least-squares optimum.  The
    [main] functions of the timing parsers (the usage and missing-file
    exits, [extract_filename_prefix], the output names) are argument
    handling and file I/O; only [improved_parser.py]'s [main] is modelled.
    The lines of [generate_performance_graph.py] after line 109 are never
    reached and read names the script never binds.  Which coefficients [sklearn]
    returns when several fit equally well (its minimum-norm choice) is
    left to the [LeastSquares] interface: the theorems hold for any
    choice, and the fitted values are the same for all.  The correlation
    and constant printouts of the later scripts ([analyze_*],
    [generate_*]) are output only, except the constants of
    [trial5_comprehensive_calibration.py], modelled as the decimals their
    [:.3f] and [:.6f] formats print.  Floats are exact: the rounding
    of binary64 and the sign of zero are not modelled, and the Pearson
    correlations the scripts print need a square root and are left out.
    In the file counters, what the
    operating system answers (the attribute bits, the error messages, the
    order of [os.walk]) is the oracle's; only what the scripts do with it
    is modelled. *)

From stdpp Require Export base gmap list strings sorting.
From Stdlib Require Export ZArith Lia.
From Stdlib Require Import Ascii.

(** ** Text: a Python [str] as a list of Unicode code points *)

Abbreviation text := (list Z).

(** [lit "abc"] is the code-point list of an ASCII literal of the source. *)
Definition lit (s : string) : text :=
  map (fun a => Z.of_nat (nat_of_ascii a)) (String.list_ascii_of_string s).

(** Literals stay folded under [simpl]; [vm_compute] still evaluates them. *)
Arguments lit : simpl never.

Declare Scope bk_scope.
Delimit Scope bk_scope with bk.
Notation "'U' s" := (lit s%string) (at level 9, s at level 0, only parsing) : bk_scope.
Open Scope bk_scope.
Open Scope Z_scope.

(** ** Python's character classes for [str] patterns *)

(** The code point of the zero of each block of ten Unicode decimal digits
    (general category Nd, Unicode 14, the tables of CPython 3.11).  Python's
    [\d] matches exactly these 660 code points, and [int()] and [float()]
    read each as the offset from the zero of its block. *)
Definition nd_zeros : list Z :=
  [48; 1632; 1776; 1984; 2406; 2534; 2662; 2790; 2918; 3046; 3174; 3302;
   3430; 3558; 3664; 3792; 3872; 4160; 4240; 6112; 6160; 6470; 6608; 6784;
   6800; 6992; 7088; 7232; 7248; 42528; 43216; 43264; 43472; 43504; 43600;
   44016; 65296; 66720; 68912; 69734; 69872; 69942; 70096; 70384; 70736;
   70864; 71248; 71360; 71472; 71904; 72016; 72784; 73040; 73120; 92768;
   92864; 93008; 120782; 120792; 120802; 120812; 120822; 123200; 123632;
   125264; 130032].

(** The value of a decimal digit, looked up in the blocks [zs]. *)
Fixpoint digit_in (zs : list Z) (c : Z) : option Z :=
  match zs with
  | [] => None
  | z :: zs' => if (z <=? c) && (c <=? z + 9) then Some (c - z) else digit_in zs' c
  end.

Definition digit_value (c : Z) : option Z := digit_in nd_zeros c.

(** [\d]: a Unicode decimal digit. *)
Definition is_digit (c : Z) : bool := bool_decide (is_Some (digit_value c)).

(** [\s] for [str] patterns: [str.isspace], the 29 code points of CPython's
    whitespace table. *)
Definition py_spaces : list Z :=
  [9; 10; 11; 12; 13; 28; 29; 30; 31; 32; 133; 160; 5760; 8192; 8193; 8194;
   8195; 8196; 8197; 8198; 8199; 8200; 8201; 8202; 8232; 8233; 8239; 8287;
   12288].

Definition is_space (c : Z) : bool := bool_decide (c ∈ py_spaces).

(** [[A-Z_]], the class of an event name. *)
Definition is_name_char (c : Z) : bool := ((65 <=? c) && (c <=? 90)) || (c =? 95).

(** [[\d.]], the class of a float field. *)
Definition is_digit_or_dot (c : Z) : bool := is_digit c || (c =? 46).

(** ** Scanning helpers *)

(** [span p s] splits [s] into its longest prefix of characters satisfying [p]
    and the rest: what a greedy [p+] or [p*] consumes. *)
Fixpoint span (p : Z -> bool) (s : text) : text * text :=
  match s with
  | [] => ([], [])
  | c :: s' => if p c then let '(a, b) := span p s' in (c :: a, b) else ([], s)
  end.

(** A non-empty match of a [+] quantifier. *)
Definition nonempty (l : text) : bool := match l with [] => false | _ => true end.

(** [strip_prefix pre s]: [Some r] when [s = pre ++ r]. *)
Fixpoint strip_prefix (pre s : text) : option text :=
  match pre, s with
  | [], _ => Some s
  | a :: pre', c :: s' => if Z.eqb a c then strip_prefix pre' s' else None
  | _ :: _, [] => None
  end.

(** [needle in hay] on Python strings. *)
Fixpoint contains (needle hay : text) : bool :=
  match strip_prefix needle hay with
  | Some _ => true
  | None => match hay with [] => false | _ :: hay' => contains needle hay' end
  end.

(** [s[a:b]] for [0 <= a <= b]: Python clamps both bounds to [len(s)]. *)
Definition slice (s : text) (a b : nat) : text := take (b - a) (drop a s).

(** [int(ds)] for a string [ds] of decimal digits. *)
Definition py_int (ds : text) : Z :=
  foldl (fun acc c => acc * 10 + default 0 (digit_value c)) 0 ds.

(** [dict.get(k, d)] on a [gmap]. *)
Definition dget {K V} `{Countable K} (m : gmap K V) (k : K) (d : V) : V :=
  default d (m !! k).

(** ** Generic lemmas *)

Create HintDb bk discriminated.
Create Rewrite HintDb bk_rw.

Lemma span_app p s : (span p s).1 ++ (span p s).2 = s.
Proof.
  induction s as [|c s IH]; simpl; [done|].
  destruct (p c); [|done]. destruct (span p s) as [a b]. simpl in *. by rewrite IH.
Qed.

Lemma span_fst_forall p s : Forall (fun c => p c = true) (span p s).1.
Proof.
  induction s as [|c s IH]; simpl; [constructor|].
  destruct (p c) eqn:E; [|constructor]. destruct (span p s) as [a b]. by constructor.
Qed.

Lemma span_snd_head p s c r : (span p s).2 = c :: r -> p c = false.
Proof.
  induction s as [|c' s IH]; simpl; [done|].
  destruct (p c') eqn:E.
  - destruct (span p s) as [a b]. apply IH.
  - by intros [= -> ->].
Qed.

(** The greedy split is the only split into a [p]-prefix and a rest that
    does not start with a [p] character. *)
Lemma span_unique p a b :
  Forall (fun c => p c = true) a ->
  (match b with [] => True | c :: _ => p c = false end) ->
  span p (a ++ b) = (a, b).
Proof.
  intros Ha Hb. induction Ha as [|c a Hc Ha IH]; simpl.
  - destruct b as [|c b]; simpl; [done|]. by rewrite Hb.
  - rewrite Hc, IH. done.
Qed.

(** The three facts of a greedy split at once. *)
Lemma span_inv p s a b :
  span p s = (a, b) ->
  s = a ++ b /\ Forall (fun c => p c = true) a /\ (match b with [] => True | c :: _ => p c = false end).
Proof.
  intros E. pose proof (span_app p s) as H1. pose proof (span_fst_forall p s) as H2.
  rewrite E in H1, H2. simpl in *. split; [done|]. split; [done|].
  destruct b as [|c r]; [done|]. apply (span_snd_head p s c r). by rewrite E.
Qed.

Lemma span_app_all p a b :
  Forall (fun c => p c = true) a -> span p (a ++ b) = (a ++ (span p b).1, (span p b).2).
Proof.
  induction 1 as [|c a Hc _ IH]; simpl; [by destruct (span p b)|].
  rewrite Hc, IH. done.
Qed.

(** A greedy [p+] stops before a non-empty run of characters outside [p]. *)
Lemma span_stop p q a b t :
  Forall (fun c => p c = true) a -> b <> [] -> Forall (fun c => q c = true) b ->
  (forall c, q c = true -> p c = false) -> span p (a ++ b ++ t) = (a, b ++ t).
Proof.
  intros Ha Hb Hq Hpq. rewrite span_app_all by done.
  destruct b as [|c b]; [done|]. simpl. apply Forall_cons in Hq as [Hc _].
  by rewrite (Hpq c Hc), app_nil_r.
Qed.

Lemma span_length p s : (length (span p s).2 <= length s)%nat.
Proof.
  rewrite <- (span_app p s) at 2. rewrite length_app. lia.
Qed.

Lemma strip_prefix_app pre r : strip_prefix pre (pre ++ r) = Some r.
Proof. induction pre as [|a pre IH]; simpl; [done|]. by rewrite Z.eqb_refl. Qed.

Lemma strip_prefix_Some pre s r : strip_prefix pre s = Some r <-> s = pre ++ r.
Proof.
  split.
  - revert s. induction pre as [|a pre IH]; intros [|c s]; simpl; try congruence.
    destruct (Z.eqb_spec a c); [subst|done]. intros H. by rewrite (IH s H).
  - intros ->. apply strip_prefix_app.
Qed.

Lemma strip_prefix_None pre s : strip_prefix pre s = None <-> ~ exists r, s = pre ++ r.
Proof.
  split.
  - intros H [r ->]. by rewrite strip_prefix_app in H.
  - intros Hn. destruct (strip_prefix pre s) as [r|] eqn:E; [|done].
    apply strip_prefix_Some in E. exfalso. eauto.
Qed.

Lemma contains_spec needle hay :
  contains needle hay = true <-> exists a b, hay = a ++ needle ++ b.
Proof.
  induction hay as [|c hay IH]; simpl.
  - destruct (strip_prefix needle []) as [r|] eqn:E.
    + apply strip_prefix_Some in E. split; [|done]. intros _. by exists [], r.
    + split; [done|]. intros (a & b & Hab).
      destruct a; [|done]. simpl in Hab. apply strip_prefix_None in E. eauto.
  - destruct (strip_prefix needle (c :: hay)) as [r|] eqn:E.
    + apply strip_prefix_Some in E. split; [|done]. intros _. by exists [], r.
    + rewrite IH. split.
      * intros (a & b & ->). by exists (c :: a), b.
      * intros ([|c' a] & b & Hab).
        -- apply strip_prefix_None in E. exfalso. eauto.
        -- injection Hab as -> ->. eauto.
Qed.

Lemma contains_app_l needle a b : contains needle a = true -> contains needle (a ++ b) = true.
Proof.
  rewrite !contains_spec. intros (x & y & ->). exists x, (y ++ b). by rewrite <- !app_assoc.
Qed.

Lemma py_int_snoc ds c : py_int (ds ++ [c]) = py_int ds * 10 + default 0 (digit_value c).
Proof. unfold py_int. by rewrite foldl_app. Qed.

Lemma digit_in_range zs c v : digit_in zs c = Some v -> 0 <= v <= 9.
Proof.
  induction zs as [|z zs IH]; simpl; [done|].
  destruct ((z <=? c) && (c <=? z + 9)) eqn:E; [|done].
  apply andb_true_iff in E as [E1 E2]. apply Z.leb_le in E1, E2. intros [= <-]. lia.
Qed.

Lemma digit_value_range c : 0 <= default 0 (digit_value c) <= 9.
Proof.
  unfold digit_value. destruct (digit_in nd_zeros c) eqn:E; simpl; [|lia].
  by apply digit_in_range in E.
Qed.

(** [int()] of a string of digits is never negative. *)
Lemma py_int_nonneg ds : 0 <= py_int ds.
Proof.
  unfold py_int. assert (forall acc, 0 <= acc -> 0 <= foldl (fun acc c => acc * 10 + default 0 (digit_value c)) acc ds) as H.
  { induction ds as [|c ds IH]; intros acc Hacc; simpl; [done|]. apply IH.
    pose proof (digit_value_range c). lia. }
  by apply H.
Qed.

Lemma dget_insert_eq {K V} `{Countable K} (m : gmap K V) k v d : dget (<[k:=v]> m) k d = v.
Proof. unfold dget. by rewrite lookup_insert_eq. Qed.

Lemma lookup_snoc_cases {A} (l : list A) x j :
  (l ++ [x]) !! j = if decide (j = length l) then Some x else l !! j.
Proof.
  case_decide as Hj.
  - subst. by apply list_lookup_middle.
  - destruct (decide (j < length l)%nat).
    + by apply lookup_app_l.
    + rewrite lookup_app_r by lia. rewrite (proj2 (lookup_ge_None l j)) by lia.
      apply lookup_ge_None. simpl. lia.
Qed.

#[export] Hint Resolve span_fst_forall contains_app_l : bk.
#[export] Hint Rewrite strip_prefix_app span_app py_int_snoc : bk_rw.

(** [bk_spans] destructs every [span] of the goal, remembering its
    equation so the [span] lemmas can be applied to it. *)
(** [decide_vm] proves a decidable proposition on closed data by
    evaluating its decision procedure. *)
Ltac decide_vm := match goal with |- ?P => apply (bool_decide_unpack P); vm_compute; reflexivity end.

Ltac bk_spans :=
  repeat match goal with
  | |- context [span ?p ?s] =>
      let E := fresh "Es" in destruct (span p s) eqn:E
  end.

Example py_int_ascii : py_int (U"0123") = 123.
Proof. reflexivity. Qed.

(** [int()] reads any Unicode decimal digit: Arabic-Indic three, then four. *)
Example py_int_arabic_indic : py_int [1635; 52] = 34.
Proof. reflexivity. Qed.
