(* ===== verification/Stats.v ===== *)
(** * Floats and the statistics of pandas and numpy

    The calibration scripts read the parsed CSV files with
    [pandas.read_csv], so every numeric cell is a float64 and an empty
    cell is [NaN].  They combine the cells with [+ - * /] and [abs], and
    summarise columns with [Series.mean], [median], [min], [max] and
    [sum], which skip [NaN], or with [np.mean], [np.median], [np.max] and
    [np.min] on lists, which do not.  A float is modelled as [pyfloat]:
    a finite value (an exact rational, the rounding to binary64 is not
    modelled), one of the two infinities, or [NaN].  The operations
    follow IEEE 754 on these classes: [inf - inf], [0 * inf], [0 / 0]
    and [inf / inf] are [NaN], a non-zero finite value divided by 0 is an
    infinity of its sign, and a comparison with [NaN] is false.  The sign
    of a zero is not modelled: [x / 0] is taken with [+0], the zero that
    the scripts' subtractions and columns produce.  The file also holds
    what the scripts share around floats: the exceptions they raise as
    [exc + A], [int()] of a float, [float()]'s overflow to [inf], and
    [round] and the [:.Nf] formatting as round half to even. *)

From S2P Require Import Prelude.
From Stdlib Require Import QArith Qabs Qminmax Qround Lqa.

(** ** Floats *)

Inductive pyfloat := Fin (q : Q) | PInf | NInf | NaN.

Definition of_Z (z : Z) : pyfloat := Fin (inject_Z z).
Definition of_nat (n : nat) : pyfloat := Fin (inject_Z (Z.of_nat n)).

Definition is_nan (x : pyfloat) : bool := match x with NaN => true | _ => false end.
Definition is_finite (x : pyfloat) : bool := match x with Fin _ => true | _ => false end.

Definition fneg (x : pyfloat) : pyfloat :=
  match x with Fin q => Fin (- q) | PInf => NInf | NInf => PInf | NaN => NaN end.

Definition fadd (x y : pyfloat) : pyfloat :=
  match x, y with
  | NaN, _ | _, NaN => NaN
  | PInf, NInf | NInf, PInf => NaN
  | PInf, _ | _, PInf => PInf
  | NInf, _ | _, NInf => NInf
  | Fin a, Fin b => Fin (a + b)
  end.

Definition fsub (x y : pyfloat) : pyfloat := fadd x (fneg y).

(** The sign of a value, [Eq] for zero. *)
Definition fsgn (x : pyfloat) : comparison :=
  match x with Fin q => (q ?= 0)%Q | PInf => Gt | NInf => Lt | NaN => Eq end.

Definition cmul (a b : comparison) : comparison :=
  match a, b with
  | Eq, _ | _, Eq => Eq
  | Gt, c | c, Gt => c
  | Lt, Lt => Gt
  end.

(** The infinity of a sign; [NaN] for the sign of zero. *)
Definition inf_sgn (c : comparison) : pyfloat := match c with Gt => PInf | Lt => NInf | Eq => NaN end.

Definition fmul (x y : pyfloat) : pyfloat :=
  match x, y with
  | NaN, _ | _, NaN => NaN
  | Fin a, Fin b => Fin (a * b)
  | _, _ => inf_sgn (cmul (fsgn x) (fsgn y))
  end.

(** [x / y]; a zero divisor is [+0]. *)
Definition fdiv (x y : pyfloat) : pyfloat :=
  match x, y with
  | NaN, _ | _, NaN => NaN
  | Fin a, Fin b => if Qeq_bool b 0 then inf_sgn (fsgn x) else Fin (a / b)
  | Fin _, _ => Fin 0
  | _, Fin b => inf_sgn (cmul (fsgn x) (match fsgn y with Eq => Gt | c => c end))
  | _, _ => NaN
  end.

Definition fabs (x : pyfloat) : pyfloat :=
  match x with Fin q => Fin (Qabs q) | PInf | NInf => PInf | NaN => NaN end.

(** [x <= y] and [x < y]: false when either is [NaN]. *)
Definition fle (x y : pyfloat) : bool :=
  match x, y with
  | NaN, _ | _, NaN => false
  | NInf, _ | _, PInf => true
  | PInf, _ | _, NInf => false
  | Fin a, Fin b => Qle_bool a b
  end.

Definition flt (x y : pyfloat) : bool :=
  match x, y with NaN, _ | _, NaN => false | _, _ => negb (fle y x) end.

(** [x == y] of Python. *)
Definition feqb (x y : pyfloat) : bool := fle x y && fle y x.

(** The exceptions the scripts can raise. *)
Inductive exc := ValueError | TypeError | NameError | IndexError | OverflowError.

(** A computation that may raise, as [exc + A]. *)
#[export] Instance exc_ret : MRet (sum exc) := fun A a => inr a.
#[export] Instance exc_bind : MBind (sum exc) := fun A B f m => match m with inl e => inl e | inr a => f a end.

(** A lookup by position that raises [IndexError] out of range. *)
Definition raise_index {A} (o : option A) : exc + A := match o with Some a => inr a | None => inl IndexError end.

(** [int(x)]: truncation toward zero; [ValueError] on [NaN] and
    [OverflowError] on an infinity. *)
Definition py_int_of_float (x : pyfloat) : exc + Z :=
  match x with
  | Fin q => inr (if Qle_bool 0 q then Qfloor q else (- Qfloor (- q)%Q)%Z)
  | NaN => inl ValueError
  | _ => inl OverflowError
  end.

(** ** Decimal text

    [float(s)] of a decimal string gives the nearest binary64: its
    rounding is not modelled, but its overflow is.  The largest finite
    binary64 is [(2 - 2^-52) * 2^1023]; rounding to nearest with ties to
    even sends every value from [2^1024 - 2^970] on to infinity. *)
Definition float_overflow : Q := inject_Z (2 ^ 1024 - 2 ^ 970).

Definition float_of_Q (q : Q) : pyfloat :=
  if Qle_bool float_overflow q then PInf
  else if Qle_bool q (- float_overflow) then NInf else Fin q.

(** To the nearest integer, ties to even: [round(x)], and the digit
    rounding of [format]. *)
Definition round_half_even (q : Q) : Z :=
  let f := Qfloor q in
  let d := (q - inject_Z f)%Q in
  if negb (Qle_bool d (1 # 2)%Q) then f + 1
  else if Qeq_bool d (1 # 2)%Q then (if Z.even f then f else f + 1) else f.

(** The value of [f"{x:.{d}f}"], the decimal with [d] digits after the
    point nearest to [x], ties to even. *)
Definition format_fixed (d : nat) (q : Q) : Q :=
  (inject_Z (round_half_even (q * inject_Z (10 ^ Z.of_nat d))) / inject_Z (10 ^ Z.of_nat d))%Q.

(** [f"{x:.{d}f}"] of a float: [inf] and [nan] print as they are. *)
Definition format_float (d : nat) (x : pyfloat) : pyfloat :=
  match x with Fin q => Fin (format_fixed d q) | _ => x end.

(** ** Series statistics *)

(** [Series.dropna()]: what the reductions with [skipna=True] see. *)
Definition dropna (xs : list pyfloat) : list pyfloat := filter (fun x => is_nan x = false) xs.

Definition fsum (xs : list pyfloat) : pyfloat := foldl fadd (Fin 0) xs.

(** [Series.sum()] and [Series.count()]. *)
Definition s_sum (xs : list pyfloat) : pyfloat := fsum (dropna xs).
Definition s_count (xs : list pyfloat) : nat := length (dropna xs).

(** [Series.mean()]: [NaN] when nothing is left. *)
Definition s_mean (xs : list pyfloat) : pyfloat :=
  match dropna xs with [] => NaN | ys => fdiv (fsum ys) (of_nat (length ys)) end.

(** [Series.max()] and [Series.min()]. *)
Definition fmax_step (m x : pyfloat) : pyfloat := if flt m x then x else m.
Definition fmin_step (m x : pyfloat) : pyfloat := if flt x m then x else m.

Definition s_max (xs : list pyfloat) : pyfloat :=
  match dropna xs with [] => NaN | y :: ys => foldl fmax_step y ys end.
Definition s_min (xs : list pyfloat) : pyfloat :=
  match dropna xs with [] => NaN | y :: ys => foldl fmin_step y ys end.

(** The order the sort uses: [-inf], the finite values, [inf], and [NaN]
    last (the median sorts values without [NaN]). *)
Definition frank (x : pyfloat) : nat := match x with NInf => 0 | Fin _ => 1 | PInf => 2 | NaN => 3 end.

Definition fkey_le (x y : pyfloat) : Prop :=
  match x, y with Fin a, Fin b => (a <= b)%Q | _, _ => (frank x <= frank y)%nat end.

#[export] Instance Qle_decision (a b : Q) : Decision (a <= b)%Q.
Proof. destruct (Qlt_le_dec b a) as [H|H]; [right; by apply Qlt_not_le|by left]. Defined.

#[export] Instance fkey_le_dec : RelDecision fkey_le.
Proof. intros [a| | |] [b| | |]; cbn; apply _. Defined.

(** [Series.median()]: the middle of the sorted values, or the mean of the
    two middle ones. *)
Definition s_median (xs : list pyfloat) : pyfloat :=
  let ys := merge_sort fkey_le (dropna xs) in
  let n := length ys in
  if bool_decide (n = 0)%nat then NaN
  else if Nat.odd n then default NaN (ys !! (n `div` 2)%nat)
  else fdiv (fadd (default NaN (ys !! (n `div` 2 - 1)%nat)) (default NaN (ys !! (n `div` 2)%nat))) (Fin 2).

(** [np.mean], [np.median], [np.max] and [np.min] of a list: [NaN]
    propagates; [np.mean([])] is [NaN] and [np.max([])] raises
    [ValueError] ([None]). *)
Definition np_mean (xs : list pyfloat) : pyfloat :=
  match xs with [] => NaN | _ => fdiv (fsum xs) (of_nat (length xs)) end.

Definition np_median (xs : list pyfloat) : pyfloat :=
  if existsb is_nan xs then NaN else s_median xs.

Definition np_max (xs : list pyfloat) : option pyfloat :=
  match xs with [] => None | _ => Some (if existsb is_nan xs then NaN else s_max xs) end.
Definition np_min (xs : list pyfloat) : option pyfloat :=
  match xs with [] => None | _ => Some (if existsb is_nan xs then NaN else s_min xs) end.

(** ** Series with their index labels

    A [Series] or a frame column is a list of [(label, value)] pairs.  The
    frames here have integer labels: [read_csv] and [merge] number the rows
    [0 .. n-1], and a boolean filter keeps the labels of the rows it
    keeps.  Arithmetic between two series aligns them by label: when the
    two indexes differ the result is indexed by their sorted union, with
    [NaN] for a label one side lacks.  Assigning a series to a frame
    column ([df[col] = s]) reindexes it on the frame's labels. *)

Definition series := list (nat * pyfloat).

Definition labels (s : series) : list nat := map fst s.
Definition values (s : series) : list pyfloat := map snd s.

(** [pd.Series(xs)] and [pd.DataFrame(rows)[col]]: labels [0 .. n-1]. *)
Definition range_series (xs : list pyfloat) : series := imap pair xs.

(** [s.get(l, NaN)] *)
Definition s_lookup (s : series) (l : nat) : pyfloat :=
  match list_find (fun p => p.1 = l) s with Some (_, (_, v)) => v | None => NaN end.

(** The sorted union of two indexes of distinct labels. *)
Definition label_union (a b : list nat) : list nat := merge_sort Nat.le (remove_dups (a ++ b)).

(** [a <op> b] *)
Definition s_binop (f : pyfloat -> pyfloat -> pyfloat) (a b : series) : series :=
  if bool_decide (labels a = labels b) then zip (labels a) (zip_with f (values a) (values b))
  else map (fun l => (l, f (s_lookup a l) (s_lookup b l))) (label_union (labels a) (labels b)).

(** [op(s)] and [s <op> c] for a scalar [c]. *)
Definition s_map (f : pyfloat -> pyfloat) (s : series) : series := map (fun p => (p.1, f p.2)) s.

(** [df[col] = s]: the value of each row is the value of [s] at its label. *)
Definition reindex (s : series) (ls : list nat) : series := map (fun l => (l, s_lookup s l)) ls.

(** [s.iloc[i]]: by position; [IndexError] past the end ([None]). *)
Definition iloc (s : series) (i : nat) : option pyfloat := snd <$> s !! i.

(** ** Least squares

    [LinearRegression(fit_intercept=True).fit(X, y)] with one feature: the
    slope [Sxy / Sxx] of the centred data and the intercept
    [mean(y) - slope * mean(x)].  When [Sxx = 0] the solver returns the
    least-norm solution, slope 0.  [fit] raises [ValueError] on [NaN] or an
    infinity in its input and on an empty sample. *)

Definition qsum (xs : list Q) : Q := fold_right Qplus 0 xs.
Definition qlen {A} (xs : list A) : Q := inject_Z (Z.of_nat (length xs)).
Definition qmean (xs : list Q) : Q := qsum xs / qlen xs.

Definition ols (xs ys : list Q) : Q * Q :=
  let xm := qmean xs in
  let ym := qmean ys in
  let sxx := qsum (map (fun x => (x - xm) * (x - xm)) xs) in
  let sxy := qsum (zip_with (fun x y => (x - xm) * (y - ym)) xs ys) in
  let slope := if Qeq_bool sxx 0 then 0 else sxy / sxx in
  (slope, ym - slope * xm).

Definition finite_values (xs : list pyfloat) : option (list Q) :=
  mapM (fun x => match x with Fin q => Some q | _ => None end) xs.

(** [model.fit(X, y)]: [(coef_[0], intercept_)]. *)
Definition linear_regression_fit (X y : list pyfloat) : option (Q * Q) :=
  xs ← finite_values X;
  ys ← finite_values y;
  if bool_decide (length xs = 0)%nat then None else Some (ols xs ys).

(** The sum of squared residuals of the line [a + b x]. *)
Definition sse (a b : Q) (xs ys : list Q) : Q :=
  qsum (zip_with (fun x y => (y - (a + b * x)) * (y - (a + b * x))) xs ys).

(** * Properties *)

(** ** Equivalence of floats

    Two floats are equivalent when they are the same class and, if finite,
    equal rationals: [Q] has several representations of a value. *)

Definition fequiv (x y : pyfloat) : Prop :=
  match x, y with
  | Fin a, Fin b => (a == b)%Q
  | PInf, PInf | NInf, NInf | NaN, NaN => True
  | _, _ => False
  end.

#[export] Instance pyfloat_equiv : Equiv pyfloat := fequiv.

#[export] Instance pyfloat_equivalence : Equivalence (≡@{pyfloat}).
Proof.
  split.
  - intros []; cbv [equiv pyfloat_equiv fequiv]; try done; reflexivity.
  - intros [] [] H; unfold equiv, pyfloat_equiv, fequiv in *; try done; by apply Qeq_sym.
  - intros [] [] [] H1 H2; unfold equiv, pyfloat_equiv, fequiv in *; try done.
    all: by apply Qeq_trans with q0.
Qed.

Lemma fin_equiv a b : Fin a ≡ Fin b <-> (a == b)%Q.
Proof. done. Qed.

Ltac fequiv_cases :=
  repeat match goal with
  | x : pyfloat |- _ => destruct x
  end; cbn [fneg fadd fmul fabs fequiv equiv pyfloat_equiv] in *; try done.

Lemma Qcompare_proper a b : (a == b)%Q -> (a ?= 0)%Q = (b ?= 0)%Q.
Proof. intros H. by rewrite H. Qed.

#[export] Instance fneg_proper : Proper ((≡) ==> (≡)) fneg.
Proof. intros x y H. fequiv_cases. by apply Qopp_comp. Qed.

#[export] Instance fadd_proper : Proper ((≡) ==> (≡) ==> (≡)) fadd.
Proof. intros x x' Hx y y' Hy. fequiv_cases. by apply Qplus_comp. Qed.

#[export] Instance fsub_proper : Proper ((≡) ==> (≡) ==> (≡)) fsub.
Proof. intros x x' Hx y y' Hy. unfold fsub. by rewrite Hx, Hy. Qed.

#[export] Instance fmul_proper : Proper ((≡) ==> (≡) ==> (≡)) fmul.
Proof.
  intros x x' Hx y y' Hy. fequiv_cases; cbn [fsgn];
    rewrite ?(Qcompare_proper _ _ Hx), ?(Qcompare_proper _ _ Hy); try reflexivity.
  by apply Qmult_comp.
Qed.

Lemma Qeq_bool_zero_proper a b : (a == b)%Q -> Qeq_bool a 0 = Qeq_bool b 0.
Proof.
  intros H. destruct (Qeq_bool a 0) eqn:Ea, (Qeq_bool b 0) eqn:Eb; try done.
  - apply Qeq_bool_eq in Ea. apply Qeq_bool_neq in Eb. exfalso. apply Eb. by rewrite <- H.
  - apply Qeq_bool_neq in Ea. apply Qeq_bool_eq in Eb. exfalso. apply Ea. by rewrite H.
Qed.

#[export] Instance fdiv_proper : Proper ((≡) ==> (≡) ==> (≡)) fdiv.
Proof.
  intros x x' Hx y y' Hy. fequiv_cases; cbn [fdiv fsgn];
    rewrite ?(Qcompare_proper _ _ Hx), ?(Qcompare_proper _ _ Hy); try reflexivity.
  rewrite (Qeq_bool_zero_proper _ _ Hy). destruct (Qeq_bool _ 0); [reflexivity|].
  apply Qdiv_comp; [exact Hx|exact Hy].
Qed.

Lemma Qle_bool_proper a a' b b' : (a == a')%Q -> (b == b')%Q -> Qle_bool a b = Qle_bool a' b'.
Proof.
  intros Ha Hb. apply eq_bool_prop_intro. rewrite !Is_true_true, !Qle_bool_iff, Ha, Hb. done.
Qed.

#[export] Instance fle_proper : Proper ((≡) ==> (≡) ==> (=)) fle.
Proof. intros x x' Hx y y' Hy. fequiv_cases; cbn [fle]. by apply Qle_bool_proper. Qed.

#[export] Instance flt_proper : Proper ((≡) ==> (≡) ==> (=)) flt.
Proof.
  intros x x' Hx y y' Hy. unfold flt. rewrite (fle_proper y y' Hy x x' Hx).
  fequiv_cases.
Qed.

#[export] Instance fabs_proper : Proper ((≡) ==> (≡)) fabs.
Proof. intros x y H. fequiv_cases. by apply Qabs_wd. Qed.


(** ** Least squares *)

Lemma qlen_cons {A} (x : A) l : qlen (x :: l) == 1 + qlen l.
Proof. unfold qlen. cbn [length]. rewrite Nat2Z.inj_succ, <- Z.add_1_l, inject_Z_plus. reflexivity. Qed.

Lemma qlen_nonzero {A} (l : list A) : l <> [] -> ~ qlen l == 0.
Proof.
  destruct l as [|x l]; [done|]. intros _. rewrite qlen_cons. unfold qlen.
  pose proof (Zle_0_nat (length l)). rewrite Zle_Qle in H. change (inject_Z 0) with 0 in H. lra.
Qed.

(** Each sum below, by induction on the two columns of equal length. *)
Ltac sum_induction :=
  let x := fresh "x" in let xs' := fresh "xs" in let IH := fresh "IH" in
  let y := fresh "y" in let ys' := fresh "ys" in let Hl := fresh "Hl" in
  match goal with |- forall (xs : list Q) (ys : list Q), _ =>
    intros xs; induction xs as [|x xs' IH]; intros [|y ys'] Hl; try discriminate;
    cbn [zip_with map qsum fold_right]; rewrite ?qlen_cons;
    [unfold qlen; cbn; ring|injection Hl as Hl; unfold qsum in IH |- *; rewrite (IH ys' Hl); ring]
  end.

Lemma sse_expand a b a' b' : forall xs ys, length xs = length ys ->
  sse a' b' xs ys ==
  sse a b xs ys
  - 2 * ((a' - a) * qsum (zip_with (fun x y => y - (a + b * x)) xs ys)
         + (b' - b) * qsum (zip_with (fun x y => x * (y - (a + b * x))) xs ys))
  + qsum (map (fun x => ((a' - a) + (b' - b) * x) * ((a' - a) + (b' - b) * x)) xs).
Proof. unfold sse. sum_induction. Qed.

Lemma residual_sum a b : forall xs ys, length xs = length ys ->
  qsum (zip_with (fun x y => y - (a + b * x)) xs ys) == qsum ys - qlen xs * a - b * qsum xs.
Proof. sum_induction. Qed.

Lemma residual_moment a b : forall xs ys, length xs = length ys ->
  qsum (zip_with (fun x y => x * (y - (a + b * x))) xs ys) ==
  qsum (zip_with Qmult xs ys) - a * qsum xs - b * qsum (map (fun x => x * x) xs).
Proof. sum_induction. Qed.

Lemma centred_xy m k : forall xs ys, length xs = length ys ->
  qsum (zip_with (fun x y => (x - m) * (y - k)) xs ys) ==
  qsum (zip_with Qmult xs ys) - m * qsum ys - k * qsum xs + qlen xs * m * k.
Proof. sum_induction. Qed.

Lemma centred_xx m xs :
  qsum (map (fun x => (x - m) * (x - m)) xs) == qsum (map (fun x => x * x) xs) - 2 * m * qsum xs + qlen xs * m * m.
Proof.
  induction xs as [|x xs IH]; cbn [map qsum fold_right]; rewrite ?qlen_cons;
    [unfold qlen; cbn; ring|unfold qsum in IH |- *; rewrite IH; ring].
Qed.

Lemma qsq_nonneg q : 0 <= q * q.
Proof.
  destruct (Qlt_le_dec q 0).
  - assert (E : q * q == (- q) * (- q)) by ring. rewrite E. apply Qmult_le_0_compat; lra.
  - apply Qmult_le_0_compat; lra.
Qed.

Lemma qsum_squares_nonneg (f : Q -> Q) xs : 0 <= qsum (map (fun x => f x * f x) xs).
Proof.
  induction xs as [|x xs IH]; cbn [map qsum fold_right]; [lra|].
  unfold qsum in IH. pose proof (qsq_nonneg (f x)). lra.
Qed.

(** A sum of squares vanishes only when every term does. *)
Lemma qsum_squares_zero m xs :
  qsum (map (fun x => (x - m) * (x - m)) xs) == 0 -> Forall (fun x => x == m) xs.
Proof.
  induction xs as [|x xs IH]; cbn [map qsum fold_right]; intros H; constructor.
  - pose proof (qsq_nonneg (x - m)). pose proof (qsum_squares_nonneg (fun x => x - m) xs) as Hr.
    unfold qsum in Hr. assert (Hx : (x - m) * (x - m) == 0) by lra.
    apply Qmult_integral in Hx as [Hx|Hx]; lra.
  - apply IH. pose proof (qsq_nonneg (x - m)). pose proof (qsum_squares_nonneg (fun x => x - m) xs) as Hr.
    unfold qsum in Hr |- *. lra.
Qed.

Lemma centred_xy_const m k : forall xs ys, Forall (fun x => x == m) xs ->
  qsum (zip_with (fun x y => (x - m) * (y - k)) xs ys) == 0.
Proof.
  intros xs; induction xs as [|x xs IH]; intros [|y ys] Hx; cbn [zip_with qsum fold_right]; try reflexivity.
  apply Forall_cons in Hx as [Hx Hxs]. unfold qsum in IH. rewrite (IH ys Hxs), Hx. ring.
Qed.

(** The fitted line has residuals of sum 0, uncorrelated with [x]. *)
Lemma ols_normal xs ys : length xs = length ys -> xs <> [] ->
  let '(b, a) := ols xs ys in
  qsum (zip_with (fun x y => y - (a + b * x)) xs ys) == 0 /\
  qsum (zip_with (fun x y => x * (y - (a + b * x))) xs ys) == 0.
Proof.
  intros Hl Hne. unfold ols. cbv zeta.
  set (n := qlen xs). assert (Hn : ~ n == 0) by (apply qlen_nonzero; done).
  set (xm := qmean xs). set (ym := qmean ys).
  assert (Ex : qsum xs == n * xm) by (unfold xm, qmean; fold n; field; done).
  assert (Ey : qsum ys == n * ym).
  { unfold ym, qmean. replace (qlen ys) with n by (unfold n, qlen; by rewrite Hl). field; done. }
  rewrite (residual_sum _ _ xs ys Hl), (residual_moment _ _ xs ys Hl). fold n.
  pose proof (centred_xx xm xs) as Exx. pose proof (centred_xy xm ym xs ys Hl) as Exy. fold n in Exx, Exy.
  set (Sxy := qsum (zip_with Qmult xs ys)) in *. set (Sxx := qsum (map (fun x => x * x) xs)) in *.
  set (sxx := qsum (map (fun x => (x - xm) * (x - xm)) xs)) in *.
  set (sxy := qsum (zip_with (fun x y => (x - xm) * (y - ym)) xs ys)) in *.
  rewrite Ex, Ey in *.
  assert (ESxy : Sxy == sxy + n * xm * ym) by (rewrite Exy; ring).
  assert (ESxx : Sxx == sxx + n * xm * xm) by (rewrite Exx; ring).
  rewrite ESxy, ESxx. destruct (Qeq_bool sxx 0) eqn:Hs.
  - apply Qeq_bool_eq in Hs.
    assert (Hsxy : sxy == 0) by (apply centred_xy_const, qsum_squares_zero; exact Hs).
    rewrite Hs, Hsxy. split; ring.
  - apply Qeq_bool_neq in Hs. split; field; exact Hs.
Qed.

(** The least-squares property: no line has a smaller sum of squared
    residuals than the fitted one. *)
Lemma ols_least_squares xs ys a' b' : length xs = length ys -> xs <> [] ->
  let '(b, a) := ols xs ys in sse a b xs ys <= sse a' b' xs ys.
Proof.
  intros Hl Hne. pose proof (ols_normal xs ys Hl Hne) as Hnorm.
  destruct (ols xs ys) as [b a]. destruct Hnorm as [H0 H1].
  rewrite (sse_expand a b a' b' xs ys Hl), H0, H1.
  pose proof (qsum_squares_nonneg (fun x => (a' - a) + (b' - b) * x) xs) as Hd. cbv beta in Hd. lra.
Qed.

Lemma finite_values_length xs qs : finite_values xs = Some qs -> length qs = length xs.
Proof. intros H. apply mapM_Some_1 in H. symmetry. by eapply Forall2_length. Qed.

Lemma finite_values_None xs : finite_values xs = None <-> Exists (fun x => is_finite x = false) xs.
Proof.
  unfold finite_values. rewrite mapM_None.
  split; intros H; (eapply Exists_impl; [exact H|]); intros [] ?; done.
Qed.

(** [LinearRegression().fit] on one feature returns the least-squares
    line: no other line has a smaller sum of squared residuals. *)
Theorem linear_regression_fit_least_squares X y b a :
  length X = length y -> linear_regression_fit X y = Some (b, a) ->
  exists xs ys, finite_values X = Some xs /\ finite_values y = Some ys /\
    forall a' b', sse a b xs ys <= sse a' b' xs ys.
Proof.
  intros Hl. unfold linear_regression_fit.
  destruct (finite_values X) as [xs|] eqn:Hx; [|done].
  destruct (finite_values y) as [ys|] eqn:Hy; [|done]. cbn [mbind option_bind].
  case_bool_decide as Hn; [done|]. pose proof (ols_least_squares xs ys) as Hls.
  destruct (ols xs ys) as [b0 a0]. intros [= <- <-]. exists xs, ys. split_and!; [done|done|].
  intros a' b'. apply Hls.
  - rewrite (finite_values_length _ _ Hx), (finite_values_length _ _ Hy). done.
  - by destruct xs.
Qed.

(** [fit] raises exactly when the sample is empty or holds a [NaN] or
    an infinity. *)
Theorem linear_regression_fit_error X y :
  linear_regression_fit X y = None <->
  Exists (fun x => is_finite x = false) X \/ Exists (fun x => is_finite x = false) y \/
  (X = [] /\ Forall (fun x => is_finite x = true) y).
Proof.
  unfold linear_regression_fit. rewrite <- !finite_values_None.
  destruct (finite_values X) as [xs|] eqn:Hx; cbn [mbind option_bind].
  - destruct (finite_values y) as [ys|] eqn:Hy; cbn [mbind option_bind].
    + case_bool_decide as Hn.
      * split; [|done]. intros _. right; right. split.
        { apply length_zero_iff_nil. by rewrite <- (finite_values_length _ _ Hx). }
        apply mapM_Some_1 in Hy. eapply Forall2_Forall_l; [exact Hy|]. apply Forall_true. intros q [] ?; done.
      * split; [done|]. intros [?|[?|[-> _]]]; [done|done|]. by injection Hx as <-.
    + split; [auto|done].
  - split; [auto|done].
Qed.

(** ** [NaN] absorbs every operation *)

Lemma fadd_nan_l x : fadd NaN x = NaN. Proof. done. Qed.
Lemma fadd_nan_r x : fadd x NaN = NaN. Proof. by destruct x. Qed.
Lemma fmul_nan_l x : fmul NaN x = NaN. Proof. done. Qed.
Lemma fmul_nan_r x : fmul x NaN = NaN. Proof. by destruct x. Qed.
Lemma fdiv_nan_l x : fdiv NaN x = NaN. Proof. done. Qed.
Lemma fdiv_nan_r x : fdiv x NaN = NaN. Proof. by destruct x. Qed.
Lemma fsub_nan_l x : fsub NaN x = NaN. Proof. done. Qed.
Lemma fsub_nan_r x : fsub x NaN = NaN. Proof. by destruct x. Qed.
Lemma fabs_nan : fabs NaN = NaN. Proof. done. Qed.

Create Rewrite HintDb pyfloat.
#[export] Hint Rewrite fadd_nan_l fadd_nan_r fmul_nan_l fmul_nan_r fdiv_nan_l fdiv_nan_r
  fsub_nan_l fsub_nan_r fabs_nan : pyfloat.

Lemma foldl_fadd_nan xs : foldl fadd NaN xs = NaN.
Proof. induction xs as [|x xs IH]; [done|]. exact IH. Qed.

(** ** Sums of finite values *)

Lemma foldl_fadd_fin a qs : foldl fadd (Fin a) (map Fin qs) ≡ Fin (a + qsum qs).
Proof.
  revert a. induction qs as [|q qs IH]; intros a; cbn [map foldl fadd qsum fold_right].
  - apply fin_equiv. ring.
  - rewrite IH. apply fin_equiv. unfold qsum. ring.
Qed.

Lemma fsum_fin qs : fsum (map Fin qs) ≡ Fin (qsum qs).
Proof. unfold fsum. rewrite foldl_fadd_fin. apply fin_equiv. ring. Qed.

Lemma dropna_fin qs : dropna (map Fin qs) = map Fin qs.
Proof. induction qs as [|q qs IH]; [done|]. unfold dropna in *. cbn [map]. rewrite filter_cons_True by done. by rewrite IH. Qed.

Lemma s_sum_fin qs : s_sum (map Fin qs) ≡ Fin (qsum qs).
Proof. unfold s_sum. rewrite dropna_fin. apply fsum_fin. Qed.

(** [Series.median()] of one value is that value. *)
Lemma s_median_single x : is_nan x = false -> s_median [x] = x.
Proof. intros Hx. unfold s_median, dropna. rewrite filter_cons_True by done. done. Qed.

(** ** Label lookups *)

Lemma s_lookup_cons p s l : s_lookup (p :: s) l = if decide (p.1 = l) then p.2 else s_lookup s l.
Proof.
  unfold s_lookup. cbn [list_find]. destruct p as [l' v]. cbn [fst snd].
  case_decide; [done|]. by destruct (list_find _ s) as [[i [l'' v']]|].
Qed.

Lemma s_lookup_shift (k : nat) xs : forall l,
  s_lookup (imap (fun i x => ((k + i)%nat, x)) xs) l =
  if bool_decide (k <= l)%nat then default NaN (xs !! (l - k)%nat) else NaN.
Proof.
  revert k. induction xs as [|x xs IH]; intros k l.
  - cbn. by case_bool_decide; [destruct (l - k)%nat|].
  - rewrite imap_cons, s_lookup_cons. cbn [fst snd].
    rewrite (imap_ext _ (fun i x => ((S k + i)%nat, x))) by (intros; cbn; f_equal; lia).
    rewrite IH. case_decide as Hk.
    + subst l. rewrite bool_decide_true by lia. by rewrite Nat.add_0_r, Nat.sub_diag.
    + do 2 case_bool_decide; try lia; [|done].
      replace (l - k)%nat with (S (l - S k)) by lia. done.
Qed.

(** The value at label [l] of [pd.Series(xs)] is the [l]-th of [xs]. *)
Lemma s_lookup_range xs l : s_lookup (range_series xs) l = default NaN (xs !! l).
Proof.
  change (range_series xs) with (imap (fun i x => ((0 + i)%nat, x)) xs).
  rewrite s_lookup_shift, bool_decide_true by lia. by rewrite Nat.sub_0_r.
Qed.

Lemma qsum_map_mul c l : qsum (map (fun x => x * c) l) == qsum l * c.
Proof. induction l as [|x l IH]; cbn [map qsum fold_right]; [ring|]. unfold qsum in IH. rewrite IH. ring. Qed.

(** A per-unit constant taken as the ratio of two column sums gives back
    the sum of the second column when applied to the first. *)
Lemma ratio_of_sums (a b : list Q) :
  ~ qsum a == 0 ->
  s_sum (map (fun x => fmul x (fdiv (s_sum (map Fin b)) (s_sum (map Fin a)))) (map Fin a)) ≡ s_sum (map Fin b).
Proof.
  intros Ha.
  assert (Hc : fdiv (s_sum (map Fin b)) (s_sum (map Fin a)) ≡ Fin (qsum b / qsum a)).
  { rewrite !s_sum_fin. cbn [fdiv]. destruct (Qeq_bool (qsum a) 0) eqn:E; [|reflexivity].
    apply Qeq_bool_eq in E. contradiction. }
  destruct (fdiv _ _) as [q| | |]; try done. apply fin_equiv in Hc.
  assert (E : map (fun x => fmul x (Fin q)) (map Fin a) = map Fin (map (fun x => x * q) a))
    by (rewrite !map_map; done).
  rewrite E, !s_sum_fin. apply fin_equiv. rewrite qsum_map_mul.
  transitivity (qsum a * (qsum b / qsum a)); [apply Qmult_comp; [reflexivity|exact Hc]|].
  field. exact Ha.
Qed.

Lemma labels_range xs : labels (range_series xs) = seq 0 (length xs).
Proof.
  apply list_eq. intros i. unfold labels, range_series. rewrite list_lookup_fmap, list_lookup_imap.
  destruct (decide (i < length xs)%nat).
  - rewrite lookup_seq_lt by done. by destruct (xs !! i) eqn:E; [|apply lookup_ge_None_1 in E; lia].
  - rewrite lookup_seq_ge, lookup_ge_None_2 by lia. done.
Qed.

Lemma values_range xs : values (range_series xs) = xs.
Proof.
  apply list_eq. intros i. unfold values, range_series. rewrite list_lookup_fmap, list_lookup_imap.
  by destruct (xs !! i).
Qed.

(** Two series with the same index are combined position by position. *)
Lemma s_binop_same f a b :
  labels a = labels b -> s_binop f a b = zip (labels a) (zip_with f (values a) (values b)).
Proof. intros H. unfold s_binop. by rewrite bool_decide_true. Qed.

Lemma labels_zip (ls : list nat) (vs : list pyfloat) : (length ls <= length vs)%nat -> labels (zip ls vs) = ls.
Proof. apply fst_zip. Qed.

Lemma values_zip (ls : list nat) (vs : list pyfloat) : (length vs <= length ls)%nat -> values (zip ls vs) = vs.
Proof. apply snd_zip. Qed.

Lemma labels_s_map f s : labels (s_map f s) = labels s.
Proof. unfold labels, s_map. by rewrite map_map. Qed.

Lemma values_s_map f s : values (s_map f s) = map f (values s).
Proof. unfold values, s_map. by rewrite !map_map. Qed.

Lemma qsum_app l1 l2 : qsum (l1 ++ l2) == qsum l1 + qsum l2.
Proof.
  unfold qsum. rewrite fold_right_app. generalize (fold_right Qplus 0 l2).
  induction l1 as [|t ts IH]; intros s; cbn [fold_right]; [ring|]. rewrite IH. ring.
Qed.

(** ** Rounding

    [round_half_even q] is within one half of [q], and even on a tie. *)
Theorem round_half_even_spec q :
  (inject_Z (round_half_even q) - (1 # 2) <= q <= inject_Z (round_half_even q) + (1 # 2))%Q /\
  ((q - inject_Z (Qfloor q) == 1 # 2)%Q -> Z.even (round_half_even q) = true).
Proof.
  unfold round_half_even. pose proof (Qfloor_le q) as H1. pose proof (Qlt_floor q) as H2.
  rewrite inject_Z_plus in H2. change (inject_Z 1) with 1%Q in H2. set (f := Qfloor q) in *.
  destruct (Qle_bool (q - inject_Z f) (1 # 2)) eqn:E1; simpl.
  - apply Qle_bool_iff in E1.
    destruct (Qeq_bool (q - inject_Z f) (1 # 2)) eqn:E2.
    + apply Qeq_bool_iff in E2. destruct (Z.even f) eqn:Ef.
      * split; [lra|done].
      * rewrite inject_Z_plus. change (inject_Z 1) with 1%Q. split; [lra|]. intros _. rewrite Z.even_add, Ef. done.
    + apply Qeq_bool_neq in E2. split; [lra|done].
  - assert (~ (q - inject_Z f <= 1 # 2)%Q) as E by (intros H%Qle_bool_iff; congruence).
    apply Qnot_le_lt in E. rewrite inject_Z_plus. change (inject_Z 1) with 1%Q. split; [lra|]. intros H. lra.
Qed.

(** The printed decimal is within half a unit of its last digit. *)
Lemma format_fixed_err d q : Qabs (format_fixed d q - q) <= (1 # 2) / inject_Z (10 ^ Z.of_nat d).
Proof.
  assert (Hs : 0 < inject_Z (10 ^ Z.of_nat d)).
  { change 0 with (inject_Z 0). rewrite <- Zlt_Qlt. apply Z.pow_pos_nonneg; lia. }
  set (s := inject_Z (10 ^ Z.of_nat d)) in *. unfold format_fixed. fold s.
  destruct (proj1 (round_half_even_spec (q * s))) as [H1 H2].
  set (r := inject_Z (round_half_even (q * s))) in *.
  assert (E : r / s - q == (r - q * s) / s) by (field; lra).
  rewrite E. apply Qabs_Qle_condition. split.
  - apply Qle_shift_div_l; [done|]. setoid_replace (- ((1 # 2) / s) * s) with (- (1 # 2)) using relation Qeq by (field; lra). lra.
  - apply Qle_shift_div_r; [done|]. setoid_replace ((1 # 2) / s * s) with (1 # 2) using relation Qeq by (field; lra). lra.
Qed.

(** An integer bound on [q] bounds its rounding. *)
Lemma round_half_even_between (a b : Z) q :
  (inject_Z a <= q <= inject_Z b)%Q -> (a <= round_half_even q <= b)%Z.
Proof.
  intros [Ha Hb]. destruct (proj1 (round_half_even_spec q)) as [H1 H2].
  set (r := round_half_even q) in *. split.
  - assert (inject_Z a < inject_Z (r + 1))%Q as H; [|rewrite <- Zlt_Qlt in H; lia].
    rewrite inject_Z_plus. change (inject_Z 1) with 1%Q. lra.
  - assert (inject_Z r < inject_Z (b + 1))%Q as H; [|rewrite <- Zlt_Qlt in H; lia].
    rewrite inject_Z_plus. change (inject_Z 1) with 1%Q. lra.
Qed.

(** A non-negative value rounds to 0 exactly up to one half, the tie
    going to the even 0. *)
Lemma round_half_even_zero q : (0 <= q)%Q -> round_half_even q = 0%Z <-> (q <= 1 # 2)%Q.
Proof.
  intros H0. destruct (round_half_even_spec q) as [[H1 H2] Hev]. split.
  - intros Hr. rewrite Hr in H2. change (inject_Z 0) with 0%Q in H2. lra.
  - intros Hq. destruct (round_half_even_between 0 1 q) as [Ha Hb]; [change (inject_Z 0) with 0%Q; change (inject_Z 1) with 1%Q; lra|].
    destruct (Z.eq_dec (round_half_even q) 0) as [|Hne]; [done|].
    assert (Hr : round_half_even q = 1%Z) by lia. rewrite Hr in H1, Hev. change (inject_Z 1) with 1%Q in H1.
    assert (Hf : Qfloor q = 0%Z).
    { pose proof (Qfloor_le q) as F1. pose proof (Qlt_floor q) as F2.
      rewrite inject_Z_plus in F2. change (inject_Z 1) with 1%Q in F2.
      assert (inject_Z (Qfloor q) < inject_Z 1)%Q as F3 by (change (inject_Z 1) with 1%Q; lra).
      assert (inject_Z (-1) < inject_Z (Qfloor q))%Q as F4 by (change (inject_Z (-1)) with (-1)%Q; lra).
      rewrite <- Zlt_Qlt in F3, F4. lia. }
    rewrite Hf in Hev. change (inject_Z 0) with 0%Q in Hev. discriminate Hev. lra.
Qed.

(** The printed decimal of a value between two integers lies between them. *)
Lemma format_fixed_between d (a b : Z) q :
  (inject_Z a <= q <= inject_Z b)%Q -> (inject_Z a <= format_fixed d q <= inject_Z b)%Q.
Proof.
  intros [Ha Hb]. unfold format_fixed. set (n := (10 ^ Z.of_nat d)%Z).
  assert (Hn : (0 < n)%Z) by (apply Z.pow_pos_nonneg; lia).
  assert (Hs : (0 < inject_Z n)%Q) by (change 0%Q with (inject_Z 0); by rewrite <- Zlt_Qlt).
  destruct (round_half_even_between (a * n) (b * n) (q * inject_Z n)) as [H1 H2].
  { rewrite !inject_Z_mult. split; apply Qmult_le_compat_r; lra. }
  rewrite Zle_Qle in H1, H2. rewrite inject_Z_mult in H1, H2. split.
  - apply Qle_shift_div_l; lra.
  - apply Qle_shift_div_r; lra.
Qed.

(** A non-negative value prints as zero exactly when it is at most half a
    unit of the last digit. *)
Lemma format_fixed_zero d q : (0 <= q)%Q ->
  (format_fixed d q == 0)%Q <-> (q * inject_Z (10 ^ Z.of_nat d) <= 1 # 2)%Q.
Proof.
  intros H0. unfold format_fixed. set (n := (10 ^ Z.of_nat d)%Z).
  assert (Hn : (0 < n)%Z) by (apply Z.pow_pos_nonneg; lia).
  assert (Hs : (0 < inject_Z n)%Q) by (change 0%Q with (inject_Z 0); by rewrite <- Zlt_Qlt).
  rewrite <- round_half_even_zero by (apply Qmult_le_0_compat; lra).
  set (r := round_half_even _). split.
  - intros Hz. assert (E : (inject_Z r == 0)%Q).
    { setoid_replace (inject_Z r) with (inject_Z r / inject_Z n * inject_Z n)%Q using relation Qeq by (field; lra).
      rewrite Hz. ring. }
    unfold Qeq in E. cbn in E. lia.
  - intros ->. reflexivity.
Qed.

(** ** Witnesses *)

Definition sample_x : list pyfloat := [Fin 1; Fin 2; Fin 3].
Definition sample_y : list pyfloat := [Fin 2; Fin 4; Fin 7].

Lemma linear_regression_fit_least_squares_witness :
  length sample_x = length sample_y /\
  linear_regression_fit sample_x sample_y = Some ((ols [1; 2; 3] [2; 4; 7]).1, (ols [1; 2; 3] [2; 4; 7]).2) /\
  exists xs ys, finite_values sample_x = Some xs /\ finite_values sample_y = Some ys /\
    forall a' b', sse (ols [1; 2; 3] [2; 4; 7]).2 (ols [1; 2; 3] [2; 4; 7]).1 xs ys <= sse a' b' xs ys.
Proof.
  split; [reflexivity|]. split; [reflexivity|].
  apply (linear_regression_fit_least_squares sample_x sample_y); reflexivity.
Defined.

Lemma round_half_even_spec_witness :
  ((5 # 2) - inject_Z (Qfloor (5 # 2)) == 1 # 2)%Q /\ Z.even (round_half_even (5 # 2)) = true.
Proof. split; [reflexivity|]. apply (proj2 (round_half_even_spec (5 # 2))). reflexivity. Defined.
