(* ===== verification/Pattern.v ===== *)
(** * The regular expressions of the log parsers

    [re.finditer] and [re.search] with a matcher per pattern.  The matchers
    are greedy, as Python's backtracking engine is on these patterns: the
    character classes met in sequence ([\d], [\s], [[A-Z_]], [:]) are
    pairwise disjoint, so no backtracking can change a match.  Each matcher
    is proved sound and complete against an inductive reading of its
    pattern, and the generic [finditer] is proved to terminate within its
    fuel, to return matches in increasing order of position, and to miss no
    leftmost match. *)

From S2P Require Import Prelude.

(** ** Disjointness of the character classes *)

Lemma digit_in_above zs c : Forall (fun z => c < z) zs -> digit_in zs c = None.
Proof.
  induction 1 as [|z zs Hz _ IH]; simpl; [done|].
  by replace (z <=? c) with false by (symmetry; apply Z.leb_gt; lia).
Qed.

Lemma digit_in_cons z zs c :
  digit_in (z :: zs) c = if (z <=? c) && (c <=? z + 9) then Some (c - z) else digit_in zs c.
Proof. reflexivity. Qed.

Lemma digit_value_gap c : 57 < c < 1632 -> digit_value c = None.
Proof.
  intros Hc. unfold digit_value, nd_zeros. rewrite digit_in_cons.
  replace (c <=? 48 + 9) with false by (symmetry; apply Z.leb_gt; lia).
  rewrite andb_false_r. apply digit_in_above.
  repeat constructor; lia.
Qed.

Lemma name_char_not_digit c : is_name_char c = true -> is_digit c = false.
Proof.
  unfold is_name_char, is_digit. intros H. apply bool_decide_eq_false.
  rewrite digit_value_gap; [by intros []|].
  apply orb_true_iff in H as [H|H]; [apply andb_true_iff in H as [H1 H2]|];
    rewrite ?Z.leb_le, ?Z.eqb_eq in *; lia.
Qed.

Lemma space_not_digit c : is_space c = true -> is_digit c = false.
Proof.
  unfold is_space. intros H%bool_decide_eq_true.
  repeat (apply elem_of_cons in H as [->|H]; [reflexivity|]).
  by apply elem_of_nil in H.
Qed.

Lemma space_not_name_char c : is_space c = true -> is_name_char c = false.
Proof.
  unfold is_space. intros H%bool_decide_eq_true.
  repeat (apply elem_of_cons in H as [->|H]; [reflexivity|]).
  by apply elem_of_nil in H.
Qed.

Lemma digit_not_space c : is_digit c = true -> is_space c = false.
Proof. destruct (is_space c) eqn:E; [|done]. by rewrite space_not_digit. Qed.

Lemma digit_not_name_char c : is_digit c = true -> is_name_char c = false.
Proof. destruct (is_name_char c) eqn:E; [|done]. by rewrite name_char_not_digit. Qed.

Lemma name_char_not_space c : is_name_char c = true -> is_space c = false.
Proof. destruct (is_space c) eqn:E; [|done]. by rewrite space_not_name_char. Qed.

#[export] Hint Resolve name_char_not_digit space_not_digit space_not_name_char
  digit_not_space digit_not_name_char name_char_not_space : bk.

(** ** [re.finditer] over a matcher *)

Section Finditer.
Context {A : Type} (m : text -> option (A * text)).

(** A match consumes at least one character and leaves a suffix. *)
Hypothesis m_consumes : forall s a r, m s = Some (a, r) -> exists c pre, s = c :: pre ++ r.

(** Try a match at [s]; on success continue after it, otherwise one
    character further, as [re.finditer] does for non-empty matches. *)
Fixpoint finditer_fuel (fuel : nat) (pos : nat) (s : text) : list (nat * A) :=
  match fuel with
  | O => []
  | S fuel' =>
      match m s with
      | Some (a, r) => (pos, a) :: finditer_fuel fuel' (pos + (length s - length r)) r
      | None => match s with [] => [] | _ :: s' => finditer_fuel fuel' (S pos) s' end
      end
  end.

Definition finditer (s : text) : list (nat * A) := finditer_fuel (S (length s)) 0 s.

Lemma m_shorter s a r : m s = Some (a, r) -> (length r < length s)%nat.
Proof. intros (c & pre & ->)%m_consumes. simpl. rewrite length_app. lia. Qed.

Lemma m_drop s a r : m s = Some (a, r) -> drop (length s - length r) s = r.
Proof.
  intros (c & pre & ->)%m_consumes. simpl. rewrite length_app.
  replace (S (length pre + length r) - length r)%nat with (S (length pre)) by lia.
  simpl. by rewrite drop_app_length.
Qed.

(** Any two fuels above the length of the text give the same result. *)
Lemma finditer_fuel_irrel fuel1 fuel2 pos s :
  (length s < fuel1)%nat -> (length s < fuel2)%nat ->
  finditer_fuel fuel1 pos s = finditer_fuel fuel2 pos s.
Proof.
  revert fuel2 pos s. induction fuel1 as [|f1 IH]; intros [|f2] pos s H1 H2; try lia. simpl.
  destruct (m s) as [[a r]|] eqn:Hm.
  - pose proof (m_shorter _ _ _ Hm). f_equal. apply IH; lia.
  - destruct s as [|c s']; [done|]. simpl in *. apply IH; lia.
Qed.

(** Termination: [S (length s)] steps are enough, and more fuel changes
    nothing. *)
Lemma finditer_fuel_enough fuel pos s :
  (length s < fuel)%nat -> finditer_fuel fuel pos s = finditer_fuel (S (length s)) pos s.
Proof. intros H. apply finditer_fuel_irrel; lia. Qed.

(** Soundness: every reported match is a match of [m] at its position. *)
Lemma finditer_fuel_sound fuel pos s p a :
  (p, a) ∈ finditer_fuel fuel pos s -> (pos <= p)%nat /\ exists r, m (drop (p - pos) s) = Some (a, r).
Proof.
  revert pos s. induction fuel as [|fuel IH]; intros pos s; simpl; [by intros ?%elem_of_nil|].
  destruct (m s) as [[a' r]|] eqn:Hm.
  - intros [[= -> ->]|Hin]%elem_of_cons.
    + split; [lia|]. rewrite Nat.sub_diag. eauto.
    + destruct (IH _ _ Hin) as [Hle [r' Hr']]. split; [lia|].
      exists r'. rewrite <- Hr'. f_equal. pose proof (m_shorter _ _ _ Hm).
      replace (p - pos)%nat with ((length s - length r) + (p - (pos + (length s - length r))))%nat by lia.
      by rewrite <- drop_drop, (m_drop _ _ _ Hm).
  - destruct s as [|c s']; [by intros ?%elem_of_nil|].
    intros (Hle & r' & Hr')%IH. split; [lia|]. exists r'.
    by replace (p - pos)%nat with (S (p - S pos)) by lia.
Qed.

(** Leftmost: no match starts before the first reported one. *)
Lemma finditer_fuel_leftmost fuel pos s p a rest q :
  finditer_fuel fuel pos s = (p, a) :: rest -> (q < p - pos)%nat -> m (drop q s) = None.
Proof.
  revert pos s q. induction fuel as [|fuel IH]; intros pos s q; simpl; [done|].
  destruct (m s) as [[a' r]|] eqn:Hm.
  - intros [= <- _ _]. lia.
  - destruct s as [|c s']; [done|]. intros Hf Hq. destruct q as [|q]; [done|].
    simpl. apply (IH (S pos) s' q Hf). lia.
Qed.

(** Completeness of an empty result: with enough fuel, [finditer] finds
    nothing only when no position of the text matches. *)
Lemma finditer_fuel_nil fuel pos s q :
  (length s < fuel)%nat -> finditer_fuel fuel pos s = [] -> (q <= length s)%nat -> m (drop q s) = None.
Proof.
  revert pos s q. induction fuel as [|fuel IH]; intros pos s q Hf; simpl; [lia|].
  destruct (m s) as [[a' r]|] eqn:Hm; [done|].
  destruct s as [|c s']; intros Hnil Hq.
  - by replace q with 0%nat by (simpl in Hq; lia).
  - destruct q as [|q]; [done|]. simpl in *. apply (IH (S pos) s' q); auto with lia.
Qed.

(** Positions only grow. *)
Lemma finditer_fuel_ge fuel pos s p a : (p, a) ∈ finditer_fuel fuel pos s -> (pos <= p)%nat.
Proof. by intros [? _]%finditer_fuel_sound. Qed.

Lemma finditer_fuel_sorted fuel pos s :
  StronglySorted (fun x y : nat * A => (x.1 < y.1)%nat) (finditer_fuel fuel pos s).
Proof.
  revert pos s. induction fuel as [|fuel IH]; intros pos s; simpl; [constructor|].
  destruct (m s) as [[a r]|] eqn:Hm.
  - constructor; [apply IH|]. apply Forall_forall. intros [p a'] Hin%finditer_fuel_ge.
    pose proof (m_shorter _ _ _ Hm). simpl. lia.
  - destruct s; [constructor|]. apply IH.
Qed.

(** [re.findall] forgets the positions: they do not change the groups. *)
Lemma finditer_fuel_snd fuel pos pos' s :
  map snd (finditer_fuel fuel pos s) = map snd (finditer_fuel fuel pos' s).
Proof.
  revert pos pos' s. induction fuel as [|fuel IH]; intros pos pos' s; simpl; [done|].
  destruct (m s) as [[a r]|]; simpl; [f_equal; apply IH|].
  destruct s; [done|apply IH].
Qed.

(** A match at the start is the first group; the scan resumes after it. *)
Lemma finditer_snd_match s a r :
  m s = Some (a, r) -> map snd (finditer s) = a :: map snd (finditer r).
Proof.
  intros Hm. unfold finditer at 1. change (finditer_fuel (S (length s)) 0 s) with
    (match m s with
     | Some (a, r) => (0%nat, a) :: finditer_fuel (length s) (0 + (length s - length r)) r
     | None => match s with [] => [] | _ :: s' => finditer_fuel (length s) 1 s' end
     end).
  rewrite Hm. cbn [map snd]. f_equal.
  pose proof (m_shorter _ _ _ Hm). rewrite finditer_fuel_enough by lia.
  apply finditer_fuel_snd.
Qed.

(** No match at the start: the scan moves one character on. *)
Lemma finditer_snd_skip c s :
  m (c :: s) = None -> map snd (finditer (c :: s)) = map snd (finditer s).
Proof.
  intros Hm. unfold finditer at 1. change (finditer_fuel (S (length (c :: s))) 0 (c :: s)) with
    (match m (c :: s) with
     | Some (a, r) => (0%nat, a) :: finditer_fuel (S (length s)) (0 + (length (c :: s) - length r)) r
     | None => finditer_fuel (S (length s)) 1 s
     end).
  rewrite Hm. apply finditer_fuel_snd.
Qed.

Lemma finditer_nil : m [] = None -> finditer [] = [].
Proof. intros Hm. unfold finditer. simpl. by rewrite Hm. Qed.
End Finditer.

Arguments finditer {A} m s.

(** ** The timing line [<tag>:\d+\s+([A-Z_]+):\s+(\d+)] *)

(** The inductive reading of the pattern at the start of a text: the text is
    [tag], digits, spaces, the name, [:], spaces and the value's digits,
    followed by anything. *)
Inductive timing_line (tag : text) : text -> text -> text -> text -> Prop :=
  | TimingLine d1 w1 nm w2 d2 rest :
      d1 <> [] -> Forall (fun c => is_digit c = true) d1 ->
      w1 <> [] -> Forall (fun c => is_space c = true) w1 ->
      nm <> [] -> Forall (fun c => is_name_char c = true) nm ->
      w2 <> [] -> Forall (fun c => is_space c = true) w2 ->
      d2 <> [] -> Forall (fun c => is_digit c = true) d2 ->
      timing_line tag (tag ++ d1 ++ w1 ++ nm ++ [58] ++ w2 ++ d2 ++ rest) nm d2 rest.

(** The matcher: the greedy reading of the pattern.  It returns the name,
    the digits of the value and the rest of the text. *)
Definition match_timing (tag : text) (s : text) : option ((text * text) * text) :=
  match strip_prefix tag s with
  | None => None
  | Some r1 =>
      let '(d1, r2) := span is_digit r1 in
      let '(w1, r3) := span is_space r2 in
      let '(nm, r4) := span is_name_char r3 in
      match r4 with
      | c :: r5 =>
          let '(w2, r6) := span is_space r5 in
          let '(d2, r7) := span is_digit r6 in
          if nonempty d1 && nonempty w1 && nonempty nm && (c =? 58) && nonempty w2 && nonempty d2
          then Some ((nm, d2), r7) else None
      | [] => None
      end
  end.

Lemma nonempty_true (l : text) : nonempty l = true <-> l <> [].
Proof. destruct l; simpl; split; congruence. Qed.

(** Soundness: a match is a reading of the pattern whose value is as long as
    possible (the rest does not start with a digit). *)
Lemma match_timing_sound tag s nm d2 rest :
  match_timing tag s = Some ((nm, d2), rest) ->
  timing_line tag s nm d2 rest /\ (match rest with [] => True | c :: _ => is_digit c = false end).
Proof.
  unfold match_timing. destruct (strip_prefix tag s) as [r1|] eqn:E1; [|done].
  apply strip_prefix_Some in E1 as ->.
  destruct (span is_digit r1) as [d1 r2] eqn:E2. apply span_inv in E2 as (-> & Hd1 & _).
  destruct (span is_space r2) as [w1 r3] eqn:E3. apply span_inv in E3 as (-> & Hw1 & _).
  destruct (span is_name_char r3) as [nm' r4] eqn:E4. apply span_inv in E4 as (-> & Hnm & _).
  destruct r4 as [|c r5]; [done|].
  destruct (span is_space r5) as [w2 r6] eqn:E5. apply span_inv in E5 as (-> & Hw2 & _).
  destruct (span is_digit r6) as [d2' r7] eqn:E6. apply span_inv in E6 as (-> & Hd2 & Hend).
  destruct (nonempty d1) eqn:N1, (nonempty w1) eqn:N2, (nonempty nm') eqn:N3,
    (Z.eqb_spec c 58), (nonempty w2) eqn:N4, (nonempty d2') eqn:N5; try done.
  intros [= <- <- <-]. subst c. rewrite !nonempty_true in *. split; [|done].
  by constructor.
Qed.

(** Completeness: every reading of the pattern is found, with the same name;
    the greedy value extends the reading's digits with those that follow. *)
Lemma match_timing_complete tag s nm d2 rest :
  timing_line tag s nm d2 rest ->
  match_timing tag s = Some ((nm, d2 ++ (span is_digit rest).1), (span is_digit rest).2).
Proof.
  intros [d1 w1 nm' w2 d2' rest' Nd1 Hd1 Nw1 Hw1 Nnm Hnm Nw2 Hw2 Nd2 Hd2].
  unfold match_timing. rewrite strip_prefix_app.
  rewrite (span_stop _ _ d1 w1 _ Hd1 Nw1 Hw1 space_not_digit).
  rewrite (span_stop _ _ w1 nm' _ Hw1 Nnm Hnm name_char_not_space).
  rewrite (span_stop _ (fun c => c =? 58) nm' [58] _ Hnm ltac:(done) ltac:(by repeat constructor)).
  2:{ by intros c ->%Z.eqb_eq. }
  simpl. rewrite (span_stop _ _ w2 d2' _ Hw2 Nd2 Hd2 digit_not_space).
  rewrite span_app_all by done.
  apply nonempty_true in Nd1, Nw1, Nnm, Nw2. rewrite Nd1, Nw1, Nnm, Nw2. simpl.
  destruct d2'; [done|]. done.
Qed.

Lemma match_timing_consumes tag s a r :
  match_timing tag s = Some (a, r) -> exists c pre, s = c :: pre ++ r.
Proof.
  destruct a as [nm d2]. intros [Hl _]%match_timing_sound.
  destruct Hl as [d1 w1 nm' w2 d2' rest' Nd1 _ _ _ _ _ _ _ _ _].
  destruct tag as [|t tag].
  - destruct d1 as [|c d1]; [done|].
    exists c, (d1 ++ w1 ++ nm' ++ [58] ++ w2 ++ d2'). simpl. by rewrite <- !app_assoc; simpl; rewrite <- !app_assoc.
  - exists t, (tag ++ d1 ++ w1 ++ nm' ++ [58] ++ w2 ++ d2'). simpl. by rewrite <- !app_assoc; simpl; rewrite <- !app_assoc.
Qed.

(** The deterministic reading: the name is fixed by the text. *)
Lemma timing_line_name_unique tag s nm1 nm2 d1 d2 r1 r2 :
  timing_line tag s nm1 d1 r1 -> timing_line tag s nm2 d2 r2 -> nm1 = nm2.
Proof.
  intros H1%match_timing_complete H2%match_timing_complete. congruence.
Qed.

(** ** The worker markers of [detect_execution_mode]:
    [<tag>:\d+\s+<NAME>] found anywhere by [re.search] *)

Definition match_marker (tag name : text) (s : text) : bool :=
  match strip_prefix tag s with
  | None => false
  | Some r1 =>
      let '(d, r2) := span is_digit r1 in
      let '(w, r3) := span is_space r2 in
      nonempty d && nonempty w && bool_decide (is_Some (strip_prefix name r3))
  end.

(** [re.search(p, s)]: a match of [p] at some position of [s], the end
    included. *)
Fixpoint re_search (m : text -> bool) (s : text) : bool :=
  m s || match s with [] => false | _ :: s' => re_search m s' end.

Lemma re_search_spec m s : re_search m s = true <-> exists q, (q <= length s)%nat /\ m (drop q s) = true.
Proof.
  induction s as [|c s IH]; simpl.
  - rewrite orb_false_r. split; [intros H; exists 0%nat; split; [lia|exact H]|].
    intros (q & Hq & H). by replace q with 0%nat in H by lia.
  - rewrite orb_true_iff, IH. split.
    + intros [H | (q & Hq & H)]; [exists 0%nat; split; [lia|exact H]|].
      exists (S q). split; [lia|done].
    + intros ([|q] & Hq & H); [by left|]. right. exists q. split; [lia|done].
Qed.

(** The reading of the marker pattern at the start of a text. *)
Definition marker_line (tag name s : text) : Prop :=
  exists d w rest, d <> [] /\ Forall (fun c => is_digit c = true) d /\
    w <> [] /\ Forall (fun c => is_space c = true) w /\ s = tag ++ d ++ w ++ name ++ rest.

Lemma match_marker_spec tag name s :
  (match name with [] => False | c :: _ => is_name_char c = true end) ->
  match_marker tag name s = true <-> marker_line tag name s.
Proof.
  intros Hname. unfold match_marker, marker_line. split.
  - destruct (strip_prefix tag s) as [r1|] eqn:E1; [|done].
    apply strip_prefix_Some in E1 as ->.
    destruct (span is_digit r1) as [d r2] eqn:E2. apply span_inv in E2 as (-> & Hd & _).
    destruct (span is_space r2) as [w r3] eqn:E3. apply span_inv in E3 as (-> & Hw & _).
    rewrite !andb_true_iff, !nonempty_true, bool_decide_eq_true.
    intros [[Nd Nw] [rest Hr%strip_prefix_Some]]. subst r3. by exists d, w, rest.
  - intros (d & w & rest & Nd & Hd & Nw & Hw & ->). rewrite strip_prefix_app.
    rewrite (span_stop _ _ d w _ Hd Nw Hw space_not_digit).
    destruct name as [|c name]; [done|].
    change ((c :: name) ++ rest) with ([c] ++ (name ++ rest)).
    rewrite (span_stop _ is_name_char w [c] _ Hw ltac:(done) ltac:(by repeat constructor)
               name_char_not_space).
    simpl. apply nonempty_true in Nd, Nw. rewrite Nd, Nw. simpl.
    apply bool_decide_eq_true. rewrite Z.eqb_refl, strip_prefix_app. by eexists.
Qed.

