(* ===== verification/Phases.v ===== *)
(** * Phase durations

    The code that turns one run's timestamps into phase durations, in its
    three styles.
    - [Module V2] models [parse_timing_data] of
      [docs/plans/Bookkeeper/speed_tests/parse_console_log.py] (lines
      153-175).  A duration is [None] unless both of its endpoints are in the
      run; [PROCESSING_START] alone defaults to 0.  [Module Json] is the same
      computation written with conditional expressions in
      [improved_parser_json.py] (lines 113-121), proved equal to it.
    - [Module Trial5] models [parse_trial5_data] of
      [docs/speed_tests/trial5_parser.py] (lines 63-72).  Every timestamp
      defaults to 0, and a duration is [None] only when it would be negative.
    - [Module Analysis] models [calculate_phase_durations] of
      [analyze_processing_phases.py] (lines 25-101).  It reads a CSV row
      whose empty cells are NaN, falls back to other endpoints, and coerces
      missing durations to 0.
    A run's timestamps are a [gmap text Z], the [dict] of event name to
    milliseconds that [Timing.v] builds. *)

From S2P Require Import Prelude.

(** The event names of the timing log. *)
Definition PROCESSING_START : text := Eval vm_compute in U"PROCESSING_START".
Definition DEDUPLICATION_START : text := Eval vm_compute in U"DEDUPLICATION_START".
Definition WORKER_SEND : text := Eval vm_compute in U"WORKER_SEND".
Definition SIZE_ANALYSIS_COMPLETE : text := Eval vm_compute in U"SIZE_ANALYSIS_COMPLETE".
Definition HASH_CALCULATION_COMPLETE : text := Eval vm_compute in U"HASH_CALCULATION_COMPLETE".
Definition DEDUP_LOGIC_START : text := Eval vm_compute in U"DEDUP_LOGIC_START".
Definition DEDUP_LOGIC_COMPLETE : text := Eval vm_compute in U"DEDUP_LOGIC_COMPLETE".
Definition WORKER_COMPLETE : text := Eval vm_compute in U"WORKER_COMPLETE".
Definition RESULT_MAPPING_COMPLETE : text := Eval vm_compute in U"RESULT_MAPPING_COMPLETE".
Definition UI_UPDATE_START : text := Eval vm_compute in U"UI_UPDATE_START".
Definition CHUNK1_START : text := Eval vm_compute in U"CHUNK1_START".
Definition CHUNK1_COMPLETE : text := Eval vm_compute in U"CHUNK1_COMPLETE".
Definition CHUNK2_START : text := Eval vm_compute in U"CHUNK2_START".
Definition DOM_RENDER_COMPLETE : text := Eval vm_compute in U"DOM_RENDER_COMPLETE".
Definition CHUNK2_COMPLETE : text := Eval vm_compute in U"CHUNK2_COMPLETE".
Definition ALL_FILES_DISPLAYED : text := Eval vm_compute in U"ALL_FILES_DISPLAYED".

(** [end - start], or [None] when an endpoint is missing. *)
Definition opt_diff (e s : option Z) : option Z :=
  match e, s with Some e', Some s' => Some (e' - s') | _, _ => None end.

Lemma opt_diff_Some e s d : opt_diff e s = Some d <-> exists e' s', e = Some e' /\ s = Some s' /\ d = e' - s'.
Proof.
  split.
  - destruct e as [e'|], s as [s'|]; simpl; intros; simplify_eq; eauto.
  - by intros (e' & s' & -> & -> & ->).
Qed.

#[export] Hint Rewrite opt_diff_Some : bk_rw.

Module V2.
(** The timestamps and the three-stage durations of one row. *)
Record phase_row := PhaseRow {
  processing_start : Z;
  deduplication_start : option Z;
  ui_update_start : option Z;
  all_files_displayed : option Z;
  phase1_duration : option Z;  (** File Analysis *)
  phase2_duration : option Z;  (** Hash Processing *)
  phase3_duration : option Z;  (** UI Rendering *)
  total_duration : option Z
}.

Definition phases (data : gmap text Z) : phase_row :=
  let processing_start := dget data PROCESSING_START 0 in
  let deduplication_start := data !! DEDUPLICATION_START in
  let ui_update_start := data !! UI_UPDATE_START in
  let all_files_displayed := data !! ALL_FILES_DISPLAYED in
  let phase1 := match deduplication_start with
                | Some d => Some (d - processing_start) | None => None end in
  let phase2 := match ui_update_start, deduplication_start with
                | Some u, Some d => Some (u - d) | _, _ => None end in
  let phase3 := match all_files_displayed, ui_update_start with
                | Some a, Some u => Some (a - u) | _, _ => None end in
  let total := match all_files_displayed with
               | Some a => Some (a - processing_start) | None => None end in
  PhaseRow processing_start deduplication_start ui_update_start all_files_displayed
           phase1 phase2 phase3 total.
End V2.

Module Json.
(** [x - y if cond else None], in the order the source writes the four
    conditional expressions. *)
Definition phases (data : gmap text Z) : V2.phase_row :=
  let processing_start := dget data PROCESSING_START 0 in
  let deduplication_start := data !! DEDUPLICATION_START in
  let ui_update_start := data !! UI_UPDATE_START in
  let all_files_displayed := data !! ALL_FILES_DISPLAYED in
  V2.PhaseRow processing_start deduplication_start ui_update_start all_files_displayed
    (opt_diff deduplication_start (Some processing_start))
    (opt_diff ui_update_start deduplication_start)
    (opt_diff all_files_displayed ui_update_start)
    (opt_diff all_files_displayed (Some processing_start)).
End Json.

Module Trial5.
Record phase_row := PhaseRow {
  total_ms : option Z;
  phase1_ms : option Z;
  phase2_ms : option Z;
  phase3_ms : option Z;
  start_ts : Z;
  dedup_ts : Z;
  ui_ts : Z;
  end_ts : Z
}.

(** [b - a if b >= a else None] *)
Definition diff_if_ge (b a : Z) : option Z := if bool_decide (b >= a) then Some (b - a) else None.

Definition phases (data : gmap text Z) : phase_row :=
  let start := dget data PROCESSING_START 0 in
  let dedup_start := dget data DEDUPLICATION_START 0 in
  let ui_start := dget data UI_UPDATE_START 0 in
  let end_ := dget data ALL_FILES_DISPLAYED 0 in
  PhaseRow (diff_if_ge end_ start) (diff_if_ge dedup_start start)
           (diff_if_ge ui_start dedup_start) (diff_if_ge end_ ui_start)
           start dedup_start ui_start end_.

(** The print guard [if total and phase1 and phase2 and phase3]: Python's
    truth value of [None] and of [0] is false. *)
Definition truthy (o : option Z) : bool := match o with Some z => negb (z =? 0) | None => false end.

Definition complete_for_print (r : phase_row) : bool :=
  truthy (total_ms r) && truthy (phase1_ms r) && truthy (phase2_ms r) && truthy (phase3_ms r).
End Trial5.

Module Analysis.
(** The durations of one row of the raw timing CSV. *)
Record durations := Durations {
  test_run : Z;
  total_time : Z;
  deduplication_phase : Z;
  hash_calculation : Z;
  ui_update_phase : Z;
  chunk1_processing : Z;
  chunk2_processing : Z;
  dom_render_time : Z
}.

(** A CSV row as pandas reads it: a column is absent when its cell is
    NaN ([pd.notna] is false). *)
Definition phase_durations (run : Z) (row : gmap text Z) : durations :=
  let col c := row !! c in
  let or_zero o := default 0 o in
  Durations run
    (or_zero (col ALL_FILES_DISPLAYED))
    (or_zero (opt_diff (col DEDUP_LOGIC_COMPLETE) (col DEDUPLICATION_START)))
    (match opt_diff (col HASH_CALCULATION_COMPLETE) (col SIZE_ANALYSIS_COMPLETE) with
     | Some d => d
     | None => or_zero (opt_diff (col HASH_CALCULATION_COMPLETE) (col DEDUPLICATION_START))
     end)
    (or_zero (opt_diff (col ALL_FILES_DISPLAYED) (col UI_UPDATE_START)))
    (or_zero (opt_diff (col CHUNK1_COMPLETE) (col CHUNK1_START)))
    (or_zero (opt_diff (col CHUNK2_COMPLETE) (col CHUNK2_START)))
    (match opt_diff (col DOM_RENDER_COMPLETE) (col CHUNK2_START) with
     | Some d => d
     | None => or_zero (opt_diff (col DOM_RENDER_COMPLETE) (col CHUNK1_COMPLETE))
     end).

(** [for _, row in timing_data.iterrows()]: one record per row, the run
    number read from ['Test Run #']. *)
Definition calculate_phase_durations (rows : list (Z * gmap text Z)) : list durations :=
  map (fun '(run, row) => phase_durations run row) rows.
End Analysis.

(** ** Properties *)

(** A run with all four timestamps, in order, as the log of one complete
    test prints them. *)
Definition example_run : gmap text Z :=
  <[PROCESSING_START := 1000]> (<[DEDUPLICATION_START := 1060]>
  (<[UI_UPDATE_START := 1652]> (<[ALL_FILES_DISPLAYED := 1709]> ∅))).

Lemma lookup_example_run :
  example_run !! PROCESSING_START = Some 1000 /\ example_run !! DEDUPLICATION_START = Some 1060 /\
  example_run !! UI_UPDATE_START = Some 1652 /\ example_run !! ALL_FILES_DISPLAYED = Some 1709.
Proof. vm_compute. auto. Qed.

(** C3: the v2 policy is the spec's: when the run has its
    [PROCESSING_START], each duration is the difference of its two named
    timestamps, and [None] exactly when one of them is missing. *)
Theorem v2_phases_policy (data : gmap text Z) (ps : Z) :
  data !! PROCESSING_START = Some ps ->
  let r := V2.phases data in
  V2.phase1_duration r = opt_diff (data !! DEDUPLICATION_START) (data !! PROCESSING_START) /\
  V2.phase2_duration r = opt_diff (data !! UI_UPDATE_START) (data !! DEDUPLICATION_START) /\
  V2.phase3_duration r = opt_diff (data !! ALL_FILES_DISPLAYED) (data !! UI_UPDATE_START) /\
  V2.total_duration r = opt_diff (data !! ALL_FILES_DISPLAYED) (data !! PROCESSING_START).
Proof.
  intros Hps. unfold V2.phases, dget. rewrite Hps. simpl.
  repeat split; by repeat case_match.
Qed.

Lemma v2_phases_policy_witness :
  example_run !! PROCESSING_START = Some 1000 /\
  V2.phase1_duration (V2.phases example_run) = Some 60.
Proof.
  split; [vm_compute; reflexivity|].
  destruct (v2_phases_policy example_run 1000 ltac:(vm_compute; reflexivity)) as [-> _].
  vm_compute. reflexivity.
Defined.

(** the three phases add up to the total duration whenever the run has
    the four timestamps. *)
Theorem v2_phases_sum (data : gmap text Z) (d u a : Z) :
  data !! DEDUPLICATION_START = Some d -> data !! UI_UPDATE_START = Some u ->
  data !! ALL_FILES_DISPLAYED = Some a ->
  exists p1 p2 p3 t,
    V2.phase1_duration (V2.phases data) = Some p1 /\ V2.phase2_duration (V2.phases data) = Some p2 /\
    V2.phase3_duration (V2.phases data) = Some p3 /\ V2.total_duration (V2.phases data) = Some t /\
    p1 + p2 + p3 = t.
Proof.
  intros Hd Hu Ha. unfold V2.phases. simpl. rewrite Hd, Hu, Ha.
  do 4 eexists. split_and!; try reflexivity. lia.
Qed.

Lemma v2_phases_sum_witness :
  example_run !! DEDUPLICATION_START = Some 1060 /\ example_run !! UI_UPDATE_START = Some 1652 /\
  example_run !! ALL_FILES_DISPLAYED = Some 1709 /\
  exists p1 p2 p3 t,
    V2.phase1_duration (V2.phases example_run) = Some p1 /\ V2.phase2_duration (V2.phases example_run) = Some p2 /\
    V2.phase3_duration (V2.phases example_run) = Some p3 /\ V2.total_duration (V2.phases example_run) = Some t /\
    p1 + p2 + p3 = t.
Proof.
  split_and!; [vm_compute; reflexivity..|].
  apply (v2_phases_sum example_run 1060 1652 1709); vm_compute; reflexivity.
Defined.

(** The conditional expressions of the JSON parser compute the V2 row. *)
Lemma json_phases_same (data : gmap text Z) : Json.phases data = V2.phases data.
Proof. unfold Json.phases, V2.phases. by repeat case_match. Qed.

(** C17: trial 5 reports a raw timestamp as the hash-processing duration when
    [DEDUPLICATION_START] is missing: the missing start defaults to 0. *)
Theorem trial5_missing_dedup_raw_timestamp (data : gmap text Z) (u : Z) :
  data !! DEDUPLICATION_START = None -> data !! UI_UPDATE_START = Some u -> 0 <= u ->
  Trial5.phase2_ms (Trial5.phases data) = Some u /\ V2.phase2_duration (V2.phases data) = None.
Proof.
  intros Hd Hu Hpos. unfold Trial5.phases, V2.phases, Trial5.diff_if_ge, dget. simpl.
  rewrite Hd, Hu. simpl. rewrite bool_decide_true by lia. split; [f_equal; lia|done].
Qed.

Definition run_without_dedup : gmap text Z :=
  <[PROCESSING_START := 1000]> (<[UI_UPDATE_START := 1652]> (<[ALL_FILES_DISPLAYED := 1709]> ∅)).

Lemma trial5_missing_dedup_raw_timestamp_witness :
  run_without_dedup !! DEDUPLICATION_START = None /\ run_without_dedup !! UI_UPDATE_START = Some 1652 /\
  Trial5.phase2_ms (Trial5.phases run_without_dedup) = Some 1652.
Proof.
  split_and!; [vm_compute; reflexivity..|].
  apply (trial5_missing_dedup_raw_timestamp run_without_dedup 1652); [vm_compute; reflexivity..|lia].
Defined.

(** On a complete run whose timestamps are in order, trial 5 and v2
    agree on every duration. *)
Theorem trial5_agrees_with_v2 (data : gmap text Z) (p d u a : Z) :
  data !! PROCESSING_START = Some p -> data !! DEDUPLICATION_START = Some d ->
  data !! UI_UPDATE_START = Some u -> data !! ALL_FILES_DISPLAYED = Some a ->
  p <= d <= u -> u <= a ->
  let r5 := Trial5.phases data in let r2 := V2.phases data in
  Trial5.phase1_ms r5 = V2.phase1_duration r2 /\ Trial5.phase2_ms r5 = V2.phase2_duration r2 /\
  Trial5.phase3_ms r5 = V2.phase3_duration r2 /\ Trial5.total_ms r5 = V2.total_duration r2.
Proof.
  intros Hp Hd Hu Ha H1 H2. unfold Trial5.phases, V2.phases, Trial5.diff_if_ge, dget. simpl.
  rewrite Hp, Hd, Hu, Ha. simpl. rewrite !bool_decide_true by lia. done.
Qed.

Lemma trial5_agrees_with_v2_witness :
  Trial5.phase2_ms (Trial5.phases example_run) = Some 592.
Proof.
  destruct (trial5_agrees_with_v2 example_run 1000 1060 1652 1709) as (_ & -> & _);
    [vm_compute; reflexivity..|lia|lia|].
  vm_compute. reflexivity.
Defined.

(** [calculate_phase_durations] coerces a missing endpoint to a zero
    duration, the same value as a genuine zero-length phase, against the
    spec's rule that a missing duration is never zero when derived. *)
Theorem analysis_missing_is_zero (run : Z) (row : gmap text Z) :
  row !! DEDUPLICATION_START = None ->
  Analysis.deduplication_phase (Analysis.phase_durations run row) = 0 /\
  Analysis.deduplication_phase
    (Analysis.phase_durations run (<[DEDUPLICATION_START := 7]> (<[DEDUP_LOGIC_COMPLETE := 7]> row))) = 0.
Proof.
  intros H. unfold Analysis.phase_durations. simpl. split.
  - rewrite H. by destruct (row !! DEDUP_LOGIC_COMPLETE).
  - rewrite lookup_insert_eq, lookup_insert_ne by (vm_compute; congruence).
    rewrite lookup_insert_eq. simpl. lia.
Qed.

Lemma analysis_missing_is_zero_witness :
  Analysis.deduplication_phase (Analysis.phase_durations 1 ∅) = 0 /\
  Analysis.deduplication_phase
    (Analysis.phase_durations 1 (<[DEDUPLICATION_START := 7]> (<[DEDUP_LOGIC_COMPLETE := 7]> ∅))) = 0.
Proof. apply analysis_missing_is_zero. reflexivity. Defined.
