(* ===== verification/Timing.v ===== *)
(** * Timing events and their grouping into test runs

    [parse_timing_data] in its three versions, with the
    [detect_execution_mode] heuristic of v2.
    - V2 ([docs/plans/Bookkeeper/speed_tests/parse_console_log.py], lines
      86-194): the matches of [processingTimer.js] and [fileHashWorker.js]
      are merged by [sort] on [match.start()].  They are grouped from
      [current_test_run = 0], and an event is stored only after a first
      [PROCESSING_START].  The state is [run_state]; [group_step] is one
      iteration of the loop.
    - V1 ([docs/speed_tests/parse_console_log.py], lines 91-125): only
      [processingTimer.js] lines, [re.findall], the counter starts at 1
      and every event is stored.
    - Trial 5 ([docs/speed_tests/trial5_parser.py], lines 41-53): as V1
      but from 0 and with the guard of V2.
    The abstract specification is [split_runs].  It drops the events before
    the first marker and cuts the rest into segments, each starting at a
    marker.  A run maps each name to the value of its last event
    ([run_map]).  [group_runs_refines] proves that the V2 loop computes it. *)

From S2P Require Import Prelude Pattern Phases.

(** ** Events *)

Inductive source := Main | Worker.

(** [(match.start(), event_type, int(timing), source)] *)
Record event := Event { ev_pos : nat; ev_name : text; ev_value : Z; ev_source : source }.

#[export] Instance source_eq_dec : EqDecision source.
Proof. solve_decision. Defined.

#[export] Instance event_eq_dec : EqDecision event.
Proof.
  intros [p1 n1 v1 s1] [p2 n2 v2 s2].
  destruct (decide (p1 = p2 /\ n1 = n2 /\ v1 = v2 /\ s1 = s2)) as [(-> & -> & -> & ->)|H];
    [left; done|right; intros [= ? ? ? ?]; auto].
Defined.

Definition main_tag : text := Eval vm_compute in U"processingTimer.js:".
Definition worker_tag : text := Eval vm_compute in U"fileHashWorker.js:".

(** [for match in re.finditer(pattern, content)]: one event per match. *)
Definition find_events (tag : text) (src : source) (content : text) : list event :=
  map (fun '(p, (nm, ds)) => Event p nm (py_int ds) src) (finditer (match_timing tag) content).

(** [re.findall(pattern, content)]: the two groups of each match. *)
Definition findall_timing (tag content : text) : list (text * text) :=
  map snd (finditer (match_timing tag) content).

Definition event_le (x y : event) : Prop := (ev_pos x <= ev_pos y)%nat.
#[export] Instance event_le_dec : RelDecision event_le := fun x y => decide (ev_pos x <= ev_pos y)%nat.

(** [all_matches.sort(key=lambda x: x[0])] over the main matches followed
    by the worker matches. *)
Definition all_matches (content : text) : list event :=
  merge_sort event_le (find_events main_tag Main content ++ find_events worker_tag Worker content).

Definition is_marker (e : event) : bool := bool_decide (ev_name e = PROCESSING_START).

(** ** V2: the grouping loop *)

Record run_state := RunState {
  current_test_run : nat;
  test_run_data : gmap nat (gmap text Z);
  test_run_positions : gmap nat nat
}.

Definition run_state0 : run_state := RunState 0 ∅ ∅.

(** One iteration: a [PROCESSING_START] opens run [current_test_run + 1]
    and records its position; then, once a run is open, the event is
    written into it ([defaultdict(dict)]: a missing run starts empty). *)
Definition group_step (st : run_state) (e : event) : run_state :=
  let st := if is_marker e
            then RunState (S (current_test_run st)) (test_run_data st)
                   (<[S (current_test_run st) := ev_pos e]> (test_run_positions st))
            else st in
  if bool_decide (0 < current_test_run st)%nat
  then RunState (current_test_run st)
         (<[current_test_run st := <[ev_name e := ev_value e]>
              (dget (test_run_data st) (current_test_run st) ∅)]> (test_run_data st))
         (test_run_positions st)
  else st.

Definition group_runs (evs : list event) : run_state := foldl group_step run_state0 evs.

(** [detect_execution_mode]: a worker line or the fallback message in the
    5000 code points from the run's start. *)
Definition worker_fallback_msg : text :=
  Eval vm_compute in U"Web Worker restart failed, falling back to main thread processing".

Definition detect_execution_mode (content : text) (test_run_start_pos : nat) : bool :=
  let search_window := slice content test_run_start_pos (test_run_start_pos + 5000) in
  re_search (match_marker worker_tag SIZE_ANALYSIS_COMPLETE) search_window
  || re_search (match_marker worker_tag HASH_CALCULATION_COMPLETE) search_window
  || contains worker_fallback_msg search_window.

Record timing_row := TimingRow { row_test_run : nat; row_is_worker_mode : bool; row_phases : V2.phase_row }.

Definition timing_row_of (content : text) (st : run_state) (test_run : nat) : timing_row :=
  let data := dget (test_run_data st) test_run ∅ in
  let start_pos := dget (test_run_positions st) test_run 0%nat in
  TimingRow test_run (detect_execution_mode content start_pos) (V2.phases data).

(** [for test_run in sorted(test_run_data.keys())] *)
Definition sorted_keys {V} (m : gmap nat V) : list nat := merge_sort Nat.le (elements (dom m)).

Definition parse_timing_data (content : text) : list timing_row :=
  let st := group_runs (all_matches content) in
  map (timing_row_of content st) (sorted_keys (test_run_data st)).

(** ** The JSON-log parser ([improved_parser_json.py], lines 67-138)

    The same events and grouping as V2; the window is 3000 code points and
    any [fileHashWorker.js] text or the fallback message marks a worker
    run; the phases are the conditional expressions of [Json.phases]. *)

Definition worker_restart_failed : text := Eval vm_compute in U"Web Worker restart failed".
Definition worker_file : text := Eval vm_compute in U"fileHashWorker.js".

Definition detect_execution_mode_json (content : text) (start_pos : nat) : bool :=
  let search_window := slice content start_pos (start_pos + 3000) in
  contains worker_restart_failed search_window || contains worker_file search_window.

Definition timing_row_of_json (content : text) (st : run_state) (test_run : nat) : timing_row :=
  let data := dget (test_run_data st) test_run ∅ in
  let start_pos := dget (test_run_positions st) test_run 0%nat in
  TimingRow test_run (detect_execution_mode_json content start_pos) (Json.phases data).

Definition parse_timing_data_json (content : text) : list timing_row :=
  let st := group_runs (all_matches content) in
  map (timing_row_of_json content st) (sorted_keys (test_run_data st)).

(** ** V1 *)

Definition group_step_v1 (st : nat * gmap nat (gmap text Z)) (m : text * text) :=
  let '(cur, data) := st in
  let '(event_type, timing) := m in
  let cur := if bool_decide (event_type = PROCESSING_START) then S cur else cur in
  (cur, <[cur := <[event_type := py_int timing]> (dget data cur ∅)]> data).

Definition group_runs_v1 (ms : list (text * text)) := foldl group_step_v1 (1%nat, ∅) ms.

Definition expected_columns_v1 : list text :=
  [PROCESSING_START; DEDUPLICATION_START; WORKER_SEND; SIZE_ANALYSIS_COMPLETE;
   HASH_CALCULATION_COMPLETE; DEDUP_LOGIC_START; DEDUP_LOGIC_COMPLETE; WORKER_COMPLETE;
   RESULT_MAPPING_COMPLETE; UI_UPDATE_START; CHUNK1_START; CHUNK1_COMPLETE;
   CHUNK2_START; DOM_RENDER_COMPLETE; CHUNK2_COMPLETE; ALL_FILES_DISPLAYED].

(** A row: the run number and one cell per expected column, [None] for the
    [''] of [data.get(column, '')]. *)
Definition parse_timing_data_v1 (content : text) : list (nat * list (option Z)) :=
  let data := (group_runs_v1 (findall_timing main_tag content)).2 in
  map (fun k => (k, map (fun c => dget data k ∅ !! c) expected_columns_v1)) (sorted_keys data).

(** ** Trial 5 *)

Definition group_step_t5 (st : nat * gmap nat (gmap text Z)) (m : text * text) :=
  let '(cur, data) := st in
  let '(event, time_str) := m in
  let cur := if bool_decide (event = PROCESSING_START) then S cur else cur in
  if bool_decide (0 < cur)%nat then (cur, <[cur := <[event := py_int time_str]> (dget data cur ∅)]> data)
  else (cur, data).

Definition group_runs_t5 (ms : list (text * text)) := foldl group_step_t5 (0%nat, ∅) ms.

Definition parse_trial5_timing (content : text) : list (nat * Trial5.phase_row) :=
  let data := (group_runs_t5 (findall_timing main_tag content)).2 in
  map (fun k => (k, Trial5.phases (dget data k ∅))) (sorted_keys data).

(** ** The abstract specification of the grouping *)

(** The prelude (events before the first marker) and the runs, each a
    segment that starts with its marker. *)
Fixpoint split_runs (evs : list event) : list event * list (list event) :=
  match evs with
  | [] => ([], [])
  | e :: es =>
      let '(pre, runs) := split_runs es in
      if is_marker e then ([], (e :: pre) :: runs) else (e :: pre, runs)
  end.

(** A run's timestamps: each name to the value of its last event. *)
Definition run_map (seg : list event) : gmap text Z :=
  foldl (fun m e => <[ev_name e := ev_value e]> m) ∅ seg.

(** ** A concrete log *)

(** Two runs of a console dump: a stray line before the first start, then
    per run its start, a worker line and the end of the display. *)
Definition sample_log : text :=
  U"processingTimer.js:12 WORKER_SEND: 5" ++ [10] ++
  U"processingTimer.js:40 PROCESSING_START: 100" ++ [10] ++
  U"fileHashWorker.js:7 SIZE_ANALYSIS_COMPLETE: 180" ++ [10] ++
  U"processingTimer.js:41 DEDUPLICATION_START: 160" ++ [10] ++
  U"processingTimer.js:88 ALL_FILES_DISPLAYED: 400" ++ [10] ++
  U"processingTimer.js:40 PROCESSING_START: 1000" ++ [10] ++
  U"processingTimer.js:88 ALL_FILES_DISPLAYED: 1250" ++ [10].

(** ** The refinement: the V2 loop computes [split_runs] *)

(** Appending an event to the specification. *)
Fixpoint add_to_last (runs : list (list event)) (e : event) : list (list event) :=
  match runs with
  | [] => []
  | [r] => [r ++ [e]]
  | r :: rs => r :: add_to_last rs e
  end.

Definition snoc_run (pr : list event * list (list event)) (e : event) :=
  let '(pre, runs) := pr in
  if is_marker e then (pre, runs ++ [[e]])
  else match runs with [] => (pre ++ [e], []) | _ :: _ => (pre, add_to_last runs e) end.

Lemma add_to_last_snoc init r e : add_to_last (init ++ [r]) e = init ++ [r ++ [e]].
Proof.
  induction init as [|x init IH]; [done|]. simpl. rewrite IH.
  by destruct init.
Qed.

Lemma add_to_last_cons r rs e : rs <> [] -> add_to_last (r :: rs) e = r :: add_to_last rs e.
Proof. by destruct rs. Qed.

Lemma split_runs_snoc l e : split_runs (l ++ [e]) = snoc_run (split_runs l) e.
Proof.
  induction l as [|x l IH]; simpl.
  - by destruct (is_marker e).
  - rewrite IH. destruct (split_runs l) as [pre runs]. unfold snoc_run. simpl.
    by destruct (is_marker e), (is_marker x), runs.
Qed.

(** Each run starts with its marker. *)
Lemma split_runs_heads evs seg :
  seg ∈ (split_runs evs).2 -> exists e rest, seg = e :: rest /\ is_marker e = true.
Proof.
  induction evs as [|x evs IH]; simpl; [by intros ?%elem_of_nil|].
  destruct (split_runs evs) as [pre runs]. simpl in *.
  destruct (is_marker x) eqn:Hx; simpl; [|done].
  intros [->|Hin]%elem_of_cons; [by eauto|]. by apply IH.
Qed.

Lemma run_map_snoc seg e : run_map (seg ++ [e]) = <[ev_name e := ev_value e]> (run_map seg).
Proof. unfold run_map. by rewrite foldl_app. Qed.

(** The invariant of the loop after the events [l]. *)
Definition runs_inv (l : list event) (st : run_state) : Prop :=
  let runs := (split_runs l).2 in
  current_test_run st = length runs /\
  (forall k, test_run_data st !! k = match k with O => None | S j => run_map <$> runs !! j end) /\
  (forall k, test_run_positions st !! k = match k with O => None | S j => ev_pos <$> (runs !! j ≫= head) end).

Lemma runs_inv_nil : runs_inv [] run_state0.
Proof. split; [done|]. split; intros [|k]; done. Qed.

Lemma runs_inv_marker l st e :
  runs_inv l st -> is_marker e = true -> runs_inv (l ++ [e]) (group_step st e).
Proof.
  intros (Hc & Hd & Hp) He. unfold runs_inv in *.
  rewrite split_runs_snoc. destruct (split_runs l) as [pre runs] eqn:Hs. simpl in *.
  unfold snoc_run, group_step. rewrite He. simpl. try rewrite bool_decide_true by lia. simpl.
  rewrite length_app. simpl. split; [lia|]. split; intros [|k].
  - rewrite lookup_insert_ne by lia. apply Hd.
  - rewrite lookup_insert, lookup_snoc_cases, Hc.
    repeat case_decide; try lia.
    + unfold dget. rewrite Hd, (proj2 (lookup_ge_None runs _)) by lia. reflexivity.
    + apply Hd.
  - rewrite lookup_insert_ne by lia. apply Hp.
  - rewrite lookup_insert, lookup_snoc_cases, Hc.
    repeat case_decide; try lia.
    + reflexivity.
    + apply Hp.
Qed.

Lemma snoc_run_other_nil pre e : is_marker e = false -> snoc_run (pre, []) e = (pre ++ [e], []).
Proof. intros He. unfold snoc_run. by rewrite He. Qed.

Lemma snoc_run_other pre init r e :
  is_marker e = false -> snoc_run (pre, init ++ [r]) e = (pre, init ++ [r ++ [e]]).
Proof.
  intros He. unfold snoc_run. rewrite He, add_to_last_snoc. by destruct init.
Qed.

Lemma runs_inv_other l st e :
  runs_inv l st -> is_marker e = false -> runs_inv (l ++ [e]) (group_step st e).
Proof.
  intros (Hc & Hd & Hp) He. unfold runs_inv in *.
  pose proof (split_runs_heads l) as Hheads.
  rewrite split_runs_snoc. destruct (split_runs l) as [pre runs]. cbn [fst snd] in *.
  destruct runs as [|r0 rs0] eqn:Er.
  - rewrite snoc_run_other_nil by done. unfold group_step. rewrite He, Hc. simpl. auto.
  - destruct (exists_last (l:=r0 :: rs0)) as (init & r & Hir); [done|].
    rewrite Hir in *. clear Er.
    rewrite snoc_run_other by done. unfold group_step. rewrite He. cbn [fst snd].
    rewrite length_app in Hc. simpl in Hc.
    replace (length init + 1)%nat with (S (length init)) in Hc by lia. rewrite Hc.
    destruct (Hheads r) as (m & rest & Hr & _).
    { apply elem_of_app. right. by apply list_elem_of_singleton. }
    simpl. rewrite length_app. simpl. split; [lia|]. split; intros [|k].
    + rewrite lookup_insert_ne by lia. apply Hd.
    + rewrite lookup_insert, lookup_snoc_cases. repeat case_decide; try lia.
      * subst k. unfold dget. rewrite Hd, lookup_snoc_cases, decide_True by lia.
        simpl. by rewrite run_map_snoc.
      * rewrite Hd, lookup_snoc_cases, decide_False by lia. done.
    + apply Hp.
    + rewrite Hp, !lookup_snoc_cases. case_decide; [|done]. by rewrite Hr.
Qed.

Lemma group_runs_inv evs : runs_inv evs (group_runs evs).
Proof.
  induction evs as [|e l IH] using rev_ind; [apply runs_inv_nil|].
  unfold group_runs. rewrite foldl_app. simpl.
  destruct (is_marker e) eqn:He; [by apply runs_inv_marker | by apply runs_inv_other].
Qed.

(** The segments partition the events: nothing is lost, duplicated or
    reordered. *)
Lemma split_runs_concat evs : (split_runs evs).1 ++ concat (split_runs evs).2 = evs.
Proof.
  induction evs as [|e evs IH]; [done|]. simpl.
  destruct (split_runs evs) as [pre runs]. simpl in *.
  destruct (is_marker e); simpl; by rewrite IH.
Qed.

Lemma split_runs_count evs : length (split_runs evs).2 = length (filter (fun e => is_marker e = true) evs).
Proof.
  induction evs as [|e evs IH]; [done|]. simpl. rewrite filter_cons.
  destruct (split_runs evs) as [pre runs]. simpl in *.
  destruct (is_marker e); simpl; by rewrite IH.
Qed.

(** The prelude holds no marker. *)
Lemma split_runs_prelude evs : Forall (fun e => is_marker e = false) (split_runs evs).1.
Proof.
  induction evs as [|e evs IH]; simpl; [constructor|].
  destruct (split_runs evs) as [pre runs]. simpl in *.
  destruct (is_marker e) eqn:He; [constructor|by constructor].
Qed.

Lemma filter_snoc_cases {A} (P : A -> Prop) `{!forall x, Decision (P x)} l x :
  filter P (l ++ [x]) = if decide (P x) then filter P l ++ [x] else filter P l.
Proof. rewrite filter_app, filter_cons, filter_nil. by case_decide; [|rewrite app_nil_r]. Qed.

Lemma group_runs_split evs :
  let st := group_runs evs in
  let runs := (split_runs evs).2 in
  current_test_run st = length runs /\
  test_run_data st !! 0%nat = None /\ test_run_positions st !! 0%nat = None /\
  (forall j, test_run_data st !! S j = run_map <$> runs !! j) /\
  (forall j, test_run_positions st !! S j = ev_pos <$> (runs !! j ≫= head)).
Proof.
  destruct (group_runs_inv evs) as (Hc & Hd & Hp).
  split_and!; [done|apply (Hd 0%nat)|apply (Hp 0%nat)|intros j; apply (Hd (S j))|intros j; apply (Hp (S j))].
Qed.

(** C1: refinement.  After the loop of [parse_timing_data], the counter is
    the number of runs of [split_runs], run [k + 1] holds the timestamps of
    the [k]-th segment, and its position is the position of the segment's
    marker; there is no run 0. *)
Theorem group_runs_refines evs :
  let st := group_runs evs in
  let runs := (split_runs evs).2 in
  current_test_run st = length runs /\
  test_run_data st !! 0%nat = None /\ test_run_positions st !! 0%nat = None /\
  (forall j, test_run_data st !! S j = run_map <$> runs !! j) /\
  (forall j, test_run_positions st !! S j = ev_pos <$> (runs !! j ≫= head)).
Proof. apply group_runs_split. Qed.

Lemma run_map_last seg n :
  run_map seg !! n = ev_value <$> last (filter (fun e => ev_name e = n) seg).
Proof.
  induction seg as [|e seg IH] using rev_ind; [done|].
  rewrite run_map_snoc, filter_snoc_cases, lookup_insert.
  case_decide; [by rewrite last_snoc|done].
Qed.

(** Last-write-wins.  A run maps a name to the value of the last event of
    that name in its segment, and to nothing when the segment has none. *)
Theorem run_map_last_write seg n :
  run_map seg !! n = ev_value <$> last (filter (fun e => ev_name e = n) seg).
Proof. apply run_map_last. Qed.

Lemma run_count_spec evs k :
  current_test_run (group_runs evs) = length (filter (fun e => is_marker e = true) evs) /\
  (is_Some (test_run_data (group_runs evs) !! k) <->
     (1 <= k <= length (filter (fun e => is_marker e = true) evs))%nat).
Proof.
  destruct (group_runs_split evs) as (Hc & H0 & _ & Hd & _).
  rewrite <- split_runs_count. split; [done|].
  destruct k as [|j]; [rewrite H0; split; [by intros []|lia]|].
  rewrite Hd, fmap_is_Some, lookup_lt_is_Some. lia.
Qed.

(** the number of runs is the number of [PROCESSING_START] events, and
    the runs are numbered 1 to that number. *)
Theorem group_runs_run_count evs k :
  current_test_run (group_runs evs) = length (filter (fun e => is_marker e = true) evs) /\
  (is_Some (test_run_data (group_runs evs) !! k) <->
     (1 <= k <= length (filter (fun e => is_marker e = true) evs))%nat).
Proof. apply run_count_spec. Qed.

(** events before the first [PROCESSING_START] are discarded. *)
Theorem group_runs_prelude_discarded pre evs :
  Forall (fun e => is_marker e = false) pre -> group_runs (pre ++ evs) = group_runs evs.
Proof.
  intros Hpre. unfold group_runs. rewrite foldl_app. f_equal.
  induction Hpre as [|e pre He _ IH] using Forall_ind; [done|]. simpl.
  unfold group_step at 2. rewrite He. simpl. exact IH.
Qed.

Definition stray_event : event := Event 0 WORKER_SEND 5 Main.

Lemma group_runs_prelude_discarded_witness :
  group_runs ([stray_event] ++ all_matches sample_log) = group_runs (all_matches sample_log).
Proof. apply group_runs_prelude_discarded. repeat constructor. Defined.

Lemma run_has_start evs k m :
  test_run_data (group_runs evs) !! k = Some m ->
  (exists ps, m !! PROCESSING_START = Some ps) /\ is_Some (test_run_positions (group_runs evs) !! k).
Proof.
  destruct (group_runs_split evs) as (_ & H0 & _ & Hd & Hp).
  destruct k as [|j]; [by rewrite H0|]. rewrite Hd, Hp.
  intros (seg & Hseg & ->)%fmap_Some.
  destruct (split_runs_heads evs seg) as (e & rest & -> & He).
  { by eapply list_elem_of_lookup_2. }
  rewrite Hseg. simpl. split; [|by eexists].
  rewrite run_map_last. unfold is_marker in He. apply bool_decide_eq_true in He.
  destruct (last (filter (fun e0 => ev_name e0 = PROCESSING_START) (e :: rest))) as [e'|] eqn:El.
  - by exists (ev_value e').
  - exfalso. apply last_None in El. rewrite filter_cons_True in El by done. done.
Qed.

(** Every run records its own [PROCESSING_START] and its position, so
    the defaults [data.get('PROCESSING_START', 0)] and
    [test_run_positions.get(test_run, 0)] of the row never apply. *)
Theorem group_runs_run_has_start evs k m :
  test_run_data (group_runs evs) !! k = Some m ->
  (exists ps, m !! PROCESSING_START = Some ps) /\ is_Some (test_run_positions (group_runs evs) !! k).
Proof. apply run_has_start. Qed.

Lemma sample_run1_exists : is_Some (test_run_data (group_runs (all_matches sample_log)) !! 1%nat).
Proof. apply (bool_decide_eq_true_1 (is_Some _)). vm_compute. reflexivity. Qed.

Lemma group_runs_run_has_start_witness :
  exists m, test_run_data (group_runs (all_matches sample_log)) !! 1%nat = Some m /\
            (exists ps, m !! PROCESSING_START = Some ps).
Proof.
  destruct sample_run1_exists as [m E]. exists m. split; [done|].
  exact (proj1 (group_runs_run_has_start _ _ _ E)).
Defined.

(** ** V1 and trial 5 against V2 *)

(** The event of a [findall] match at position [p] of the main log. *)
Definition main_event (m : nat * (text * text)) : event :=
  let '(p, (nm, ds)) := m in Event p nm (py_int ds) Main.

(** The prelude's timestamps, as V1 keeps them in run 1. *)
Definition prelude_map (pre : list event) : option (gmap text Z) :=
  match pre with [] => None | _ :: _ => Some (run_map pre) end.

Lemma prelude_map_snoc pre e :
  prelude_map (pre ++ [e]) = Some (<[ev_name e := ev_value e]> (default ∅ (prelude_map pre))).
Proof.
  destruct pre as [|x pre]; [reflexivity|].
  change ((x :: pre) ++ [e]) with (x :: (pre ++ [e])). cbn [prelude_map default].
  by rewrite app_comm_cons, run_map_snoc.
Qed.

Definition v1_inv (l : list event) (st : nat * gmap nat (gmap text Z)) : Prop :=
  let '(pre, runs) := split_runs l in
  st.1 = S (length runs) /\ st.2 !! 0%nat = None /\ st.2 !! 1%nat = prelude_map pre /\
  (forall j, st.2 !! S (S j) = run_map <$> runs !! j).

Lemma group_step_v1_event st m :
  group_step_v1 st m.2 =
  let e := main_event m in
  let cur := if is_marker e then S st.1 else st.1 in
  (cur, <[cur := <[ev_name e := ev_value e]> (dget st.2 cur ∅)]> st.2).
Proof. by destruct st, m as [p [nm ds]]. Qed.

Lemma v1_inv_step l st m : v1_inv l st -> v1_inv (l ++ [main_event m]) (group_step_v1 st m.2).
Proof.
  unfold v1_inv. rewrite split_runs_snoc, group_step_v1_event.
  pose proof (split_runs_heads l) as Hheads.
  destruct (split_runs l) as [pre runs]. intros (Hc & H0 & H1 & Hd).
  cbn zeta. set (e := main_event m). destruct (is_marker e) eqn:He.
  - unfold snoc_run. rewrite He. cbn [fst snd]. rewrite length_app. simpl length. split_and!; [lia| | |].
    + by rewrite lookup_insert_ne by lia.
    + rewrite lookup_insert_ne by lia. done.
    + intros j. rewrite lookup_insert, lookup_snoc_cases, Hc. repeat case_decide; try lia.
      * subst j. unfold dget. rewrite Hd, (proj2 (lookup_ge_None runs _)) by lia. done.
      * apply Hd.
  - destruct runs as [|r0 rs0] eqn:Er.
    + rewrite snoc_run_other_nil by done. cbn [fst snd length] in *. rewrite Hc. split_and!; [done|..].
      * by rewrite lookup_insert_ne.
      * rewrite lookup_insert_eq. unfold dget. by rewrite H1, prelude_map_snoc.
      * intros j. rewrite lookup_insert_ne by lia. apply Hd.
    + destruct (exists_last (l:=r0 :: rs0)) as (init & r & Hir); [done|].
      rewrite Hir in *. clear Er. rewrite snoc_run_other by done. cbn [fst snd].
      rewrite length_app in Hc |- *. simpl length in *.
      replace (length init + 1)%nat with (S (length init)) in * by lia.
      rewrite Hc. split_and!; [lia|..].
      * by rewrite lookup_insert_ne by lia.
      * by rewrite lookup_insert_ne by lia.
      * intros j. rewrite lookup_insert, lookup_snoc_cases. repeat case_decide; try lia.
        -- subst j. unfold dget. rewrite Hd, lookup_snoc_cases, decide_True by lia.
           simpl. by rewrite run_map_snoc.
        -- rewrite Hd, lookup_snoc_cases, decide_False by lia. done.
Qed.

Lemma group_runs_v1_inv l : v1_inv (map main_event l) (group_runs_v1 (map snd l)).
Proof.
  induction l as [|m l IH] using rev_ind; [split_and!; done|].
  unfold group_runs_v1. rewrite !map_app, foldl_app. simpl. by apply v1_inv_step.
Qed.

(** C16: V1 numbers the runs from 2.  Its run 1 holds the events before the
    first [PROCESSING_START] (absent when there are none), and its run
    [j + 2] is run [j + 1] of the V2 grouping; the spec discards the
    prelude and numbers runs from 1. *)
Theorem v1_runs_shifted (l : list (nat * (text * text))) :
  let evs := map main_event l in
  let v1 := group_runs_v1 (map snd l) in
  let st := group_runs evs in
  v1.1 = S (current_test_run st) /\ v1.2 !! 0%nat = None /\
  v1.2 !! 1%nat = prelude_map (split_runs evs).1 /\
  (forall j, v1.2 !! S (S j) = test_run_data st !! S j).
Proof.
  simpl. pose proof (group_runs_v1_inv l) as Hv. unfold v1_inv in Hv.
  destruct (group_runs_split (map main_event l)) as (Hc & _ & _ & Hd & _).
  destruct (split_runs (map main_event l)) as [pre runs]. simpl in *.
  destruct Hv as (Hc1 & H0 & H1 & Hd1). split_and!; try done.
  - by rewrite Hc1, Hc.
  - intros j. by rewrite Hd1, Hd.
Qed.

Definition sample_matches : list (nat * (text * text)) := finditer (match_timing main_tag) sample_log.

Lemma sample_v1_run1 : is_Some ((group_runs_v1 (map snd sample_matches)).2 !! 1%nat).
Proof. apply (bool_decide_eq_true_1 (is_Some _)). vm_compute. reflexivity. Qed.

Lemma v1_runs_shifted_witness :
  (group_runs_v1 (map snd sample_matches)).2 !! 1%nat = prelude_map (split_runs (map main_event sample_matches)).1 /\
  is_Some (prelude_map (split_runs (map main_event sample_matches)).1).
Proof.
  destruct (v1_runs_shifted sample_matches) as (_ & _ & H1 & _).
  split; [exact H1|]. rewrite <- H1. exact sample_v1_run1.
Defined.

(** trial 5 groups its [findall] matches exactly as V2 groups the same
    events. *)
Theorem t5_grouping_eq_v2 (l : list (nat * (text * text))) :
  group_runs_t5 (map snd l) =
  (current_test_run (group_runs (map main_event l)), test_run_data (group_runs (map main_event l))).
Proof.
  unfold group_runs_t5, group_runs.
  change (0%nat, (∅ : gmap nat (gmap text Z))) with
    (current_test_run run_state0, test_run_data run_state0).
  generalize run_state0. induction l as [|[p [nm ds]] l IH]; intros st; [done|].
  simpl. rewrite <- IH. f_equal.
  unfold group_step, group_step_t5, is_marker. simpl.
  destruct (bool_decide (nm = PROCESSING_START)); simpl; try case_bool_decide; reflexivity.
Qed.

(** ** The merged event stream *)

#[export] Instance event_le_total : Total event_le.
Proof. intros x y. unfold event_le. lia. Qed.

#[export] Instance event_le_trans : Transitive event_le.
Proof. intros x y z. unfold event_le. lia. Qed.

(** [all_matches] holds exactly the matches of the two sources, sorted
    by their position in the log. *)
Theorem all_matches_sorted_perm content :
  Sorted event_le (all_matches content) /\
  all_matches content ≡ₚ find_events main_tag Main content ++ find_events worker_tag Worker content.
Proof. split; [apply Sorted_merge_sort, _|apply merge_sort_Permutation]. Qed.

(** C5: every event is a timing line of its source at its position: the
    name and the value are read from the text there. *)
Theorem find_events_sound tag src content e :
  e ∈ find_events tag src content ->
  ev_source e = src /\
  exists ds rest, timing_line tag (drop (ev_pos e) content) (ev_name e) ds rest /\ ev_value e = py_int ds.
Proof.
  unfold find_events, finditer. intros ([p [nm ds]] & -> & Hin)%list_elem_of_fmap_1.
  apply (finditer_fuel_sound _ (match_timing_consumes tag)) in Hin as [_ [r Hm]].
  rewrite Nat.sub_0_r in Hm. apply match_timing_sound in Hm as [Hl _].
  split; [done|]. by exists ds, r.
Qed.

Lemma find_events_sound_witness :
  exists e, e ∈ find_events main_tag Main sample_log /\ ev_source e = Main.
Proof.
  exists (Event 37 PROCESSING_START 100 Main).
  assert (Hin : Event 37 PROCESSING_START 100 Main ∈ find_events main_tag Main sample_log).
  { apply (bool_decide_eq_true_1 (_ ∈ _)). vm_compute. reflexivity. }
  split; [exact Hin|]. exact (proj1 (find_events_sound _ _ _ _ Hin)).
Defined.

(** ** The rows of [parse_timing_data] *)

Lemma dom_test_run_data evs :
  dom (test_run_data (group_runs evs)) =
  list_to_set (seq 1 (length (filter (fun e => is_marker e = true) evs))).
Proof.
  apply set_eq. intros k. rewrite elem_of_dom, elem_of_list_to_set, elem_of_seq.
  rewrite (proj2 (run_count_spec evs k)). lia.
Qed.

Lemma seq_sorted a n : Sorted Nat.le (seq a n).
Proof.
  revert a. induction n as [|n IH]; intros a; simpl; constructor; [apply IH|].
  destruct n; simpl; constructor; lia.
Qed.

Lemma sorted_keys_seq evs :
  sorted_keys (test_run_data (group_runs evs)) = seq 1 (length (filter (fun e => is_marker e = true) evs)).
Proof.
  unfold sorted_keys. rewrite dom_test_run_data.
  apply (Sorted_unique Nat.le); [apply Sorted_merge_sort, _|apply seq_sorted|].
  rewrite merge_sort_Permutation. apply elements_list_to_set, NoDup_seq.
Qed.

(** C2: [parse_timing_data] writes one row per [PROCESSING_START] of the
    merged stream, numbered 1 to their count in order, and the phases of
    each row are those of its run, whose [PROCESSING_START] is the run's
    own (the default 0 never applies). *)
Theorem parse_timing_data_rows content :
  let evs := all_matches content in
  let st := group_runs evs in
  map row_test_run (parse_timing_data content) = seq 1 (length (filter (fun e => is_marker e = true) evs)) /\
  forall r, r ∈ parse_timing_data content ->
    exists m ps, test_run_data st !! row_test_run r = Some m /\ m !! PROCESSING_START = Some ps /\
      row_phases r = V2.phases m /\ V2.processing_start (row_phases r) = ps.
Proof.
  simpl. unfold parse_timing_data. rewrite sorted_keys_seq. split.
  - rewrite map_map. simpl. apply map_id.
  - intros r (k & -> & Hk%elem_of_seq)%list_elem_of_fmap_1. simpl.
    destruct (test_run_data (group_runs (all_matches content)) !! k) as [m|] eqn:Hm.
    2:{ exfalso. apply eq_None_not_Some in Hm. apply Hm, run_count_spec. lia. }
    destruct (run_has_start _ _ _ Hm) as [[ps Hps] _].
    exists m, ps. unfold dget. rewrite Hm. simpl. split_and!; try done.
    unfold V2.phases, dget. by rewrite Hps.
Qed.

(** ** The execution-mode heuristic *)

Lemma name_head_SIZE : match SIZE_ANALYSIS_COMPLETE with [] => False | c :: _ => is_name_char c = true end.
Proof. vm_compute. reflexivity. Qed.

Lemma name_head_HASH : match HASH_CALCULATION_COMPLETE with [] => False | c :: _ => is_name_char c = true end.
Proof. vm_compute. reflexivity. Qed.

Lemma marker_SIZE_iff s :
  match_marker worker_tag SIZE_ANALYSIS_COMPLETE s = true <-> marker_line worker_tag SIZE_ANALYSIS_COMPLETE s.
Proof. exact (match_marker_spec worker_tag SIZE_ANALYSIS_COMPLETE s name_head_SIZE). Qed.

Lemma marker_HASH_iff s :
  match_marker worker_tag HASH_CALCULATION_COMPLETE s = true <-> marker_line worker_tag HASH_CALCULATION_COMPLETE s.
Proof. exact (match_marker_spec worker_tag HASH_CALCULATION_COMPLETE s name_head_HASH). Qed.

Lemma detect_window_spec w :
  (re_search (match_marker worker_tag SIZE_ANALYSIS_COMPLETE) w
   || re_search (match_marker worker_tag HASH_CALCULATION_COMPLETE) w
   || contains worker_fallback_msg w) = true <->
  (exists q, (q <= length w)%nat /\
     (marker_line worker_tag SIZE_ANALYSIS_COMPLETE (drop q w) \/
      marker_line worker_tag HASH_CALCULATION_COMPLETE (drop q w))) \/
  (exists a b, w = a ++ worker_fallback_msg ++ b).
Proof.
  rewrite !orb_true_iff, !re_search_spec, contains_spec. split.
  - intros [[[q [Hq H]]|[q [Hq H]]]|H].
    + left. exists q. split; [done|]. left. by apply marker_SIZE_iff.
    + left. exists q. split; [done|]. right. by apply marker_HASH_iff.
    + by right.
  - intros [[q [Hq [H|H]]]|H].
    + left. left. exists q. split; [done|]. by apply marker_SIZE_iff.
    + left. right. exists q. split; [done|]. by apply marker_HASH_iff.
    + by right.
Qed.

(** C4: a run is classified as worker mode exactly when the 5000 code
    points from its start hold a [fileHashWorker.js] line of
    [SIZE_ANALYSIS_COMPLETE] or [HASH_CALCULATION_COMPLETE], or the
    fallback message. *)
Theorem detect_execution_mode_spec content pos :
  let w := slice content pos (pos + 5000) in
  detect_execution_mode content pos = true <->
  (exists q, (q <= length w)%nat /\
     (marker_line worker_tag SIZE_ANALYSIS_COMPLETE (drop q w) \/
      marker_line worker_tag HASH_CALCULATION_COMPLETE (drop q w))) \/
  (exists a b, w = a ++ worker_fallback_msg ++ b).
Proof. exact (detect_window_spec (slice content pos (pos + 5000))). Qed.

(** ** The JSON-log parser against V2 *)

(** C15: the JSON-log parser writes the same runs with the same phases as
    V2; only the execution-mode column may differ. *)
Theorem parse_timing_data_json_eq_v2 content :
  map (fun r => (row_test_run r, row_phases r)) (parse_timing_data_json content)
  = map (fun r => (row_test_run r, row_phases r)) (parse_timing_data content).
Proof.
  unfold parse_timing_data_json, parse_timing_data. rewrite !map_map.
  apply map_ext. intros k. simpl. by rewrite json_phases_same.
Qed.
