(* ===== verification/FolderData.v ===== *)
(** * The folder-metric extractor

    [parse_folder_analysis_data] in its two versions:
    - V1 ([docs/speed_tests/parse_console_log.py], lines 20-88), pattern
      [🔬 FOLDER_ANALYSIS_DATA: \{([^}]+)(?:, …)?\}], five fields and the
      derived metrics of the row;
    - V2 ([docs/plans/Bookkeeper/speed_tests/parse_console_log.py], lines
      20-83), pattern [🔬 FOLDER_ANALYSIS_DATA \(Modal Predictors\): \{([^}]+)\}],
      eleven fields copied as they are.
    The blob matchers backtrack over the length of [[^}]+] as Python's
    engine does.  Each field is found by [re.search] of [key:\s*(\d+)] or
    [key:\s*([\d.]+)] in the blob, converted by [int] or [float], and
    defaults to the [int] 0 when absent ([pynum]).  A conversion that
    raises skips the record without advancing [test_run].  A float is its
    exact decimal value, or [inf] beyond the range of binary64: the model
    keeps the control flow and the integer fields exact and the float
    fields up to the rounding of binary64.  In V1 the quotient
    [mainFolderFiles / totalFiles] raises [OverflowError] when it is too
    large for a float. *)

From S2P Require Import Prelude Stats Pattern.
From Stdlib Require Import QArith Qabs Qround Lqa.
Local Open Scope Z_scope.

(** ** The blob matchers *)

Definition folder_prefix_v1 : text := Eval vm_compute in 128300 :: U" FOLDER_ANALYSIS_DATA: {".
Definition folder_prefix_v2 : text :=
  Eval vm_compute in 128300 :: U" FOLDER_ANALYSIS_DATA (Modal Predictors): {".

(** [, …], the optional group of V1. *)
Definition comma_ellipsis : text := [44; 32; 8230].

Definition not_brace (c : Z) : bool := negb (c =? 125).

(** [\}] *)
Definition brace_close (r : text) : option text :=
  match r with c :: r' => if c =? 125 then Some r' else None | [] => None end.

(** [(?:, …)?\}]: the greedy [?] tries the group first. *)
Definition opt_group_close (r : text) : option text :=
  match strip_prefix comma_ellipsis r ≫= brace_close with
  | Some r' => Some r'
  | None => brace_close r
  end.

(** [([^}]+)] followed by [close]: the longest run of non-[}] characters
    first, then one character shorter at a time, down to one character. *)
Fixpoint backtrack (close : text -> option text) (run rest : text) (n : nat) : option (text * text) :=
  match n with
  | O => None
  | S n' =>
      match close (drop (S n') run ++ rest) with
      | Some r => Some (take (S n') run, r)
      | None => backtrack close run rest n'
      end
  end.

Definition match_blob (prefix : text) (close : text -> option text) (s : text) : option (text * text) :=
  match strip_prefix prefix s with
  | None => None
  | Some r => let '(run, rest) := span not_brace r in backtrack close run rest (length run)
  end.

Definition match_folder_v1 : text -> option (text * text) := match_blob folder_prefix_v1 opt_group_close.
Definition match_folder_v2 : text -> option (text * text) := match_blob folder_prefix_v2 brace_close.

(** [re.findall(pattern, content)]: the blob of each match. *)
Definition findall_blobs (m : text -> option (text * text)) (content : text) : list text :=
  map snd (finditer m content).

(** ** Fields *)

(** [key:\s*(cls+)] at the start of [s]. *)
Definition match_field (cls : Z -> bool) (key s : text) : option text :=
  match strip_prefix (key ++ [58]) s with
  | None => None
  | Some r => let ds := (span cls (span is_space r).2).1 in if nonempty ds then Some ds else None
  end.

(** [re.search]: the first position where the matcher succeeds. *)
Fixpoint re_search_first {A} (m : text -> option A) (s : text) : option A :=
  match m s with
  | Some a => Some a
  | None => match s with [] => None | _ :: s' => re_search_first m s' end
  end.

(** [int(s)] on a string of decimal digits: CPython refuses more than 4300
    digits with [ValueError]. *)
Definition int_max_str_digits : nat := 4300.

Definition py_int_checked (ds : text) : option Z :=
  if bool_decide (int_max_str_digits < length ds)%nat then None else Some (py_int ds).

(** The decimal value of a string of digits and dots: at most one dot and
    at least one digit, otherwise [float()] raises [ValueError]. *)
Definition py_decimal (s : text) : option Q :=
  let '(ip, r) := span is_digit s in
  match r with
  | [] => if nonempty ip then Some (inject_Z (py_int ip)) else None
  | c :: fp =>
      if (c =? 46) && forallb is_digit fp && (nonempty ip || nonempty fp)
      then Some (inject_Z (py_int ip) + inject_Z (py_int fp) / inject_Z (10 ^ Z.of_nat (length fp)))%Q
      else None
  end.

(** [float(s)]: the float of the decimal value, [inf] from the overflow
    threshold on. *)
Definition py_float (s : text) : option pyfloat := float_of_Q <$> py_decimal s.

(** A Python number of a row: the [int] 0 a missing field defaults to, or
    a [float]. *)
Inductive pynum := PyInt (z : Z) | PyFloat (f : pyfloat).

(** The number as a float operand: [int * float] converts the [int]. *)
Definition num_float (n : pynum) : pyfloat := match n with PyInt z => of_Z z | PyFloat f => f end.

(** A field of the loop over [field_patterns]: [None] when the conversion
    raises, the [int] 0 when the pattern is not found. *)
Definition int_field (key body : text) : option Z :=
  match re_search_first (match_field is_digit key) body with
  | None => Some 0
  | Some ds => py_int_checked ds
  end.

Definition float_field (key body : text) : option pynum :=
  match re_search_first (match_field is_digit_or_dot key) body with
  | None => Some (PyInt 0)
  | Some ds => PyFloat <$> py_float ds
  end.

(** [a / b] of two [int]s: [ZeroDivisionError] on 0 and [OverflowError]
    when the quotient is too large for a float. *)
Definition int_truediv (a b : Z) : option pyfloat :=
  if b =? 0 then None
  else let q := (inject_Z a / inject_Z b)%Q in
       if Qle_bool float_overflow (Qabs q) then None else Some (Fin q).

(** [round(x, 2)]: to the nearest hundredth, ties to even. *)
Definition round2 (q : Q) : Q := (inject_Z (round_half_even (q * 100)%Q) / 100)%Q.

(** [round(x, 2)] of a float: [inf] and [nan] are returned as they are. *)
Definition py_round2 (x : pyfloat) : pyfloat := match x with Fin q => Fin (round2 q) | _ => x end.

(** ** The record loop *)

Section FolderLoop.
Context {R : Type} (row : nat -> text -> option R).

Record loop_state := LoopState { folder_data : list R; test_run : nat; warnings : list text }.

(** One iteration of [for match in matches]: append the row and advance
    [test_run], or print the warning with [match[:50]]. *)
Definition folder_step (st : loop_state) (m : text) : loop_state :=
  match row (test_run st) m with
  | Some r => LoopState (folder_data st ++ [r]) (S (test_run st)) (warnings st)
  | None => LoopState (folder_data st) (test_run st) (warnings st ++ [take 50 m])
  end.

Definition folder_loop (ms : list text) : loop_state := foldl folder_step (LoopState [] 1 []) ms.
End FolderLoop.

Arguments loop_state : clear implicits.

(** ** The field names *)

Definition K_timestamp : text := Eval vm_compute in U"timestamp".
Definition K_totalFiles : text := Eval vm_compute in U"totalFiles".
Definition K_mainFolderFiles : text := Eval vm_compute in U"mainFolderFiles".
Definition K_subfolderFiles : text := Eval vm_compute in U"subfolderFiles".
Definition K_totalSizeMB : text := Eval vm_compute in U"totalSizeMB".
Definition K_duplicateCandidateCount : text := Eval vm_compute in U"duplicateCandidateCount".
Definition K_duplicateCandidatePercent : text := Eval vm_compute in U"duplicateCandidatePercent".
Definition K_uniqueFilesSizeMB : text := Eval vm_compute in U"uniqueFilesSizeMB".
Definition K_duplicateCandidatesSizeMB : text := Eval vm_compute in U"duplicateCandidatesSizeMB".
Definition K_totalDirectoryCount : text := Eval vm_compute in U"totalDirectoryCount".
Definition K_maxDirectoryDepth : text := Eval vm_compute in U"maxDirectoryDepth".
Definition K_uniqueFilesTotal : text := Eval vm_compute in U"uniqueFilesTotal".
Definition K_avgDirectoryDepth : text := Eval vm_compute in U"avgDirectoryDepth".

(** ** V1 *)

Module V1.
(** The row of V1, the keys in [folder_fieldnames] order. *)
Record row := Row {
  test_run_no : nat;
  avgDirectoryDepth : Q;
  avgFilenameLength : Z;
  identicalSizeFiles : Z;
  largestFileSizesMB : pyfloat;
  mainFolderFiles : Z;
  mainFolderSizeMB : pynum;
  maxDirectoryDepth : Z;
  subfolderFiles : Z;
  timestamp : Z;
  totalFiles : Z;
  totalSizeMB : pynum;
  uniqueFilesMainFolder : Z;
  uniqueFilesTotal : Z;
  zeroByteFiles : Z
}.

(** The body of the [try] block, lines 29-82. *)
Definition parse_row (test_run : nat) (m : text) : option row :=
  ts ← int_field K_timestamp m;
  tf ← int_field K_totalFiles m;
  mf ← int_field K_mainFolderFiles m;
  sf ← int_field K_subfolderFiles m;
  sz ← float_field K_totalSizeMB m;
  let unique_files_main_folder := mf in
  let unique_files_total := tf - Z.max 0 (tf - mf - sf) in
  let avg_directory_depth := if bool_decide (0 < sf) then (5 # 2)%Q else 1%Q in
  let max_directory_depth := if bool_decide (0 < sf) then 5 else 1 in
  let largest_file_size_mb := py_round2 (fmul (num_float sz) (Fin (1 # 10))) in
  main_folder_size_mb ←
    (if bool_decide (0 < tf)
     then (fun r => PyFloat (py_round2 (fmul (num_float sz) r))) <$> int_truediv mf tf
     else Some (PyInt 0));
  let identical_size_files := Z.max 0 (tf - unique_files_total) in
  Some (Row test_run avg_directory_depth 25 identical_size_files largest_file_size_mb mf
            main_folder_size_mb max_directory_depth sf ts tf sz unique_files_main_folder
            unique_files_total 0).

Definition parse_folder_analysis_data (content : text) : loop_state row :=
  folder_loop parse_row (findall_blobs match_folder_v1 content).
End V1.

(** ** V2 *)

Module V2.
Record row := Row {
  test_run_no : nat;
  timestamp : Z;
  totalFiles : Z;
  duplicateCandidateCount : Z;
  duplicateCandidatePercent : Z;
  uniqueFilesSizeMB : pynum;
  duplicateCandidatesSizeMB : pynum;
  totalSizeMB : pynum;
  totalDirectoryCount : Z;
  maxDirectoryDepth : Z;
  uniqueFilesTotal : Z;
  avgDirectoryDepth : pynum
}.

(** The body of the [try] block, lines 31-76. *)
Definition parse_row (test_run : nat) (m : text) : option row :=
  ts ← int_field K_timestamp m;
  tf ← int_field K_totalFiles m;
  dcc ← int_field K_duplicateCandidateCount m;
  dcp ← int_field K_duplicateCandidatePercent m;
  ufs ← float_field K_uniqueFilesSizeMB m;
  dcs ← float_field K_duplicateCandidatesSizeMB m;
  tsz ← float_field K_totalSizeMB m;
  tdc ← int_field K_totalDirectoryCount m;
  mdd ← int_field K_maxDirectoryDepth m;
  uft ← int_field K_uniqueFilesTotal m;
  add ← float_field K_avgDirectoryDepth m;
  Some (Row test_run ts tf dcc dcp ufs dcs tsz tdc mdd uft add).

Definition parse_folder_analysis_data (content : text) : loop_state row :=
  folder_loop parse_row (findall_blobs match_folder_v2 content).
End V2.

(** * Properties *)

(** ** The record loop *)

Section FolderLoopFacts.
Context {R : Type} (row : nat -> text -> option R).

Lemma folder_loop_snoc ms m : folder_loop row (ms ++ [m]) = folder_step row (folder_loop row ms) m.
Proof. unfold folder_loop. by rewrite foldl_app. Qed.

(** Every match gives a row or a warning, and [test_run] is one past the
    number of rows. *)
Lemma folder_loop_counts ms :
  (length (folder_data (folder_loop row ms)) + length (warnings (folder_loop row ms)) = length ms
   /\ test_run (folder_loop row ms) = S (length (folder_data (folder_loop row ms))))%nat.
Proof.
  induction ms as [|m ms IH] using rev_ind; [done|].
  rewrite folder_loop_snoc. unfold folder_step.
  destruct (row _ m); simpl; rewrite !length_app; simpl; lia.
Qed.

Context (num : R -> nat).
Hypothesis row_num : forall n m r, row n m = Some r -> num r = n.

Lemma folder_loop_numbered ms :
  map num (folder_data (folder_loop row ms)) = seq 1 (length (folder_data (folder_loop row ms))).
Proof.
  induction ms as [|m ms IH] using rev_ind; [done|].
  rewrite folder_loop_snoc. unfold folder_step.
  destruct (row _ m) as [r|] eqn:E; simpl; [|done].
  rewrite map_app, IH, length_app, seq_app. simpl.
  rewrite (row_num _ _ _ E), (proj2 (folder_loop_counts ms)). done.
Qed.

Hypothesis row_indep : forall n n' m, is_Some (row n m) <-> is_Some (row n' m).

Lemma folder_loop_partition ms :
  length (folder_data (folder_loop row ms)) = length (filter (fun m => is_Some (row 0 m)) ms)
  /\ warnings (folder_loop row ms) = map (take 50) (filter (fun m => ~ is_Some (row 0 m)) ms).
Proof.
  induction ms as [|m ms IH] using rev_ind; [done|].
  rewrite folder_loop_snoc, !filter_app. unfold folder_step.
  destruct (row _ m) as [r|] eqn:E.
  - assert (is_Some (row 0 m)) by (apply (row_indep (test_run (folder_loop row ms))); eauto).
    rewrite filter_cons_True by done. rewrite filter_cons_False by (intros Hn; by apply Hn). simpl.
    destruct IH as [IH1 IH2]. rewrite !length_app, IH1, IH2, app_nil_r. simpl. split; [lia|done].
  - assert (~ is_Some (row 0 m)).
    { rewrite <- (row_indep (test_run (folder_loop row ms))), E. by intros []. }
    rewrite filter_cons_False by done. rewrite filter_cons_True by done. simpl.
    rewrite app_nil_r, map_app. destruct IH as [-> ->]. done.
Qed.
End FolderLoopFacts.

(** [destruct] the field conversions of a [parse_row], one [≫=] at a time. *)
Ltac destruct_binds :=
  repeat match goal with
  | |- context [?x ≫= _] => destruct x; cbn [mbind option_bind]
  end.

Lemma V1_parse_row_num n m r : V1.parse_row n m = Some r -> V1.test_run_no r = n.
Proof. unfold V1.parse_row. destruct_binds; by intros [= <-]. Qed.

Lemma V2_parse_row_num n m r : V2.parse_row n m = Some r -> V2.test_run_no r = n.
Proof. unfold V2.parse_row. destruct_binds; by intros [= <-]. Qed.

Lemma V1_parse_row_indep n n' m : is_Some (V1.parse_row n m) <-> is_Some (V1.parse_row n' m).
Proof. unfold V1.parse_row. destruct_binds; split; by intros []. Qed.

Lemma V2_parse_row_indep n n' m : is_Some (V2.parse_row n m) <-> is_Some (V2.parse_row n' m).
Proof. unfold V2.parse_row. destruct_binds; split; by intros []. Qed.

(** ** The blob matchers *)

(** [close] reads a [}]: a successful match meets one. *)
Definition closes_at_brace (close : text -> option text) : Prop :=
  forall x y, close x = Some y -> 125 ∈ x.

Lemma brace_close_at_brace : closes_at_brace brace_close.
Proof. intros [|c x] y; simpl; [done|]. destruct (Z.eqb_spec c 125); [subst; left|done]. Qed.

Lemma opt_group_close_at_brace : closes_at_brace opt_group_close.
Proof.
  intros x y. unfold opt_group_close.
  destruct (strip_prefix comma_ellipsis x) as [z|] eqn:Ez; simpl.
  - destruct (brace_close z) as [y'|] eqn:Ey.
    + intros _. apply strip_prefix_Some in Ez as ->. apply brace_close_at_brace in Ey.
      apply elem_of_app. by right.
    + apply brace_close_at_brace.
  - apply brace_close_at_brace.
Qed.

Lemma brace_close_first r : brace_close (125 :: r) = Some r.
Proof. reflexivity. Qed.

Lemma opt_group_close_first r : opt_group_close (125 :: r) = Some r.
Proof. reflexivity. Qed.

#[export] Hint Resolve brace_close_at_brace opt_group_close_at_brace : bk.

(** The greedy reading of [([^}]+)] followed by a [}]: everything up to the
    first [}], provided it is not empty. *)
Definition first_brace (prefix s : text) : option (text * text) :=
  strip_prefix prefix s ≫= fun r0 =>
    let '(run, rest) := span not_brace r0 in
    match rest with [] => None | _ :: r' => if nonempty run then Some (run, r') else None end.

Section Backtrack.
Context (close : text -> option text).
Hypothesis close_brace : closes_at_brace close.
Hypothesis close_first : forall r, close (125 :: r) = Some r.

Lemma backtrack_no_brace run rest n :
  Forall (fun c => not_brace c = true) (run ++ rest) -> backtrack close run rest n = None.
Proof.
  intros Hall. induction n as [|n IH]; simpl; [done|].
  destruct (close (drop (S n) run ++ rest)) as [y|] eqn:E; [|done].
  exfalso. apply close_brace in E. apply Forall_app in Hall as [Hrun Hrest].
  assert (Forall (fun c => not_brace c = true) (drop (S n) run ++ rest)) as Hd
    by (apply Forall_app; split; [by apply Forall_drop|done]).
  rewrite Forall_forall in Hd. by specialize (Hd _ E).
Qed.

Lemma backtrack_first run rest :
  run <> [] -> backtrack close run (125 :: rest) (length run) = Some (run, rest).
Proof.
  destruct run as [|c run]; [done|]. intros _. simpl length. simpl.
  rewrite drop_ge by (simpl; lia). rewrite take_ge by (simpl; lia). simpl. by rewrite close_first.
Qed.

(** Backtracking changes nothing: the match ends at the first [}]. *)
Lemma match_blob_first_brace prefix s : match_blob prefix close s = first_brace prefix s.
Proof.
  unfold match_blob, first_brace.
  destruct (strip_prefix prefix s) as [r0|]; simpl; [|done].
  destruct (span not_brace r0) as [run rest] eqn:Es.
  apply span_inv in Es as (_ & Hrun & Hrest). destruct rest as [|c r'].
  - apply backtrack_no_brace. by rewrite app_nil_r.
  - unfold not_brace in Hrest. apply negb_false_iff, Z.eqb_eq in Hrest as ->.
    destruct run as [|c0 run0]; [done|]. by apply backtrack_first.
Qed.
End Backtrack.

Lemma first_brace_spec prefix s b r :
  first_brace prefix s = Some (b, r) <->
  s = prefix ++ b ++ 125 :: r /\ b <> [] /\ Forall (fun c => not_brace c = true) b.
Proof.
  unfold first_brace. split.
  - destruct (strip_prefix prefix s) as [r0|] eqn:E; simpl; [|done].
    apply strip_prefix_Some in E as ->.
    destruct (span not_brace r0) as [run rest] eqn:Es.
    apply span_inv in Es as (-> & Hrun & Hrest).
    destruct rest as [|c r']; [done|]. destruct run as [|c0 run0]; [done|].
    intros [= <- <-]. unfold not_brace in Hrest. apply negb_false_iff, Z.eqb_eq in Hrest as ->.
    done.
  - intros (-> & Hb & Hall). rewrite strip_prefix_app. simpl.
    rewrite span_unique by done. destruct b; done.
Qed.

(** Every row of the loop is the row of one of the matches. *)
Lemma folder_loop_rows {R} (row : nat -> text -> option R) ms r :
  r ∈ folder_data (folder_loop row ms) -> exists n m, m ∈ ms /\ row n m = Some r.
Proof.
  induction ms as [|m ms IH] using rev_ind; simpl; [by intros ?%elem_of_nil|].
  rewrite folder_loop_snoc. unfold folder_step.
  destruct (row _ m) as [r'|] eqn:E; simpl.
  - intros [Hin|Hr%list_elem_of_singleton]%elem_of_app.
    + destruct (IH Hin) as (n & m' & Hm & Hr). exists n, m'. split; [apply elem_of_app; by left|done].
    + subst r'. eexists _, m. split; [apply elem_of_app; right; by left|done].
  - intros Hin. destruct (IH Hin) as (n & m' & Hm & Hr). exists n, m'. split; [apply elem_of_app; by left|done].
Qed.

Lemma int_field_nonneg key body z : int_field key body = Some z -> 0 <= z.
Proof.
  unfold int_field, py_int_checked. destruct (re_search_first _ _); [|by intros [= <-]].
  case_bool_decide; [done|]. intros [= <-]. apply py_int_nonneg.
Qed.

(** The counts of a V1 row: [uniqueFilesTotal] is [min(totalFiles,
    mainFolderFiles + subfolderFiles)] and [identicalSizeFiles] the rest. *)
Lemma V1_parse_row_counts n m r :
  V1.parse_row n m = Some r ->
  V1.uniqueFilesTotal r = Z.min (V1.totalFiles r) (V1.mainFolderFiles r + V1.subfolderFiles r)
  /\ V1.uniqueFilesTotal r + V1.identicalSizeFiles r = V1.totalFiles r
  /\ 0 <= V1.mainFolderFiles r /\ 0 <= V1.subfolderFiles r /\ 0 <= V1.totalFiles r.
Proof.
  unfold V1.parse_row.
  destruct (int_field K_timestamp m) as [ts|]; cbn [mbind option_bind]; [|done].
  destruct (int_field K_totalFiles m) as [tf|] eqn:Etf; cbn [mbind option_bind]; [|done].
  destruct (int_field K_mainFolderFiles m) as [mf|] eqn:Emf; cbn [mbind option_bind]; [|done].
  destruct (int_field K_subfolderFiles m) as [sf|] eqn:Esf; cbn [mbind option_bind]; [|done].
  destruct (float_field K_totalSizeMB m); cbn [mbind option_bind]; [|done].
  destruct (if bool_decide (0 < tf) then _ else _); cbn [mbind option_bind]; [|done].
  intros [= <-]. simpl.
  apply int_field_nonneg in Etf, Emf, Esf. lia.
Qed.

(** ** [float()] and [round()] *)

Definition dots (l : text) : nat := length (filter (fun c => c = 46) l).

Lemma dots_app l1 l2 : dots (l1 ++ l2) = (dots l1 + dots l2)%nat.
Proof. unfold dots. by rewrite filter_app, length_app. Qed.

Lemma dots_cons_dot l : dots (46 :: l) = S (dots l).
Proof. unfold dots. by rewrite filter_cons_True. Qed.

Lemma dots_cons_other c l : c <> 46 -> dots (c :: l) = dots l.
Proof. intros Hc. unfold dots. by rewrite filter_cons_False. Qed.

Lemma digit_not_dot c : is_digit c = true -> c <> 46.
Proof. by intros Hc ->. Qed.

Lemma digits_no_dot l : Forall (fun c => is_digit c = true) l -> dots l = 0%nat.
Proof. induction 1 as [|c l Hc _ IH]; [done|]. by rewrite dots_cons_other by auto using digit_not_dot. Qed.

Lemma digit_or_dot_cases c : is_digit_or_dot c = true -> is_digit c = true \/ c = 46.
Proof. unfold is_digit_or_dot. intros [H|H%Z.eqb_eq]%orb_true_iff; auto. Qed.

(** Over [[\d.]], all characters are digits exactly when there is no dot. *)
Lemma forallb_digit_dots l :
  Forall (fun c => is_digit_or_dot c = true) l -> forallb is_digit l = true <-> dots l = 0%nat.
Proof.
  induction 1 as [|c l Hc _ IH]; [done|]. simpl.
  destruct (digit_or_dot_cases c Hc) as [Hd| ->].
  - rewrite Hd, dots_cons_other by auto using digit_not_dot. done.
  - rewrite dots_cons_dot. done.
Qed.

Lemma forallb_Forall_true {A} (p : A -> bool) (l : list A) : forallb p l = true -> Forall (fun c => p c = true) l.
Proof. induction l as [|c l IH]; simpl; [done|]. intros [? ?]%andb_true_iff. constructor; auto. Qed.

Lemma Forall_not_digit_app_inv ip r :
  Forall (fun c => is_digit c = true) ip -> Forall (fun c => is_digit c = false) (ip ++ r) -> ip = [].
Proof.
  intros Hip Hn. destruct Hip as [|c ip Hc _]; [done|].
  apply Forall_cons in Hn as [Hc' _]. congruence.
Qed.

Lemma py_decimal_nonneg s q : py_decimal s = Some q -> (0 <= q)%Q.
Proof.
  assert (Hz : forall ds, (0 <= inject_Z (py_int ds))%Q).
  { intros ds. change 0%Q with (inject_Z 0). rewrite <- Zle_Qle. apply py_int_nonneg. }
  unfold py_decimal. destruct (span is_digit s) as [ip [|c fp]].
  - destruct (nonempty ip); [|done]. intros [= <-]. apply Hz.
  - destruct (_ && _ && _); [|done]. intros [= <-].
    assert (Hp : (0 < inject_Z (10 ^ Z.of_nat (length fp)))%Q).
    { change 0%Q with (inject_Z 0). rewrite <- Zlt_Qlt. apply Z.pow_pos_nonneg; lia. }
    assert (0 <= inject_Z (py_int fp) / inject_Z (10 ^ Z.of_nat (length fp)))%Q.
    { apply Qle_shift_div_l; [done|]. rewrite Qmult_0_l. apply Hz. }
    pose proof (Hz ip). lra.
Qed.

(** A float read from [[\d.]+] is never negative and never [NaN]: a
    finite value or [inf]. *)
Lemma py_float_nonneg s f : py_float s = Some f -> f = PInf \/ exists q, f = Fin q /\ (0 <= q)%Q.
Proof.
  unfold py_float. destruct (py_decimal s) as [q|] eqn:E; [|done]. cbn. intros [= <-].
  apply py_decimal_nonneg in E. unfold float_of_Q.
  destruct (Qle_bool float_overflow q); [by left|].
  destruct (Qle_bool q (- float_overflow)) eqn:E2; [|right; by exists q].
  apply Qle_bool_iff in E2. assert (0 < float_overflow)%Q by reflexivity. lra.
Qed.

(** The strings over [[\d.]] that [float()] rejects: those without a digit
    and those with two dots or more. *)
Theorem py_float_error s :
  Forall (fun c => is_digit_or_dot c = true) s ->
  py_float s = None <-> Forall (fun c => is_digit c = false) s \/ (2 <= dots s)%nat.
Proof.
  intros Hs. unfold py_float. rewrite fmap_None. unfold py_decimal.
  destruct (span is_digit s) as [ip r] eqn:Es. apply span_inv in Es as (-> & Hip & Hr).
  apply Forall_app in Hs as [_ Hr']. rewrite dots_app, digits_no_dot by done.
  destruct r as [|c fp].
  - rewrite app_nil_r. destruct ip as [|c ip]; simpl.
    + split; [by left|done].
    + split; [done|]. intros [Hn| Hd]; [|unfold dots in Hd; simpl in Hd; lia].
      apply Forall_cons in Hn as [Hn _]. apply Forall_cons in Hip as [Hc _]. congruence.
  - apply Forall_cons in Hr' as [Hc Hfp].
    destruct (digit_or_dot_cases c Hc) as [Hd| ->]; [congruence|].
    rewrite dots_cons_dot, Z.eqb_refl. simpl.
    destruct (forallb is_digit fp) eqn:Ef.
    + apply forallb_digit_dots in Ef as Hdots; [|done]. rewrite Hdots.
      apply forallb_Forall_true in Ef.
      destruct ip as [|c0 ip]; destruct fp as [|c1 fp]; simpl.
      * split; [|done]. intros _. left. by repeat constructor.
      * split; [done|]. intros [Hn|?]; [|lia]. simpl in Hn.
        apply Forall_cons in Hn as [_ Hn]. apply Forall_cons in Hn as [Hn _].
        apply Forall_cons in Ef as [Ef _]. congruence.
      * split; [done|]. intros [Hn|?]; [|lia].
        apply Forall_cons in Hn as [Hn _]. apply Forall_cons in Hip as [Hc0 _]. congruence.
      * split; [done|]. intros [Hn|?]; [|lia].
        apply Forall_cons in Hn as [Hn _]. apply Forall_cons in Hip as [Hc0 _]. congruence.
    + assert (dots fp <> 0%nat) by (intros Hz; apply (forallb_digit_dots fp Hfp) in Hz; congruence).
      split; [intros _; right; lia|done].
Qed.

(** ** Samples *)

Definition v1_sample : text :=
  Eval vm_compute in
    U"noise " ++ folder_prefix_v1
    ++ U"timestamp: 17, totalFiles: 10, mainFolderFiles: 4, subfolderFiles: 3, totalSizeMB: 2.50"
    ++ comma_ellipsis ++ [125; 10] ++ folder_prefix_v1 ++ U"totalSizeMB: 1.2.3}" ++ [10]
    ++ folder_prefix_v1 ++ U"totalFiles: 5}".

Definition v1_sample_row : V1.row :=
  Eval vm_compute in
    match folder_data (V1.parse_folder_analysis_data v1_sample) !! 0%nat with
    | Some r => r
    | None => V1.Row 0 0 0 0 (Fin 0) 0 (PyInt 0) 0 0 0 0 (PyInt 0) 0 0 0
    end.

Lemma v1_sample_row0 : folder_data (V1.parse_folder_analysis_data v1_sample) !! 0%nat = Some v1_sample_row.
Proof. vm_compute. reflexivity. Qed.

(** * The properties of the extractor *)

(** C9: The optional group [(?:, …)?] of the V1 pattern never changes a
    match: the V1 matcher is the plain [\{([^}]+)\}] matcher. *)
Theorem folder_v1_optional_group_dead s :
  match_folder_v1 s = match_blob folder_prefix_v1 brace_close s.
Proof.
  unfold match_folder_v1.
  rewrite !match_blob_first_brace; auto using opt_group_close_first, brace_close_first with bk.
Qed.

(** C7: A V2 marker match is the prefix, a non-empty blob without [}], and
    the first [}] after it. *)
Theorem match_folder_v2_spec s b r :
  match_folder_v2 s = Some (b, r) <->
  s = folder_prefix_v2 ++ b ++ 125 :: r /\ b <> [] /\ Forall (fun c => not_brace c = true) b.
Proof.
  unfold match_folder_v2. rewrite match_blob_first_brace by auto using brace_close_first with bk.
  apply first_brace_spec.
Qed.

(** The V2 rows are numbered [1, 2, ...] without gaps, whatever records
    are skipped. *)
Theorem v2_folder_rows_numbered content :
  map V2.test_run_no (folder_data (V2.parse_folder_analysis_data content))
  = seq 1 (length (folder_data (V2.parse_folder_analysis_data content))).
Proof. apply folder_loop_numbered. exact V2_parse_row_num. Qed.

(** C8: Each V2 marker match gives a row when its fields convert and a
    warning otherwise: the rows are as many as the well-formed blobs and
    the warnings are the first 50 characters of the others, in order. *)
Theorem v2_folder_skips_malformed content :
  let ms := findall_blobs match_folder_v2 content in
  length (folder_data (V2.parse_folder_analysis_data content)) = length (filter (fun m => is_Some (V2.parse_row 0 m)) ms)
  /\ warnings (V2.parse_folder_analysis_data content) = map (take 50) (filter (fun m => ~ is_Some (V2.parse_row 0 m)) ms).
Proof. apply folder_loop_partition. exact V2_parse_row_indep. Qed.

(** In every V1 row, [uniqueFilesTotal = min(totalFiles, mainFolderFiles
    + subfolderFiles)], [uniqueFilesTotal + identicalSizeFiles =
    totalFiles], and the three counts are not negative. *)
Theorem v1_folder_counts content i r :
  folder_data (V1.parse_folder_analysis_data content) !! i = Some r ->
  V1.uniqueFilesTotal r = Z.min (V1.totalFiles r) (V1.mainFolderFiles r + V1.subfolderFiles r)
  /\ V1.uniqueFilesTotal r + V1.identicalSizeFiles r = V1.totalFiles r
  /\ 0 <= V1.mainFolderFiles r /\ 0 <= V1.subfolderFiles r /\ 0 <= V1.totalFiles r.
Proof.
  intros Hi%list_elem_of_lookup_2. apply folder_loop_rows in Hi as (n & m & _ & Hr).
  by apply V1_parse_row_counts in Hr.
Qed.

Lemma v1_folder_counts_witness :
  V1.uniqueFilesTotal v1_sample_row = Z.min (V1.totalFiles v1_sample_row) (V1.mainFolderFiles v1_sample_row + V1.subfolderFiles v1_sample_row)
  /\ V1.uniqueFilesTotal v1_sample_row + V1.identicalSizeFiles v1_sample_row = V1.totalFiles v1_sample_row
  /\ 0 <= V1.mainFolderFiles v1_sample_row /\ 0 <= V1.subfolderFiles v1_sample_row /\ 0 <= V1.totalFiles v1_sample_row.
Proof. exact (v1_folder_counts v1_sample 0 v1_sample_row v1_sample_row0). Defined.

Definition two_dots_sample : text := [49; 46; 50; 46; 51].

Lemma py_float_error_witness :
  Forall (fun c => is_digit_or_dot c = true) two_dots_sample /\
  (py_float two_dots_sample = None <->
   Forall (fun c => is_digit c = false) two_dots_sample \/ (2 <= dots two_dots_sample)%nat).
Proof. split; [repeat constructor|]. apply py_float_error. repeat constructor. Defined.

