(* ===== verification/FolderCodec.v ===== *)
(** * The round trip of the folder-metric extractor

    The spec asks that a known record, written after the marker, be read
    back field for field.  This file writes a V2 record the way the
    application logs it, [🔬 FOLDER_ANALYSIS_DATA (Modal Predictors): {k: v,
    k: v, ...}], with integers in decimal and sizes with two decimals, and
    proves that [V2.parse_folder_analysis_data] of [FolderData.v] reads a
    log of such lines back as the same records, numbered from 1, without
    warnings.  The writer is the specification of the log format, not code
    of the repository.  The key lemma is that [re.search] of [key:\s*(...)]
    finds a key's own field: no key of the record is a suffix of an earlier
    one, so no earlier position matches. *)

From S2P Require Import Prelude Stats Pattern FolderData.
From Stdlib Require Import QArith Lqa.
Local Open Scope Z_scope.

(** ** Writing a record *)

(** The decimal digits of [n >= 0], most significant first; [f] bounds the
    number of digits. *)
Fixpoint dec_fuel (f : nat) (n : Z) : text :=
  match f with
  | O => []
  | S f' => (if n <? 10 then [] else dec_fuel f' (n / 10)) ++ [48 + n mod 10]
  end.

Definition dec (n : Z) : text := dec_fuel (S (Z.to_nat (Z.log2 n))) n.

(** A size of [h] hundredths, written with two decimals. *)
Definition dec2 (h : Z) : text := dec (h / 100) ++ [46; 48 + (h / 10) mod 10; 48 + h mod 10].

Definition seg (kv : text * text) : text := kv.1 ++ [58; 32] ++ kv.2.

(** [, ] between two fields. *)
Definition sep : text := [44; 32].

(** [k: v, k: v, ...] *)
Fixpoint render (fs : list (text * text)) : text :=
  match fs with
  | [] => []
  | [f] => seg f
  | f :: fs' => seg f ++ sep ++ render fs'
  end.

(** The values the application logs for one scan. *)
Record v2_source := V2Source {
  s_timestamp : Z; s_totalFiles : Z; s_duplicateCandidateCount : Z;
  s_duplicateCandidatePercent : Z; s_uniqueFilesSizeMB : Z; s_duplicateCandidatesSizeMB : Z;
  s_totalSizeMB : Z; s_totalDirectoryCount : Z; s_maxDirectoryDepth : Z;
  s_uniqueFilesTotal : Z; s_avgDirectoryDepth : Z
}.

Definition v2_keys : list text :=
  [K_timestamp; K_totalFiles; K_duplicateCandidateCount; K_duplicateCandidatePercent;
   K_uniqueFilesSizeMB; K_duplicateCandidatesSizeMB; K_totalSizeMB; K_totalDirectoryCount;
   K_maxDirectoryDepth; K_uniqueFilesTotal; K_avgDirectoryDepth].

Definition v2_fields (r : v2_source) : list (text * text) :=
  [(K_timestamp, dec (s_timestamp r)); (K_totalFiles, dec (s_totalFiles r));
   (K_duplicateCandidateCount, dec (s_duplicateCandidateCount r));
   (K_duplicateCandidatePercent, dec (s_duplicateCandidatePercent r));
   (K_uniqueFilesSizeMB, dec2 (s_uniqueFilesSizeMB r));
   (K_duplicateCandidatesSizeMB, dec2 (s_duplicateCandidatesSizeMB r));
   (K_totalSizeMB, dec2 (s_totalSizeMB r));
   (K_totalDirectoryCount, dec (s_totalDirectoryCount r));
   (K_maxDirectoryDepth, dec (s_maxDirectoryDepth r));
   (K_uniqueFilesTotal, dec (s_uniqueFilesTotal r));
   (K_avgDirectoryDepth, dec2 (s_avgDirectoryDepth r))].

Definition encode_v2 (r : v2_source) : text := folder_prefix_v2 ++ render (v2_fields r) ++ [125].

(** A log of such lines, one per scan. *)
Definition encode_log (rs : list v2_source) : text := concat (map (fun r => encode_v2 r ++ [10]) rs).

(** The integers fit [int()]'s 4300 digits; nothing is negative. *)
Definition int_ok (n : Z) : Prop := 0 <= n < 10 ^ 4300.

Definition hundredths (h : Z) : Q := (inject_Z h / 100)%Q.

(** A size in hundredths is non-negative and below the overflow threshold
    of [float()]. *)
Definition size_ok (h : Z) : Prop := 0 <= h /\ (hundredths h < float_overflow)%Q.

Definition v2_source_ok (r : v2_source) : Prop :=
  int_ok (s_timestamp r) /\ int_ok (s_totalFiles r) /\ int_ok (s_duplicateCandidateCount r) /\
  int_ok (s_duplicateCandidatePercent r) /\ size_ok (s_uniqueFilesSizeMB r) /\
  size_ok (s_duplicateCandidatesSizeMB r) /\ size_ok (s_totalSizeMB r) /\
  int_ok (s_totalDirectoryCount r) /\ int_ok (s_maxDirectoryDepth r) /\
  int_ok (s_uniqueFilesTotal r) /\ size_ok (s_avgDirectoryDepth r).

(** A float field holding a written size, up to [Qeq]. *)
Definition holds_size (v : pynum) (h : Z) : Prop := exists q, v = PyFloat (Fin q) /\ (q == hundredths h)%Q.

(** A row holds the values of a scan, the sizes up to [Qeq]. *)
Definition row_of_source (r : v2_source) (row : V2.row) : Prop :=
  V2.timestamp row = s_timestamp r /\ V2.totalFiles row = s_totalFiles r /\
  V2.duplicateCandidateCount row = s_duplicateCandidateCount r /\
  V2.duplicateCandidatePercent row = s_duplicateCandidatePercent r /\
  holds_size (V2.uniqueFilesSizeMB row) (s_uniqueFilesSizeMB r) /\
  holds_size (V2.duplicateCandidatesSizeMB row) (s_duplicateCandidatesSizeMB r) /\
  holds_size (V2.totalSizeMB row) (s_totalSizeMB r) /\
  V2.totalDirectoryCount row = s_totalDirectoryCount r /\
  V2.maxDirectoryDepth row = s_maxDirectoryDepth r /\
  V2.uniqueFilesTotal row = s_uniqueFilesTotal r /\
  holds_size (V2.avgDirectoryDepth row) (s_avgDirectoryDepth r).

(** ASCII letters, the characters of the keys. *)
Definition is_letter (c : Z) : bool := ((65 <=? c) && (c <=? 90)) || ((97 <=? c) && (c <=? 122)).

(** No key is a suffix of an earlier key. *)
Fixpoint no_earlier_suffix (seen keys : list text) : bool :=
  match keys with
  | [] => true
  | k :: ks => forallb (fun k' => negb (bool_decide (k `suffix_of` k'))) seen
               && no_earlier_suffix (seen ++ [k]) ks
  end.

(** ** [re.search] of [key:\s*(cls+)] in a rendered blob *)

Lemma re_search_first_skip {A} (m : text -> option A) pre s :
  (forall q, (q < length pre)%nat -> m (drop q pre ++ s) = None) ->
  re_search_first m (pre ++ s) = re_search_first m s.
Proof.
  induction pre as [|c pre IH]; intros H; [done|]. simpl.
  assert (m (c :: pre ++ s) = None) as H0 by (apply (H 0%nat); simpl; lia).
  rewrite H0. apply IH.
  intros q Hq. apply (H (S q)). simpl. lia.
Qed.

Lemma re_search_first_here {A} (m : text -> option A) s a : m s = Some a -> re_search_first m s = Some a.
Proof. destruct s; simpl; intros ->; done. Qed.

(** Matching [key:] against a run of letters followed by [:] forces the
    whole run to be the key. *)
Lemma strip_key_letters key a t r :
  Forall (fun c => is_letter c = true) key -> Forall (fun c => is_letter c = true) a ->
  strip_prefix (key ++ [58]) (a ++ 58 :: t) = Some r -> key = a.
Proof.
  intros Hk. revert a. induction Hk as [|k key Hk _ IH]; intros a Ha; cbn [strip_prefix app].
  - destruct Ha as [|c a Hc _]; [done|]. cbn [strip_prefix app].
    destruct (Z.eqb_spec 58 c) as [<-|]; [vm_compute in Hc; congruence|intros; congruence].
  - destruct Ha as [|c a Hc Ha]; cbn [strip_prefix app].
    + destruct (Z.eqb_spec k 58) as [->|]; [vm_compute in Hk; congruence|intros; congruence].
    + destruct (Z.eqb_spec k c) as [<-|]; [|intros; congruence]. intros H. f_equal. by apply IH.
Qed.

Lemma strip_key_other key c t :
  match key with [] => False | k :: _ => is_letter k = true end -> is_letter c = false ->
  strip_prefix (key ++ [58]) (c :: t) = None.
Proof.
  destruct key as [|k key]; [done|]. intros Hk Hc. cbn [strip_prefix app].
  destruct (Z.eqb_spec k c); [subst; congruence|done].
Qed.

Section RenderSearch.
Context (cls : Z -> bool).
Hypothesis cls_comma : cls 44 = false.

Definition key_ok (k : text) : Prop :=
  Forall (fun c => is_letter c = true) k /\ match k with [] => False | c :: _ => is_letter c = true end.

Definition value_ok (v : text) : Prop :=
  v <> [] /\ Forall (fun c => is_letter c = false /\ is_space c = false) v.

Definition field_ok (kv : text * text) : Prop := key_ok kv.1 /\ value_ok kv.2.

Lemma match_field_skip_seg key k v t :
  key_ok key -> field_ok (k, v) -> ~ key `suffix_of` k ->
  forall q, (q < length (seg (k, v) ++ sep))%nat ->
  match_field cls key (drop q (seg (k, v) ++ sep) ++ t) = None.
Proof.
  intros [Hkl Hkh] [[Hk _] [Hv Hvs]] Hsuf q Hq. unfold seg, sep in *. simpl in *.
  unfold match_field. rewrite <- app_assoc.
  destruct (decide (q < length k)%nat) as [Hlt|Hge].
  - rewrite drop_app_le by lia. simpl.
    destruct (strip_prefix (key ++ [58]) _) as [l|] eqn:E; [|done].
    rewrite <- app_assoc in E. cbn [app] in E. exfalso. apply strip_key_letters in E; [|done|by apply Forall_drop].
    apply Hsuf. exists (take q k). by rewrite E, take_drop.
  - rewrite drop_app_ge by lia. cbn [app].
    set (X := 58 :: 32 :: v ++ [44; 32]).
    assert (Forall (fun c => is_letter c = false) X) as HX.
    { subst X. repeat constructor; try done.
      apply Forall_app; split; [|by repeat constructor].
      eapply Forall_impl; [exact Hvs|]. by intros ? [? ?]. }
    assert (q - length k < length X)%nat as Hj.
    { subst X. rewrite !length_app in Hq. simpl in *. rewrite !length_app in *. simpl in *. lia. }
    destruct (lookup_lt_is_Some_2 X (q - length k) Hj) as [c Hc].
    rewrite (drop_S _ _ _ Hc). simpl.
    rewrite strip_key_other; [done|done|].
    rewrite Forall_forall in HX. apply HX. by eapply list_elem_of_lookup_2.
Qed.
End RenderSearch.

Lemma render_cons_ne f fs : fs <> [] -> render (f :: fs) = seg f ++ sep ++ render fs.
Proof. by destruct fs. Qed.

Lemma is_space_32 : is_space 32 = true.
Proof. reflexivity. Qed.

Section RenderSearchOwn.
Context (cls : Z -> bool).
Hypothesis cls_comma : cls 44 = false.

(** At the key's own field, the matcher reads exactly the value. *)
Lemma match_field_own key v t :
  value_ok v -> Forall (fun c => cls c = true) v ->
  (match t with [] => True | c :: _ => c = 44 end) ->
  match_field cls key (seg (key, v) ++ t) = Some v.
Proof.
  intros [Hv Hvs] Hc Ht. unfold match_field, seg. cbn [fst snd].
  replace ((key ++ [58; 32] ++ v) ++ t) with ((key ++ [58]) ++ 32 :: (v ++ t))
    by (rewrite <- !app_assoc; reflexivity).
  rewrite strip_prefix_app. change (32 :: v ++ t) with ([32] ++ (v ++ t)).
  rewrite (span_unique is_space [32] (v ++ t));
    [| by repeat constructor
     | destruct v as [|c v]; [done|]; simpl; by apply Forall_cons in Hvs as [[_ ?] _]].
  simpl. rewrite span_unique by (done || (destruct t; [done|]; by subst)).
  by destruct v.
Qed.

Lemma search_render key v pre post :
  key_ok key -> Forall field_ok (pre ++ (key, v) :: post) -> Forall (fun c => cls c = true) v ->
  Forall (fun kv => ~ key `suffix_of` kv.1) pre ->
  re_search_first (match_field cls key) (render (pre ++ (key, v) :: post)) = Some v.
Proof.
  intros Hkey. induction pre as [|[k w] pre IH]; intros Hok Hc Hpre; cbn [app].
  - apply Forall_cons in Hok as [[_ Hv] _]. simpl in Hv.
    apply re_search_first_here. destruct post as [|p post].
    + change (render [(key, v)]) with (seg (key, v)).
      rewrite <- (app_nil_r (seg (key, v))). by apply match_field_own.
    + rewrite render_cons_ne by done. by apply match_field_own.
  - apply Forall_cons in Hok as [Hf Hok]. apply Forall_cons in Hpre as [Hs Hpre].
    rewrite render_cons_ne by (by destruct pre).
    rewrite app_assoc, re_search_first_skip; [by apply IH|].
    intros q Hq. by apply match_field_skip_seg.
Qed.
End RenderSearchOwn.

(** The keys met before the [i]-th one are not extended by it. *)
Lemma no_earlier_suffix_take seen (fs : list (text * text)) i key v :
  no_earlier_suffix seen (map fst fs) = true -> fs !! i = Some (key, v) ->
  Forall (fun k' => ~ key `suffix_of` k') seen /\ Forall (fun kv => ~ key `suffix_of` kv.1) (take i fs).
Proof.
  revert seen i. induction fs as [|[k w] fs IH]; intros seen i H Hi; [done|].
  simpl in H. apply andb_true_iff in H as [Hk H].
  destruct i as [|i]; simpl in Hi.
  - injection Hi as <- <-. split; [|constructor].
    apply Forall_forall. intros k' Hk'. apply forallb_Forall_true in Hk.
    rewrite Forall_forall in Hk. specialize (Hk k' Hk'). simpl in Hk.
    by apply negb_true_iff, bool_decide_eq_false in Hk.
  - destruct (IH _ _ H Hi) as [Hs Ht]. apply Forall_app in Hs as [Hs Hk'].
    split; [done|]. simpl. constructor; [|done]. by apply Forall_cons in Hk' as [? _].
Qed.

(** ** The decimal writer *)

Lemma digit_value_ascii d : 0 <= d <= 9 -> digit_value (48 + d) = Some d.
Proof.
  intros Hd. unfold digit_value, nd_zeros. rewrite digit_in_cons.
  replace ((48 <=? 48 + d) && (48 + d <=? 48 + 9)) with true by (symmetry; apply andb_true_iff; lia).
  f_equal. lia.
Qed.

Definition ascii_digit (c : Z) : Prop := exists d, 0 <= d <= 9 /\ c = 48 + d.

Lemma ascii_digit_classes c :
  ascii_digit c -> is_digit c = true /\ is_letter c = false /\ is_space c = false.
Proof.
  intros (d & Hd & ->). assert (is_digit (48 + d) = true) as Hdig.
  { unfold is_digit. apply bool_decide_eq_true. rewrite digit_value_ascii by done. by eexists. }
  split_and!; [done| |by apply digit_not_space].
  unfold is_letter. apply orb_false_iff. split; apply andb_false_iff; left; apply Z.leb_gt; lia.
Qed.

Lemma ascii_digit_mod n : ascii_digit (48 + n mod 10).
Proof. exists (n mod 10). split; [|done]. pose proof (Z.mod_pos_bound n 10). lia. Qed.

Lemma dec_fuel_chars f n : Forall ascii_digit (dec_fuel f n).
Proof.
  revert n. induction f as [|f IH]; intros n; simpl; [done|].
  apply Forall_app. split; [destruct (n <? 10); [done|apply IH]|].
  constructor; [apply ascii_digit_mod|done].
Qed.

Lemma dec_fuel_nonempty f n : dec_fuel (S f) n <> [].
Proof. simpl. destruct (_ <? _); [done|]. by destruct (dec_fuel f _). Qed.

Lemma py_int_dec_fuel f n : 0 <= n < 10 ^ Z.of_nat f -> py_int (dec_fuel f n) = n.
Proof.
  revert n. induction f as [|f IH]; intros n Hn; simpl.
  - simpl in Hn. unfold py_int. simpl. lia.
  - rewrite py_int_snoc, digit_value_ascii by (pose proof (Z.mod_pos_bound n 10); lia). simpl.
    destruct (Z.ltb_spec n 10).
    + rewrite Z.mod_small by lia. unfold py_int. simpl. lia.
    + rewrite IH; [pose proof (Z.div_mod n 10); lia|].
      rewrite Nat2Z.inj_succ, Z.pow_succ_r in Hn by lia.
      split; [apply Z.div_pos; lia|]. apply Z.div_lt_upper_bound; lia.
Qed.

Lemma length_dec_fuel f n k :
  0 <= n < 10 ^ Z.of_nat k -> (1 <= k)%nat -> (length (dec_fuel f n) <= k)%nat.
Proof.
  revert n k. induction f as [|f IH]; intros n k Hn Hk; simpl; [lia|].
  rewrite length_app. simpl. destruct (Z.ltb_spec n 10); simpl; [lia|].
  destruct k as [|[|k]]; [lia| |].
  - simpl in Hn. lia.
  - assert (0 <= n / 10 < 10 ^ Z.of_nat (S k)).
    { rewrite !Nat2Z.inj_succ, Z.pow_succ_r in Hn by lia. rewrite Nat2Z.inj_succ.
      split; [apply Z.div_pos; lia|]. apply Z.div_lt_upper_bound; lia. }
    specialize (IH (n / 10) (S k) ltac:(done) ltac:(lia)). lia.
Qed.

(** [S (log2 n)] digits are enough for [n]. *)
Lemma dec_enough n : 0 <= n -> n < 10 ^ Z.of_nat (S (Z.to_nat (Z.log2 n))).
Proof.
  intros Hn. rewrite Nat2Z.inj_succ, Z2Nat.id by apply Z.log2_nonneg.
  apply (Z.lt_le_trans _ (2 ^ Z.succ (Z.log2 n))).
  - destruct (Z.eq_dec n 0) as [->|]; [simpl; lia|]. apply Z.log2_spec. lia.
  - apply Z.pow_le_mono_l. pose proof (Z.log2_nonneg n). lia.
Qed.

Lemma py_int_dec n : 0 <= n -> py_int (dec n) = n.
Proof. intros Hn. apply py_int_dec_fuel. split; [done|]. by apply dec_enough. Qed.

Lemma length_dec n : int_ok n -> (length (dec n) <= int_max_str_digits)%nat.
Proof. intros Hn. apply (length_dec_fuel _ _ 4300); [exact Hn|lia]. Qed.

(** [int()] reads a written integer back. *)
Lemma py_int_checked_dec n : int_ok n -> py_int_checked (dec n) = Some n.
Proof.
  intros Hn. unfold py_int_checked. rewrite bool_decide_eq_false_2 by (pose proof (length_dec n Hn); lia).
  f_equal. apply py_int_dec. apply Hn.
Qed.

Lemma dec_digits n : Forall (fun c => is_digit c = true) (dec n).
Proof. eapply Forall_impl; [apply dec_fuel_chars|]. intros c Hc. apply (ascii_digit_classes c Hc). Qed.

Lemma py_int_two a b : 0 <= a <= 9 -> 0 <= b <= 9 -> py_int [48 + a; 48 + b] = a * 10 + b.
Proof. intros Ha Hb. unfold py_int. simpl. rewrite !digit_value_ascii by done. simpl. lia. Qed.

(** The decimal value of a written size, up to [Qeq]. *)
Lemma py_decimal_dec2 h : 0 <= h -> exists q, py_decimal (dec2 h) = Some q /\ (q == hundredths h)%Q.
Proof.
  intros Hh. pose proof (Z.mod_pos_bound h 10). pose proof (Z.mod_pos_bound (h / 10) 10).
  unfold py_decimal, dec2.
  rewrite span_unique by (apply dec_digits || reflexivity).
  assert (forallb is_digit [48 + (h / 10) mod 10; 48 + h mod 10] = true) as ->.
  { simpl. rewrite !(proj1 (ascii_digit_classes _ (ascii_digit_mod _))). done. }
  rewrite Z.eqb_refl. unfold dec.
  destruct (dec_fuel (S (Z.to_nat (Z.log2 (h / 100)))) (h / 100)) as [|c0 ds] eqn:E;
    [by apply dec_fuel_nonempty in E|].
  eexists. split; [reflexivity|]. rewrite <- E.
  change (dec_fuel (S (Z.to_nat (Z.log2 (h / 100)))) (h / 100)) with (dec (h / 100)).
  rewrite py_int_dec by (apply Z.div_pos; lia). rewrite py_int_two by lia.
  assert (h = 100 * (h / 100) + ((h / 10) mod 10 * 10 + h mod 10)) as Eh.
  { assert (h / 100 = h / 10 / 10) as -> by (rewrite Z.div_div by lia; reflexivity).
    pose proof (Z.div_mod h 10 ltac:(lia)). pose proof (Z.div_mod (h / 10) 10 ltac:(lia)). lia. }
  unfold hundredths.
  transitivity (inject_Z (100 * (h / 100) + ((h / 10) mod 10 * 10 + h mod 10)) / 100)%Q;
    [|by rewrite <- Eh].
  change (inject_Z (10 ^ Z.of_nat (length _))) with 100%Q.
  rewrite !inject_Z_plus, !inject_Z_mult. field.
Qed.

(** [float()] reads a written size back, up to [Qeq]: below the overflow
    threshold it is a finite float. *)
Lemma py_float_dec2 h : size_ok h -> exists q, py_float (dec2 h) = Some (Fin q) /\ (q == hundredths h)%Q.
Proof.
  intros [Hh Hb]. destruct (py_decimal_dec2 h Hh) as (q & Eq & Hq). exists q. split; [|done].
  unfold py_float. rewrite Eq. cbn [fmap option_fmap option_map]. unfold float_of_Q. f_equal.
  assert (H0 : (0 <= hundredths h)%Q).
  { unfold hundredths. apply Qle_shift_div_l; [reflexivity|]. rewrite Qmult_0_l. change 0%Q with (inject_Z 0).
    by rewrite <- Zle_Qle. }
  assert (Ht : (0 < float_overflow)%Q) by reflexivity.
  destruct (Qle_bool float_overflow q) eqn:E1; [apply Qle_bool_iff in E1; lra|].
  destruct (Qle_bool q (- float_overflow)) eqn:E2; [apply Qle_bool_iff in E2; lra|done].
Qed.

(** ** The fields of a written record *)

Definition key_okb (k : text) : bool := forallb is_letter k && nonempty k.

Lemma key_okb_spec k : key_okb k = true -> key_ok k.
Proof.
  unfold key_okb. intros [Hl Hn]%andb_true_iff. split; [by apply forallb_Forall_true|].
  destruct k as [|c k]; [done|]. simpl in Hl. by apply andb_true_iff in Hl as [? _].
Qed.

Lemma v2_keys_ok : Forall key_ok v2_keys.
Proof.
  assert (forallb key_okb v2_keys = true) as H by reflexivity.
  apply forallb_Forall_true in H. eapply Forall_impl; [exact H|]. apply key_okb_spec.
Qed.

Lemma v2_keys_no_suffix : no_earlier_suffix [] v2_keys = true.
Proof. vm_compute. reflexivity. Qed.

Lemma v2_fields_no_suffix r : no_earlier_suffix [] (map fst (v2_fields r)) = true.
Proof. exact v2_keys_no_suffix. Qed.

Lemma dec_value_ok n : value_ok (dec n).
Proof.
  split; [apply dec_fuel_nonempty|]. eapply Forall_impl; [apply dec_fuel_chars|].
  intros c Hc. by destruct (ascii_digit_classes c Hc) as (_ & ? & ?).
Qed.

Lemma dec2_chars h : Forall (fun c => is_digit_or_dot c = true) (dec2 h).
Proof.
  unfold dec2. apply Forall_app. split.
  - eapply Forall_impl; [apply dec_digits|]. intros c Hc. unfold is_digit_or_dot. by rewrite Hc.
  - pose proof (fun n => proj1 (ascii_digit_classes _ (ascii_digit_mod n))) as Hd.
    unfold is_digit_or_dot. constructor; [reflexivity|].
    constructor; [by rewrite Hd|]. constructor; [by rewrite Hd|constructor].
Qed.

Lemma ascii_digit_mod_classes n : is_letter (48 + n mod 10) = false /\ is_space (48 + n mod 10) = false.
Proof. by destruct (ascii_digit_classes _ (ascii_digit_mod n)) as (_ & ? & ?). Qed.

Lemma dec2_value_ok h : value_ok (dec2 h).
Proof.
  split; [unfold dec2; by destruct (dec _)|].
  unfold dec2. apply Forall_app. split; [apply dec_value_ok|].
  constructor; [split; reflexivity|].
  constructor; [apply ascii_digit_mod_classes|].
  constructor; [apply ascii_digit_mod_classes|constructor].
Qed.

Lemma v2_fields_ok r : Forall field_ok (v2_fields r).
Proof.
  pose proof v2_keys_ok as Hk. unfold v2_keys in Hk.
  repeat (apply Forall_cons in Hk as [? Hk]).
  repeat constructor; try assumption; apply dec_value_ok || apply dec2_value_ok.
Qed.

(** [re.search] finds each field of a rendered record. *)
Lemma search_field cls fs i key v :
  cls 44 = false -> no_earlier_suffix [] (map fst fs) = true -> Forall field_ok fs ->
  fs !! i = Some (key, v) -> Forall (fun c => cls c = true) v ->
  re_search_first (match_field cls key) (render fs) = Some v.
Proof.
  intros Hcls Hsuf Hok Hi Hv.
  destruct (no_earlier_suffix_take _ _ _ _ _ Hsuf Hi) as [_ Hpre].
  rewrite <- (take_drop_middle fs i _ Hi) in Hok |- *.
  apply search_render; try done.
  rewrite Forall_forall in Hok. apply (Hok (key, v)). apply elem_of_app. right. by left.
Qed.

Lemma int_field_render r i key n :
  v2_fields r !! i = Some (key, dec n) -> int_ok n -> int_field key (render (v2_fields r)) = Some n.
Proof.
  intros Hi Hn. unfold int_field.
  rewrite (search_field is_digit _ i key (dec n) eq_refl (v2_fields_no_suffix r) (v2_fields_ok r) Hi (dec_digits n)).
  by apply py_int_checked_dec.
Qed.

Lemma float_field_render r i key h :
  v2_fields r !! i = Some (key, dec2 h) -> float_field key (render (v2_fields r)) = PyFloat <$> py_float (dec2 h).
Proof.
  intros Hi. unfold float_field.
  by rewrite (search_field is_digit_or_dot _ i key (dec2 h) eq_refl (v2_fields_no_suffix r) (v2_fields_ok r) Hi (dec2_chars h)).
Qed.

(** A written record is read back as one row of its values. *)
Lemma v2_parse_row_encode n r :
  v2_source_ok r -> exists row, V2.parse_row n (render (v2_fields r)) = Some row /\ row_of_source r row.
Proof.
  intros (H0 & H1 & H2 & H3 & H4 & H5 & H6 & H7 & H8 & H9 & H10).
  destruct (py_float_dec2 _ H4) as (q4 & E4 & Q4).
  destruct (py_float_dec2 _ H5) as (q5 & E5 & Q5).
  destruct (py_float_dec2 _ H6) as (q6 & E6 & Q6).
  destruct (py_float_dec2 _ H10) as (q10 & E10 & Q10).
  unfold V2.parse_row.
  rewrite (int_field_render r 0 _ _ eq_refl H0), (int_field_render r 1 _ _ eq_refl H1),
    (int_field_render r 2 _ _ eq_refl H2), (int_field_render r 3 _ _ eq_refl H3),
    (float_field_render r 4 _ _ eq_refl), E4, (float_field_render r 5 _ _ eq_refl), E5,
    (float_field_render r 6 _ _ eq_refl), E6, (int_field_render r 7 _ _ eq_refl H7),
    (int_field_render r 8 _ _ eq_refl H8), (int_field_render r 9 _ _ eq_refl H9),
    (float_field_render r 10 _ _ eq_refl), E10.
  eexists. split; [reflexivity|]. split_and!; try done; eexists; split; done.
Qed.

(** ** Reading a log of written records *)

Lemma match_folder_v2_consumes s a r : match_folder_v2 s = Some (a, r) -> exists c pre, s = c :: pre ++ r.
Proof.
  unfold match_folder_v2. rewrite match_blob_first_brace by auto using brace_close_first with bk.
  intros (-> & _ & _)%first_brace_spec. exists 128300, (tl folder_prefix_v2 ++ a ++ [125]).
  by rewrite <- !app_assoc.
Qed.

Lemma render_nonempty f fs : render (f :: fs) <> [].
Proof.
  assert (exists X, render (f :: fs) = seg f ++ X) as [X ->].
  { destruct fs as [|g fs]; [exists []; by rewrite app_nil_r|by eexists]. }
  unfold seg. intros H. apply app_eq_nil in H as [H _]. apply app_eq_nil in H as [_ H]. done.
Qed.

Lemma render_no_brace fs :
  Forall (fun kv => Forall (fun c => not_brace c = true) (kv.1 ++ kv.2)) fs ->
  Forall (fun c => not_brace c = true) (render fs).
Proof.
  induction 1 as [|[k v] fs Hf Hfs IH]; [constructor|].
  apply Forall_app in Hf as [Hk Hv].
  assert (Forall (fun c => not_brace c = true) (seg (k, v))) as Hs.
  { unfold seg. apply Forall_app. split; [done|]. by repeat constructor. }
  destruct fs as [|g fs]; [done|]. rewrite render_cons_ne by done.
  apply Forall_app. split; [done|]. apply Forall_app. split; [by repeat constructor|done].
Qed.

Lemma digit_or_dot_not_brace c : is_digit_or_dot c = true -> not_brace c = true.
Proof.
  unfold not_brace. destruct (Z.eqb_spec c 125) as [->|]; [|done]. by vm_compute.
Qed.

Lemma letter_not_brace c : is_letter c = true -> not_brace c = true.
Proof.
  unfold not_brace. destruct (Z.eqb_spec c 125) as [->|]; [|done]. by vm_compute.
Qed.

Lemma v2_render_no_brace r : Forall (fun c => not_brace c = true) (render (v2_fields r)).
Proof.
  apply render_no_brace.
  assert (forall n, Forall (fun c => not_brace c = true) (dec n)) as Hd.
  { intros n. eapply Forall_impl; [apply dec_digits|]. intros c Hc.
    apply digit_or_dot_not_brace. unfold is_digit_or_dot. by rewrite Hc. }
  assert (forall h, Forall (fun c => not_brace c = true) (dec2 h)) as Hd2.
  { intros h. eapply Forall_impl; [apply dec2_chars|]. apply digit_or_dot_not_brace. }
  pose proof v2_keys_ok as Hk. unfold v2_keys in Hk.
  repeat (apply Forall_cons in Hk as [[? _] Hk]).
  unfold v2_fields.
  repeat (apply Forall_cons; split;
    [apply Forall_app; split; cbn [fst snd];
     solve [eapply Forall_impl; [eassumption|apply letter_not_brace] | apply Hd | apply Hd2]|]).
  constructor.
Qed.

Lemma match_folder_v2_encode r rest :
  match_folder_v2 (encode_v2 r ++ 10 :: rest) = Some (render (v2_fields r), 10 :: rest).
Proof.
  unfold match_folder_v2. rewrite match_blob_first_brace by auto using brace_close_first with bk.
  apply first_brace_spec. split_and!.
  - unfold encode_v2. by rewrite <- !app_assoc.
  - apply render_nonempty.
  - apply v2_render_no_brace.
Qed.

Lemma findall_encode_log rs :
  findall_blobs match_folder_v2 (encode_log rs) = map (fun r => render (v2_fields r)) rs.
Proof.
  unfold findall_blobs. induction rs as [|r rs IH].
  - change (encode_log []) with (@nil Z). by rewrite (finditer_nil match_folder_v2).
  - cbn [encode_log map concat]. rewrite <- app_assoc. simpl app at 2.
    rewrite (finditer_snd_match _ match_folder_v2_consumes _ _ _ (match_folder_v2_encode r _)).
    rewrite finditer_snd_skip by reflexivity. by f_equal.
Qed.

(** When every match converts, the loop keeps them all, in order. *)
Lemma folder_loop_all_ok {R} (row : nat -> text -> option R) ms :
  (forall n m, m ∈ ms -> is_Some (row n m)) ->
  warnings (folder_loop row ms) = [] /\
  Forall2 (fun m r => exists n, row n m = Some r) ms (folder_data (folder_loop row ms)).
Proof.
  induction ms as [|m ms IH] using rev_ind; intros Hall; [done|].
  destruct IH as [Hw H2]; [intros n m' Hm; apply Hall, elem_of_app; by left|].
  rewrite folder_loop_snoc. unfold folder_step.
  destruct (Hall (test_run (folder_loop row ms)) m) as [r Hr]; [apply elem_of_app; right; by left|].
  rewrite Hr. simpl. split; [done|]. apply Forall2_app; [done|]. repeat constructor. by eexists.
Qed.

Lemma v2_rows_of_sources rs rows :
  Forall v2_source_ok rs ->
  Forall2 (fun r row => exists n, V2.parse_row n (render (v2_fields r)) = Some row) rs rows ->
  Forall2 row_of_source rs rows.
Proof.
  intros Hok H2. induction H2 as [|r row rs rows [n Hr] _ IH]; [constructor|].
  apply Forall_cons in Hok as [Hr0 Hok]. constructor; [|by apply IH].
  destruct (v2_parse_row_encode n r Hr0) as (row' & Hr' & Hrow). congruence.
Qed.

(** * The round trip *)

(** C6: A log of records written after the V2 marker, with non-negative
    integers of at most 4300 digits and sizes in hundredths, is read back
    without a warning, one row per record in order, numbered from 1, each
    holding the written values. *)
Theorem v2_folder_roundtrip rs :
  Forall v2_source_ok rs ->
  warnings (V2.parse_folder_analysis_data (encode_log rs)) = [] /\
  Forall2 row_of_source rs (folder_data (V2.parse_folder_analysis_data (encode_log rs))) /\
  map V2.test_run_no (folder_data (V2.parse_folder_analysis_data (encode_log rs))) = seq 1 (length rs).
Proof.
  intros Hok. unfold V2.parse_folder_analysis_data. rewrite findall_encode_log.
  destruct (folder_loop_all_ok V2.parse_row (map (fun r => render (v2_fields r)) rs)) as [Hw H2].
  { intros n m (r & -> & Hr)%list_elem_of_fmap_1. rewrite Forall_forall in Hok.
    destruct (v2_parse_row_encode n r (Hok r Hr)) as (row & -> & _). by eexists. }
  apply Forall2_fmap_l in H2. split_and!; [done|by apply v2_rows_of_sources|].
  rewrite (folder_loop_numbered _ _ V2_parse_row_num). f_equal.
  symmetry. by apply Forall2_length in H2.
Qed.

Definition sample_source : v2_source := V2Source 1733000000000 120 14 11 8050 1275 9325 9 4 106 213.

Lemma sample_source_ok : Forall v2_source_ok [sample_source].
Proof.
  repeat constructor; unfold int_ok; simpl;
    first [apply Z.leb_le; reflexivity | apply Z.ltb_lt; reflexivity].
Qed.

Lemma v2_folder_roundtrip_witness :
  Forall v2_source_ok [sample_source] /\
  warnings (V2.parse_folder_analysis_data (encode_log [sample_source])) = [].
Proof. split; [exact sample_source_ok|]. exact (proj1 (v2_folder_roundtrip _ sample_source_ok)). Defined.
