(* ===== verification/FileAccess.v ===== *)
(** * The file counters

    The four scripts at the root of [src/] walk a directory and classify
    its files the way a browser's folder picker might:
    - [count_browser_files_fast.py]: [is_browser_accessible_fast] (name
      checks, then [os.stat] and the Windows attribute bits) and
      [count_browser_files_fast];
    - [count_browser_accessible_files.py]: [is_browser_accessible] ([os.stat]
      and the bits first, then the name checks, then an [open] and a read)
      and [analyze_browser_accessibility] with its categories by substring;
    - [count_hidden_files.py]: [is_hidden_windows], [is_hidden_unix],
      [is_system_file_windows] and [count_files_in_directory];
    - [count_files_with_access.py]: [check_file_accessibility].
    The file system is an oracle, a [file_system] record: what [os.stat]
    returns or raises for a path, what [open(path, 'rb').read(1)] raises,
    and what kind of object a path names.  [os.walk] is its output, the
    list of [(root, files)] it yields, in order; the counters read the
    files of each [root] in turn.  An exception is a kind (the class that
    the [except] clauses test) and its [str()].  Paths follow [ntpath], the
    [os.path] of Windows, where the attribute bits exist. *)

From S2P Require Import Prelude Pattern.
Local Open Scope Z_scope.

(** ** The platform *)

(** The [FILE_ATTRIBUTE_*] constants of Python's [stat] module. *)
Definition FILE_ATTRIBUTE_HIDDEN : Z := 2.
Definition FILE_ATTRIBUTE_SYSTEM : Z := 4.
Definition FILE_ATTRIBUTE_TEMPORARY : Z := 256.
Definition FILE_ATTRIBUTE_REPARSE_POINT : Z := 1024.
Definition FILE_ATTRIBUTE_OFFLINE : Z := 4096.
(** The Windows SDK value; Python's [stat] module does not define it. *)
Definition FILE_ATTRIBUTE_RECALL_ON_DATA_ACCESS : Z := 4194304.

(** [hasattr(stat, 'FILE_ATTRIBUTE_RECALL_ON_DATA_ACCESS')]: [stat.py] and
    [_stat] define seventeen [FILE_ATTRIBUTE_*] names, and this is not one. *)
Definition stat_has_recall : bool := false.

(** [attrs & bit], as Python's truth value. *)
Definition has_bit (attrs bit : Z) : bool := negb (Z.land attrs bit =? 0).

(** The classes the [except] clauses test.  [PermissionError] and
    [FileNotFoundError] are subclasses of [OSError]. *)
Inductive os_error_kind := FileNotFoundError | PermissionError | OtherOSError.

(** [os.stat(path)]: a result, with [st_file_attributes] on Windows only,
    an [OSError], or another exception (a [ValueError] for a path with a
    NUL character). *)
Inductive stat_result :=
| StatOk (attrs : option Z)
| StatOSError (k : os_error_kind) (msg : text)
| StatOther (msg : text).

(** [open(path, 'rb')] and [read(1)]. *)
Inductive open_result := OpenOk | OpenOSError (k : os_error_kind) (msg : text).

Inductive path_kind := Missing | IsDir | IsFile.

Record file_system := FileSystem {
  fs_stat : text -> stat_result;
  fs_open : text -> open_result;
  fs_kind : text -> path_kind
}.

(** ** [os.path]: [join] and [basename] of [ntpath] and [posixpath] *)

Definition is_sep (c : Z) : bool := (c =? 92) || (c =? 47).

(** [splitdrive] of Python 3.11: a UNC prefix [\\server\share] or a drive
    letter [X:]. *)
Definition find_sep_from (s : text) (i : nat) : option nat :=
  match list_find (fun c => is_sep c = true) (drop i s) with
  | Some (j, _) => Some (i + j)%nat
  | None => None
  end.

Definition splitdrive (p : text) : text * text :=
  match p with
  | c0 :: c1 :: rest =>
      if is_sep c0 && is_sep c1 && negb (match rest with c2 :: _ => is_sep c2 | [] => false end) then
        match find_sep_from p 2 with
        | None => ([], p)
        | Some index =>
            match find_sep_from p (S index) with
            | Some index2 => if bool_decide (index2 = S index) then ([], p) else (take index2 p, drop index2 p)
            | None => (p, [])
            end
        end
      else if c1 =? 58 then ([c0; c1], rest) else ([], p)
  | _ => ([], p)
  end.

(** [basename(p)]: what follows the last separator after the drive. *)
Definition nt_basename (p : text) : text :=
  let d_rest := (splitdrive p).2 in
  rev (span (fun c => negb (is_sep c)) (rev d_rest)).1.

(** [join(root, name)] for a relative [name] without drive, the names
    [os.walk] yields: a [\] goes between unless [root] already ends in a
    separator or is empty, and between a UNC drive and a relative path. *)
Definition nt_join (root name : text) : text :=
  let '(d, rp) := splitdrive root in
  let rp := match last rp with Some c => if is_sep c then rp else rp ++ [92] | None => rp end in
  let rp := rp ++ name in
  match rp with
  | c :: _ => if negb (is_sep c) && nonempty d && negb (bool_decide (last d = Some 58))
              then d ++ [92] ++ rp else d ++ rp
  | [] => d ++ rp
  end.

(** [posixpath.join(root, name)] for a relative [name], and [basename]. *)
Definition posix_join (root name : text) : text :=
  match last root with
  | None => name
  | Some c => if c =? 47 then root ++ name else root ++ [47] ++ name
  end.

Definition posix_basename (p : text) : text := rev (span (fun c => negb (c =? 47)) (rev p)).1.

(** [os.name == 'nt'] chooses the module. *)
Definition os_join (nt : bool) : text -> text -> text := if nt then nt_join else posix_join.
Definition os_basename (nt : bool) : text -> text := if nt then nt_basename else posix_basename.

(** The paths of [for root, dirs, files in os.walk(directory): for file in
    files: filepath = os.path.join(root, file)]. *)
Definition walk_paths (nt : bool) (walk : list (text * list text)) : list text :=
  concat (map (fun '(root, files) => map (os_join nt root) files) walk).

(** ** Strings *)

(** [str.lower()] on what the classifications compare: ASCII letters, and
    the two code points whose lower case is ASCII ([K] KELVIN SIGN and
    [İ], which becomes [i] and a combining dot).  Other code points are
    kept: their lower case is not ASCII, so no comparison or substring
    test against an ASCII word changes. *)
Definition lower_char (c : Z) : text :=
  if (65 <=? c) && (c <=? 90) then [c + 32]
  else if c =? 8490 then [107]
  else if c =? 304 then [105; 775]
  else [c].

Definition py_lower (s : text) : text := concat (map lower_char s).

Definition startswith (s pre : text) : bool :=
  match strip_prefix pre s with Some _ => true | None => false end.

Definition endswith (s suf : text) : bool := startswith (rev s) (rev suf).

(** [(key, count)] pairs in insertion order: [d[k] = d.get(k, 0) + 1]
    updates a key in place and appends a new one. *)
Fixpoint dict_inc (k : text) (d : list (text * nat)) : list (text * nat) :=
  match d with
  | [] => [(k, 1%nat)]
  | (k', n) :: d' => if bool_decide (k = k') then (k', S n) :: d' else (k', n) :: dict_inc k d'
  end.

(** ** [is_browser_accessible_fast] ([count_browser_files_fast.py], lines 11-65) *)

Definition R_hidden_dot : text := Eval vm_compute in U"Hidden (dot file)".
Definition R_system_metadata : text := Eval vm_compute in U"System metadata".
Definition R_temp_file : text := Eval vm_compute in U"Temp file".
Definition R_not_accessible : text := Eval vm_compute in U"File not accessible: ".
Definition R_permission_denied : text := Eval vm_compute in U"Permission denied".
Definition R_hidden_windows : text := Eval vm_compute in U"Hidden file (Windows)".
Definition R_system_windows : text := Eval vm_compute in U"System file (Windows)".
Definition R_temporary : text := Eval vm_compute in U"Temporary file".
Definition R_cloud_offline : text := Eval vm_compute in U"Cloud file (offline)".
Definition R_cloud_placeholder : text := Eval vm_compute in U"Cloud placeholder".
Definition R_reparse : text := Eval vm_compute in U"Reparse point (likely cloud)".
Definition R_accessible : text := Eval vm_compute in U"Accessible".
Definition R_error : text := Eval vm_compute in U"Error: ".

Definition DOT : text := [46].
Definition TILDE : text := [126].
Definition DOT_TMP : text := Eval vm_compute in U".tmp".
Definition metadata_names : list text := Eval vm_compute in [U"thumbs.db"; U"desktop.ini"; U".ds_store"].

(** The attribute checks of the fast check, in order. *)
Definition fast_attr_reason (attrs : Z) : option text :=
  if has_bit attrs FILE_ATTRIBUTE_HIDDEN then Some R_hidden_windows
  else if has_bit attrs FILE_ATTRIBUTE_SYSTEM then Some R_system_windows
  else if has_bit attrs FILE_ATTRIBUTE_TEMPORARY then Some R_temporary
  else if has_bit attrs FILE_ATTRIBUTE_OFFLINE then Some R_cloud_offline
  else if stat_has_recall && has_bit attrs FILE_ATTRIBUTE_RECALL_ON_DATA_ACCESS then Some R_cloud_placeholder
  else if has_bit attrs FILE_ATTRIBUTE_REPARSE_POINT then Some R_reparse
  else None.

(** The name checks, then [os.stat].  The [except (FileNotFoundError,
    OSError)] clause catches every [OSError], [PermissionError] included,
    so the [except PermissionError] clause after it never runs; an
    exception of another class reaches the outer [except Exception]. *)
Definition is_browser_accessible_fast (nt : bool) (fs : file_system) (filepath : text) : bool * text :=
  let filename := os_basename nt filepath in
  if startswith filename DOT then (false, R_hidden_dot)
  else if bool_decide (py_lower filename ∈ metadata_names) then (false, R_system_metadata)
  else if startswith filename TILDE || endswith filename DOT_TMP then (false, R_temp_file)
  else match fs_stat fs filepath with
       | StatOSError _ msg => (false, R_not_accessible ++ take 50 msg)
       | StatOther msg => (false, R_error ++ take 30 msg)
       | StatOk None => (true, R_accessible)
       | StatOk (Some attrs) =>
           match fast_attr_reason attrs with
           | Some r => (false, r)
           | None => (true, R_accessible)
           end
       end.

(** The counts of [count_browser_files_fast] (lines 67-105). *)
Record fast_counts := FastCounts {
  total_files : nat;
  browser_accessible : nat;
  exclusions : list (text * nat);
  examples : list (text * text)
}.

Definition fast_counts0 : fast_counts := FastCounts 0 0 [] [].

Definition fast_step (nt : bool) (fs : file_system) (c : fast_counts) (filepath : text) : fast_counts :=
  let '(accessible, reason) := is_browser_accessible_fast nt fs filepath in
  if accessible then FastCounts (S (total_files c)) (S (browser_accessible c)) (exclusions c) (examples c)
  else FastCounts (S (total_files c)) (browser_accessible c) (dict_inc reason (exclusions c))
         (if bool_decide (length (examples c) < 15)%nat then examples c ++ [(filepath, reason)] else examples c).

Definition count_browser_files_fast (nt : bool) (fs : file_system) (walk : list (text * list text)) : fast_counts :=
  foldl (fast_step nt fs) fast_counts0 (walk_paths nt walk).

(** ** [is_browser_accessible] ([count_browser_accessible_files.py], lines 12-81) *)

Definition R_hidden_file : text := Eval vm_compute in U"Hidden file".
Definition R_system_file : text := Eval vm_compute in U"System file".
Definition R_offline_placeholder : text := Eval vm_compute in U"Offline/cloud placeholder".
Definition R_cloud_recall : text := Eval vm_compute in U"Cloud recall file".
Definition R_dot_file : text := Eval vm_compute in U"Dot file (Unix hidden)".
Definition R_metadata_file : text := Eval vm_compute in U"System metadata file".
Definition R_file_access_error : text := Eval vm_compute in U"File access error: ".
Definition R_stat_error : text := Eval vm_compute in U"Stat error: ".

Definition full_attr_reason (attrs : Z) : option text :=
  if has_bit attrs FILE_ATTRIBUTE_HIDDEN then Some R_hidden_file
  else if has_bit attrs FILE_ATTRIBUTE_SYSTEM then Some R_system_file
  else if has_bit attrs FILE_ATTRIBUTE_TEMPORARY then Some R_temporary
  else if has_bit attrs FILE_ATTRIBUTE_OFFLINE then Some R_offline_placeholder
  else if stat_has_recall && has_bit attrs FILE_ATTRIBUTE_RECALL_ON_DATA_ACCESS then Some R_cloud_recall
  else None.

(** [os.stat] and the bits, the name checks, then [open] and [read(1)]: its
    [PermissionError] is caught first, any other [OSError] next.  A failing
    [os.stat] reaches the outer [except Exception]. *)
Definition is_browser_accessible (nt : bool) (fs : file_system) (filepath : text) : bool * text :=
  match fs_stat fs filepath with
  | StatOSError _ msg | StatOther msg => (false, R_stat_error ++ msg)
  | StatOk attrs =>
      match attrs ≫= full_attr_reason with
      | Some r => (false, r)
      | None =>
          let filename := os_basename nt filepath in
          if startswith filename DOT then (false, R_dot_file)
          else if startswith filename TILDE && endswith filename DOT_TMP then (false, R_temp_file)
          else if bool_decide (py_lower filename ∈ metadata_names) then (false, R_metadata_file)
          else match fs_open fs filepath with
               | OpenOk => (true, R_accessible)
               | OpenOSError PermissionError _ => (false, R_permission_denied)
               | OpenOSError _ msg => (false, R_file_access_error ++ msg)
               end
      end
  end.

Definition W_hidden : text := Eval vm_compute in U"hidden".
Definition W_system : text := Eval vm_compute in U"system".
Definition W_permission : text := Eval vm_compute in U"permission".
Definition W_cloud : text := Eval vm_compute in U"cloud".
Definition W_offline : text := Eval vm_compute in U"offline".
Definition W_temp : text := Eval vm_compute in U"temp".

(** The category of an exclusion, by substring of [reason.lower()]. *)
Inductive category := CatHidden | CatSystem | CatPermission | CatCloud | CatTemp | CatOther.

Definition categorize (reason : text) : category :=
  let r := py_lower reason in
  if contains W_hidden r then CatHidden
  else if contains W_system r then CatSystem
  else if contains W_permission r then CatPermission
  else if contains W_cloud r || contains W_offline r then CatCloud
  else if contains W_temp r then CatTemp
  else CatOther.

(** The counts of [analyze_browser_accessibility] (lines 83-134). *)
Record browser_counts := BrowserCounts {
  b_total_files : nat;
  b_browser_accessible : nat;
  b_hidden_files : nat;
  b_system_files : nat;
  b_permission_denied : nat;
  b_cloud_files : nat;
  b_temp_files : nat;
  b_other_excluded : nat;
  b_exclusion_reasons : list (text * nat);
  b_excluded_examples : list (text * text)
}.

Definition browser_counts0 : browser_counts := BrowserCounts 0 0 0 0 0 0 0 0 [] [].

Definition bump_category (c : browser_counts) (cat : category) : browser_counts :=
  match c with
  | BrowserCounts t a h s p cl tm o r e =>
      match cat with
      | CatHidden => BrowserCounts t a (S h) s p cl tm o r e
      | CatSystem => BrowserCounts t a h (S s) p cl tm o r e
      | CatPermission => BrowserCounts t a h s (S p) cl tm o r e
      | CatCloud => BrowserCounts t a h s p (S cl) tm o r e
      | CatTemp => BrowserCounts t a h s p cl (S tm) o r e
      | CatOther => BrowserCounts t a h s p cl tm (S o) r e
      end
  end.

Definition browser_step (nt : bool) (fs : file_system) (c : browser_counts) (filepath : text) : browser_counts :=
  let c := match c with BrowserCounts t a h s p cl tm o r e => BrowserCounts (S t) a h s p cl tm o r e end in
  let '(accessible, reason) := is_browser_accessible nt fs filepath in
  if accessible then
    match c with BrowserCounts t a h s p cl tm o r e => BrowserCounts t (S a) h s p cl tm o r e end
  else
    match bump_category c (categorize reason) with
    | BrowserCounts t a h s p cl tm o r e =>
        BrowserCounts t a h s p cl tm o (dict_inc reason r)
          (if bool_decide (length e < 20)%nat then e ++ [(filepath, reason)] else e)
    end.

Definition analyze_browser_accessibility (nt : bool) (fs : file_system) (walk : list (text * list text)) : browser_counts :=
  foldl (browser_step nt fs) browser_counts0 (walk_paths nt walk).

(** ** [count_files_in_directory] ([count_hidden_files.py], lines 14-89) *)

(** [is_hidden_windows] and [is_system_file_windows]: [attrs & bit], and
    [False] on an [OSError] or a missing [st_file_attributes]; an exception
    of another class escapes. *)
Definition attr_test (fs : file_system) (bit : Z) (filepath : text) : text + bool :=
  match fs_stat fs filepath with
  | StatOk (Some attrs) => inr (has_bit attrs bit)
  | StatOk None | StatOSError _ _ => inr false
  | StatOther msg => inl msg
  end.

Definition is_hidden_windows (fs : file_system) : text -> text + bool := attr_test fs FILE_ATTRIBUTE_HIDDEN.
Definition is_system_file_windows (fs : file_system) : text -> text + bool := attr_test fs FILE_ATTRIBUTE_SYSTEM.

Definition is_hidden_unix (filepath : text) : bool := startswith (posix_basename filepath) DOT.

Record hidden_counts := HiddenCounts {
  h_total_files : nat;
  h_hidden_files : nat;
  h_system_files : nat;
  h_visible_files : nat;
  h_errors : nat;
  h_error_files : list (text * text)
}.

(** How the function ends: its counts, the [FileNotFoundError] or
    [NotADirectoryError] it raises for a bad argument, or an exception that
    escapes the loop. *)
Inductive count_outcome := Counted (c : hidden_counts) | DirError (msg : text) | Escaped (msg : text).

(** One file of the loop.  The loop's [except (OSError, PermissionError)]
    would count an error, but both tests catch [OSError] themselves. *)
Definition hidden_step (nt : bool) (fs : file_system) (c : hidden_counts) (filepath : text) : text + hidden_counts :=
  let c := HiddenCounts (S (h_total_files c)) (h_hidden_files c) (h_system_files c)
             (h_visible_files c) (h_errors c) (h_error_files c) in
  match (if nt then is_hidden_windows fs filepath else inr (is_hidden_unix filepath)) with
  | inl msg => inl msg
  | inr is_hidden =>
  match (if nt then is_system_file_windows fs filepath else inr false) with
  | inl msg => inl msg
  | inr is_system =>
  inr (HiddenCounts (h_total_files c)
         (if is_hidden then S (h_hidden_files c) else h_hidden_files c)
         (if is_system then S (h_system_files c) else h_system_files c)
         (if negb is_hidden && negb is_system then S (h_visible_files c) else h_visible_files c)
         (h_errors c) (h_error_files c))
  end end.

Fixpoint hidden_loop (nt : bool) (fs : file_system) (c : hidden_counts) (paths : list text) : text + hidden_counts :=
  match paths with
  | [] => inr c
  | p :: ps => match hidden_step nt fs c p with inl msg => inl msg | inr c' => hidden_loop nt fs c' ps end
  end.

Definition R_dir_not_found : text := Eval vm_compute in U"Directory not found: ".
Definition R_not_a_dir : text := Eval vm_compute in U"Path is not a directory: ".

Definition count_files_in_directory (nt : bool) (fs : file_system) (directory_path : text)
    (walk : list (text * list text)) : count_outcome :=
  match fs_kind fs directory_path with
  | Missing => DirError (R_dir_not_found ++ directory_path)
  | IsFile => DirError (R_not_a_dir ++ directory_path)
  | IsDir =>
      match hidden_loop nt fs (HiddenCounts 0 0 0 0 0 []) (walk_paths nt walk) with
      | inl msg => Escaped msg
      | inr c => Counted c
      end
  end.

(** ** [check_file_accessibility] ([count_files_with_access.py], lines 11-48) *)

Record access_counts := AccessCounts {
  a_total_files : nat;
  a_accessible_files : nat;
  a_cloud_only_files : nat;
  a_permission_errors : nat;
  a_cloud_files : list (text * text);
  a_error_files : list (text * text)
}.

Definition access_step (fs : file_system) (c : access_counts) (filepath : text) : access_counts :=
  match c with
  | AccessCounts t a cl p cf ef =>
      match fs_open fs filepath with
      | OpenOk => AccessCounts (S t) (S a) cl p cf ef
      | OpenOSError PermissionError _ => AccessCounts (S t) a cl (S p) cf (ef ++ [(filepath, R_permission_denied)])
      | OpenOSError _ msg => AccessCounts (S t) a (S cl) p (cf ++ [(filepath, msg)]) ef
      end
  end.

Definition check_file_accessibility (nt : bool) (fs : file_system) (walk : list (text * list text)) : access_counts :=
  foldl (access_step fs) (AccessCounts 0 0 0 0 [] []) (walk_paths nt walk).

(** * Properties *)

(** ** Helpers *)

Lemma dict_inc_sum k d : sum_list_with snd (dict_inc k d) = S (sum_list_with snd d).
Proof.
  induction d as [|[k' n] d IH]; simpl; [done|].
  case_bool_decide; simpl; [done|]. by rewrite IH.
Qed.

Lemma take_snoc {A} (l : list A) x n :
  take n (l ++ [x]) = if bool_decide (length l < n)%nat then l ++ [x] else take n l.
Proof.
  rewrite take_app. case_bool_decide.
  - rewrite take_ge by lia. destruct (n - length l)%nat eqn:E; [lia|]. simpl. by rewrite take_nil.
  - replace (n - length l)%nat with 0%nat by lia. by rewrite app_nil_r.
Qed.

(** The excluded files of a walk with their reasons, in order. *)
Definition excluded (classify : text -> bool * text) (ps : list text) : list (text * text) :=
  map (fun p => (p, (classify p).2)) (filter (fun p => (classify p).1 = false) ps).

Lemma excluded_snoc classify ps p :
  excluded classify (ps ++ [p]) =
  excluded classify ps ++ (if (classify p).1 then [] else [(p, (classify p).2)]).
Proof.
  unfold excluded. rewrite filter_app, map_app. f_equal.
  rewrite filter_cons, filter_nil.
  destruct (classify p) as [[] r] eqn:E; case_decide as H; rewrite ?E in H |- *; simpl in *.
  all: rewrite ?E; done.
Qed.

Lemma take_snoc_bounded {A} n (l : list A) x :
  (if bool_decide (length (take n l) < n)%nat then take n l ++ [x] else take n l) = take n (l ++ [x]).
Proof.
  rewrite take_snoc, length_take. repeat case_bool_decide; try lia; [|done].
  by rewrite take_ge by lia.
Qed.

Lemma foldl_snoc {A B} (f : A -> B -> A) a l x : foldl f a (l ++ [x]) = f (foldl f a l) x.
Proof. by rewrite foldl_app. Qed.

Lemma py_lower_app a b : py_lower (a ++ b) = py_lower a ++ py_lower b.
Proof. unfold py_lower. by rewrite map_app, concat_app. Qed.

Lemma py_lower_head_dot s r : py_lower s = 46 :: r -> head s = Some 46.
Proof.
  destruct s as [|c s]; [done|]. unfold py_lower; cbn [map concat]. unfold lower_char.
  destruct ((65 <=? c) && (c <=? 90)) eqn:E1;
    [|destruct (c =? 8490) eqn:E2; [|destruct (c =? 304) eqn:E3]]; cbn [app]; intros H;
    inversion H as [Hc]; clear H.
  - apply andb_true_iff in E1 as [E1 _]. apply Z.leb_le in E1. lia.
  - by subst.
Qed.

Lemma contains_app_r needle a b : contains needle b = true -> contains needle (a ++ b) = true.
Proof. rewrite !contains_spec. intros (x & y & ->). exists (a ++ x), y. by rewrite <- !app_assoc. Qed.

Lemma fast_full_attr_none attrs : fast_attr_reason attrs = None -> full_attr_reason attrs = None.
Proof.
  unfold fast_attr_reason, full_attr_reason, stat_has_recall; cbn [andb].
  repeat destruct (has_bit _ _); done.
Qed.

(** ** The counting loops *)

Section Loops.
Context (nt : bool) (fs : file_system).

Lemma fast_loop_spec ps :
  let c := foldl (fast_step nt fs) fast_counts0 ps in
  total_files c = length ps /\
  total_files c = (browser_accessible c + sum_list_with snd (exclusions c))%nat /\
  examples c = take 15 (excluded (is_browser_accessible_fast nt fs) ps).
Proof.
  induction ps as [|p ps IH] using rev_ind; [done|]. cbv zeta in *.
  rewrite foldl_snoc, excluded_snoc, length_app.
  destruct (foldl (fast_step nt fs) fast_counts0 ps) as [t a ex eg].
  cbn [total_files browser_accessible exclusions examples] in IH. destruct IH as (H1 & H2 & H3). subst eg.
  unfold fast_step. destruct (is_browser_accessible_fast nt fs p) as [[] r]; cbn.
  - rewrite app_nil_r. split_and!; [lia|lia|done].
  - rewrite dict_inc_sum. split_and!; [lia|lia|apply take_snoc_bounded].
Qed.

Lemma browser_loop_spec ps :
  let c := foldl (browser_step nt fs) browser_counts0 ps in
  b_total_files c = length ps /\
  b_total_files c = (b_browser_accessible c + b_hidden_files c + b_system_files c + b_permission_denied c
                     + b_cloud_files c + b_temp_files c + b_other_excluded c)%nat /\
  sum_list_with snd (b_exclusion_reasons c) = (b_total_files c - b_browser_accessible c)%nat /\
  b_excluded_examples c = take 20 (excluded (is_browser_accessible nt fs) ps).
Proof.
  induction ps as [|p ps IH] using rev_ind; [done|]. cbv zeta in *.
  rewrite foldl_snoc, excluded_snoc, length_app.
  destruct (foldl (browser_step nt fs) browser_counts0 ps) as [t a h s pd cl tm o r e].
  cbn in IH. destruct IH as (H1 & H2 & H3 & H4). subst e.
  unfold browser_step. destruct (is_browser_accessible nt fs p) as [[] reason]; cbn.
  - rewrite app_nil_r. split_and!; [lia|lia|lia|done].
  - destruct (categorize reason); cbn; rewrite dict_inc_sum;
      (split_and!; [lia|lia|lia|apply take_snoc_bounded]).
Qed.

(** The files whose [open] raised [PermissionError]. *)
Definition open_denied (p : text) : bool :=
  match fs_open fs p with OpenOSError PermissionError _ => true | _ => false end.

Lemma access_loop_spec ps :
  let c := foldl (access_step fs) (AccessCounts 0 0 0 0 [] []) ps in
  a_total_files c = length ps /\
  a_total_files c = (a_accessible_files c + a_cloud_only_files c + a_permission_errors c)%nat /\
  length (a_cloud_files c) = a_cloud_only_files c /\
  map fst (a_error_files c) = filter open_denied ps /\ length (a_error_files c) = a_permission_errors c.
Proof.
  induction ps as [|p ps IH] using rev_ind; [done|]. cbv zeta in *.
  rewrite foldl_snoc, filter_app, length_app.
  destruct (foldl (access_step fs) (AccessCounts 0 0 0 0 [] []) ps) as [t a cl pd cf ef].
  cbn in IH. destruct IH as (H1 & H2 & H3 & H4 & H5).
  unfold access_step, filter, open_denied. cbn [list_filter].
  destruct (fs_open fs p) as [|[] m]; cbn; rewrite ?length_app, ?map_app, ?app_nil_r, ?H4; cbn;
    (split_and!; [lia|lia|lia|done|lia]).
Qed.

(** Each file is hidden, a system file, or visible, and visible only when
    neither. *)
Definition hidden_inv (c : hidden_counts) : Prop :=
  (h_hidden_files c + h_visible_files c <= h_total_files c)%nat /\
  (h_system_files c + h_visible_files c <= h_total_files c)%nat /\
  (h_total_files c <= h_hidden_files c + h_system_files c + h_visible_files c)%nat.

Lemma hidden_step_spec c p c1 :
  hidden_step nt fs c p = inr c1 -> hidden_inv c ->
  hidden_inv c1 /\ h_total_files c1 = S (h_total_files c) /\
  h_errors c1 = h_errors c /\ h_error_files c1 = h_error_files c.
Proof.
  destruct c as [t h s v e ef]. unfold hidden_step, hidden_inv; cbn.
  repeat case_match; intros Heq Hi; try discriminate; injection Heq as <-; cbn; split_and!; done || lia.
Qed.

Lemma hidden_loop_spec ps : forall c c',
  hidden_loop nt fs c ps = inr c' -> hidden_inv c ->
  hidden_inv c' /\ h_total_files c' = (h_total_files c + length ps)%nat /\
  h_errors c' = h_errors c /\ h_error_files c' = h_error_files c.
Proof.
  induction ps as [|p ps IH]; intros c c' Hl Hi; cbn in Hl.
  - injection Hl as <-. split_and!; auto; lia.
  - destruct (hidden_step nt fs c p) as [m|c1] eqn:Hs; [done|].
    destruct (hidden_step_spec c p c1 Hs Hi) as (Hi1 & Ht1 & He1 & Hf1).
    destruct (IH c1 c' Hl Hi1) as (Hi' & Ht & He & Hf).
    cbn [length]. split_and!; [done|lia|congruence|congruence].
Qed.

Lemma hidden_loop_posix ps : forall c, exists c', hidden_loop false fs c ps = inr c'.
Proof.
  induction ps as [|p ps IH]; intros c; [by exists c|].
  cbn [hidden_loop]. unfold hidden_step; cbn. apply IH.
Qed.

End Loops.

Lemma fast_attr_reason_head a r : fast_attr_reason a = Some r -> head r <> Some 80.
Proof.
  unfold fast_attr_reason, stat_has_recall; cbn [andb].
  repeat destruct (has_bit _ _); intros Hr; try discriminate; injection Hr as <-; vm_compute; congruence.
Qed.

(** ** The counters' results *)

(** C18: [count_browser_files_fast] counts each file of the walk once, as
    accessible or under its exclusion reason, and keeps the first fifteen
    excluded files with their reasons, in walk order. *)
Theorem count_browser_files_fast_partition nt fs walk :
  let c := count_browser_files_fast nt fs walk in
  total_files c = length (walk_paths nt walk) /\
  total_files c = (browser_accessible c + sum_list_with snd (exclusions c))%nat /\
  examples c = take 15 (excluded (is_browser_accessible_fast nt fs) (walk_paths nt walk)).
Proof. apply fast_loop_spec. Qed.

(** [analyze_browser_accessibility] puts each file in exactly one of
    its seven counters, the reason counts add up to the excluded files, and
    the examples are the first twenty excluded files. *)
Theorem analyze_browser_accessibility_partition nt fs walk :
  let c := analyze_browser_accessibility nt fs walk in
  b_total_files c = length (walk_paths nt walk) /\
  b_total_files c = (b_browser_accessible c + b_hidden_files c + b_system_files c + b_permission_denied c
                     + b_cloud_files c + b_temp_files c + b_other_excluded c)%nat /\
  sum_list_with snd (b_exclusion_reasons c) = (b_total_files c - b_browser_accessible c)%nat /\
  b_excluded_examples c = take 20 (excluded (is_browser_accessible nt fs) (walk_paths nt walk)).
Proof. apply browser_loop_spec. Qed.

(** [check_file_accessibility] counts each file once as accessible,
    cloud-only or denied; the denied list holds exactly the files whose
    [open] raised [PermissionError], in walk order. *)
Theorem check_file_accessibility_partition nt fs walk :
  let c := check_file_accessibility nt fs walk in
  a_total_files c = length (walk_paths nt walk) /\
  a_total_files c = (a_accessible_files c + a_cloud_only_files c + a_permission_errors c)%nat /\
  length (a_cloud_files c) = a_cloud_only_files c /\
  map fst (a_error_files c) = filter (open_denied fs) (walk_paths nt walk) /\
  length (a_error_files c) = a_permission_errors c.
Proof. apply access_loop_spec. Qed.

(** C19: when [count_files_in_directory] returns its counts, [errors] is 0
    and [error_files] empty (both tests catch [OSError] themselves), every
    file is counted, and each is hidden, system or visible. *)
Theorem count_files_in_directory_counts nt fs d walk c :
  count_files_in_directory nt fs d walk = Counted c ->
  h_errors c = 0%nat /\ h_error_files c = [] /\
  h_total_files c = length (walk_paths nt walk) /\ hidden_inv c.
Proof.
  unfold count_files_in_directory. destruct (fs_kind fs d); try done.
  destruct (hidden_loop nt fs _ _) as [m|c'] eqn:Hl; [done|]. intros [= <-].
  destruct (hidden_loop_spec nt fs _ _ _ Hl) as (Hi & Ht & He & Hf); [cbv; lia|]. done.
Qed.

(** On POSIX [count_files_in_directory] of a directory always returns
    its counts: nothing escapes the loop. *)
Theorem count_files_in_directory_posix fs d walk :
  fs_kind fs d = IsDir -> exists c, count_files_in_directory false fs d walk = Counted c.
Proof.
  intros Hd. unfold count_files_in_directory. rewrite Hd.
  destruct (hidden_loop_posix fs (walk_paths false walk) (HiddenCounts 0 0 0 0 0 [])) as [c ->].
  by exists c.
Qed.

(** C22: the fast check never gives the reason ["Permission denied"]: its
    [except PermissionError] clause follows one that catches every
    [OSError]. *)
Theorem fast_never_permission_denied nt fs p :
  (is_browser_accessible_fast nt fs p).2 <> R_permission_denied.
Proof.
  intros Heq. apply (f_equal head) in Heq. revert Heq.
  unfold is_browser_accessible_fast.
  destruct (startswith _ DOT); [vm_compute; congruence|].
  case_bool_decide; [vm_compute; congruence|].
  destruct (_ || _); [vm_compute; congruence|].
  destruct (fs_stat fs p) as [[a|]|k m|m]; try (vm_compute; congruence).
  destruct (fast_attr_reason a) as [r|] eqn:Hr; [|vm_compute; congruence].
  by apply fast_attr_reason_head with a.
Qed.

(** the fast check gives ["System metadata"] only to [thumbs.db] and
    [desktop.ini] (in any case): the entry ['.ds_store'] of the list is
    never reached, since a name that lowers to it starts with a dot. *)
Theorem fast_metadata_names nt fs p :
  (is_browser_accessible_fast nt fs p).2 = R_system_metadata ->
  py_lower (os_basename nt p) ∈ take 2 metadata_names.
Proof.
  unfold is_browser_accessible_fast.
  destruct (startswith (os_basename nt p) DOT) eqn:Hd; [vm_compute; congruence|].
  case_bool_decide as Hm.
  - intros _. unfold metadata_names in *. cbn [take].
    apply elem_of_cons in Hm as [Hm|Hm]; [by apply elem_of_cons; left|].
    apply elem_of_cons in Hm as [Hm|Hm]; [by apply elem_of_cons; right; apply elem_of_cons; left|].
    apply list_elem_of_singleton in Hm. apply py_lower_head_dot in Hm.
    destruct (os_basename nt p) as [|c s]; [done|]. injection Hm as ->. vm_compute in Hd. congruence.
  - intros Heq. destruct (_ || _); [vm_compute in Heq; congruence|].
    destruct (fs_stat fs p) as [[a|]|k m|m];
      try (apply (f_equal head) in Heq; vm_compute in Heq; congruence).
    revert Heq. unfold fast_attr_reason, stat_has_recall; cbn [andb].
    repeat destruct (has_bit _ _); vm_compute; congruence.
Qed.

(** The cloud-placeholder branches of both checks are dead: Python's
    [stat] module has no [FILE_ATTRIBUTE_RECALL_ON_DATA_ACCESS], so the
    [hasattr] guard is false. *)
Theorem recall_branch_dead attrs :
  fast_attr_reason attrs <> Some R_cloud_placeholder /\ full_attr_reason attrs <> Some R_cloud_recall.
Proof.
  unfold fast_attr_reason, full_attr_reason, stat_has_recall; cbn [andb].
  split; repeat destruct (has_bit _ _); intros Heq; try discriminate;
    injection Heq as Heq; apply (f_equal head) in Heq; vm_compute in Heq; congruence.
Qed.

(** a file the fast check accepts and that [open] can read is
    accepted by the full check: the fast check tests a superset of the
    attribute bits and of the temp-name conditions. *)
Theorem fast_accepts_full_accepts nt fs p :
  (is_browser_accessible_fast nt fs p).1 = true -> fs_open fs p = OpenOk ->
  is_browser_accessible nt fs p = (true, R_accessible).
Proof.
  unfold is_browser_accessible_fast, is_browser_accessible.
  destruct (startswith (os_basename nt p) DOT) eqn:Hd; [done|].
  case_bool_decide as Hm; [done|].
  destruct (startswith (os_basename nt p) TILDE); [done|].
  destruct (endswith (os_basename nt p) DOT_TMP); [done|]. cbn [orb andb].
  intros Hacc Ho.
  assert (attrs_none : forall a, fs_stat fs p = StatOk a -> a ≫= full_attr_reason = None).
  { intros [a|] Hs; [|done]. rewrite Hs in Hacc. cbn in Hacc |- *.
    apply fast_full_attr_none. by destruct (fast_attr_reason a). }
  destruct (fs_stat fs p) as [a|k m|m] eqn:Hs; try done.
  rewrite (attrs_none a eq_refl). cbn [andb]. rewrite ?bool_decide_false by done. by rewrite Ho.
Qed.

(** the two checks disagree on a name that starts with [~] but does
    not end in [.tmp]: the fast check tests [or], the full check [and], so
    the same readable file is a ["Temp file"] for one and accessible for
    the other. *)
Theorem tilde_file_divergence nt fs p attrs :
  startswith (os_basename nt p) DOT = false -> startswith (os_basename nt p) TILDE = true ->
  endswith (os_basename nt p) DOT_TMP = false -> py_lower (os_basename nt p) ∉ metadata_names ->
  fs_stat fs p = StatOk (Some attrs) -> full_attr_reason attrs = None -> fs_open fs p = OpenOk ->
  is_browser_accessible_fast nt fs p = (false, R_temp_file) /\
  is_browser_accessible nt fs p = (true, R_accessible).
Proof.
  intros Hd Ht He Hm Hs Ha Ho. unfold is_browser_accessible_fast, is_browser_accessible.
  rewrite Hd, Ht, He, Hs. cbn [orb andb]. rewrite bool_decide_false by done.
  cbn [mbind option_bind]. rewrite Ha; cbn [andb]; rewrite ?bool_decide_false by done; by rewrite Ho.
Qed.

(** [analyze_browser_accessibility] files an error by the words of
    its message: a stat or open error whose message names a path with
    [hidden] in it is counted as a hidden file. *)
Theorem categorize_error_by_message msg :
  contains W_hidden (py_lower msg) = true ->
  categorize (R_stat_error ++ msg) = CatHidden /\ categorize (R_file_access_error ++ msg) = CatHidden.
Proof.
  intros Hh. unfold categorize. rewrite !py_lower_app.
  by rewrite !contains_app_r by done.
Qed.

(** ** Witnesses *)

(** A file system where every path is a readable directory entry without
    attribute bits. *)
Definition sample_fs : file_system := FileSystem (fun _ => StatOk (Some 0)) (fun _ => OpenOk) (fun _ => IsDir).
Definition sample_dir : text := Eval vm_compute in U"d".
Definition sample_walk : list (text * list text) := Eval vm_compute in [(U"d", [U"a.txt"; U".b"])].

Lemma count_files_in_directory_counts_witness :
  count_files_in_directory false sample_fs sample_dir sample_walk = Counted (HiddenCounts 2 1 0 1 0 []) /\
  (h_errors (HiddenCounts 2 1 0 1 0 []) = 0%nat /\ h_error_files (HiddenCounts 2 1 0 1 0 []) = [] /\
   h_total_files (HiddenCounts 2 1 0 1 0 []) = length (walk_paths false sample_walk) /\
   hidden_inv (HiddenCounts 2 1 0 1 0 [])).
Proof.
  assert (H : count_files_in_directory false sample_fs sample_dir sample_walk = Counted (HiddenCounts 2 1 0 1 0 []))
    by (vm_compute; reflexivity).
  split; [exact H|exact (count_files_in_directory_counts false sample_fs _ _ _ H)].
Defined.

Lemma count_files_in_directory_posix_witness :
  fs_kind sample_fs sample_dir = IsDir /\
  exists c, count_files_in_directory false sample_fs sample_dir sample_walk = Counted c.
Proof. split; [reflexivity|apply count_files_in_directory_posix; reflexivity]. Defined.

Lemma fast_never_permission_denied_witness :
  (is_browser_accessible_fast false sample_fs sample_dir).2 <> R_permission_denied.
Proof. apply fast_never_permission_denied. Defined.

Definition thumbs_path : text := Eval vm_compute in U"d/Thumbs.db".

Lemma fast_metadata_names_witness :
  (is_browser_accessible_fast false sample_fs thumbs_path).2 = R_system_metadata /\
  py_lower (os_basename false thumbs_path) ∈ take 2 metadata_names.
Proof.
  assert (H : (is_browser_accessible_fast false sample_fs thumbs_path).2 = R_system_metadata)
    by (vm_compute; reflexivity).
  split; [exact H|exact (fast_metadata_names false sample_fs thumbs_path H)].
Defined.

Definition plain_path : text := Eval vm_compute in U"d/a.txt".

Lemma fast_accepts_full_accepts_witness :
  (is_browser_accessible_fast false sample_fs plain_path).1 = true /\
  is_browser_accessible false sample_fs plain_path = (true, R_accessible).
Proof.
  split; [vm_compute; reflexivity|].
  apply fast_accepts_full_accepts; vm_compute; reflexivity.
Defined.

Definition tilde_path : text := Eval vm_compute in U"d/~a.txt".

Lemma tilde_file_divergence_witness :
  is_browser_accessible_fast false sample_fs tilde_path = (false, R_temp_file) /\
  is_browser_accessible false sample_fs tilde_path = (true, R_accessible).
Proof.
  apply (tilde_file_divergence false sample_fs tilde_path 0); try (vm_compute; reflexivity).
  apply (bool_decide_unpack (py_lower (os_basename false tilde_path) ∉ metadata_names)). vm_compute. exact I.
Defined.

Definition hidden_msg : text := Eval vm_compute in U"[Errno 5] Input/output error: '/home/u/.hidden/a.txt'".

Lemma categorize_error_by_message_witness :
  contains W_hidden (py_lower hidden_msg) = true /\
  categorize (R_stat_error ++ hidden_msg) = CatHidden /\ categorize (R_file_access_error ++ hidden_msg) = CatHidden.
Proof.
  assert (H : contains W_hidden (py_lower hidden_msg) = true) by (vm_compute; reflexivity).
  split; [exact H|exact (categorize_error_by_message hidden_msg H)].
Defined.
