(* ===== verification/HiddenReport.v ===== *)
(** * The report and the examples of [src/count_hidden_files.py]

    [FileAccess.v] models [count_files_in_directory].  This file models
    what [main] does with its counts: [print_results] (lines 91-122), the
    percentages as [:.1f] prints them and the first five access errors, and the [--show-examples]
    rescan (lines 146-170), two nested loops over [os.walk] that list the
    first ten hidden files, the inner [break] leaving the inner loop only
    and the outer test leaving the outer one.  The hidden test is the one
    [count_files_in_directory] uses: [is_hidden_windows] on Windows and
    [is_hidden_unix] elsewhere; an exception that is not an [OSError]
    escapes [main], whose [except] names only [FileNotFoundError],
    [NotADirectoryError] and [KeyboardInterrupt]. *)

From S2P Require Import Prelude Stats FileAccess.
From Stdlib Require Import QArith Qabs Lqa.
Local Open Scope Z_scope.

Module HiddenMain.

(** ** [print_results] *)

Record report := Report {
  percentages : option (Q * Q * Q);      (** visible, hidden, system, as printed *)
  shown_errors : list (text * text);     (** the first five [error_files] *)
  more_errors : option nat               (** [... and N more] *)
}.

(** [(k / t) * 100] of lines 105-107, as the exact rational: the two
    roundings of binary64 (relative error below [2^-52]) are not modelled. *)
Definition percent (k t : nat) : Q := (inject_Z (Z.of_nat k) / inject_Z (Z.of_nat t) * 100)%Q.

(** What [f"{p:.1f}%"] of lines 110-112 prints: one decimal, ties to even. *)
Definition printed_percent (k t : nat) : Q := format_fixed 1 (percent k t).

Definition print_results (c : hidden_counts) : report :=
  let t := h_total_files c in
  Report (if bool_decide (0 < t)%nat
          then Some (printed_percent (h_visible_files c) t, printed_percent (h_hidden_files c) t,
                     printed_percent (h_system_files c) t)
          else None)
         (take 5 (h_error_files c))
         (if bool_decide (5 < length (h_error_files c))%nat then Some (length (h_error_files c) - 5)%nat else None).

(** ** The rescan of [--show-examples] *)

(** [is_hidden_func(filepath)]. *)
Definition hidden_test (nt : bool) (fs : file_system) (p : text) : text + bool :=
  if nt then is_hidden_windows fs p else inr (is_hidden_unix p).

(** The inner loop of lines 155-164 over the files of one directory: the
    examples so far, and whether it left by [break]. *)
Fixpoint inner_loop (nt : bool) (fs : file_system) (root : text) (shown : list text) (files : list text)
    : text + (list text * bool) :=
  match files with
  | [] => inr (shown, false)
  | f :: fs' =>
      let p := os_join nt root f in
      match hidden_test nt fs p with
      | inl msg => inl msg
      | inr true =>
          let shown := shown ++ [p] in
          if bool_decide (10 <= length shown)%nat then inr (shown, true) else inner_loop nt fs root shown fs'
      | inr false => inner_loop nt fs root shown fs'
      end
  end.

(** The outer loop of lines 154-166. *)
Fixpoint outer_loop (nt : bool) (fs : file_system) (shown : list text) (walk : list (text * list text))
    : text + list text :=
  match walk with
  | [] => inr shown
  | (root, files) :: walk' =>
      match inner_loop nt fs root shown files with
      | inl msg => inl msg
      | inr (shown, _) => if bool_decide (10 <= length shown)%nat then inr shown else outer_loop nt fs shown walk'
      end
  end.

(** What the rescan prints: the examples, and the closing line of
    lines 168-169 when it stopped at ten. *)
Definition show_examples (nt : bool) (fs : file_system) (walk : list (text * list text)) : text + (list text * bool) :=
  match outer_loop nt fs [] walk with
  | inl msg => inl msg
  | inr shown => inr (shown, bool_decide (10 <= length shown)%nat)
  end.

(** ** [main] (lines 124-177) *)

Inductive main_outcome :=
| MainExit (msg : text)                                   (** [sys.exit(1)] after [Error: ...] *)
| MainEscaped (msg : text)                                (** an exception [main] does not catch *)
| MainDone (r : report) (examples : option (list text * bool)).

Definition main (nt : bool) (fs : file_system) (directory : text) (show : bool)
    (walk : list (text * list text)) : main_outcome :=
  match count_files_in_directory nt fs directory walk with
  | DirError msg => MainExit msg
  | Escaped msg => MainEscaped msg
  | Counted c =>
      if show && bool_decide (0 < h_hidden_files c)%nat then
        match show_examples nt fs walk with
        | inl msg => MainEscaped msg
        | inr ex => MainDone (print_results c) (Some ex)
        end
      else MainDone (print_results c) None
  end.

End HiddenMain.

(** * Properties *)

Module HiddenMainProps.
Import HiddenMain.

Section Scan.
Context (nt : bool) (fs : file_system).

(** The files the hidden test accepts. *)
Definition hidden_ok (p : text) : Prop := hidden_test nt fs p = inr true.

#[export] Instance hidden_ok_dec p : Decision (hidden_ok p).
Proof. unfold hidden_ok. apply _. Qed.

Lemma take_10_short (l : list text) : (length l < 10)%nat -> take 10 l = l.
Proof. intros H. apply take_ge. lia. Qed.

(** Once ten are taken, what follows does not matter. *)
Lemma take_10_app (l r : list text) : (10 <= length (take 10 l))%nat -> take 10 (l ++ r) = take 10 l.
Proof. intros H. rewrite length_take in H. rewrite take_app_le; [done|lia]. Qed.

(** The inner loop adds the next hidden files of its directory, up to ten
    in all. *)
Lemma inner_loop_spec root files : forall shown shown' b,
  (length shown < 10)%nat -> inner_loop nt fs root shown files = inr (shown', b) ->
  shown' = take 10 (shown ++ filter hidden_ok (map (os_join nt root) files)).
Proof.
  induction files as [|f files IH]; intros shown shown' b Hs; cbn [inner_loop map].
  - intros [= <- _]. by rewrite app_nil_r, take_10_short.
  - rewrite filter_cons.
    destruct (hidden_test nt fs (os_join nt root f)) as [m|[|]] eqn:Ht; [done| |].
    + rewrite decide_True by (unfold hidden_ok; done). case_bool_decide as H10.
      * intros [= <- _]. rewrite length_app in H10. cbn in H10.
        symmetry. rewrite cons_middle, app_assoc, take_app_le by (rewrite ?length_app; cbn; lia).
        apply take_ge. rewrite ?length_app. cbn. lia.
      * intros Hl. apply IH in Hl as ->; [by rewrite <- app_assoc|]. rewrite length_app in H10 |- *. cbn in *. lia.
    + rewrite decide_False by (unfold hidden_ok; by rewrite Ht). apply IH; done.
Qed.

(** The two loops list the first ten hidden files of the walk. *)
Lemma outer_loop_spec walk : forall shown shown',
  (length shown < 10)%nat -> outer_loop nt fs shown walk = inr shown' ->
  shown' = take 10 (shown ++ filter hidden_ok (walk_paths nt walk)).
Proof.
  induction walk as [|[root files] walk IH]; intros shown shown' Hs; cbn [outer_loop].
  - intros [= <-]. unfold walk_paths. cbn. by rewrite app_nil_r, take_10_short.
  - destruct (inner_loop nt fs root shown files) as [m|[s1 b]] eqn:Hi; [done|].
    pose proof (inner_loop_spec root files shown s1 b Hs Hi) as ->.
    unfold walk_paths. cbn [map concat]. fold (walk_paths nt walk). rewrite filter_app, app_assoc.
    case_bool_decide as H10.
    + intros [= <-]. symmetry. by apply take_10_app.
    + assert (Hs1 : (length (take 10 (shown ++ filter hidden_ok (map (os_join nt root) files))) < 10)%nat) by lia.
      intros Hl. apply IH in Hl as ->; [|done]. rewrite length_take in Hs1.
      by rewrite (take_10_short (shown ++ filter hidden_ok (map (os_join nt root) files))) by lia.
Qed.

(** The counting loop counts exactly the files the hidden test accepts. *)
Lemma hidden_loop_hidden ps : forall c c',
  hidden_loop nt fs c ps = inr c' -> h_hidden_files c' = (h_hidden_files c + length (filter hidden_ok ps))%nat.
Proof.
  induction ps as [|p ps IH]; intros c c'; cbn [hidden_loop].
  - intros [= <-]. cbn. lia.
  - destruct (hidden_step nt fs c p) as [m|c1] eqn:Hs; [done|]. intros Hl. rewrite (IH _ _ Hl), filter_cons.
    unfold hidden_step in Hs.
    change (if nt then is_hidden_windows fs p else inr (is_hidden_unix p)) with (hidden_test nt fs p) in Hs.
    destruct (hidden_test nt fs p) as [m|[|]] eqn:Ht; [done| |];
      destruct (if nt then is_system_file_windows fs p else inr false) as [m'|sys]; try done;
      injection Hs as <-; cbn.
    + rewrite decide_True by (unfold hidden_ok; done). cbn. lia.
    + rewrite decide_False by (unfold hidden_ok; by rewrite Ht). lia.
Qed.

End Scan.


(** C20: With [--show-examples], the rescan lists exactly the first ten
    hidden files in the order of [os.walk], as many as [min(10,
    hidden_files)] of the count, and prints its closing line exactly when
    the count found ten hidden files or more. *)
Theorem show_examples_first_ten nt fs d walk c ex :
  count_files_in_directory nt fs d walk = Counted c -> show_examples nt fs walk = inr ex ->
  ex.1 = take 10 (filter (hidden_ok nt fs) (walk_paths nt walk)) /\
  length ex.1 = Nat.min 10 (h_hidden_files c) /\ (ex.2 = true <-> (10 <= h_hidden_files c)%nat).
Proof.
  unfold count_files_in_directory, show_examples.
  destruct (fs_kind fs d); try done.
  destruct (hidden_loop nt fs _ _) as [m|c'] eqn:Hl; [done|]. intros [= <-].
  destruct (outer_loop nt fs [] walk) as [m|shown] eqn:Ho; [done|]. intros [= <-]. cbn [fst snd].
  pose proof (outer_loop_spec nt fs walk [] shown ltac:(cbn; lia) Ho) as ->.
  rewrite (hidden_loop_hidden nt fs _ _ _ Hl). cbn [h_hidden_files app].
  rewrite length_take. split_and!; [done|lia|]. rewrite bool_decide_eq_true. lia.
Qed.






End HiddenMainProps.

Module HiddenExamples.
Import HiddenMain HiddenMainProps.

(** A POSIX tree with three dot files in two directories. *)
Definition ex_walk : list (text * list text) :=
  Eval vm_compute in [(U"/d", [U".a"; U"b"; U".c"]); (U"/d/s", [U".e"; U"f"])].

Definition ex_counts : hidden_counts :=
  Eval vm_compute in
    match count_files_in_directory false sample_fs U"/d" ex_walk with
    | Counted c => c | _ => HiddenCounts 0 0 0 0 0 []
    end.

Lemma ex_counted : count_files_in_directory false sample_fs U"/d" ex_walk = Counted ex_counts.
Proof. vm_compute. reflexivity. Qed.

Definition ex_shown : list text * bool :=
  Eval vm_compute in match show_examples false sample_fs ex_walk with inr e => e | inl _ => ([], false) end.

Lemma ex_shown_eq : show_examples false sample_fs ex_walk = inr ex_shown.
Proof. vm_compute. reflexivity. Qed.

Lemma show_examples_first_ten_witness :
  ex_shown.1 = take 10 (filter (hidden_ok false sample_fs) (walk_paths false ex_walk)) /\
  length ex_shown.1 = Nat.min 10 (h_hidden_files ex_counts) /\ (ex_shown.2 = true <-> (10 <= h_hidden_files ex_counts)%nat).
Proof. exact (show_examples_first_ten false sample_fs U"/d" ex_walk ex_counts ex_shown ex_counted ex_shown_eq). Defined.


End HiddenExamples.
