(* ===== verification/PhaseStats.v ===== *)
(** * The phase statistics of [analyze_processing_phases.py]

    [analyze_phase_statistics] (lines 103-139) summarises each numeric
    column of the durations frame that [calculate_phase_durations]
    builds ([Phases.Analysis]) over its positive values.
    [identify_major_phases] (lines 141-163) turns each column's total
    into a percentage of the summed ['Total Time'], sorts the rows by
    total and keeps rows until the running percentage reaches 90.
    ['Total Time'] is itself a numeric column of the frame.  Its total is
    the whole of the denominator, so it scores 100%: as soon as it is
    the largest total, it is the only "major phase".

    [sort_values] sorts with an unstable quicksort, so the order of rows
    with equal totals is the library's.  The sort is the interface
    [SortDesc]: a permutation sorted by decreasing total.  The standard
    deviation needs a square root and is not modelled. *)

From S2P Require Import Prelude Phases Stats.
From Stdlib Require Import QArith Lqa.

Module PhaseStats.
Import Analysis.

(** The numeric columns of the durations frame, ['Test Run'] excluded
    (lines 107-108), in the order of the dict of lines 54-97. *)
Inductive phase_col :=
| TotalTime | DeduplicationPhase | HashCalculation | UIUpdatePhase
| Chunk1Processing | Chunk2Processing | DOMRenderTime.

#[export] Instance phase_col_eq_dec : EqDecision phase_col.
Proof. solve_decision. Defined.

Definition numeric_cols : list phase_col :=
  [TotalTime; DeduplicationPhase; HashCalculation; UIUpdatePhase; Chunk1Processing; Chunk2Processing; DOMRenderTime].

Definition column (c : phase_col) (d : durations) : Z :=
  match c with
  | TotalTime => total_time d
  | DeduplicationPhase => deduplication_phase d
  | HashCalculation => hash_calculation d
  | UIUpdatePhase => ui_update_phase d
  | Chunk1Processing => chunk1_processing d
  | Chunk2Processing => chunk2_processing d
  | DOMRenderTime => dom_render_time d
  end.

#[export] Instance Q_eq_dec : EqDecision Q.
Proof. intros [a b] [c d]. solve_decision. Defined.

#[export] Instance pyfloat_eq_dec : EqDecision pyfloat.
Proof. solve_decision. Defined.

(** [Series.sum()] of an integer column. *)
Definition zsum (l : list Z) : Z := foldr Z.add 0%Z l.

(** A row of the statistics frame; the standard deviation is left out. *)
Record stat_row := StatRow {
  phase : phase_col;
  count : nat;
  min_ms : Z;
  max_ms : Z;
  average_ms : pyfloat;
  median_ms : pyfloat;
  total_contribution : Z
}.

#[export] Instance stat_row_eq_dec : EqDecision stat_row.
Proof. intros [] []. solve_decision. Defined.

(** The body of the loop of [analyze_phase_statistics] (lines 112-137). *)
Definition phase_stat (ds : list durations) (c : phase_col) : stat_row :=
  let non_zero_values := filter (fun v => (0 < v)%Z) (map (column c) ds) in
  match non_zero_values with
  | v :: vs =>
      StatRow c (length non_zero_values) (foldl Z.min v vs) (foldl Z.max v vs)
        (s_mean (map of_Z non_zero_values)) (s_median (map of_Z non_zero_values)) (zsum non_zero_values)
  | [] => StatRow c 0 0 0 (Fin 0) (Fin 0) 0
  end.

Definition analyze_phase_statistics (ds : list durations) : list stat_row :=
  map (phase_stat ds) numeric_cols.

(** ['Percentage of Total'] (line 148): a float division, so a zero
    ['Total Time'] sum gives an infinity or [NaN]. *)
Definition percentage (total : Z) (r : stat_row) : pyfloat :=
  fmul (fdiv (of_Z (total_contribution r)) (of_Z total)) (Fin 100).

(** What [sort_values('Total Contribution (ms)', ascending=False)]
    promises: the same rows, by decreasing total. *)
Definition contrib_ge (a b : stat_row * pyfloat) : Prop := (total_contribution b.1 <= total_contribution a.1)%Z.

Class SortDesc (sortf : list (stat_row * pyfloat) -> list (stat_row * pyfloat)) : Prop := {
  sort_perm : forall l, sortf l ≡ₚ l;
  sort_sorted : forall l, Sorted contrib_ge (sortf l)
}.

#[export] Instance contrib_ge_dec : RelDecision contrib_ge.
Proof. intros a b. unfold contrib_ge. apply _. Defined.

(** One sort meeting [SortDesc]: stdpp's merge sort. *)
Definition sort_by_contribution (l : list (stat_row * pyfloat)) : list (stat_row * pyfloat) :=
  merge_sort contrib_ge l.

#[export] Instance contrib_ge_total : Total contrib_ge.
Proof. intros a b. unfold contrib_ge. lia. Qed.

#[export] Instance sort_by_contribution_desc : SortDesc sort_by_contribution.
Proof. constructor; intros l; [apply merge_sort_Permutation|apply (Sorted_merge_sort contrib_ge)]. Qed.

(** The loop of lines 157-161: add the row's percentage, keep its phase,
    stop once the running sum is at least 90. *)
Fixpoint accumulate (cumulative_pct : pyfloat) (rows : list (stat_row * pyfloat)) : list phase_col :=
  match rows with
  | [] => []
  | (r, pct) :: rs =>
      let cum := fadd cumulative_pct pct in
      phase r :: (if fle (Fin 90) cum then [] else accumulate cum rs)
  end.

(** [identify_major_phases] (lines 141-163): the sorted frame with its
    percentages and the major phases. *)
Definition identify_major_phases (sortf : list (stat_row * pyfloat) -> list (stat_row * pyfloat))
    (stats : list stat_row) (ds : list durations) : list (stat_row * pyfloat) * list phase_col :=
  let total := zsum (map total_time ds) in
  let sorted := sortf (map (fun r => (r, percentage total r)) stats) in
  (sorted, accumulate (Fin 0) sorted).

(** * Properties *)

Lemma zsum_cons x l : zsum (x :: l) = (x + zsum l)%Z.
Proof. done. Qed.

(** Dropping the non-positive values of non-negative ones keeps the sum. *)
Lemma zsum_filter_pos l : Forall (fun v => 0 <= v)%Z l -> zsum (filter (fun v => (0 < v)%Z) l) = zsum l.
Proof.
  induction l as [|v l IH]; intros Hl; [done|]. apply Forall_cons in Hl as [Hv Hl].
  rewrite filter_cons. case_decide; rewrite ?zsum_cons, IH by done; lia.
Qed.

Lemma zsum_filter_nonneg l : (0 <= zsum (filter (fun v => (0 < v)%Z) l))%Z.
Proof.
  induction l as [|v l IH]; [done|]. rewrite filter_cons. case_decide; rewrite ?zsum_cons; lia.
Qed.

Lemma total_contribution_stat ds c :
  total_contribution (phase_stat ds c) = zsum (filter (fun v => (0 < v)%Z) (map (column c) ds)).
Proof. unfold phase_stat. by destruct (filter _ _). Qed.

Lemma phase_stat_phase ds c : phase (phase_stat ds c) = c.
Proof. unfold phase_stat. by destruct (filter _ _). Qed.

(** Each column's total is non-negative. *)
Lemma total_contribution_nonneg ds c : (0 <= total_contribution (phase_stat ds c))%Z.
Proof. rewrite total_contribution_stat. apply zsum_filter_nonneg. Qed.

(** When every ['Total Time'] is non-negative, the total of that column
    is the denominator of the percentages. *)
Lemma total_time_contribution ds : Forall (fun d => 0 <= total_time d)%Z ds ->
  total_contribution (phase_stat ds TotalTime) = zsum (map total_time ds).
Proof.
  intros Hd. rewrite total_contribution_stat. apply zsum_filter_pos.
  apply Forall_fmap. eapply Forall_impl; [exact Hd|]. done.
Qed.

(** A list sorted by decreasing total starts with the row whose total
    is strictly the largest. *)
Lemma sorted_desc_head l l0 x : Sorted contrib_ge l -> l ≡ₚ l0 -> x ∈ l0 ->
  (forall y, y ∈ l0 -> y <> x -> (total_contribution y.1 < total_contribution x.1)%Z) -> exists rest, l = x :: rest.
Proof.
  intros Hs Hp Hx Hmax. destruct l as [|h t].
  - apply Permutation_nil in Hp as ->. by apply elem_of_nil in Hx.
  - exists t. f_equal. destruct (decide (h = x)) as [|Hne]; [done|exfalso].
    assert (Hh : h ∈ l0) by (rewrite <- Hp; by left).
    assert (Hxt : x ∈ t).
    { assert (Hx' : x ∈ h :: t) by (by rewrite Hp). apply elem_of_cons in Hx' as [->|]; [done|done]. }
    apply Sorted_StronglySorted in Hs; [|intros a b c; unfold contrib_ge; lia].
    apply StronglySorted_inv in Hs as [_ Hall]. rewrite Forall_forall in Hall.
    pose proof (Hall x Hxt) as Hge. unfold contrib_ge in Hge.
    specialize (Hmax h Hh Hne). lia.
Qed.

(** A column whose total is all of a positive denominator scores 100%,
    and the loop stops at it. *)
Lemma accumulate_full r rs (T : Z) : total_contribution r = T -> (0 < T)%Z ->
  accumulate (Fin 0) ((r, percentage T r) :: rs) = [phase r].
Proof.
  intros Hr HT. cbn [accumulate]. unfold percentage, of_Z. rewrite Hr. cbn [fdiv fmul fadd].
  assert (HT' : ~ inject_Z T == 0) by (change 0 with (inject_Z 0); rewrite inject_Z_injective; lia).
  destruct (Qeq_bool (inject_Z T) 0) eqn:E; [apply Qeq_bool_iff in E; contradiction|].
  cbn [fmul fadd fle]. match goal with |- context [Qle_bool ?a ?b] => replace (Qle_bool a b) with true end; [done|].
  symmetry. apply Qle_bool_iff. field_simplify; [lra|done].
Qed.

(** C27: In [analyze_processing_phases.py], the phases "accounting for
    90% of processing time" are just ['Total Time'] whenever that column
    has the largest total and no negative entry: ['Total Time'] is one
    of the numeric columns summarised, its total is the whole
    denominator, so its percentage is 100 and the loop stops at it. *)
Theorem major_phases_total_only sortf `{!SortDesc sortf} ds :
  Forall (fun d => 0 <= total_time d)%Z ds ->
  (forall c, c <> TotalTime -> total_contribution (phase_stat ds c) < total_contribution (phase_stat ds TotalTime))%Z ->
  (identify_major_phases sortf (analyze_phase_statistics ds) ds).2 = [TotalTime].
Proof.
  intros Hd Hmax. unfold identify_major_phases. cbn [snd].
  set (T := zsum (map total_time ds)).
  set (x := (phase_stat ds TotalTime, percentage T (phase_stat ds TotalTime))).
  destruct (sorted_desc_head (sortf (map (fun r => (r, percentage T r)) (analyze_phase_statistics ds)))
              (map (fun r => (r, percentage T r)) (analyze_phase_statistics ds)) x) as [rest ->].
  - apply sort_sorted.
  - apply sort_perm.
  - apply list_elem_of_fmap. exists (phase_stat ds TotalTime). split; [done|]. apply list_elem_of_fmap.
    exists TotalTime. split; [done|]. by left.
  - intros y Hy Hne. apply list_elem_of_fmap in Hy as (r & -> & Hr). apply list_elem_of_fmap in Hr as (c & -> & _).
    cbn. apply Hmax. intros ->. done.
  - pose proof (Hmax DeduplicationPhase ltac:(done)) as H1. pose proof (total_contribution_nonneg ds DeduplicationPhase).
    unfold x. rewrite (accumulate_full _ _ T), phase_stat_phase; [done| |].
    + by apply total_time_contribution.
    + unfold T. rewrite <- (total_time_contribution ds Hd). lia.
Qed.

(** Two runs whose ['Total Time'] is a timestamp after every phase. *)
Definition ps_sample : list durations :=
  [Durations 1 5000 1200 800 2000 900 700 300; Durations 2 6000 1500 900 2500 1000 800 400].

Lemma major_phases_total_only_witness :
  (identify_major_phases sort_by_contribution (analyze_phase_statistics ps_sample) ps_sample).2 = [TotalTime].
Proof.
  apply (major_phases_total_only sort_by_contribution ps_sample).
  - unfold ps_sample. repeat constructor; cbn; lia.
  - intros [] Hc; [done|..]; vm_compute; reflexivity.
Defined.

End PhaseStats.
