(* ===== verification/Regression.v ===== *)
(** * Least squares on several features, [r2_score] and model selection

    Four of the calibration scripts fit [LinearRegression()] (with its
    default [fit_intercept=True]) on one to four columns, score each fit
    with [r2_score] on the rows it was fitted on, and keep the best one.
    This file models that machinery.
    - A column of [n] values is a [vec], a function from the row index;
      [dot n] is the inner product over the rows [0 .. n-1] and
      [lincomb k a vs] the combination [Σ_{m<k} a m * vs m] of [k] columns.
    - [lstsq] is Gram-Schmidt on the columns of the design (the constant
      column first, for the intercept), each basis vector carrying its
      coefficients over the original columns.  A column that depends on
      the earlier ones leaves a zero vector, which takes no coefficient.
    - [lstsq_spec] is what a least-squares solver promises (the normal
      equations: the residual is orthogonal to every column); [lstsq]
      meets it, and so does the closed form [ols] of [Stats.v].  Every
      solution of the normal equations has the same fitted values, so
      the predictions on the fitted rows, all the scripts use, do not
      depend on which solution [sklearn] returns (its minimum-norm one,
      which differs from [lstsq]'s only on collinear columns).
    - [r2_score] with [sklearn]'s conventions for fewer than two samples
      and for a constant target, and [py_max_by], Python's [max(...,
      key=...)], which keeps the first maximal element. *)

From S2P Require Import Prelude Stats.
From Stdlib Require Import QArith Qabs Lqa.
Local Open Scope Q_scope.

(** ** Finite sums and columns *)

(** [Σ_{i<n} f i] *)
Fixpoint sumq (n : nat) (f : nat -> Q) : Q :=
  match n with O => 0 | S n' => sumq n' f + f n' end.

(** [Σ_{x∈l} f x] *)
Definition lsum {A} (f : A -> Q) (l : list A) : Q := fold_right (fun x acc => f x + acc) 0 l.

Definition vec := nat -> Q.

Definition dot (n : nat) (u v : vec) : Q := sumq n (fun i => u i * v i).

Definition lincomb (k : nat) (a : nat -> Q) (vs : nat -> vec) : vec :=
  fun i => sumq k (fun m => a m * vs m i).

(** ** Gram-Schmidt with coefficients

    A basis element is a vector with its coefficients over the columns. *)

Definition belem : Type := vec * (nat -> Q).

(** The coefficient of the projection of [v] on [w]; 0 on a zero [w].
    The entries are kept in lowest terms ([Qred], which changes no
    value) so that the computation stays small. *)
Definition proj_coef (n : nat) (v w : vec) : Q :=
  if Qeq_bool (dot n w w) 0 then 0 else Qred (dot n v w / dot n w w).

(** Column [j] minus its projections on the basis [B]. *)
Definition gs_step (n : nat) (vs : nat -> vec) (B : list belem) (j : nat) : belem :=
  let cs := map (fun p : belem => (proj_coef n (vs j) p.1, p)) B in
  (fun i => Qred (vs j i - lsum (fun cp => cp.1 * cp.2.1 i) cs),
   fun m => Qred ((if decide (m = j) then 1 else 0) - lsum (fun cp => cp.1 * cp.2.2 m) cs)).

(** The basis of the first [k] columns, the last one first. *)
Fixpoint gram_schmidt (n : nat) (vs : nat -> vec) (k : nat) : list belem :=
  match k with
  | O => []
  | S k' => let B := gram_schmidt n vs k' in gs_step n vs B k' :: B
  end.

(** The coefficients of the projection of [y] on the first [k] columns. *)
Definition lstsq (n k : nat) (vs : nat -> vec) (y : vec) : nat -> Q :=
  let cs := map (fun p : belem => (proj_coef n y p.1, p)) (gram_schmidt n vs k) in
  fun m => Qred (lsum (fun cp => cp.1 * cp.2.2 m) cs).

(** What a least-squares solution is: the residual [y - X a] is orthogonal
    to each of the [k] columns. *)
Definition lstsq_spec (n k : nat) (vs : nat -> vec) (y : vec) (a : nat -> Q) : Prop :=
  forall m, (m < k)%nat -> dot n (fun i => y i - lincomb k a vs i) (vs m) == 0.

(** The sum of squared residuals of the coefficients [a]. *)
Definition rss (n k : nat) (vs : nat -> vec) (y : vec) (a : nat -> Q) : Q :=
  dot n (fun i => y i - lincomb k a vs i) (fun i => y i - lincomb k a vs i).

(** ** [LinearRegression] on the rows of a frame *)

(** The design of [fit_intercept=True] on the rows [X]: the constant
    column first, then the features. *)
Definition design (X : list (list Q)) : nat -> vec :=
  fun m i => match m with O => 1 | S j => nth j (nth i X []) 0 end.

(** A list of values as a column. *)
Definition col (ys : list Q) : vec := fun i => nth i ys 0.

(** [df[[c1, ..., ck]].values]: the row of each feature. *)
Definition features {R} (fs : list (R -> pyfloat)) (rows : list R) : list (list pyfloat) :=
  map (fun r => map (fun f => f r) fs) rows.

(** A fitted model: [intercept_] and [coef_]. *)
Record linreg := LinReg { intercept_ : Q; coef_ : list Q }.

(** [model.coef_[j]] *)
Definition coef (m : linreg) (j : nat) : pyfloat := Fin (nth j (coef_ m) 0).

(** [model.predict([x])[0]]: [x @ coef_ + intercept_]. *)
Definition linreg_predict (m : linreg) (x : list Q) : Q := qsum (zip_with Qmult x (coef_ m)) + intercept_ m.

(** ** [r2_score]

    [sklearn.metrics.r2_score(y_true, y_pred)]: [NaN] (with a warning)
    for fewer than two samples; otherwise [1 - SS_res / SS_tot], except
    that a zero [SS_res] gives [1.0] and a zero [SS_tot] with a non-zero
    [SS_res] gives [0.0]. *)

(** The mean of the first [n] entries of [y]. *)
Definition vmean (n : nat) (y : vec) : Q := sumq n y / inject_Z (Z.of_nat n).

(** [SS_tot] over the first [n] entries. *)
Definition tss (n : nat) (y : vec) : Q := sumq n (fun i => (y i - vmean n y) * (y i - vmean n y)).

(** [SS_res] of the predictions [p]. *)
Definition sq_error (y p : list Q) : Q :=
  sumq (length y) (fun i => (col y i - col p i) * (col y i - col p i)).

Definition r2_score (y_true y_pred : list Q) : pyfloat :=
  if bool_decide (length y_true < 2)%nat then NaN else
  let num := sq_error y_true y_pred in
  let den := tss (length y_true) (col y_true) in
  if Qeq_bool num 0 then Fin 1 else if Qeq_bool den 0 then Fin 0 else Fin (1 - num / den).

Section Fit.
Context (solve : nat -> nat -> (nat -> vec) -> vec -> nat -> Q).

(** [LinearRegression().fit(X, y)] on [k] features.  It raises
    [ValueError] ([None]) on a value that is not finite, on an empty
    sample and on [X] and [y] of different lengths. *)
Definition linreg_fit (k : nat) (X : list (list pyfloat)) (y : list pyfloat) : option linreg :=
  Xq ← mapM finite_values X;
  yq ← finite_values y;
  if bool_decide (length Xq = 0)%nat || negb (length Xq =? length yq)%nat then None else
  let a := solve (length Xq) (S k) (design Xq) (col yq) in
  Some (LinReg (a O) (map (fun j => a (S j)) (seq O k))).

(** [model.fit(X, y)] followed by [r2_score(y, model.predict(X))]. *)
Definition fit_score (k : nat) (X : list (list pyfloat)) (y : list pyfloat) : option (linreg * pyfloat) :=
  m ← linreg_fit k X y;
  Xq ← mapM finite_values X;
  yq ← finite_values y;
  Some (m, r2_score yq (map (linreg_predict m) Xq)).

End Fit.

(** ** Choosing the best model *)

(** [max(xs, key=key)] of a non-empty list [x :: xs]: an element replaces
    the current maximum only when its key is strictly greater, so ties
    and [NaN] keys keep the earlier element. *)
Definition py_max_by {A} (key : A -> pyfloat) (x : A) (xs : list A) : A :=
  foldl (fun cur y => if flt (key cur) (key y) then y else cur) x xs.

Arguments py_max_by : simpl never.

(** [None] as [ValueError]. *)
Definition raise_none {A} (o : option A) : exc + A := match o with Some a => inr a | None => inl ValueError end.

(** [max] of tuples [(r2, model, name)]: [t > cur] compares the scores
    when they differ and the models when they are equal, and models do
    not support [>]: [TypeError]. *)
Definition tuple_gt {A} (t cur : pyfloat * A) : exc + bool :=
  if feqb t.1 cur.1 then inl TypeError else inr (flt cur.1 t.1).

Definition py_max_tuples {A} (x : pyfloat * A) (xs : list (pyfloat * A)) : exc + (pyfloat * A) :=
  foldl (fun acc t => match acc with
                      | inl e => inl e
                      | inr cur => match tuple_gt t cur with
                                   | inl e => inl e
                                   | inr true => inr t
                                   | inr false => inr cur
                                   end
                      end) (inr x) xs.

(** * Properties *)

(** ** The exception monad *)

(** [mapM] that returns: every element's computation returned. *)
Lemma mapM_exc_inr {A B} (f : A -> exc + B) l ys :
  mapM f l = inr ys -> Forall2 (fun x y => f x = inr y) l ys.
Proof.
  revert ys. induction l as [|x l IH]; intros ys; cbn [mapM].
  - intros [= <-]. constructor.
  - cbn [mbind exc_bind]. destruct (f x) as [e|y] eqn:Hx; [done|].
    destruct (mapM f l) as [e|ys'] eqn:Hl; cbn [mbind exc_bind mret exc_ret]; [done|].
    intros [= <-]. constructor; auto.
Qed.

(** ** Sums *)

#[export] Instance sumq_proper n : Proper (pointwise_relation nat Qeq ==> Qeq) (sumq n).
Proof. intros f g H. induction n as [|n IH]; cbn [sumq]; [reflexivity|]. by rewrite IH, (H n). Qed.

#[export] Instance lsum_proper {A} : Proper (pointwise_relation A Qeq ==> eq ==> Qeq) (@lsum A).
Proof.
  intros f g H l ? <-. induction l as [|x l IH]; cbn [lsum fold_right]; [reflexivity|].
  unfold lsum in IH. by rewrite IH, (H x).
Qed.

Lemma sumq_ext n f g : (forall i, (i < n)%nat -> f i == g i) -> sumq n f == sumq n g.
Proof.
  induction n as [|n IH]; intros H; cbn [sumq]; [reflexivity|].
  rewrite IH by (intros; apply H; lia). by rewrite (H n) by lia.
Qed.

Lemma sumq_plus n f g : sumq n (fun i => f i + g i) == sumq n f + sumq n g.
Proof. induction n as [|n IH]; cbn [sumq]; [ring|]. rewrite IH. ring. Qed.

Lemma sumq_minus n f g : sumq n (fun i => f i - g i) == sumq n f - sumq n g.
Proof. induction n as [|n IH]; cbn [sumq]; [ring|]. rewrite IH. ring. Qed.

Lemma sumq_scale n c f : sumq n (fun i => c * f i) == c * sumq n f.
Proof. induction n as [|n IH]; cbn [sumq]; [ring|]. rewrite IH. ring. Qed.

Lemma sumq_zero n : sumq n (fun _ => 0) == 0.
Proof. induction n as [|n IH]; cbn [sumq]; [reflexivity|]. rewrite IH. ring. Qed.

Lemma sumq_swap n k f : sumq n (fun i => sumq k (fun m => f i m)) == sumq k (fun m => sumq n (fun i => f i m)).
Proof.
  induction n as [|n IH]; cbn [sumq].
  - symmetry. apply sumq_zero.
  - rewrite IH. symmetry. apply sumq_plus.
Qed.

Lemma sumq_delta k j g : (j < k)%nat -> sumq k (fun m => (if decide (m = j) then 1 else 0) * g m) == g j.
Proof.
  induction k as [|k IH]; intros Hj; [lia|]. cbn [sumq].
  destruct (decide (k = j)) as [->|Hne].
  - rewrite (sumq_ext j _ (fun _ => 0)), sumq_zero; [ring|].
    intros i Hi. rewrite decide_False by lia. ring.
  - rewrite IH by lia. ring.
Qed.

Lemma sumq_sq_nonneg n f : 0 <= sumq n (fun i => f i * f i).
Proof. induction n as [|n IH]; cbn [sumq]; [lra|]. pose proof (qsq_nonneg (f n)). lra. Qed.

(** A sum of squares vanishes only when every term does. *)
Lemma sumq_sq_zero n f : sumq n (fun i => f i * f i) == 0 -> forall i, (i < n)%nat -> f i == 0.
Proof.
  induction n as [|n IH]; cbn [sumq]; intros H i Hi; [lia|].
  pose proof (sumq_sq_nonneg n f). pose proof (qsq_nonneg (f n)).
  assert (Hn : f n * f n == 0) by lra. assert (Hr : sumq n (fun i => f i * f i) == 0) by lra.
  destruct (decide (i = n)) as [->|Hne]; [|apply IH; [done|lia]].
  destruct (Qeq_dec (f n) 0) as [E|E]; [done|].
  exfalso. apply E. apply Qmult_integral in Hn as [?|?]; done.
Qed.

Lemma lsum_map {A B} (f : B -> Q) (g : A -> B) l : lsum f (map g l) = lsum (fun x => f (g x)) l.
Proof. induction l as [|x l IH]; cbn; [done|]. unfold lsum in IH. by rewrite IH. Qed.

Lemma lsum_ext {A} (f g : A -> Q) l : (forall x, x ∈ l -> f x == g x) -> lsum f l == lsum g l.
Proof.
  induction l as [|x l IH]; intros H; cbn [lsum fold_right]; [reflexivity|].
  unfold lsum in IH. rewrite IH by (intros y Hy; apply H; by right). rewrite (H x); [reflexivity|by left].
Qed.

Lemma lsum_plus {A} (f g : A -> Q) l : lsum (fun x => f x + g x) l == lsum f l + lsum g l.
Proof. induction l as [|x l IH]; cbn [lsum fold_right]; [ring|]. unfold lsum in IH. rewrite IH. ring. Qed.

Lemma lsum_scale {A} c (f : A -> Q) l : lsum (fun x => c * f x) l == c * lsum f l.
Proof. induction l as [|x l IH]; cbn [lsum fold_right]; [ring|]. unfold lsum in IH. rewrite IH. ring. Qed.

Lemma sumq_lsum {A} n (f : nat -> A -> Q) l :
  sumq n (fun i => lsum (f i) l) == lsum (fun x => sumq n (fun i => f i x)) l.
Proof.
  induction l as [|x l IH]; cbn [lsum fold_right].
  - apply sumq_zero.
  - rewrite sumq_plus. unfold lsum in IH. rewrite IH. reflexivity.
Qed.

Lemma lsum_cons {A} (f : A -> Q) x l : lsum f (x :: l) = f x + lsum f l.
Proof. done. Qed.

Lemma lsum_zero {A} (l : list A) : lsum (fun _ => 0) l == 0.
Proof. induction l as [|x l IH]; cbn [lsum fold_right]; [reflexivity|]. unfold lsum in IH. rewrite IH. ring. Qed.

(** ** Inner products *)

#[export] Instance dot_proper n :
  Proper (pointwise_relation nat Qeq ==> pointwise_relation nat Qeq ==> Qeq) (dot n).
Proof. intros u u' Hu v v' Hv. unfold dot. apply sumq_proper. intros i. by rewrite (Hu i), (Hv i). Qed.

Lemma dot_comm n u v : dot n u v == dot n v u.
Proof. unfold dot. apply sumq_proper. intros i. ring. Qed.

Lemma dot_minus_l n u u' v : dot n (fun i => u i - u' i) v == dot n u v - dot n u' v.
Proof. unfold dot. rewrite <- sumq_minus. apply sumq_proper. intros i. ring. Qed.

Lemma dot_plus_l n u u' v : dot n (fun i => u i + u' i) v == dot n u v + dot n u' v.
Proof. unfold dot. rewrite <- sumq_plus. apply sumq_proper. intros i. ring. Qed.

Lemma dot_lsum_l {A} n (c : A -> Q) (w : A -> vec) l v :
  dot n (fun i => lsum (fun x => c x * w x i) l) v == lsum (fun x => c x * dot n (w x) v) l.
Proof.
  unfold dot. rewrite (sumq_proper n _ (fun i => lsum (fun x => c x * (w x i * v i)) l)).
  - rewrite sumq_lsum. apply lsum_proper; [|done]. intros x. apply sumq_scale.
  - intros i. rewrite Qmult_comm, <- lsum_scale. apply lsum_proper; [|done]. intros x. ring.
Qed.

Lemma dot_lincomb_r n k a vs r : dot n r (lincomb k a vs) == sumq k (fun m => a m * dot n r (vs m)).
Proof.
  unfold dot, lincomb. rewrite (sumq_proper n _ (fun i => sumq k (fun m => a m * (r i * vs m i)))).
  - rewrite sumq_swap. apply sumq_proper. intros m. apply sumq_scale.
  - intros i. rewrite <- sumq_scale. apply sumq_proper. intros m. ring.
Qed.

Lemma dot_self_nonneg n w : 0 <= dot n w w.
Proof. apply sumq_sq_nonneg. Qed.

(** A vector of norm 0 is orthogonal to every vector. *)
Lemma dot_zero_norm n w v : dot n w w == 0 -> dot n v w == 0.
Proof.
  intros H. pose proof (sumq_sq_zero n w H) as Hw. unfold dot.
  rewrite (sumq_ext n _ (fun _ => 0)); [apply sumq_zero|]. intros i Hi. rewrite (Hw i Hi). ring.
Qed.

Lemma lincomb_minus k a b vs i : lincomb k (fun m => a m - b m) vs i == lincomb k a vs i - lincomb k b vs i.
Proof. unfold lincomb. rewrite <- sumq_minus. apply sumq_proper. intros m. ring. Qed.

(** ** Gram-Schmidt *)

(** Each basis vector is orthogonal to those after it. *)
Fixpoint orthogonal (n : nat) (B : list belem) : Prop :=
  match B with
  | [] => True
  | p :: B' => Forall (fun p' => dot n p.1 p'.1 == 0) B' /\ orthogonal n B'
  end.

(** Against an orthogonal basis, a sum of multiples of inner products
    keeps only the term of the vector itself. *)
Lemma ortho_sum n (c : belem -> Q) B p : orthogonal n B -> p ∈ B ->
  lsum (fun p' : belem => c p' * dot n p'.1 p.1) B == c p * dot n p.1 p.1.
Proof.
  induction B as [|p0 B IH]; cbn [orthogonal]; intros Ho Hp; [by apply elem_of_nil in Hp|].
  destruct Ho as [Hf Ho]. rewrite Forall_forall in Hf. rewrite lsum_cons.
  apply elem_of_cons in Hp as [->|Hp].
  - rewrite (lsum_ext _ (fun _ => 0)), lsum_zero; [ring|].
    intros x Hx. rewrite dot_comm, (Hf x Hx). ring.
  - rewrite IH by done. rewrite (Hf p Hp). ring.
Qed.

(** [v] minus its projections is orthogonal to each basis vector. *)
Lemma proj_residual n v B p : orthogonal n B -> p ∈ B ->
  dot n (fun i => v i - lsum (fun p' : belem => proj_coef n v p'.1 * p'.1 i) B) p.1 == 0.
Proof.
  intros Ho Hp. rewrite dot_minus_l, (dot_lsum_l n (fun p' => proj_coef n v p'.1) fst B p.1).
  rewrite (ortho_sum n (fun p' => proj_coef n v p'.1)) by done.
  unfold proj_coef. destruct (Qeq_bool (dot n p.1 p.1) 0) eqn:E.
  - apply Qeq_bool_eq in E. rewrite (dot_zero_norm n p.1 v E). ring.
  - apply Qeq_bool_neq in E. rewrite Qred_correct. field. exact E.
Qed.

Lemma dot_ext_l n u u' v : (forall i, u i == u' i) -> dot n u v == dot n u' v.
Proof. intros H. apply dot_proper; [exact H|intros i; reflexivity]. Qed.

Lemma gs_step_vec n vs B j i :
  (gs_step n vs B j).1 i == vs j i - lsum (fun p : belem => proj_coef n (vs j) p.1 * p.1 i) B.
Proof. unfold gs_step. cbn [fst]. by rewrite Qred_correct, lsum_map. Qed.

Lemma gs_step_coef n vs B j m :
  (gs_step n vs B j).2 m == (if decide (m = j) then 1 else 0) - lsum (fun p : belem => proj_coef n (vs j) p.1 * p.2 m) B.
Proof. unfold gs_step. cbn [snd]. by rewrite Qred_correct, lsum_map. Qed.

Lemma lstsq_coef n k vs y m :
  lstsq n k vs y m == lsum (fun p : belem => proj_coef n y p.1 * p.2 m) (gram_schmidt n vs k).
Proof. unfold lstsq. by rewrite Qred_correct, lsum_map. Qed.

(** Exchanging the sum over the columns with the sum over the basis. *)
Lemma sumq_lsum_coef k (c : belem -> Q) B (g : nat -> Q) :
  sumq k (fun m => lsum (fun p : belem => c p * p.2 m) B * g m) == lsum (fun p : belem => c p * sumq k (fun m => p.2 m * g m)) B.
Proof.
  rewrite (sumq_proper k _ (fun m => lsum (fun p : belem => c p * (p.2 m * g m)) B)).
  - rewrite sumq_lsum. apply lsum_proper; [|done]. intros p. apply sumq_scale.
  - intros m. rewrite Qmult_comm, <- lsum_scale. apply lsum_proper; [|done]. intros p. ring.
Qed.

(** What Gram-Schmidt keeps true after [j] columns: the basis is
    orthogonal, each basis vector is the combination of the columns its
    coefficients say, and every vector orthogonal to the basis is
    orthogonal to the first [j] columns. *)
Definition gs_inv (n k : nat) (vs : nat -> vec) (j : nat) (B : list belem) : Prop :=
  orthogonal n B /\
  Forall (fun p => forall i, p.1 i == lincomb k p.2 vs i) B /\
  (forall m, (m < j)%nat -> forall r, Forall (fun p => dot n r p.1 == 0) B -> dot n r (vs m) == 0).

Lemma gs_inv_step n k vs j B : (j < k)%nat -> gs_inv n k vs j B -> gs_inv n k vs (S j) (gs_step n vs B j :: B).
Proof.
  intros Hj (Ho & Hc & Hs). rewrite Forall_forall in Hc.
  set (c := fun p : belem => proj_coef n (vs j) p.1).
  split_and!.
  - split; [|done]. apply Forall_forall. intros p Hp.
    rewrite (dot_ext_l n _ (fun i => vs j i - lsum (fun p' : belem => c p' * p'.1 i) B)) by (intros i; by rewrite gs_step_vec).
    by apply proj_residual.
  - constructor; [|by apply Forall_forall]. intros i. rewrite gs_step_vec. unfold lincomb at 1.
    rewrite (sumq_ext k _ (fun m => (if decide (m = j) then 1 else 0) * vs m i - lsum (fun p : belem => c p * p.2 m) B * vs m i))
      by (intros m _; rewrite gs_step_coef; unfold c; ring).
    rewrite sumq_minus, sumq_delta, sumq_lsum_coef by done.
    apply Qplus_comp; [reflexivity|]. apply Qopp_comp. apply lsum_ext. intros p Hp. by rewrite (Hc p Hp).
  - intros m Hm r Hr. apply Forall_cons in Hr as [Hr0 Hr]. rewrite Forall_forall in Hr.
    destruct (decide (m = j)) as [->|Hne]; [|apply Hs; [lia|by apply Forall_forall]].
    rewrite dot_comm, (dot_ext_l n _ (fun i => (gs_step n vs B j).1 i + lsum (fun p : belem => c p * p.1 i) B))
      by (intros i; rewrite gs_step_vec; unfold c; ring).
    rewrite dot_plus_l, (dot_lsum_l n c fst), dot_comm, Hr0.
    rewrite (lsum_ext _ (fun _ => 0)), lsum_zero; [ring|]. intros p Hp. rewrite dot_comm, (Hr p Hp). ring.
Qed.

Lemma gram_schmidt_inv n k vs j : (j <= k)%nat -> gs_inv n k vs j (gram_schmidt n vs j).
Proof.
  induction j as [|j IH]; intros Hj.
  - split_and!; [done|constructor|intros; lia].
  - apply gs_inv_step; [lia|]. apply IH. lia.
Qed.

(** The fitted values are the projection of [y] on the basis. *)
Lemma lincomb_lstsq n k vs y i :
  lincomb k (lstsq n k vs y) vs i == lsum (fun p : belem => proj_coef n y p.1 * p.1 i) (gram_schmidt n vs k).
Proof.
  destruct (gram_schmidt_inv n k vs k) as (_ & Hc & _); [lia|]. rewrite Forall_forall in Hc.
  unfold lincomb at 1. rewrite (sumq_ext k _ (fun m => lsum (fun p : belem => proj_coef n y p.1 * p.2 m) (gram_schmidt n vs k) * vs m i))
    by (intros m _; by rewrite lstsq_coef).
  rewrite sumq_lsum_coef. apply lsum_ext. intros p Hp. by rewrite (Hc p Hp).
Qed.

Lemma dot_plus_r n u v v' : dot n u (fun i => v i + v' i) == dot n u v + dot n u v'.
Proof. unfold dot. rewrite <- sumq_plus. apply sumq_proper. intros i. ring. Qed.

(** Only the first [n] entries count. *)
Lemma dot_ext_lt n u u' v v' : (forall i, (i < n)%nat -> u i == u' i) -> (forall i, (i < n)%nat -> v i == v' i) ->
  dot n u v == dot n u' v'.
Proof. intros Hu Hv. apply sumq_ext. intros i Hi. by rewrite (Hu i Hi), (Hv i Hi). Qed.

Lemma pythagoras n r d : dot n r d == 0 -> dot n (fun i => r i + d i) (fun i => r i + d i) == dot n r r + dot n d d.
Proof. intros H. rewrite dot_plus_l, !dot_plus_r, (dot_comm n d r), H. ring. Qed.

(** ** The least-squares solution *)

(** [lstsq] solves the normal equations. *)
Theorem lstsq_normal n k vs y : lstsq_spec n k vs y (lstsq n k vs y).
Proof.
  intros m Hm. destruct (gram_schmidt_inv n k vs k) as (Ho & _ & Hs); [lia|].
  apply (Hs m Hm). apply Forall_forall. intros p Hp.
  rewrite (dot_ext_l n _ (fun i => y i - lsum (fun p' : belem => proj_coef n y p'.1 * p'.1 i) (gram_schmidt n vs k)))
    by (intros i; by rewrite lincomb_lstsq).
  by apply proj_residual.
Qed.

(** What a least-squares solver promises to its clients. *)
Class LeastSquares (solve : nat -> nat -> (nat -> vec) -> vec -> nat -> Q) : Prop :=
  solve_normal : forall n k vs y, lstsq_spec n k vs y (solve n k vs y).

#[export] Instance lstsq_least_squares_solver : LeastSquares lstsq.
Proof. exact lstsq_normal. Qed.

(** A residual orthogonal to the columns is orthogonal to their
    combinations. *)
Lemma residual_orth_lincomb n k vs r a :
  (forall m, (m < k)%nat -> dot n r (vs m) == 0) -> dot n r (lincomb k a vs) == 0.
Proof.
  intros H. rewrite dot_lincomb_r, (sumq_ext k _ (fun _ => 0)); [apply sumq_zero|].
  intros m Hm. rewrite (H m Hm). ring.
Qed.

(** Pythagoras for least squares: when the residual of [b] on the
    columns [vsB] is orthogonal to the columns [vsA], the error of any
    combination [a] of [vsA] is that of [b] plus the distance between the
    two fits. *)
Lemma rss_pythagoras n kA kB vsA vsB y a b :
  lstsq_spec n kB vsB y b ->
  (forall m, (m < kA)%nat -> dot n (fun i => y i - lincomb kB b vsB i) (vsA m) == 0) ->
  rss n kA vsA y a == rss n kB vsB y b +
    dot n (fun i => lincomb kB b vsB i - lincomb kA a vsA i) (fun i => lincomb kB b vsB i - lincomb kA a vsA i).
Proof.
  intros Hb HA. unfold rss.
  set (r := fun i => y i - lincomb kB b vsB i).
  set (d := fun i => lincomb kB b vsB i - lincomb kA a vsA i).
  assert (E : forall i, y i - lincomb kA a vsA i == r i + d i) by (intros i; unfold r, d; ring).
  rewrite (dot_proper n _ _ E _ _ E). apply pythagoras.
  unfold d. rewrite dot_comm, dot_minus_l, (dot_comm n _ r), (dot_comm n _ r).
  rewrite (residual_orth_lincomb n kB vsB r b Hb), (residual_orth_lincomb n kA vsA r a HA). ring.
Qed.

(** No combination of the columns has a smaller error than a solution of
    the normal equations. *)
Theorem lstsq_spec_minimal n k vs y a b : lstsq_spec n k vs y b -> rss n k vs y b <= rss n k vs y a.
Proof.
  intros Hb. rewrite (rss_pythagoras n k k vs vs y a b Hb Hb). pose proof (dot_self_nonneg n
    (fun i => lincomb k b vs i - lincomb k a vs i)). lra.
Qed.

(** All solutions of the normal equations have the same fitted values. *)
Theorem lstsq_fitted_unique n k vs y a b : lstsq_spec n k vs y a -> lstsq_spec n k vs y b ->
  forall i, (i < n)%nat -> lincomb k a vs i == lincomb k b vs i.
Proof.
  intros Ha Hb i Hi. pose proof (rss_pythagoras n k k vs vs y a b Hb Hb) as E1.
  pose proof (rss_pythagoras n k k vs vs y b a Ha Ha) as E2.
  set (d := fun i => lincomb k b vs i - lincomb k a vs i) in *.
  pose proof (dot_self_nonneg n d). pose proof (dot_self_nonneg n (fun i => lincomb k a vs i - lincomb k b vs i)).
  assert (Hd : dot n d d == 0) by lra. pose proof (sumq_sq_zero n d Hd i Hi) as Hz. unfold d in Hz. lra.
Qed.

(** Columns of [vsA] that are all columns of [vsB] (on the first [n] rows). *)
Definition nested (n kA kB : nat) (vsA vsB : nat -> vec) : Prop :=
  forall m, (m < kA)%nat -> exists m', (m' < kB)%nat /\ forall i, (i < n)%nat -> vsA m i == vsB m' i.

Lemma nested_orth n kA kB vsA vsB y b : lstsq_spec n kB vsB y b -> nested n kA kB vsA vsB ->
  forall m, (m < kA)%nat -> dot n (fun i => y i - lincomb kB b vsB i) (vsA m) == 0.
Proof.
  intros Hb Hsub m Hm. destruct (Hsub m Hm) as (m' & Hm' & E). rewrite <- (Hb m' Hm').
  apply dot_ext_lt; [done|]. intros i Hi. by rewrite (E i Hi).
Qed.

(** A model on a subset of the columns never fits better: the error of a
    least-squares fit on [vsB] is at most that of any combination of
    columns [vsA] that are all columns of [vsB]. *)
Theorem rss_nested n kA kB vsA vsB y a b : lstsq_spec n kB vsB y b -> nested n kA kB vsA vsB ->
  rss n kB vsB y b <= rss n kA vsA y a.
Proof.
  intros Hb Hsub. rewrite (rss_pythagoras n kA kB vsA vsB y a b Hb (nested_orth n kA kB vsA vsB y b Hb Hsub)).
  pose proof (dot_self_nonneg n (fun i => lincomb kB b vsB i - lincomb kA a vsA i)). lra.
Qed.

(** When the smaller model fits as well as the larger one, the two have
    the same fitted values. *)
Lemma nested_fits_equal n kA kB vsA vsB y a b : lstsq_spec n kB vsB y b -> nested n kA kB vsA vsB ->
  rss n kA vsA y a <= rss n kB vsB y b -> forall i, (i < n)%nat -> lincomb kA a vsA i == lincomb kB b vsB i.
Proof.
  intros Hb Hsub Hle i Hi.
  pose proof (rss_pythagoras n kA kB vsA vsB y a b Hb (nested_orth n kA kB vsA vsB y b Hb Hsub)) as E.
  set (d := fun i => lincomb kB b vsB i - lincomb kA a vsA i) in E.
  pose proof (dot_self_nonneg n d). assert (Hd : dot n d d == 0) by lra.
  pose proof (sumq_sq_zero n d Hd i Hi) as Hz. unfold d in Hz. lra.
Qed.

(** With the constant column, a fit is at least as good as the mean. *)
Lemma rss_intercept_le_tss n k vs y b : (O < k)%nat -> (forall i, (i < n)%nat -> vs O i == 1) ->
  lstsq_spec n k vs y b -> rss n k vs y b <= tss n y.
Proof.
  intros Hk H1 Hb. set (c := fun m : nat => if decide (m = O) then vmean n y else 0).
  apply (Qle_trans _ (rss n k vs y c)); [by apply lstsq_spec_minimal|].
  apply Qle_lteq. right. unfold rss, tss. fold (dot n (fun i => y i - vmean n y) (fun i => y i - vmean n y)).
  assert (E : forall i, (i < n)%nat -> y i - lincomb k c vs i == y i - vmean n y).
  { intros i Hi. unfold lincomb.
    rewrite (sumq_ext k _ (fun m => (if decide (m = O) then 1 else 0) * (vmean n y * vs m i)))
      by (intros m _; unfold c; case_decide; ring).
    rewrite sumq_delta by done. rewrite (H1 i Hi). ring. }
  by apply dot_ext_lt.
Qed.

Lemma tss_nonneg n y : 0 <= tss n y.
Proof. apply sumq_sq_nonneg. Qed.

Lemma tss_single y : tss 1 y == 0.
Proof.
  assert (E : vmean 1 y == y O) by (unfold vmean; cbn [sumq]; field).
  unfold tss. cbn [sumq]. rewrite E. ring.
Qed.

(** ** Fitted models on the rows of a frame *)

Lemma sumq_shift n f : sumq (S n) f == f O + sumq n (fun j => f (S j)).
Proof. induction n as [|n IH]; cbn [sumq] in *; [ring|]. rewrite IH. ring. Qed.

Lemma qsum_zip_seq (f : nat -> Q) : forall x s,
  qsum (zip_with Qmult x (map f (seq s (length x)))) == sumq (length x) (fun j => nth j x 0 * f (s + j)%nat).
Proof.
  induction x as [|x0 x IH]; intros s; [reflexivity|].
  cbn [length seq map zip_with qsum fold_right]. fold (qsum (zip_with Qmult x (map f (seq (S s) (length x))))).
  rewrite IH, sumq_shift. cbn [nth]. rewrite Nat.add_0_r.
  apply Qplus_comp; [reflexivity|]. apply sumq_ext. intros j _. by rewrite Nat.add_succ_r.
Qed.

(** The prediction of the coefficients [a] on a row of [k] features is the
    fitted value of [a] on the design. *)
Lemma linreg_predict_lincomb k a X i : length (nth i X []) = k ->
  linreg_predict (LinReg (a O) (map (fun j => a (S j)) (seq O k))) (nth i X []) == lincomb (S k) a (design X) i.
Proof.
  intros Hk. unfold linreg_predict, lincomb. cbn [coef_ intercept_].
  rewrite <- Hk, qsum_zip_seq, sumq_shift, Hk. cbv beta. cbn [design Nat.add].
  rewrite (sumq_ext k (fun j => nth j (nth i X []) 0 * a (S j)) (fun j => a (S j) * nth j (nth i X []) 0))
    by (intros j _; ring).
  ring.
Qed.

Lemma finite_values_Some_nth xs qs j : finite_values xs = Some qs -> (j < length xs)%nat -> nth j xs NaN = Fin (nth j qs 0).
Proof.
  intros H. apply mapM_Some_1 in H. revert j. induction H as [|x q xs qs Hx _ IH]; intros j Hj; [cbn in Hj; lia|].
  destruct x; try discriminate. injection Hx as <-. destruct j as [|j]; [done|]. apply IH. cbn in Hj. lia.
Qed.

Lemma mapM_finite_nth X Xq i : mapM finite_values X = Some Xq -> (i < length X)%nat ->
  finite_values (nth i X []) = Some (nth i Xq []).
Proof.
  intros H. apply mapM_Some_1 in H. revert i. induction H as [|x q X Xq Hx _ IH]; intros i Hi; [cbn in Hi; lia|].
  destruct i as [|i]; [done|]. apply IH. cbn in Hi. lia.
Qed.

Lemma mapM_finite_length X Xq : mapM finite_values X = Some Xq -> length Xq = length X.
Proof. intros H. apply mapM_Some_1 in H. symmetry. by eapply Forall2_length. Qed.

Lemma features_row {R} (fs : list (R -> pyfloat)) rows i : (i < length rows)%nat ->
  exists r, rows !! i = Some r /\ nth i (features fs rows) [] = map (fun f => f r) fs.
Proof.
  intros Hi. destruct (lookup_lt_is_Some_2 rows i Hi) as [r Hr]. exists r. split; [done|].
  unfold features. rewrite (nth_lookup_Some (map (fun r => map (fun f => f r) fs) rows) i [] (map (fun f => f r) fs)); [done|].
  by rewrite list_lookup_fmap, Hr.
Qed.

Section FitLemmas.
Context (solve : nat -> nat -> (nat -> vec) -> vec -> nat -> Q) `{!LeastSquares solve}.

Lemma linreg_fit_inv k X y m : linreg_fit solve k X y = Some m ->
  exists Xq yq, mapM finite_values X = Some Xq /\ finite_values y = Some yq /\
    length Xq <> O /\ length Xq = length yq /\
    m = LinReg (solve (length Xq) (S k) (design Xq) (col yq) O)
               (map (fun j => solve (length Xq) (S k) (design Xq) (col yq) (S j)) (seq O k)).
Proof.
  unfold linreg_fit. destruct (mapM finite_values X) as [Xq|]; cbn [mbind option_bind]; [|done].
  destruct (finite_values y) as [yq|]; cbn [mbind option_bind]; [|done].
  destruct (bool_decide _) eqn:E1; [done|]. destruct (length Xq =? length yq)%nat eqn:E2; [|done].
  apply bool_decide_eq_false in E1. apply Nat.eqb_eq in E2. intros [= <-]. by exists Xq, yq.
Qed.

(** [fit] followed by [r2_score] on the fitted rows: the score is that of
    the fitted values of the solver. *)
Lemma fit_score_inv k X y m r : fit_score solve k X y = Some (m, r) ->
  Forall (fun x => length x = k) X ->
  exists Xq yq, mapM finite_values X = Some Xq /\ finite_values y = Some yq /\
    length Xq <> O /\ length Xq = length yq /\
    r = r2_score yq (map (linreg_predict m) Xq) /\
    forall i, (i < length Xq)%nat ->
      linreg_predict m (nth i Xq []) == lincomb (S k) (solve (length Xq) (S k) (design Xq) (col yq)) (design Xq) i.
Proof.
  intros Hf Hk. unfold fit_score in Hf.
  destruct (linreg_fit solve k X y) as [m'|] eqn:Hm; cbn [mbind option_bind] in Hf; [|done].
  destruct (linreg_fit_inv k X y m' Hm) as (Xq & yq & HX & Hy & Hn & Hl & ->).
  rewrite HX, Hy in Hf. cbn [mbind option_bind] in Hf. injection Hf as <- <-.
  exists Xq, yq. split_and!; try done. intros i Hi. apply linreg_predict_lincomb.
  pose proof (mapM_finite_length X Xq HX) as HlX.
  rewrite (finite_values_length (nth i X []) (nth i Xq [])) by (apply mapM_finite_nth; [done|lia]).
  rewrite Forall_forall in Hk. apply Hk. apply list_elem_of_In, nth_In. lia.
Qed.

(** A fit on [k] features has [k] coefficients. *)
Lemma fit_score_coef_length k X y m r : fit_score solve k X y = Some (m, r) -> length (coef_ m) = k.
Proof.
  unfold fit_score. destruct (linreg_fit solve k X y) as [m'|] eqn:Hm; cbn [mbind option_bind]; [|done].
  destruct (linreg_fit_inv k X y m' Hm) as (Xq & yq & HX & Hy & _ & _ & ->). rewrite HX, Hy.
  cbn [mbind option_bind]. intros [= <- _]. cbn [coef_]. by rewrite length_map, length_seq.
Qed.

End FitLemmas.

(** ** Scores *)

Lemma flt_Fin a b : flt (Fin a) (Fin b) = true <-> a < b.
Proof.
  cbn. rewrite negb_true_iff. split; intros H.
  - apply Qnot_le_lt. intros Hle. apply Qle_bool_iff in Hle. congruence.
  - destruct (Qle_bool b a) eqn:E; [|done]. apply Qle_bool_iff in E. lra.
Qed.

Lemma sq_error_nonneg y p : 0 <= sq_error y p.
Proof. apply sumq_sq_nonneg. Qed.

(** With two samples and a target that is not constant, a strictly smaller
    error gives a strictly greater score. *)
Lemma r2_score_strict y p q : (2 <= length y)%nat -> ~ tss (length y) (col y) == 0 ->
  sq_error y p < sq_error y q -> flt (r2_score y q) (r2_score y p) = true.
Proof.
  intros Hn Ht Hlt. unfold r2_score. rewrite bool_decide_false by lia.
  pose proof (sq_error_nonneg y p). pose proof (tss_nonneg (length y) (col y)) as Hd.
  set (den := tss (length y) (col y)) in *. set (e1 := sq_error y p) in *. set (e2 := sq_error y q) in *.
  assert (Hdp : 0 < den) by (apply Qle_lteq in Hd as [?|?]; [done|]; exfalso; apply Ht; by symmetry).
  destruct (Qeq_bool e2 0) eqn:E2; [apply Qeq_bool_eq in E2; lra|].
  destruct (Qeq_bool den 0) eqn:Ed; [apply Qeq_bool_eq in Ed; lra|].
  assert (Hq : 0 < e2 / den) by (apply Qlt_shift_div_l; lra).
  destruct (Qeq_bool e1 0) eqn:E1; apply flt_Fin; [lra|].
  assert (e1 / den < e2 / den) by (apply Qmult_lt_r; [apply Qinv_lt_0_compat; lra|lra]). lra.
Qed.

Lemma nth_map_lt {A B} (f : A -> B) l i d d' : (i < length l)%nat -> nth i (map f l) d = f (nth i l d').
Proof. intros Hi. rewrite (nth_indep _ d (f d')) by (by rewrite length_map). apply map_nth. Qed.

(** The score's error is the error of the fitted values. *)
Lemma sq_error_fitted (m : linreg) n Xq yq (f : vec) :
  length Xq = n -> length yq = n -> (forall i, (i < n)%nat -> linreg_predict m (nth i Xq []) == f i) ->
  sq_error yq (map (linreg_predict m) Xq) == dot n (fun i => col yq i - f i) (fun i => col yq i - f i).
Proof.
  intros Hn Hl Hf. unfold sq_error. rewrite Hl. apply sumq_ext. intros i Hi.
  unfold col at 2 4. rewrite (nth_map_lt _ _ _ _ []) by lia. by rewrite (Hf i Hi).
Qed.

Lemma features_length {R} (fs : list (R -> pyfloat)) rows : Forall (fun x => length x = length fs) (features fs rows).
Proof. apply Forall_forall. intros x Hx. apply list_elem_of_fmap in Hx as (r & -> & _). apply length_map. Qed.

(** A feature of the smaller list is a column of the larger design. *)
Lemma features_nested {R} (fsA fsB : list (R -> pyfloat)) rows XAq XBq :
  Forall (fun f => f ∈ fsB) fsA ->
  mapM finite_values (features fsA rows) = Some XAq -> mapM finite_values (features fsB rows) = Some XBq ->
  nested (length XAq) (S (length fsA)) (S (length fsB)) (design XAq) (design XBq).
Proof.
  intros Hsub HA HB [|j] Hj; [exists O; split; [lia|done]|].
  destruct (lookup_lt_is_Some_2 fsA j ltac:(lia)) as [f Hf].
  rewrite Forall_forall in Hsub. destruct (list_elem_of_lookup_1 fsB f) as [j' Hj'];
    [apply Hsub; by eapply list_elem_of_lookup_2|].
  exists (S j'). split; [apply lookup_lt_Some in Hj'; lia|]. intros i Hi.
  rewrite (mapM_finite_length _ _ HA) in Hi. unfold features in Hi. rewrite length_map in Hi.
  destruct (features_row fsA rows i Hi) as (r & Hr & EA). destruct (features_row fsB rows i Hi) as (r' & Hr' & EB).
  rewrite Hr in Hr'. injection Hr' as <-.
  assert (HiA : (i < length (features fsA rows))%nat) by (unfold features; by rewrite length_map).
  assert (HiB : (i < length (features fsB rows))%nat) by (unfold features; by rewrite length_map).
  pose proof (finite_values_Some_nth _ _ j (mapM_finite_nth _ _ i HA HiA)) as FA.
  pose proof (finite_values_Some_nth _ _ j' (mapM_finite_nth _ _ i HB HiB)) as FB.
  rewrite EA in FA. rewrite EB in FB. rewrite length_map in FA, FB.
  rewrite (nth_lookup_Some _ _ _ (f r)) in FA by (by rewrite list_lookup_fmap, Hf).
  rewrite (nth_lookup_Some _ _ _ (f r)) in FB by (by rewrite list_lookup_fmap, Hj').
  cbn [design]. rewrite FA in FB by (apply lookup_lt_Some in Hf; lia).
  injection (FB ltac:(apply lookup_lt_Some in Hj'; lia)) as E. by rewrite E.
Qed.

(** A fit with the constant column scores no better than a nested larger
    one exactly when its error is no smaller. *)
Lemma rss_le_of_score n kA kB vsA vsB yq a b p q :
  n = length yq -> n <> O -> lstsq_spec n kA vsA (col yq) a -> lstsq_spec n kB vsB (col yq) b -> (O < kA)%nat ->
  (forall i, (i < n)%nat -> vsA O i == 1) -> nested n kA kB vsA vsB ->
  sq_error yq p == rss n kA vsA (col yq) a -> sq_error yq q == rss n kB vsB (col yq) b ->
  flt (r2_score yq p) (r2_score yq q) = false -> rss n kA vsA (col yq) a <= rss n kB vsB (col yq) b.
Proof.
  intros -> Hn Ha Hb HkA H1 Hsub Ep Eq Hf.
  destruct (Qeq_dec (tss (length yq) (col yq)) 0) as [Ht|Ht].
  - pose proof (rss_intercept_le_tss _ _ _ _ a HkA H1 Ha).
    pose proof (dot_self_nonneg (length yq) (fun i => col yq i - lincomb kB b vsB i)). unfold rss in *. lra.
  - apply Qnot_lt_le. intros Hlt.
    assert (H2 : (2 <= length yq)%nat).
    { destruct (length yq) as [|[|n']] eqn:E; [done| |lia]. exfalso. apply Ht. apply tss_single. }
    rewrite <- Ep, <- Eq in Hlt. by rewrite (r2_score_strict yq q p H2 Ht Hlt) in Hf.
Qed.

Lemma sumq_const n c : sumq n (fun _ => c) == inject_Z (Z.of_nat n) * c.
Proof.
  induction n as [|n IH]; cbn [sumq]; [ring|]. rewrite IH, Nat2Z.inj_succ, <- Z.add_1_r, inject_Z_plus. ring.
Qed.

Lemma inject_nat_nonzero n : n <> O -> ~ inject_Z (Z.of_nat n) == 0.
Proof. intros Hn E. apply (inject_Z_injective (Z.of_nat n) 0%Z) in E. lia. Qed.

(** A constant column has no variance. *)
Lemma tss_const n y c : n <> O -> (forall i, (i < n)%nat -> y i == c) -> tss n y == 0.
Proof.
  intros Hn Hy. assert (Hm : vmean n y == c).
  { unfold vmean. rewrite (sumq_ext n y (fun _ => c)) by done. rewrite sumq_const.
    field. by apply inject_nat_nonzero. }
  unfold tss. rewrite (sumq_ext n _ (fun _ => 0)); [apply sumq_zero|]. intros i Hi. rewrite Hm, (Hy i Hi). ring.
Qed.


(** ** Python's [max] *)

Lemma flt_irrefl x : flt x x = false.
Proof. destruct x; cbn; try done. apply negb_false_iff, Qle_bool_iff, Qle_refl. Qed.

Lemma feqb_sym x y : feqb x y = feqb y x.
Proof. unfold feqb. apply andb_comm. Qed.

Lemma fle_feqb_flt x y : fle x y = true -> feqb x y = false -> flt x y = true.
Proof. unfold feqb. intros H1 H2. rewrite H1 in H2. cbn in H2. destruct x, y; cbn in *; by rewrite ?H2. Qed.

(** The result of [max(..., key=...)] is one of the elements. *)
Lemma py_max_by_elem {A} (key : A -> pyfloat) x xs : py_max_by key x xs ∈ x :: xs.
Proof.
  unfold py_max_by. revert x. induction xs as [|y xs IH]; intros x; cbn [foldl]; [by left|].
  destruct (flt (key x) (key y)).
  - right. apply IH.
  - specialize (IH x). apply elem_of_cons in IH as [->|IH]; [by left|]. right. by right.
Qed.

(** A [NaN] key first is never replaced: no comparison with [NaN] holds. *)
Lemma py_max_by_nan_head {A} (key : A -> pyfloat) x xs : key x = NaN -> py_max_by key x xs = x.
Proof.
  intros Hx. unfold py_max_by. induction xs as [|y xs IH]; [done|]. cbn [foldl]. by rewrite Hx.
Qed.

(** No key is strictly greater than that of the result than the last
    element's. *)
Lemma py_max_by_last {A} (key : A -> pyfloat) x xs z : flt (key (py_max_by key x (xs ++ [z]))) (key z) = false.
Proof.
  unfold py_max_by. rewrite foldl_app. cbn [foldl].
  destruct (flt (key (foldl _ x xs)) (key z)) eqn:E; [apply flt_irrefl|exact E].
Qed.

Lemma py_max_tuples_inl {A} e (ts : list (pyfloat * A)) :
  foldl (fun acc t => match acc with
                      | inl e => inl e
                      | inr cur => match tuple_gt t cur with
                                   | inl e => inl e | inr true => inr t | inr false => inr cur end
                      end) (inl e) ts = inl e.
Proof. induction ts; cbn; done. Qed.

Lemma last_cons_default {A} (y : A) ys d d' : List.last (y :: ys) d = List.last (y :: ys) d'.
Proof. revert y. induction ys as [|z ys IH]; intros y; [done|]. cbn [List.last]. apply IH. Qed.

Lemma py_max_tuples_cons {A} (x y : pyfloat * A) ys :
  py_max_tuples x (y :: ys) =
  match tuple_gt y x with inl e => inl e | inr true => py_max_tuples y ys | inr false => py_max_tuples x ys end.
Proof. unfold py_max_tuples at 1. cbn [foldl]. destruct (tuple_gt y x) as [e|[]]; [apply py_max_tuples_inl|done|done]. Qed.

(** Two equal scores next to each other make [max] of the tuples raise. *)
Lemma py_max_tuples_tie {A} (x y : pyfloat * A) ys : feqb y.1 x.1 = true -> py_max_tuples x (y :: ys) = inl TypeError.
Proof. intros E. rewrite py_max_tuples_cons. unfold tuple_gt. by rewrite E. Qed.

(** [max] of the tuples returns one of them. *)
Lemma py_max_tuples_elem {A} (x : pyfloat * A) xs t : py_max_tuples x xs = inr t -> t ∈ x :: xs.
Proof.
  revert x. induction xs as [|y ys IH]; intros x; [intros [= ->]; set_solver|].
  rewrite py_max_tuples_cons. destruct (tuple_gt y x) as [e|[]]; [done| |]; intros H%IH; set_solver.
Qed.

(** On scores that never decrease, [max] of the tuples raises or returns
    the last tuple. *)
Lemma py_max_tuples_chain {A} (x : pyfloat * A) xs :
  LocallySorted (fun a b => fle a.1 b.1 = true) (x :: xs) ->
  py_max_tuples x xs = inl TypeError \/ py_max_tuples x xs = inr (List.last (x :: xs) x).
Proof.
  revert x. induction xs as [|y ys IH]; intros x Hs; [by right|].
  inversion Hs as [| |? ? ? Hs' Hxy]; subst.
  destruct (feqb y.1 x.1) eqn:E; [left; by apply py_max_tuples_tie|].
  rewrite py_max_tuples_cons. unfold tuple_gt. rewrite E.
  rewrite (fle_feqb_flt x.1 y.1 Hxy) by (by rewrite feqb_sym).
  destruct (IH y Hs') as [H|H]; [by left|right]. rewrite H. f_equal. change (List.last (x :: y :: ys) x) with (List.last (y :: ys) x). apply last_cons_default.
Qed.

(** ** Scores of nested fits *)

(** [r2_score] never decreases as the error decreases. *)
Lemma r2_score_mono y p q : (2 <= length y)%nat -> sq_error y p <= sq_error y q ->
  fle (r2_score y q) (r2_score y p) = true.
Proof.
  intros Hn Hle. unfold r2_score. rewrite bool_decide_false by lia.
  pose proof (sq_error_nonneg y p). pose proof (tss_nonneg (length y) (col y)) as Hd.
  set (den := tss (length y) (col y)) in *. set (e1 := sq_error y p) in *. set (e2 := sq_error y q) in *.
  destruct (Qeq_bool e2 0) eqn:E2.
  { apply Qeq_bool_eq in E2. assert (E : Qeq_bool e1 0 = true) by (apply Qeq_bool_iff; lra).
    rewrite E. cbn. apply Qle_bool_iff. lra. }
  apply Qeq_bool_neq in E2. destruct (Qeq_bool den 0) eqn:Ed.
  { destruct (Qeq_bool e1 0); cbn; apply Qle_bool_iff; lra. }
  apply Qeq_bool_neq in Ed.
  assert (Hdp : 0 < den) by (apply Qle_lteq in Hd as [?|?]; [done|]; exfalso; apply Ed; by symmetry).
  assert (H1 : e1 / den <= e2 / den) by (apply Qmult_le_compat_r; [done|apply Qinv_le_0_compat; lra]).
  assert (H0 : 0 <= e1 / den) by (apply Qle_shift_div_l; lra).
  destruct (Qeq_bool e1 0); cbn; apply Qle_bool_iff; lra.
Qed.

Section Selection.
Context (solve : nat -> nat -> (nat -> vec) -> vec -> nat -> Q) `{!LeastSquares solve}.

(** Choosing between two nested fits by score never changes a
    prediction: unless the larger model scores strictly higher, the
    smaller one predicts the same value on every fitted row. *)
Theorem fit_score_select {R} (fsA fsB : list (R -> pyfloat)) rows y mA rA mB rB :
  Forall (fun f => f ∈ fsB) fsA ->
  fit_score solve (length fsA) (features fsA rows) y = Some (mA, rA) ->
  fit_score solve (length fsB) (features fsB rows) y = Some (mB, rB) ->
  flt rA rB = false ->
  forall r qa qb, r ∈ rows -> finite_values (map (fun f => f r) fsA) = Some qa ->
    finite_values (map (fun f => f r) fsB) = Some qb -> linreg_predict mA qa == linreg_predict mB qb.
Proof.
  intros Hsub HA HB Hf r qa qb Hr Hqa Hqb.
  destruct (fit_score_inv solve _ _ _ _ _ HA (features_length fsA rows)) as (XAq & yq & HXA & Hy & HnA & HlA & -> & HpA).
  destruct (fit_score_inv solve _ _ _ _ _ HB (features_length fsB rows)) as (XBq & yq' & HXB & Hy' & HnB & HlB & -> & HpB).
  rewrite Hy in Hy'. injection Hy' as <-.
  assert (HlAB : length XBq = length XAq).
  { rewrite (mapM_finite_length _ _ HXA), (mapM_finite_length _ _ HXB). unfold features. by rewrite !length_map. }
  rewrite HlAB in HpB. pose proof (features_nested fsA fsB rows XAq XBq Hsub HXA HXB) as Hnest.
  set (kA := S (length fsA)). set (kB := S (length fsB)). set (n := length XAq) in *.
  assert (Hle : rss n kA (design XAq) (col yq) (solve n kA (design XAq) (col yq)) <=
                rss n kB (design XBq) (col yq) (solve n kB (design XBq) (col yq))).
  { refine (rss_le_of_score n kA kB (design XAq) (design XBq) yq _ _ (map (linreg_predict mA) XAq)
      (map (linreg_predict mB) XBq) HlA HnA (solve_normal _ _ _ _) (solve_normal _ _ _ _) (Nat.lt_0_succ _)
      (fun _ _ => Qeq_refl 1) Hnest _ _ Hf).
    - by apply sq_error_fitted.
    - apply sq_error_fitted; [done|lia|done]. }
  pose proof (nested_fits_equal _ _ _ _ _ _ _ _ (solve_normal _ _ _ _) Hnest Hle) as Heq.
  apply list_elem_of_lookup_1 in Hr as [i Hi].
  assert (Hi' : (i < length rows)%nat) by (by eapply lookup_lt_Some).
  assert (HiA : (i < length XAq)%nat) by (rewrite (mapM_finite_length _ _ HXA); unfold features; by rewrite length_map).
  destruct (features_row fsA rows i Hi') as (r1 & Hr1 & EA). destruct (features_row fsB rows i Hi') as (r2 & Hr2 & EB).
  rewrite Hi in Hr1, Hr2. injection Hr1 as <-. injection Hr2 as <-.
  pose proof (mapM_finite_nth _ _ i HXA ltac:(unfold features; by rewrite length_map)) as FA.
  pose proof (mapM_finite_nth _ _ i HXB ltac:(unfold features; by rewrite length_map)) as FB.
  rewrite EA, Hqa in FA. rewrite EB, Hqb in FB. injection FA as ->. injection FB as ->.
  rewrite (HpA i HiA), (HpB i HiA). apply Heq. done.
Qed.

(** A fit on more features never scores lower. *)
Lemma fit_score_nested_le {R} (fsA fsB : list (R -> pyfloat)) rows y mA rA mB rB :
  Forall (fun f => f ∈ fsB) fsA -> (2 <= length rows)%nat ->
  fit_score solve (length fsA) (features fsA rows) y = Some (mA, rA) ->
  fit_score solve (length fsB) (features fsB rows) y = Some (mB, rB) -> fle rA rB = true.
Proof.
  intros Hsub H2 HA HB.
  destruct (fit_score_inv solve _ _ _ _ _ HA (features_length fsA rows)) as (XAq & yq & HXA & Hy & HnA & HlA & -> & HpA).
  destruct (fit_score_inv solve _ _ _ _ _ HB (features_length fsB rows)) as (XBq & yq' & HXB & Hy' & HnB & HlB & -> & HpB).
  rewrite Hy in Hy'. injection Hy' as <-.
  assert (HlX : length XAq = length rows) by (rewrite (mapM_finite_length _ _ HXA); unfold features; by rewrite length_map).
  assert (HlAB : length XBq = length XAq).
  { rewrite (mapM_finite_length _ _ HXA), (mapM_finite_length _ _ HXB). unfold features. by rewrite !length_map. }
  rewrite HlAB in HpB. pose proof (features_nested fsA fsB rows XAq XBq Hsub HXA HXB) as Hnest.
  apply r2_score_mono; [lia|].
  rewrite (sq_error_fitted mA (length XAq) XAq yq _ eq_refl ltac:(lia) HpA).
  rewrite (sq_error_fitted mB (length XAq) XBq yq _ HlAB ltac:(lia) HpB).
  fold (rss (length XAq) (S (length fsB)) (design XBq) (col yq) (solve (length XAq) (S (length fsB)) (design XBq) (col yq))).
  fold (rss (length XAq) (S (length fsA)) (design XAq) (col yq) (solve (length XAq) (S (length fsA)) (design XAq) (col yq))).
  apply rss_nested; [apply solve_normal|done].
Qed.

(** On a constant target, every fit with an intercept is exact: its score
    is [1.0] from two samples on. *)
Lemma fit_score_constant k X y m r c :
  Forall (fun x => length x = k) X -> Forall (fun v => v = Fin c) y -> (2 <= length y)%nat ->
  fit_score solve k X y = Some (m, r) -> r = Fin 1.
Proof.
  intros Hk Hc H2 Hf. destruct (fit_score_inv solve _ _ _ _ _ Hf Hk) as (Xq & yq & HX & Hy & Hn & Hl & -> & Hp).
  pose proof (finite_values_length _ _ Hy) as Hly.
  assert (Hcol : forall i, (i < length Xq)%nat -> col yq i == c).
  { intros i Hi. pose proof (finite_values_Some_nth y yq i Hy ltac:(lia)) as E.
    rewrite Forall_forall in Hc. rewrite (Hc (nth i y NaN)) in E; [injection E as ->; reflexivity|]. apply list_elem_of_In, nth_In. lia. }
  pose proof (tss_const _ _ c Hn Hcol) as Ht.
  pose proof (rss_intercept_le_tss (length Xq) (S k) (design Xq) (col yq) _ (Nat.lt_0_succ _)
    (fun _ _ => Qeq_refl 1) (solve_normal _ _ _ _)) as Hle.
  pose proof (sq_error_fitted m (length Xq) Xq yq _ eq_refl ltac:(lia) Hp) as Es.
  pose proof (sq_error_nonneg yq (map (linreg_predict m) Xq)). unfold rss in Hle.
  unfold r2_score. rewrite bool_decide_false by lia.
  assert (E : Qeq_bool (sq_error yq (map (linreg_predict m) Xq)) 0 = true) by (apply Qeq_bool_iff; lra).
  by rewrite E.
Qed.

End Selection.

(** ** The closed form of [Stats.v] *)

Lemma qsum_zip_sumq (f : Q -> Q -> Q) : forall xs ys, length xs = length ys ->
  qsum (zip_with f xs ys) == sumq (length xs) (fun i => f (nth i xs 0) (nth i ys 0)).
Proof.
  induction xs as [|x xs IH]; intros [|y ys] Hl; cbn [length] in *; try lia; [reflexivity|].
  cbn [zip_with qsum fold_right]. fold (qsum (zip_with f xs ys)). rewrite IH by lia.
  rewrite sumq_shift. cbn [nth]. ring.
Qed.

(** The one-feature design [[1, x]] of a column. *)
Definition design1 (xs : list Q) : nat -> vec := design (map (fun x => [x]) xs).

Lemma design1_entry xs i : (i < length xs)%nat -> design1 xs 1%nat i = nth i xs 0.
Proof. intros Hi. unfold design1, design. by rewrite (nth_map_lt _ _ _ _ 0) by done. Qed.

(** The closed form [ols] solves the normal equations of the design
    [[1, x]]. *)
Lemma ols_lstsq_spec xs ys : length xs = length ys -> xs <> [] ->
  let '(b, a) := ols xs ys in
  lstsq_spec (length xs) 2 (design1 xs) (col ys) (fun m => match m with O => a | _ => b end).
Proof.
  intros Hl Hne. pose proof (ols_normal xs ys Hl Hne) as Hn. destruct (ols xs ys) as [b a].
  destruct Hn as [H0 H1]. rewrite qsum_zip_sumq in H0, H1 by done.
  assert (Hfit : forall i, (i < length xs)%nat ->
    lincomb 2 (fun m => match m with O => a | _ => b end) (design1 xs) i == a + b * nth i xs 0).
  { intros i Hi. unfold lincomb. cbn [sumq]. rewrite design1_entry by done. unfold design1, design. ring. }
  intros [|[|m]] Hm; [| |lia].
  - rewrite <- H0. apply sumq_ext. intros i Hi. rewrite (Hfit i Hi). unfold design1, design, col. ring.
  - rewrite <- H1. apply sumq_ext. intros i Hi. rewrite (Hfit i Hi), design1_entry by done. unfold col. ring.
Qed.

(** The closed form and Gram-Schmidt predict the same values on the
    fitted rows. *)
Theorem ols_agrees_lstsq xs ys : length xs = length ys -> xs <> [] ->
  forall i, (i < length xs)%nat ->
  let '(b, a) := ols xs ys in
  a + b * nth i xs 0 == lincomb 2 (lstsq (length xs) 2 (design1 xs) (col ys)) (design1 xs) i.
Proof.
  intros Hl Hne i Hi. pose proof (ols_lstsq_spec xs ys Hl Hne) as Hs. destruct (ols xs ys) as [b a].
  rewrite <- (lstsq_fitted_unique _ _ _ _ _ _ Hs (lstsq_normal _ _ _ _) i Hi).
  unfold lincomb. cbn [sumq]. rewrite design1_entry by done. unfold design1, design. ring.
Qed.

Lemma ols_agrees_lstsq_witness :
  let xs := [1; 2; 4] in let ys := [3; 5; 6] in
  let '(b, a) := ols xs ys in
  a + b * nth 2%nat xs 0 == lincomb 2%nat (lstsq (length xs) 2%nat (design1 xs) (col ys)) (design1 xs) 2%nat.
Proof. exact (ols_agrees_lstsq [1; 2; 4] [3; 5; 6] eq_refl ltac:(discriminate) 2%nat ltac:(cbn; lia)). Defined.
