(* ===== verification/JsonData.v ===== *)
(** * The JSON folder records and the trial-5 merge

    Two scripts read the folder metrics as JSON objects:
    - [parse_json_folder_analysis_data] of
      [docs/plans/Bookkeeper/speed_tests/improved_parser_json.py] (lines
      18-65) builds one row of sixteen fields per object with [.get]
      defaults, and [main] writes the rows with a fixed field list (lines
      184-192);
    - [parse_trial5_data] of [docs/speed_tests/trial5_parser.py] (lines
      28-37) keeps every field of each object beside its [TestRun], and
      [merge_data] and [save_results] (lines 93-166) join the objects with
      the timing rows by run and write them with a field list that grows
      with the keys it meets.
    A JSON object is a [gmap text pyval]: the order of its keys never
    reaches a CSV row, since [csv.DictWriter] writes the cells in the
    order of its field names.  [json.loads] is an oracle ([loads]); a
    capture of [({.+?})] starts with a brace, so it decodes to an object
    or raises [JSONDecodeError].  [csv.DictWriter.writerow] raises
    [ValueError] on a key that is not a field name and writes [restval]
    ([''], here [None]) for a missing one. *)

From S2P Require Import Prelude Phases Timing Stats Regression.
From Stdlib Require Import QArith.
Local Open Scope Z_scope.

(** ** Python values of the rows *)

Inductive pyval :=
| VInt (z : Z)
| VFloat (x : pyfloat)
| VStr (s : text)
| VBool (b : bool)
| VNone
| VOther.  (** a JSON array or object *)

Abbreviation dict := (gmap text pyval).

(** The field names the scripts use. *)
Definition K_TestRun : text := Eval vm_compute in U"TestRun".
Definition K_TestRun_num : text := Eval vm_compute in U"TestRun#".
Definition K_avgDirectoryDepth : text := Eval vm_compute in U"avgDirectoryDepth".
Definition K_avgFileDepth : text := Eval vm_compute in U"avgFileDepth".
Definition K_avgFilenameLength : text := Eval vm_compute in U"avgFilenameLength".
Definition K_duplicateCandidateCount : text := Eval vm_compute in U"duplicateCandidateCount".
Definition K_duplicateCandidatePercent : text := Eval vm_compute in U"duplicateCandidatePercent".
Definition K_duplicateCandidatesSizeMB : text := Eval vm_compute in U"duplicateCandidatesSizeMB".
Definition K_largestFileSizesMB : text := Eval vm_compute in U"largestFileSizesMB".
Definition K_maxDirectoryDepth : text := Eval vm_compute in U"maxDirectoryDepth".
Definition K_maxFileDepth : text := Eval vm_compute in U"maxFileDepth".
Definition K_phase1FileAnalysisMs : text := Eval vm_compute in U"phase1FileAnalysisMs".
Definition K_phase2HashProcessingMs : text := Eval vm_compute in U"phase2HashProcessingMs".
Definition K_phase3UIRenderingMs : text := Eval vm_compute in U"phase3UIRenderingMs".
Definition K_timestamp : text := Eval vm_compute in U"timestamp".
Definition K_totalDirectoryCount : text := Eval vm_compute in U"totalDirectoryCount".
Definition K_totalDurationMs : text := Eval vm_compute in U"totalDurationMs".
Definition K_totalFiles : text := Eval vm_compute in U"totalFiles".
Definition K_totalSizeMB : text := Eval vm_compute in U"totalSizeMB".
Definition K_uniqueFilesSizeMB : text := Eval vm_compute in U"uniqueFilesSizeMB".
Definition K_uniqueFilesTotal : text := Eval vm_compute in U"uniqueFilesTotal".
Definition K_zeroByteFiles : text := Eval vm_compute in U"zeroByteFiles".

(** [json.loads] of a capture. *)
Inductive json_result := JDecodeError | JObject (d : dict).

(** ** [csv.DictWriter] *)

(** [writer.writerow(rowdict)]: [ValueError] when the row has a key that
    is not a field name; otherwise the cells in field order, [None] for
    [restval]. *)
Definition dict_to_row (fieldnames : list text) (d : dict) : exc + list (option pyval) :=
  if bool_decide (dom d ⊆ list_to_set fieldnames) then inr (map (fun f => d !! f) fieldnames)
  else inl ValueError.

(** [writer.writeheader(); writer.writerows(rows)]. *)
Definition write_csv (rows : list dict) (fieldnames : list text) : exc + (list text * list (list (option pyval))) :=
  cells ← mapM (dict_to_row fieldnames) rows;
  inr (fieldnames, cells).

(** ** [improved_parser_json.py] *)

Module JsonFolder.

(** The row of lines 35-53. *)
Definition row (test_run : nat) (data : dict) : dict :=
  list_to_map
    ((K_TestRun_num, VInt (Z.of_nat test_run)) ::
     map (fun kd => (kd.1, dget data kd.1 kd.2))
    [(K_timestamp, VInt 0);
      (K_totalFiles, VInt 0);
      (K_duplicateCandidateCount, VInt 0);
      (K_duplicateCandidatePercent, VInt 0);
      (K_uniqueFilesSizeMB, VFloat (Fin 0%Q));
      (K_duplicateCandidatesSizeMB, VFloat (Fin 0%Q));
      (K_totalSizeMB, VFloat (Fin 0%Q));
      (K_totalDirectoryCount, VInt 0);
      (K_avgDirectoryDepth, VFloat (Fin 0%Q));
      (K_maxDirectoryDepth, VInt 0);
      (K_uniqueFilesTotal, VInt 0);
      (K_maxFileDepth, VInt 0);
      (K_avgFileDepth, VFloat (Fin 0%Q));
      (K_avgFilenameLength, VFloat (Fin 0%Q));
      (K_zeroByteFiles, VInt 0);
      (K_largestFileSizesMB, VFloat (Fin 0%Q))]).

(** The loop of lines 29-63: an object that does not decode is skipped
    without advancing [test_run]. *)
Fixpoint folder_loop (loads : text -> json_result) (test_run : nat) (matches : list text) : list dict :=
  match matches with
  | [] => []
  | m :: ms =>
      match loads m with
      | JDecodeError => folder_loop loads test_run ms
      | JObject data => row test_run data :: folder_loop loads (S test_run) ms
      end
  end.

Definition parse_json_folder_analysis_data (loads : text -> json_result) (matches : list text) : list dict :=
  folder_loop loads 1 matches.

(** The field list of lines 185-191. *)
Definition folder_fieldnames : list text :=
  [K_TestRun_num; K_timestamp; K_totalFiles; K_duplicateCandidateCount; K_duplicateCandidatePercent;
   K_uniqueFilesSizeMB; K_duplicateCandidatesSizeMB; K_totalSizeMB; K_totalDirectoryCount;
   K_avgDirectoryDepth; K_maxDirectoryDepth; K_uniqueFilesTotal; K_maxFileDepth; K_avgFileDepth;
   K_avgFilenameLength; K_zeroByteFiles; K_largestFileSizesMB].

End JsonFolder.

(** ** [trial5_parser.py] *)

Module Trial5Merge.

(** [format(v, '.1f')] in the print of line 35: a number formats, [None]
    or a container raises [TypeError], a string [ValueError]. *)
Definition format_f (v : pyval) : option exc :=
  match v with VInt _ | VFloat _ | VBool _ => None | VStr _ => Some ValueError | _ => Some TypeError end.

(** The print of line 35, with its two formatted fields in order. *)
Definition entry_print (data : dict) : option exc :=
  match format_f (dget data K_totalSizeMB (VInt 0)) with
  | Some e => Some e
  | None => format_f (dget data K_avgDirectoryDepth (VInt 0))
  end.

(** The loop of lines 28-37: [{'TestRun': i, **data}], the JSON's own
    keys winning; [i] counts every capture, decoded or not; only
    [JSONDecodeError] is caught, so an error of the print ends the
    script. *)
Fixpoint folder_loop (loads : text -> json_result) (i : nat) (matches : list text) : exc + list dict :=
  match matches with
  | [] => inr []
  | m :: ms =>
      match loads m with
      | JDecodeError => folder_loop loads (S i) ms
      | JObject data =>
          match entry_print data with
          | Some e => inl e
          | None => rest ← folder_loop loads (S i) ms; inr ((data ∪ {[K_TestRun := VInt (Z.of_nat i)]}) :: rest)
          end
      end
  end.

Definition opt_int (o : option Z) : pyval := match o with Some z => VInt z | None => VNone end.

(** The timing dict of lines 74-84. *)
Definition timing_item (run : nat) (r : Trial5.phase_row) : dict :=
  list_to_map
    [(K_TestRun, VInt (Z.of_nat run)); (K_totalDurationMs, opt_int (Trial5.total_ms r));
     (K_phase1FileAnalysisMs, opt_int (Trial5.phase1_ms r)); (K_phase2HashProcessingMs, opt_int (Trial5.phase2_ms r));
     (K_phase3UIRenderingMs, opt_int (Trial5.phase3_ms r)); (PROCESSING_START, VInt (Trial5.start_ts r));
     (DEDUPLICATION_START, VInt (Trial5.dedup_ts r)); (UI_UPDATE_START, VInt (Trial5.ui_ts r));
     (ALL_FILES_DISPLAYED, VInt (Trial5.end_ts r))].

Definition processed_timing (content : text) : list dict :=
  map (fun kr => timing_item kr.1 kr.2) (parse_trial5_timing content).

(** [item['TestRun']] as a run number; other values are left out of the
    model ([None]). *)
Definition run_key (d : dict) : option Z :=
  match d !! K_TestRun with Some (VInt z) => Some z | _ => None end.

(** [{item['TestRun']: item for item in items}]: the last item of a run
    wins. *)
Definition by_run_step (acc : option (gmap Z dict)) (it : dict) : option (gmap Z dict) :=
  m ← acc; k ← run_key it; Some (<[k := it]> m).

Definition by_run (items : list dict) : option (gmap Z dict) := foldl by_run_step (Some ∅) items.

(** [merge_data] (lines 93-116). *)
Definition merge_data (folder_data timing_data : list dict) : option (list dict) :=
  folder_by_run ← by_run folder_data;
  timing_by_run ← by_run timing_data;
  let all_runs : gset Z := dom folder_by_run ∪ dom timing_by_run in
  Some (map (fun run_num => <[K_TestRun := VInt run_num]>
                              (default ∅ (timing_by_run !! run_num) ∪ default ∅ (folder_by_run !! run_num)))
            (merge_sort Z.le (elements all_runs))).

(** Python's order on [str]: code point by code point, a prefix first. *)
Fixpoint text_leb (a b : text) : bool :=
  match a, b with
  | [], _ => true
  | _ :: _, [] => false
  | x :: a', y :: b' => if bool_decide (x < y) then true else if bool_decide (x = y) then text_leb a' b' else false
  end.

Definition text_le (a b : text) : Prop := text_leb a b = true.

#[export] Instance text_le_dec : RelDecision text_le.
Proof. intros a b. unfold text_le. apply _. Defined.

(** The field list of lines 126-134. *)
Definition base_fieldnames : list text :=
  [K_TestRun; K_timestamp; K_totalFiles; K_duplicateCandidateCount; K_duplicateCandidatePercent; K_uniqueFilesSizeMB; K_duplicateCandidatesSizeMB; K_totalSizeMB; K_totalDirectoryCount; K_avgDirectoryDepth; K_maxDirectoryDepth; K_uniqueFilesTotal; K_maxFileDepth; K_avgFileDepth; K_avgFilenameLength; K_zeroByteFiles; K_totalDurationMs; K_phase1FileAnalysisMs; K_phase2HashProcessingMs; K_phase3UIRenderingMs; PROCESSING_START; DEDUPLICATION_START; UI_UPDATE_START; ALL_FILES_DISPLAYED].

(** The loop of lines 142-144. *)
Definition add_missing (fieldnames : list text) (key : text) : list text :=
  if decide (key ∈ fieldnames) then fieldnames else fieldnames ++ [key].

Definition save_fieldnames (merged_data : list dict) : list text :=
  let all_keys : gset text := ⋃ (map dom merged_data) in
  foldl add_missing base_fieldnames (merge_sort text_le (elements all_keys)).

(** [save_results] (lines 118-166): [None] when there is nothing to
    save; otherwise the header and the rows [writerows] writes.  The
    count of complete records it prints is not modelled. *)
Definition save_results (merged_data : list dict) : exc + option (list text * list (list (option pyval))) :=
  match merged_data with
  | [] => inr None
  | _ => r ← write_csv merged_data (save_fieldnames merged_data); inr (Some r)
  end.

End Trial5Merge.

(** * Properties *)

Lemma dict_to_row_ok fns d : dom d ⊆ list_to_set fns -> dict_to_row fns d = inr (map (fun f => d !! f) fns).
Proof. intros H. unfold dict_to_row. by case_bool_decide. Qed.

(** [writerows] writes every row whose keys are field names. *)
Lemma write_csv_ok rows fns : Forall (fun d => dom d ⊆ list_to_set fns) rows ->
  write_csv rows fns = inr (fns, map (fun d => map (fun f => d !! f) fns) rows).
Proof.
  intros Hr. unfold write_csv. induction Hr as [|d rows Hd Hr IH]; [done|].
  cbn [mapM]. rewrite (dict_to_row_ok _ _ Hd). cbn [mbind exc_bind].
  destruct (mapM (dict_to_row fns) rows) as [e|cs]; cbn [mbind exc_bind] in IH |- *; [done|].
  by injection IH as ->.
Qed.

Module JsonFolderProps.
Import JsonFolder.

Lemma dom_row i data : dom (row i data) = list_to_set folder_fieldnames.
Proof. unfold row. etransitivity; [apply dom_list_to_map_L|]. reflexivity. Qed.

Lemma json_folder_loop_numbered loads : forall ms i,
  map (fun d => d !! K_TestRun_num) (folder_loop loads i ms) =
  map (fun k => Some (VInt (Z.of_nat k))) (seq i (length (folder_loop loads i ms))).
Proof.
  induction ms as [|m ms IH]; intros i; [done|]. cbn [folder_loop].
  destruct (loads m) as [|data]; [apply IH|]. cbn [map length seq]. rewrite IH. f_equal.
Qed.

Lemma folder_loop_fields loads : forall ms i,
  Forall (fun d => dom d ⊆ list_to_set folder_fieldnames) (folder_loop loads i ms).
Proof.
  induction ms as [|m ms IH]; intros i; cbn [folder_loop]; [done|].
  destruct (loads m) as [|data]; [apply IH|]. constructor; [|apply IH]. by rewrite dom_row.
Qed.

Lemma folder_loop_length loads : forall ms i,
  length (folder_loop loads i ms) = length (filter (fun m => (if loads m is JDecodeError then false else true) = true) ms).
Proof.
  induction ms as [|m ms IH]; intros i; cbn [folder_loop]; [done|]. rewrite filter_cons.
  destruct (loads m); cbn [length]; rewrite IH; case_decide; done.
Qed.

(** [improved_parser_json.py] numbers its JSON folder rows 1, 2, ...
    over the captures that decode, one row per such capture, and every
    row has exactly the sixteen fields and ['TestRun#'] of the field
    list, so [write_csv] writes them all without [ValueError]. *)
Theorem json_folder_rows_written loads ms :
  let rows := parse_json_folder_analysis_data loads ms in
  length rows = length (filter (fun m => (if loads m is JDecodeError then false else true) = true) ms) /\
  map (fun d => d !! K_TestRun_num) rows = map (fun k => Some (VInt (Z.of_nat k))) (seq 1 (length rows)) /\
  write_csv rows folder_fieldnames = inr (folder_fieldnames, map (fun d => map (fun f => d !! f) folder_fieldnames) rows).
Proof.
  cbn zeta. unfold parse_json_folder_analysis_data. split_and!.
  - apply folder_loop_length.
  - apply json_folder_loop_numbered.
  - apply write_csv_ok, folder_loop_fields.
Qed.

End JsonFolderProps.

Module Trial5MergeProps.
Import Trial5Merge.

(** The item a dict comprehension keyed by run keeps for run [r]: the
    last one. *)
Definition last_of_run (items : list dict) (r : Z) : option dict :=
  last (filter (fun it => run_key it = Some r) items).

Lemma by_run_step_None items :
  foldl by_run_step None items = None.
Proof. induction items; cbn [foldl]; done. Qed.

Lemma by_run_foldl items : forall m0 m,
  foldl by_run_step (Some m0) items = Some m ->
  forall r, m !! r = last_of_run items r ∪ m0 !! r.
Proof.
  unfold last_of_run. induction items as [|it items IH]; intros m0 m Hf r; cbn [foldl] in Hf.
  - injection Hf as <-. by destruct (m0 !! r).
  - unfold by_run_step at 2 in Hf. cbn [mbind option_bind] in Hf. destruct (run_key it) as [k|] eqn:Ek; [|by rewrite by_run_step_None in Hf].
    rewrite (IH _ _ Hf r), filter_cons. case_decide as Hr.
    + rewrite Ek in Hr. injection Hr as <-. rewrite lookup_insert_eq, last_cons. destruct (last _), (m0 !! k); reflexivity.
    + rewrite lookup_insert_ne by congruence. done.
Qed.

Lemma by_run_lookup items m r : by_run items = Some m -> m !! r = last_of_run items r.
Proof. intros H. rewrite (by_run_foldl items ∅ m H r), lookup_empty. by destruct (last_of_run _ _). Qed.

Lemma last_of_run_Some items r : is_Some (last_of_run items r) <-> exists it, it ∈ items /\ run_key it = Some r.
Proof.
  unfold last_of_run. rewrite last_is_Some. split.
  - intros Hne. destruct (filter _ items) as [|it l] eqn:E; [done|].
    assert (Hin : it ∈ filter (fun it => run_key it = Some r) items) by (rewrite E; by left).
    apply list_elem_of_filter in Hin as [Hr Hin]. by exists it.
  - intros (it & Hit & Hr) E. assert (Hin : it ∈ filter (fun it => run_key it = Some r) items)
      by (apply list_elem_of_filter; by split). rewrite E in Hin. by apply elem_of_nil in Hin.
Qed.

Lemma elem_of_dom_by_run items m r : by_run items = Some m -> r ∈ dom m <-> exists it, it ∈ items /\ run_key it = Some r.
Proof. intros H. rewrite elem_of_dom, (by_run_lookup _ _ _ H). apply last_of_run_Some. Qed.

(** Sorted with [<=] and without duplicates is sorted with [<]. *)
Lemma StronglySorted_lt (l : list Z) : StronglySorted Z.le l -> NoDup l -> StronglySorted Z.lt l.
Proof.
  induction 1 as [|x l _ IH Hx]; intros Hnd; constructor; apply NoDup_cons in Hnd as [Hn Hnd]; [by apply IH|].
  rewrite Forall_forall in Hx |- *. intros y Hy. specialize (Hx y Hy). assert (x <> y) by (intros ->; done). lia.
Qed.

Lemma default_empty_lookup (o : option dict) k : default ∅ o !! k = o ≫= (fun m => m !! k).
Proof. destruct o; cbn; [done|apply lookup_empty]. Qed.

(** C28: [merge_data] of [trial5_parser.py] returns one record per run
    found in either source, by increasing run number, with no run twice.
    The record of run [r] holds [TestRun = r] and, for every other key,
    the value of the last timing record of run [r] if it has that key,
    and otherwise that of the last folder record of run [r]. *)
Theorem merge_data_spec folder_data timing_data merged :
  merge_data folder_data timing_data = Some merged ->
  exists runs, StronglySorted Z.lt runs /\
    (forall r, r ∈ runs <-> (exists it, it ∈ folder_data /\ run_key it = Some r) \/
                           (exists it, it ∈ timing_data /\ run_key it = Some r)) /\
    Forall2 (fun r it => it !! K_TestRun = Some (VInt r) /\
      forall k, k <> K_TestRun ->
        it !! k = (last_of_run timing_data r ≫= (fun m => m !! k)) ∪ (last_of_run folder_data r ≫= (fun m => m !! k))) runs merged.
Proof.
  unfold merge_data. destruct (by_run folder_data) as [fb|] eqn:Ef; [|done].
  destruct (by_run timing_data) as [tb|] eqn:Et; [|done]. cbn [mbind option_bind]. intros [= <-].
  exists (merge_sort Z.le (elements (dom fb ∪ dom tb : gset Z))). split_and!.
  - apply StronglySorted_lt.
    { apply StronglySorted_merge_sort; [intros ???; lia|intros ??; lia]. }
    apply (NoDup_Permutation_proper _ _ (merge_sort_Permutation Z.le _)). apply NoDup_elements.
  - intros r. rewrite (elem_of_Permutation_proper r _ _ (merge_sort_Permutation Z.le _)), elem_of_elements, elem_of_union.
    by rewrite (elem_of_dom_by_run _ _ _ Ef), (elem_of_dom_by_run _ _ _ Et).
  - apply Forall2_fmap_r, Forall_Forall2_diag, Forall_forall. intros r _. unfold compose. cbv beta. split; [apply lookup_insert_eq|].
    intros k Hk. rewrite lookup_insert_ne by congruence. rewrite lookup_union, !default_empty_lookup.
    by rewrite (by_run_lookup _ _ _ Ef), (by_run_lookup _ _ _ Et).
Qed.

(** C30: The JSON loop of [trial5_parser.py] raises [ValueError], ending
    the script, on an object that decodes but whose [totalSizeMB] is a
    string: the progress line formats it with [:.1f], and only
    [JSONDecodeError] is caught, while the spec asks that a bad record be
    skipped with a warning. *)
Theorem trial5_folder_string_size_raises loads i m ms data s :
  loads m = JObject data -> data !! K_totalSizeMB = Some (VStr s) ->
  folder_loop loads i (m :: ms) = inl ValueError.
Proof. intros Hl Hs. cbn [folder_loop]. rewrite Hl. unfold entry_print, dget. by rewrite Hs. Qed.

(** The loop of lines 142-144 appends each new key once. *)
Lemma foldl_add_missing keys : forall fns, NoDup fns ->
  NoDup (foldl add_missing fns keys) /\ (exists extra, foldl add_missing fns keys = fns ++ extra) /\
  (forall k, k ∈ fns \/ k ∈ keys -> k ∈ foldl add_missing fns keys).
Proof.
  induction keys as [|key keys IH]; intros fns Hnd; cbn [foldl].
  - split_and!; [done|exists []; by rewrite app_nil_r|]. intros k [Hk|Hk]; [done|by apply elem_of_nil in Hk].
  - assert (Hnd' : NoDup (add_missing fns key)).
    { unfold add_missing. case_decide; [done|]. apply NoDup_app. split_and!; [done| |apply NoDup_singleton].
      intros x Hx ->%list_elem_of_singleton. done. }
    destruct (IH _ Hnd') as (Hn & [extra He] & Hin). split_and!; [done| |].
    + unfold add_missing in He |- *. case_decide; [by exists extra|]. exists (key :: extra). by rewrite He, <- app_assoc.
    + intros k Hk. apply Hin. unfold add_missing. case_decide.
      * destruct Hk as [Hk|Hk]; [by left|]. apply elem_of_cons in Hk as [->|Hk]; [by left|by right].
      * destruct Hk as [Hk|Hk]; [left; apply elem_of_app; by left|].
        apply elem_of_cons in Hk as [->|Hk]; [left; apply elem_of_app; right; by left|by right].
Qed.

Lemma base_fieldnames_NoDup : NoDup base_fieldnames.
Proof. apply (bool_decide_unpack _). vm_compute. reflexivity. Qed.

Lemma save_fieldnames_keys merged d k : d ∈ merged -> k ∈ dom d -> k ∈ save_fieldnames merged.
Proof.
  intros Hd Hk. unfold save_fieldnames. apply (foldl_add_missing _ _ base_fieldnames_NoDup). right.
  rewrite (elem_of_Permutation_proper k _ _ (merge_sort_Permutation text_le _)), elem_of_elements.
  apply elem_of_union_list. exists (dom d). split; [|done]. apply list_elem_of_fmap. by exists d.
Qed.

(** C29: [save_results] of [trial5_parser.py] writes every merged record:
    its field list has no duplicate, starts with the 24 names of lines
    126-134 and holds every key of every record, so
    [csv.DictWriter] never raises [ValueError] on an extra key. *)
Theorem save_results_writes merged : merged <> [] ->
  let fns := save_fieldnames merged in
  NoDup fns /\ take (length base_fieldnames) fns = base_fieldnames /\
  save_results merged = inr (Some (fns, map (fun d => map (fun f => d !! f) fns) merged)).
Proof.
  intros Hne. cbn zeta. destruct (foldl_add_missing (merge_sort text_le (elements (⋃ (map dom merged) : gset text)))
    base_fieldnames base_fieldnames_NoDup) as (Hnd & [extra He] & _).
  split_and!.
  - exact Hnd.
  - unfold save_fieldnames. rewrite He. apply take_app_length.
  - unfold save_results. destruct merged as [|d0 ds] eqn:Em; [done|]. rewrite <- Em.
    rewrite write_csv_ok; [done|]. apply Forall_forall. intros d Hd k Hk.
    apply elem_of_list_to_set. by apply (save_fieldnames_keys merged d k).
Qed.

End Trial5MergeProps.

(** ** Examples *)

Module JsonExamples.
Import Trial5Merge Trial5MergeProps.

(** Folder records of runs 1 and 2, timing records of runs 2 and 3. *)
Definition ex_folder : list dict :=
  [<[K_TestRun := VInt 1]> (<[K_totalFiles := VInt 100]> ∅);
   <[K_TestRun := VInt 2]> (<[K_totalFiles := VInt 250]> (<[K_totalDurationMs := VInt 1]> ∅))].

Definition ex_timing : list dict :=
  [<[K_TestRun := VInt 2]> (<[K_totalDurationMs := VInt 900]> ∅); <[K_TestRun := VInt 3]> ∅].

Definition ex_merged : list dict := default [] (merge_data ex_folder ex_timing).

Lemma merge_data_spec_witness :
  exists merged, merge_data ex_folder ex_timing = Some merged /\
  exists runs, StronglySorted Z.lt runs /\
    (forall r, r ∈ runs <-> (exists it, it ∈ ex_folder /\ run_key it = Some r) \/
                           (exists it, it ∈ ex_timing /\ run_key it = Some r)) /\
    Forall2 (fun r it => it !! K_TestRun = Some (VInt r) /\
      forall k, k <> K_TestRun ->
        it !! k = (last_of_run ex_timing r ≫= (fun m => m !! k)) ∪ (last_of_run ex_folder r ≫= (fun m => m !! k)))
      runs merged.
Proof.
  assert (E : merge_data ex_folder ex_timing = Some ex_merged) by (vm_compute; reflexivity).
  exists ex_merged. split; [exact E|]. exact (merge_data_spec _ _ _ E).
Defined.

Lemma save_results_writes_witness :
  let fns := save_fieldnames ex_folder in
  NoDup fns /\ take (length base_fieldnames) fns = base_fieldnames /\
  save_results ex_folder = inr (Some (fns, map (fun d => map (fun f => d !! f) fns) ex_folder)).
Proof. exact (save_results_writes ex_folder ltac:(discriminate)). Defined.

(** An object whose size is written as a string, as [toFixed] gives it. *)
Definition ex_bad : dict := {[K_totalSizeMB := VStr (U"12.50")]}.

Lemma trial5_folder_string_size_raises_witness :
  folder_loop (fun _ => JObject ex_bad) 1 [U"{}"] = inl ValueError.
Proof. exact (trial5_folder_string_size_raises (fun _ => JObject ex_bad) 1 (U"{}") [] ex_bad (U"12.50") eq_refl eq_refl). Defined.

End JsonExamples.
