(* ===== verification/Calibration.v ===== *)
(** * The validation and calibration scripts

    Each script loads [4_FolderAnalysisData.csv] and [4_TestSpeedData.csv]
    (the outputs of the v2 parser), joins them with [pd.merge] on the run
    number, keeps the worker-mode runs, predicts each run's total time
    with a three-phase formula, and summarises the accuracy.  The scripts
    modelled here:
    - [Estimation]: [docs/speed_tests/validate_estimation_formula.py], the
      size-based formula with its 200 MB threshold;
    - [NewFormula]: [docs/speed_tests/validate_new_formula.py], the
      per-file and per-candidate formula;
    - [Final]: [docs/plans/Bookkeeper/speed_tests/final_calibration.py],
      constants from the medians of the per-unit times;
    - [Simple]: [docs/plans/Bookkeeper/speed_tests/simple_calibration.py],
      the same with a fallback and a saved results frame;
    - [ThreeStage]: [docs/plans/Bookkeeper/speed_tests/analyze_3stage_data.py],
      constants as ratios of sums.
    A row of the merged frame is the pair of a folder record and a timing
    record with the columns the scripts read; [frame] keeps each row's
    index label, which the column assignments align on. *)

From S2P Require Import Prelude Stats.
From Stdlib Require Import QArith Qabs Lqa.

(** ** The merged frame *)

(** The columns of [4_FolderAnalysisData.csv] the scripts read. *)
Record folder_rec := FolderRec {
  f_TestRun : pyfloat;
  f_totalFiles : pyfloat;
  f_duplicateCandidateCount : pyfloat;
  f_totalSizeMB : pyfloat;
  f_avgDirectoryDepth : pyfloat;
  f_duplicateCandidatesSizeMB : pyfloat;
  f_uniqueFilesTotal : pyfloat;
  f_uniqueFilesSizeMB : pyfloat
}.

(** The columns of [4_TestSpeedData.csv]; an empty cell is [NaN]. *)
Record timing_rec := TimingRec {
  t_TestRun : pyfloat;
  t_isWorkerMode : bool;
  t_totalDurationMs : pyfloat;
  t_phase1FileAnalysisMs : pyfloat;
  t_phase2HashProcessingMs : pyfloat;
  t_phase3UIRenderingMs : pyfloat
}.

Definition mrow : Type := folder_rec * timing_rec.

(** A frame: rows with their index labels. *)
Definition frame : Type := list (nat * mrow).

(** Join keys are equal floats; [merge] also pairs [NaN] with [NaN]. *)
Definition key_eq (x y : pyfloat) : bool := feqb x y || (is_nan x && is_nan y).

(** [pd.merge(left, right, left_on=..., right_on=...)], an inner join: for
    each left row in order, the right rows with the same key in order. *)
Definition merge_inner {A B} (ka : A -> pyfloat) (kb : B -> pyfloat) (l : list A) (r : list B) : list (A * B) :=
  concat (map (fun a => map (pair a) (filter (fun b => key_eq (ka a) (kb b) = true) r)) l).

(** [load_and_merge_data]: the joined rows, labelled [0 .. n-1]. *)
Definition load_and_merge_data (fs : list folder_rec) (ts : list timing_rec) : frame :=
  imap pair (merge_inner f_TestRun t_TestRun fs ts).

(** [df[df['isWorkerMode'] == True]]: the labels are kept. *)
Definition worker_rows (df : frame) : frame := filter (fun p => t_isWorkerMode p.2.2 = true) df.

(** [df[col]] *)
Definition column (g : mrow -> pyfloat) (df : frame) : series := map (fun p => (p.1, g p.2)) df.

Definition totalFiles (r : mrow) : pyfloat := f_totalFiles r.1.
Definition duplicateCandidateCount (r : mrow) : pyfloat := f_duplicateCandidateCount r.1.
Definition totalDurationMs (r : mrow) : pyfloat := t_totalDurationMs r.2.
Definition phase1FileAnalysisMs (r : mrow) : pyfloat := t_phase1FileAnalysisMs r.2.
Definition phase2HashProcessingMs (r : mrow) : pyfloat := t_phase2HashProcessingMs r.2.
Definition phase3UIRenderingMs (r : mrow) : pyfloat := t_phase3UIRenderingMs r.2.

(** The accuracy of a prediction, as every script computes it:
    [100 - abs((actual - predicted) / actual * 100)]. *)
Definition error_percent (actual predicted : pyfloat) : pyfloat :=
  fmul (fdiv (fsub actual predicted) actual) (Fin 100).

Definition accuracy_percent (actual predicted : pyfloat) : pyfloat :=
  fsub (Fin 100) (fabs (error_percent actual predicted)).

(** A loop that prints one line per row and stops at the first row whose
    [int()] conversions raise: the lines printed, and the exception that
    stopped it. *)
Fixpoint print_rows {A B} (line : A -> exc + B) (rows : list A) : list B * option exc :=
  match rows with
  | [] => ([], None)
  | r :: rs =>
      match line r with
      | inl e => ([], Some e)
      | inr b => let '(bs, raised) := print_rows line rs in (b :: bs, raised)
      end
  end.

(** [len(s[s < 0])] and [len(s[s > 0])] *)
Definition count_below_zero (xs : list pyfloat) : nat := length (filter (fun x => flt x (Fin 0) = true) xs).
Definition count_above_zero (xs : list pyfloat) : nat := length (filter (fun x => flt (Fin 0) x = true) xs).

(** ** [validate_estimation_formula.py] *)

Module Estimation.

Definition PHASE1_FILE_TIME_MS : pyfloat := Fin (15 # 100).
Definition HASH_BASE_TIME_MS : pyfloat := Fin 2.
Definition HASH_TIME_PER_MB_LARGE : pyfloat := Fin 10.
Definition HASH_TIME_PER_MB_SMALL : pyfloat := Fin 18.
Definition LARGE_DATASET_THRESHOLD_MB : pyfloat := Fin 200.
Definition UI_BASE_TIME_MS : pyfloat := Fin (8 # 10).
Definition DIRECTORY_COMPLEXITY_FACTOR : pyfloat := Fin 25.

Record prediction := Prediction {
  predicted_total : pyfloat;
  predicted_phase1 : pyfloat;
  predicted_phase2 : pyfloat;
  predicted_phase3 : pyfloat;
  hash_rate_used : pyfloat
}.

(** The body of the loop of [calculate_predictions] (lines 33-57). *)
Definition predict (r : mrow) : prediction :=
  let f := r.1 in
  let hash_rate := if flt LARGE_DATASET_THRESHOLD_MB (f_totalSizeMB f)
                   then HASH_TIME_PER_MB_LARGE else HASH_TIME_PER_MB_SMALL in
  let phase1_pred := fmul (f_totalFiles f) PHASE1_FILE_TIME_MS in
  let phase2_pred := fadd (fmul (f_duplicateCandidatesSizeMB f) hash_rate)
                          (fmul (f_duplicateCandidateCount f) HASH_BASE_TIME_MS) in
  let phase3_pred := fadd (fmul (f_totalFiles f) UI_BASE_TIME_MS)
                          (fmul (f_avgDirectoryDepth f) DIRECTORY_COMPLEXITY_FACTOR) in
  Prediction (fadd (fadd phase1_pred phase2_pred) phase3_pred) phase1_pred phase2_pred phase3_pred hash_rate.

Definition calculate_predictions (df : frame) : list prediction := map (fun p => predict p.2) df.

(** A row of the frame [analyze_accuracy] returns. *)
Record analysed := Analysed {
  a_row : mrow;
  a_predicted_total : pyfloat;
  a_predicted_phase1 : pyfloat;
  a_predicted_phase2 : pyfloat;
  a_predicted_phase3 : pyfloat;
  total_error_ms : pyfloat;
  total_error_percent : pyfloat;
  total_accuracy_percent : pyfloat;
  phase1_error_percent : pyfloat;
  phase2_error_percent : pyfloat;
  phase3_error_percent : pyfloat
}.

(** [analyze_accuracy]: the prediction columns are assigned by label
    ([df[col] = predictions[col]]), then the columns are computed row by
    row. *)
Definition analyze_accuracy (df : frame) (preds : list prediction) : list (nat * analysed) :=
  let pcol g := range_series (map g preds) in
  map (fun '(l, r) =>
    let pt := s_lookup (pcol predicted_total) l in
    let p1 := s_lookup (pcol predicted_phase1) l in
    let p2 := s_lookup (pcol predicted_phase2) l in
    let p3 := s_lookup (pcol predicted_phase3) l in
    (l, Analysed r pt p1 p2 p3 (fsub (totalDurationMs r) pt)
          (error_percent (totalDurationMs r) pt) (accuracy_percent (totalDurationMs r) pt)
          (error_percent (phase1FileAnalysisMs r) p1)
          (error_percent (phase2HashProcessingMs r) p2)
          (error_percent (phase3UIRenderingMs r) p3))) df.

(** A line of the detailed table: the [int()] conversions of lines
    146-152. *)
Record detail_line := DetailLine {
  d_run : Z; d_files : Z; d_dup : Z; d_size : pyfloat; d_actual : Z; d_predicted : Z; d_error : Z;
  d_accuracy : pyfloat
}.

Definition detail_of (a : analysed) : exc + detail_line :=
  run ← py_int_of_float (t_TestRun (a_row a).2);
  files ← py_int_of_float (totalFiles (a_row a));
  dup ← py_int_of_float (duplicateCandidateCount (a_row a));
  actual ← py_int_of_float (totalDurationMs (a_row a));
  predicted ← py_int_of_float (a_predicted_total a);
  err ← py_int_of_float (total_error_ms a);
  inr (DetailLine run files dup (f_totalSizeMB (a_row a).1) actual predicted err (total_accuracy_percent a)).

(** What [print_analysis_results] prints: the statistics, the detailed
    table, and the over- and under-estimate counts, which are printed only
    when the table did not raise. *)
Record report := Report {
  r_count : nat;
  r_mean_accuracy : pyfloat;
  r_median_accuracy : pyfloat;
  r_min_accuracy : pyfloat;
  r_max_accuracy : pyfloat;
  r_mean_error : pyfloat;
  r_mean_abs_error : pyfloat;
  r_median_error : pyfloat;
  r_phase_accuracy : list (pyfloat * pyfloat);
  r_details : list detail_line;
  r_estimates : option (nat * nat)
}.

Definition print_analysis_results (df : list (nat * analysed)) : report :=
  let w := map snd (filter (fun p => t_isWorkerMode (a_row p.2).2 = true) df) in
  let acc := map total_accuracy_percent w in
  let err := map total_error_ms w in
  let phase g := (fsub (Fin 100) (s_mean (map (fun a => fabs (g a)) w)), s_mean (map g w)) in
  let '(lines, raised) := print_rows detail_of w in
  Report (length w) (s_mean acc) (s_median acc) (s_min acc) (s_max acc)
    (s_mean err) (s_mean (map fabs err)) (s_median err)
    [phase phase1_error_percent; phase phase2_error_percent; phase phase3_error_percent]
    lines (if raised is Some _ then None else Some (count_below_zero err, count_above_zero err)).

(** [main] without the file output. *)
Definition main (fs : list folder_rec) (ts : list timing_rec) : report :=
  let df := load_and_merge_data fs ts in
  print_analysis_results (analyze_accuracy df (calculate_predictions df)).

End Estimation.

(** ** [validate_new_formula.py] *)

Module NewFormula.

Definition PHASE1_FILE_TIME_MS : pyfloat := Fin (10 # 1000).
Definition PHASE2_CANDIDATE_TIME_MS : pyfloat := Fin (4843 # 1000).
Definition PHASE3_FILE_TIME_MS : pyfloat := Fin (4186 # 1000).

(** The body of the loop of [calculate_new_predictions] (lines 29-44):
    the total and the three phases. *)
Definition predict (r : mrow) : pyfloat * (pyfloat * pyfloat * pyfloat) :=
  let phase1_pred := fmul (totalFiles r) PHASE1_FILE_TIME_MS in
  let phase2_pred := fmul (duplicateCandidateCount r) PHASE2_CANDIDATE_TIME_MS in
  let phase3_pred := fmul (totalFiles r) PHASE3_FILE_TIME_MS in
  (fadd (fadd phase1_pred phase2_pred) phase3_pred, (phase1_pred, phase2_pred, phase3_pred)).

Definition calculate_new_predictions (df : frame) : list pyfloat := map (fun p => (predict p.2).1) df.

(** [analyze_accuracy]: the row, its predicted total, error, error
    percentage and accuracy. *)
Record analysed := Analysed {
  a_row : mrow; a_predicted_total : pyfloat; total_error_ms : pyfloat;
  total_error_percent : pyfloat; total_accuracy_percent : pyfloat
}.

Definition analyze_accuracy (df : frame) (preds : list pyfloat) : list (nat * analysed) :=
  map (fun '(l, r) =>
    let pt := s_lookup (range_series preds) l in
    (l, Analysed r pt (fsub (totalDurationMs r) pt) (error_percent (totalDurationMs r) pt)
          (accuracy_percent (totalDurationMs r) pt))) df.

Record detail_line := DetailLine {
  d_run : Z; d_files : Z; d_dup : Z; d_actual : Z; d_predicted : Z; d_error : Z; d_accuracy : pyfloat
}.

(** Lines 107-113. *)
Definition detail_of (a : analysed) : exc + detail_line :=
  run ← py_int_of_float (t_TestRun (a_row a).2);
  files ← py_int_of_float (totalFiles (a_row a));
  dup ← py_int_of_float (duplicateCandidateCount (a_row a));
  actual ← py_int_of_float (totalDurationMs (a_row a));
  predicted ← py_int_of_float (a_predicted_total a);
  err ← py_int_of_float (total_error_ms a);
  inr (DetailLine run files dup actual predicted err (total_accuracy_percent a)).

Record report := Report {
  r_count : nat;
  r_mean_accuracy : pyfloat; r_median_accuracy : pyfloat; r_min_accuracy : pyfloat; r_max_accuracy : pyfloat;
  r_mean_error : pyfloat; r_mean_abs_error : pyfloat; r_median_error : pyfloat;
  r_details : list detail_line;
  r_estimates : option (nat * nat)
}.

Definition print_analysis_results (df : list (nat * analysed)) : report :=
  let w := map snd (filter (fun p => t_isWorkerMode (a_row p.2).2 = true) df) in
  let acc := map total_accuracy_percent w in
  let err := map total_error_ms w in
  let '(lines, raised) := print_rows detail_of w in
  Report (length w) (s_mean acc) (s_median acc) (s_min acc) (s_max acc)
    (s_mean err) (s_mean (map fabs err)) (s_median err)
    lines (if raised is Some _ then None else Some (count_below_zero err, count_above_zero err)).

Definition main (fs : list folder_rec) (ts : list timing_rec) : report :=
  let df := load_and_merge_data fs ts in
  print_analysis_results (analyze_accuracy df (calculate_new_predictions df)).

End NewFormula.

(** ** [final_calibration.py] *)

Module Final.

(** The three constants (lines 30-40): medians of the per-unit times of
    the worker runs, phase 2 over the runs with candidates. *)
Definition constants (df : frame) : pyfloat * pyfloat * pyfloat :=
  let phase1_per_file := s_median (values (s_binop fdiv (column phase1FileAnalysisMs df) (column totalFiles df))) in
  let valid_phase2 := filter (fun p => flt (Fin 0) (duplicateCandidateCount p.2) = true) df in
  let phase2_per_candidate := s_median (values (s_binop fdiv (column phase2HashProcessingMs valid_phase2)
                                                              (column duplicateCandidateCount valid_phase2))) in
  let phase3_per_file := s_median (values (s_binop fdiv (column phase3UIRenderingMs df) (column totalFiles df))) in
  (phase1_per_file, phase2_per_candidate, phase3_per_file).

(** One run of the testing loop (lines 54-62): the predicted total, the
    error, and the accuracy [100 - abs(error) / actual * 100]. *)
Definition test_row (c : pyfloat * pyfloat * pyfloat) (r : mrow) : pyfloat * pyfloat * pyfloat :=
  let '(c1, c2, c3) := c in
  let total_pred := fadd (fadd (fmul (totalFiles r) c1) (fmul (duplicateCandidateCount r) c2))
                         (fmul (totalFiles r) c3) in
  let error := fsub (totalDurationMs r) total_pred in
  (total_pred, error, fsub (Fin 100) (fmul (fdiv (fabs error) (totalDurationMs r)) (Fin 100))).

(** The printed line of a run (lines 68-72): its [int()] conversions. *)
Definition line_of (c : pyfloat * pyfloat * pyfloat) (r : mrow) : exc + (Z * Z * Z * pyfloat * pyfloat * pyfloat * pyfloat) :=
  run ← py_int_of_float (t_TestRun r.2);
  files ← py_int_of_float (totalFiles r);
  dup ← py_int_of_float (duplicateCandidateCount r);
  let '(pred, err, acc) := test_row c r in
  inr (run, files, dup, totalDurationMs r, pred, err, acc).

Record result := Result {
  constants_of : pyfloat * pyfloat * pyfloat;
  lines : list (Z * Z * Z * pyfloat * pyfloat * pyfloat * pyfloat);
  (** mean, median, max and min accuracy, mean and median absolute error;
      [None] when the loop raised or [np.max] of no runs raised. *)
  summary : option (pyfloat * pyfloat * pyfloat * pyfloat * pyfloat * pyfloat)
}.

Definition main (fs : list folder_rec) (ts : list timing_rec) : result :=
  let df := worker_rows (load_and_merge_data fs ts) in
  let c := constants df in
  let rows := map snd df in
  let '(ls, raised) := print_rows (line_of c) rows in
  let accuracies := map (fun r => (test_row c r).2) rows in
  let errors := map (fun r => fabs (test_row c r).1.2) rows in
  Result c ls
    (if raised is Some _ then None else
     mx ← np_max accuracies; mn ← np_min accuracies;
     Some (np_mean accuracies, np_median accuracies, mx, mn, np_mean errors, np_median errors)).

End Final.

(** ** [simple_calibration.py] *)

Module Simple.

(** [simple_calibration] (lines 29-60): the median ratios, with 4.0 for
    phase 2 when no run has candidates. *)
Definition simple_calibration (df : frame) : pyfloat * pyfloat * pyfloat :=
  let phase1_constant := s_median (values (s_binop fdiv (column phase1FileAnalysisMs df) (column totalFiles df))) in
  let valid_phase2 := filter (fun p => flt (Fin 0) (duplicateCandidateCount p.2) = true) df in
  let phase2_constant :=
    if bool_decide (length valid_phase2 = 0)%nat then Fin 4
    else s_median (values (s_binop fdiv (column phase2HashProcessingMs valid_phase2)
                                        (column duplicateCandidateCount valid_phase2))) in
  let phase3_constant := s_median (values (s_binop fdiv (column phase3UIRenderingMs df) (column totalFiles df))) in
  (phase1_constant, phase2_constant, phase3_constant).

Record prediction := Prediction {
  predicted_total : pyfloat; actual_total : pyfloat; error : pyfloat; accuracy : pyfloat
}.

(** The body of the loop of [test_simple_formula] (lines 73-88). *)
Definition predict (c : pyfloat * pyfloat * pyfloat) (r : mrow) : prediction :=
  let '(c1, c2, c3) := c in
  let total_pred := fadd (fadd (fmul (totalFiles r) c1) (fmul (duplicateCandidateCount r) c2))
                         (fmul (totalFiles r) c3) in
  let actual := totalDurationMs r in
  let err := fsub actual total_pred in
  let error_percent := fmul (fabs (fdiv err actual)) (Fin 100) in
  Prediction total_pred actual err (fsub (Fin 100) error_percent).

(** What [test_simple_formula] prints and returns: the mean and median
    accuracy, the mean absolute error, the detailed lines (by position,
    [pred_df.iloc[i]]), the exception that stopped them, and [pred_df]. *)
Definition test_simple_formula (df : frame) (c : pyfloat * pyfloat * pyfloat) :
    pyfloat * pyfloat * pyfloat * list (Z * Z * Z * Z * Z * Z * pyfloat) * option exc * list prediction :=
  let preds := map (fun p => predict c p.2) df in
  let line (ip : nat * mrow) :=
    let '(i, r) := ip in
    run ← py_int_of_float (t_TestRun r.2);
    files ← py_int_of_float (totalFiles r);
    dup ← py_int_of_float (duplicateCandidateCount r);
    p ← raise_index (preds !! i);
    actual ← py_int_of_float (actual_total p);
    predicted ← py_int_of_float (predicted_total p);
    err ← py_int_of_float (error p);
    inr (run, files, dup, actual, predicted, err, accuracy p) in
  let '(ls, raised) := print_rows line (imap pair (map snd df)) in
  (s_mean (map accuracy preds), s_median (map accuracy preds), s_mean (map (fun p => fabs (error p)) preds),
   ls, raised, preds).

(** [results[f'simple_{col}'] = pred_df[col]] (lines 155-157): the saved
    column, aligned on the labels of the worker frame. *)
Definition saved_column (df : frame) (g : prediction -> pyfloat) (preds : list prediction) : series :=
  reindex (range_series (map g preds)) (map fst df).

Definition load_data (fs : list folder_rec) (ts : list timing_rec) : frame :=
  worker_rows (load_and_merge_data fs ts).

(** [main]: the constants and the saved frame's [simple_predicted_total]
    column, [None] when the detailed table raised before the save. *)
Definition main (fs : list folder_rec) (ts : list timing_rec) : pyfloat * pyfloat * pyfloat * option series :=
  let df := load_data fs ts in
  let c := simple_calibration df in
  let '(_, _, _, _, raised, preds) := test_simple_formula df c in
  (c, if raised is Some _ then None else Some (saved_column df predicted_total preds)).

End Simple.

(** ** [analyze_3stage_data.py] *)

Module ThreeStage.

(** [load_data]: the timing frame is the left side of the join. *)
Definition load_data (fs : list folder_rec) (ts : list timing_rec) : frame :=
  imap pair (map (fun tf : timing_rec * folder_rec => (tf.2, tf.1)) (merge_inner t_TestRun f_TestRun ts fs)).

(** [dropna(subset=[the three phases])] *)
Definition complete (r : mrow) : bool :=
  negb (is_nan (phase1FileAnalysisMs r) || is_nan (phase2HashProcessingMs r) || is_nan (phase3UIRenderingMs r)).

(** [(p / total * 100) if total > 0 else 0] *)
Definition pct (p total : pyfloat) : pyfloat :=
  if flt (Fin 0) total then fmul (fdiv p total) (Fin 100) else Fin 0.

(** One run of the phase distribution (lines 45-62). *)
Definition distribution_line (r : mrow) : exc + (Z * Z * Z * Z * Z * Z * bool * pyfloat * pyfloat * pyfloat) :=
  let total := totalDurationMs r in
  run ← py_int_of_float (t_TestRun r.2);
  files ← py_int_of_float (totalFiles r);
  t ← py_int_of_float total;
  p1 ← py_int_of_float (phase1FileAnalysisMs r);
  p2 ← py_int_of_float (phase2HashProcessingMs r);
  p3 ← py_int_of_float (phase3UIRenderingMs r);
  inr (run, files, t, p1, p2, p3, t_isWorkerMode r.2,
        pct (phase1FileAnalysisMs r) total, pct (phase2HashProcessingMs r) total, pct (phase3UIRenderingMs r) total).

Definition uniqueFilesTotal (r : mrow) : pyfloat := f_uniqueFilesTotal r.1.

(** The ratios of sums of lines 88-90. *)
Definition coefficients (rows : list mrow) : pyfloat * pyfloat * pyfloat :=
  (fdiv (s_sum (map phase1FileAnalysisMs rows)) (s_sum (map totalFiles rows)),
   fdiv (s_sum (map phase2HashProcessingMs rows)) (s_sum (map uniqueFilesTotal rows)),
   fdiv (s_sum (map phase3UIRenderingMs rows)) (s_sum (map uniqueFilesTotal rows))).

Inductive outcome :=
| NoComplete (runs workers complete : nat)
| Analysed (runs workers complete : nat) (lines : list (Z * Z * Z * Z * Z * Z * bool * pyfloat * pyfloat * pyfloat))
    (coeffs : option (pyfloat * pyfloat * pyfloat))
(** An exception caught by [main]'s [except Exception], after the lines
    printed before it. *)
| Failed (lines : list (Z * Z * Z * Z * Z * Z * bool * pyfloat * pyfloat * pyfloat)).

(** [analyze_3stage_data] under [main]'s [try]; the correlations are
    printed only and not modelled. *)
Definition analyze_3stage_data (data : frame) : outcome :=
  let rows := map snd data in
  let workers := length (filter (fun r => t_isWorkerMode r.2) rows) in
  let cd := filter complete rows in
  if bool_decide (length cd = 0)%nat then NoComplete (length rows) workers 0
  else
    let '(ls, raised) := print_rows distribution_line cd in
    if raised is Some _ then Failed ls
    else Analysed (length rows) workers (length cd) ls
           (if bool_decide (2 <= length cd)%nat then Some (coefficients cd) else None).

Definition main (fs : list folder_rec) (ts : list timing_rec) : outcome := analyze_3stage_data (load_data fs ts).

End ThreeStage.

(** ** [recalibrate_constants.py] *)

Module Recalibrate.

(** [calibrate_phase1] and [calibrate_phase3] (lines 62-80, 111-130): the
    least-squares line of a phase against [totalFiles], as
    [(file_constant, base_constant)]; [None] when [fit] raises. *)
Definition calibrate_files (phase : mrow -> pyfloat) (df : frame) : option (Q * Q) :=
  linear_regression_fit (map (fun p => totalFiles p.2) df) (map (fun p => phase p.2) df).

(** [calibrate_phase2] (lines 82-108): over the runs with candidates, with
    the fallback [(4.0, 0.0)]. *)
Definition calibrate_phase2 (df : frame) : option (Q * Q) :=
  let valid_df := filter (fun p => flt (Fin 0) (duplicateCandidateCount p.2) = true) df in
  if bool_decide (length valid_df = 0)%nat then Some (4, 0)
  else linear_regression_fit (map (fun p => duplicateCandidateCount p.2) valid_df)
                             (map (fun p => phase2HashProcessingMs p.2) valid_df).

(** The predicted total of a run (lines 139-143). *)
Definition predicted_total (c1 c2 c3 : Q * Q) (r : mrow) : pyfloat :=
  let '(f1, b1) := c1 in let '(f2, b2) := c2 in let '(f3, b3) := c3 in
  fadd (fadd (fadd (Fin b1) (fmul (totalFiles r) (Fin f1)))
             (fadd (Fin b2) (fmul (duplicateCandidateCount r) (Fin f2))))
       (fadd (Fin b3) (fmul (totalFiles r) (Fin f3))).

(** The accuracy series of [test_calibrated_formula] (lines 153-156):
    [df['totalDurationMs'] - pred_df['predicted_total']] aligns the worker
    frame's labels with the positions [0 .. n-1] of [pred_df]. *)
Definition accuracy_series (df : frame) (preds : list pyfloat) : series :=
  let total_errors := s_binop fsub (column totalDurationMs df) (range_series preds) in
  let total_error_percent :=
    s_map (fun x => fmul x (Fin 100)) (s_map fabs (s_binop fdiv total_errors (column totalDurationMs df))) in
  s_map (fsub (Fin 100)) total_error_percent.

(** The detailed line of the [i]-th run (lines 165-170): its run number
    and the accuracy printed beside it, [accuracy_percent.iloc[i]]. *)
Definition detail_line (acc : series) (preds : list pyfloat) (ir : nat * mrow) : exc + (Z * Z * Z * Z * pyfloat) :=
  let '(i, r) := ir in
  actual ← py_int_of_float (totalDurationMs r);
  p ← raise_index (preds !! i);
  predicted ← py_int_of_float p;
  a ← raise_index (iloc acc i);
  run ← py_int_of_float (t_TestRun r.2);
  inr (run, actual, predicted, actual - predicted, a)%Z.

(** [test_calibrated_formula]: the accuracy series and the detailed
    lines, with the exception that stopped them. *)
Definition test_calibrated_formula (df : frame) (c1 c2 c3 : Q * Q) : series * (list (Z * Z * Z * Z * pyfloat) * option exc) :=
  let preds := map (fun p => predicted_total c1 c2 c3 p.2) df in
  let acc := accuracy_series df preds in
  (acc, print_rows (detail_line acc preds) (imap pair (map snd df))).

Definition main (fs : list folder_rec) (ts : list timing_rec) : option (series * (list (Z * Z * Z * Z * pyfloat) * option exc)) :=
  let df := worker_rows (load_and_merge_data fs ts) in
  c1 ← calibrate_files phase1FileAnalysisMs df;
  c2 ← calibrate_phase2 df;
  c3 ← calibrate_files phase3UIRenderingMs df;
  Some (test_calibrated_formula df c1 c2 c3).

End Recalibrate.

(** * Properties *)

(** ** Helpers *)

Lemma print_rows_raised {A B} (f : A -> exc + B) l :
  (exists e, (print_rows f l).2 = Some e) <-> Exists (fun x => exists e, f x = inl e) l.
Proof.
  induction l as [|x l IH]; cbn [print_rows]; [split; [by intros []|inversion 1]|].
  rewrite Exists_cons. destruct (f x) as [e|b] eqn:E; [split; [intros _; left; by exists e|by exists e]|].
  destruct (print_rows f l) as [bs r]. cbn in *. rewrite IH.
  split; [intros H; by right|intros [[e H]|H]; [congruence|done]].
Qed.

Lemma print_rows_elem {A B} (f : A -> exc + B) l b :
  b ∈ (print_rows f l).1 -> exists x, x ∈ l /\ f x = inr b.
Proof.
  induction l as [|x l IH]; cbn [print_rows]; [inversion 1|].
  destruct (f x) eqn:E; [inversion 1|]. destruct (print_rows f l) as [bs r]. cbn in *.
  intros [->|Hb]%elem_of_cons; [by exists x; split; [left|]|].
  destruct (IH Hb) as (y & Hy & Hfy). exists y. split; [by right|done].
Qed.

Lemma filter_all_false {A} (P : A -> Prop) `{!forall x, Decision (P x)} l :
  Forall (fun x => ~ P x) l -> filter P l = [].
Proof. induction 1; [done|]. rewrite filter_cons_False by done. done. Qed.

Lemma accuracy_finite a p :
  ~ (a == 0)%Q -> accuracy_percent (Fin a) (Fin p) = Fin (100 + - Qabs ((a + - p) / a * 100))%Q.
Proof.
  intros Ha. unfold accuracy_percent, error_percent. cbn [fsub fneg fadd fdiv].
  destruct (Qeq_bool a 0) eqn:E; [apply Qeq_bool_eq in E; contradiction|done].
Qed.

Lemma Qabs_zero q : (Qabs q == 0 <-> q == 0)%Q.
Proof. apply Qabs_case; intros _; split; intros; lra. Qed.

(** ** The accuracy of a prediction *)

(** the accuracy the scripts compute is never above 100%: it is
    [NaN] (a missing or zero duration) or at most 100. *)
Theorem accuracy_percent_at_most_100 actual predicted :
  is_nan (accuracy_percent actual predicted) = true \/
  fle (accuracy_percent actual predicted) (Fin 100) = true.
Proof.
  unfold accuracy_percent. destruct (error_percent actual predicted) as [q| | |]; cbn; auto.
  right. apply Qle_bool_iff. pose proof (Qabs_nonneg q). lra.
Qed.

(** On a run with a non-zero duration, the accuracy is exactly 100%
    when the prediction equals the duration, and only then. *)
Theorem accuracy_percent_exact a p :
  ~ (a == 0)%Q -> accuracy_percent (Fin a) (Fin p) ≡ Fin 100 <-> (p == a)%Q.
Proof.
  intros Ha. rewrite accuracy_finite by done. rewrite fin_equiv.
  transitivity (Qabs ((a + - p) / a * 100) == 0)%Q; [split; intros; lra|].
  rewrite Qabs_zero. split.
  - intros H. assert (E : (a + - p == (a + - p) / a * 100 * (a / 100))%Q) by (field; done).
    rewrite H in E. lra.
  - intros H. rewrite H. field. exact Ha.
Qed.

(** ** A run without a total duration *)

Lemma estimation_detail_nan a : totalDurationMs (Estimation.a_row a) = NaN ->
  exists e, Estimation.detail_of a = inl e.
Proof. intros H. unfold Estimation.detail_of. rewrite H. cbn [py_int_of_float].
  repeat (destruct (py_int_of_float _); cbn [mbind exc_bind]); by eexists. Qed.

Lemma new_detail_nan a : totalDurationMs (NewFormula.a_row a) = NaN ->
  exists e, NewFormula.detail_of a = inl e.
Proof. intros H. unfold NewFormula.detail_of. rewrite H. cbn [py_int_of_float].
  repeat (destruct (py_int_of_float _); cbn [mbind exc_bind]); by eexists. Qed.

(** A worker row of the merged frame with property [P] is a worker row of
    any frame computed from it row by row. *)
Lemma worker_row_mapped {X} (F : nat * mrow -> nat * X) (row : X -> mrow) (P : mrow -> Prop) (Q : X -> Prop) df :
  (forall p, row (F p).2 = p.2) -> (forall x, P (row x) -> Q x) ->
  Exists (fun p => t_isWorkerMode p.2.2 = true /\ P p.2) df ->
  Exists Q (map snd (filter (fun p => t_isWorkerMode (row p.2).2 = true) (map F df))).
Proof.
  intros Hrow HPQ (p & Hin & Hw & HP)%Exists_exists. apply Exists_exists. exists (F p).2. split.
  - apply (list_elem_of_fmap_2 snd). apply list_elem_of_filter. split; [by rewrite Hrow|].
    by apply list_elem_of_fmap_2.
  - apply HPQ. by rewrite Hrow.
Qed.

Ltac raised_report detail_nan :=
  match goal with |- context [print_rows ?f ?w] =>
    destruct (print_rows f w) as [lines raised] eqn:E;
    assert (Hr : exists e, raised = Some e);
    [ change raised with (lines, raised).2; rewrite <- E; apply print_rows_raised;
      refine (worker_row_mapped _ _ (fun r => totalDurationMs r = NaN) _ _ _ _ ltac:(eassumption));
      [by intros [l r]|intros a Ha; by apply detail_nan]
    | by destruct Hr as [e ->] ]
  end.

(** C25: when a worker run of the merged frame has no total duration (an
    empty cell, [NaN]), both validation scripts raise [ValueError] in the
    detailed table, after printing the statistics, and never print the
    over- and under-estimate counts. *)
Theorem validation_missing_total_raises fs ts :
  Exists (fun p => t_isWorkerMode p.2.2 = true /\ totalDurationMs p.2 = NaN) (load_and_merge_data fs ts) ->
  Estimation.r_estimates (Estimation.main fs ts) = None /\ NewFormula.r_estimates (NewFormula.main fs ts) = None.
Proof.
  intros Hex. split.
  - unfold Estimation.main, Estimation.print_analysis_results, Estimation.analyze_accuracy. cbv zeta.
    raised_report estimation_detail_nan.
  - unfold NewFormula.main, NewFormula.print_analysis_results, NewFormula.analyze_accuracy. cbv zeta.
    raised_report new_detail_nan.
Qed.

(** ** The 200 MB threshold of the size-based formula *)

(** [validate_estimation_formula.py] predicts less for a folder just
    above 200 MB than for the same folder at 200 MB: the rate applied to
    the candidates' size falls from 18 to 10 ms per MB, so the estimate
    drops by [8 * duplicateCandidatesSizeMB]. *)
Theorem estimation_threshold_drop run files cands depth dsize uniq usize size t :
  (200 < size)%Q ->
  let f s := FolderRec run (Fin files) (Fin cands) (Fin s) (Fin depth) (Fin dsize) uniq usize in
  Estimation.predicted_total (Estimation.predict (f size, t)) ≡
  fsub (Estimation.predicted_total (Estimation.predict (f 200%Q, t))) (Fin (8 * dsize)).
Proof.
  intros Hs. unfold Estimation.predict. cbn [fst snd f_totalSizeMB Estimation.LARGE_DATASET_THRESHOLD_MB flt fle].
  assert (E1 : Qle_bool size 200 = false) by (apply not_true_is_false; rewrite Qle_bool_iff; lra).
  assert (E2 : Qle_bool 200 200 = true) by (apply Qle_bool_iff; lra).
  rewrite E1, E2. cbn. apply fin_equiv. ring.
Qed.

(** ** [final_calibration.py] without duplicate candidates *)

Lemma test_row_nan c1 c3 r : Final.test_row (c1, NaN, c3) r = (NaN, NaN, NaN).
Proof. unfold Final.test_row. by autorewrite with pyfloat. Qed.

(** C26: when no worker run has duplicate candidates,
    [final_calibration.py] has no fallback: the phase-2 constant is the
    median of nothing, [NaN], and [0 * NaN] makes every prediction, error
    and accuracy [NaN], so the summary it prints is [NaN]. *)
Theorem final_no_candidates_nan fs ts :
  Forall (fun p => flt (Fin 0) (duplicateCandidateCount p.2) = false) (worker_rows (load_and_merge_data fs ts)) ->
  (Final.constants_of (Final.main fs ts)).1.2 = NaN /\
  Forall (fun l => l.1.1.2 = NaN /\ l.1.2 = NaN /\ l.2 = NaN) (Final.lines (Final.main fs ts)) /\
  (forall s, Final.summary (Final.main fs ts) = Some s -> s.1.1.1.1.1 = NaN).
Proof.
  intros Hnone. unfold Final.main. set (df := worker_rows _) in *.
  assert (Hc : (Final.constants df).1.2 = NaN).
  { unfold Final.constants. cbn [fst snd].
    rewrite (filter_all_false (fun p : nat * mrow => flt (Fin 0) (duplicateCandidateCount p.2) = true)); [done|].
    eapply Forall_impl; [exact Hnone|]. intros p Hp. by rewrite Hp. }
  destruct (Final.constants df) as [[c1 c2] c3] eqn:Ec. cbn in Hc. subst c2.
  destruct (print_rows (Final.line_of (c1, NaN, c3)) (map snd df)) as [ls raised] eqn:El. cbn [Final.constants_of Final.lines Final.summary].
  split_and!; [done| |].
  - apply Forall_forall. intros l Hl. change ls with (ls, raised).1 in Hl. rewrite <- El in Hl.
    apply print_rows_elem in Hl as (r & _ & Hr).
    unfold Final.line_of in Hr. rewrite test_row_nan in Hr.
    destruct (py_int_of_float (t_TestRun r.2)); simpl in Hr; [discriminate|].
    destruct (py_int_of_float (totalFiles r)); simpl in Hr; [discriminate|].
    destruct (py_int_of_float (duplicateCandidateCount r)); simpl in Hr; [discriminate|].
    by injection Hr as <-.
  - intros s Hs. destruct raised; [done|]. rewrite !(map_ext _ (fun _ => NaN)) in Hs
      by (intros r; by rewrite test_row_nan).
    destruct (map snd df) as [|r rs] eqn:Er; [done|].
    cbn [np_max np_min mbind option_bind] in Hs. injection Hs as <-. cbn.
    by rewrite foldl_fadd_nan.
Qed.

(** ** Label alignment of the saved predictions *)

(** A saved column holds, at each label, the value of that position. *)
Lemma saved_column_by_label df g preds :
  Simple.saved_column df g preds = map (fun p => (p.1, default NaN (g <$> preds !! p.1))) df.
Proof.
  unfold Simple.saved_column, reindex. rewrite map_map. apply map_ext. intros [l r]. cbn.
  rewrite s_lookup_range, list_lookup_fmap. by destruct (preds !! l).
Qed.

(** [simple_calibration.py] saves, beside the worker run labelled
    [l], the prediction computed for the [l]-th worker run by position,
    or [NaN] when there are at most [l] worker runs: the column is aligned
    on labels, not positions. *)
Theorem simple_saved_column_by_label df preds :
  Simple.saved_column df Simple.predicted_total preds =
  map (fun p => (p.1, default NaN (Simple.predicted_total <$> preds !! p.1))) df.
Proof. apply saved_column_by_label. Qed.

Lemma map_lookup_seq {A B} (f : A -> B) (d : B) (l : list A) :
  map (fun i => default d (f <$> l !! i)) (seq 0 (length l)) = map f l.
Proof.
  apply list_eq. intros i. rewrite !list_lookup_fmap.
  destruct (decide (i < length l)%nat) as [Hi|Hi].
  - rewrite lookup_seq_lt by done. cbn. by destruct (l !! i) eqn:E; [|apply lookup_ge_None_1 in E; lia].
  - rewrite lookup_seq_ge by lia. by rewrite lookup_ge_None_2 by lia.
Qed.

(** When every worker run precedes the first main-thread run (the
    labels of the worker frame are [0 .. n-1]), each saved prediction is
    the run's own. *)
Theorem simple_saved_column_aligned df g preds :
  map fst df = seq 0 (length df) -> length preds = length df ->
  values (Simple.saved_column df g preds) = map g preds.
Proof.
  intros Hl Hn. rewrite saved_column_by_label. unfold values. rewrite map_map.
  transitivity (map (fun l => default NaN (g <$> preds !! l)) (map fst df)).
  - rewrite map_map. by apply map_ext.
  - rewrite Hl, <- Hn. apply map_lookup_seq.
Qed.

(** ** [analyze_3stage_data.py]: the ratio-of-sums constants *)

(** on complete runs whose columns hold numbers, each constant of
    [analyze_3stage_data.py] reproduces in aggregate the phase it models:
    the predicted phase time summed over the runs equals the measured
    total. *)
Theorem three_stage_coefficients_sum rows files uniq p1 p2 p3 :
  map totalFiles rows = map Fin files -> map ThreeStage.uniqueFilesTotal rows = map Fin uniq ->
  map phase1FileAnalysisMs rows = map Fin p1 -> map phase2HashProcessingMs rows = map Fin p2 ->
  map phase3UIRenderingMs rows = map Fin p3 ->
  ~ (qsum files == 0)%Q -> ~ (qsum uniq == 0)%Q ->
  let '(c1, c2, c3) := ThreeStage.coefficients rows in
  s_sum (map (fun x => fmul x c1) (map totalFiles rows)) ≡ s_sum (map phase1FileAnalysisMs rows) /\
  s_sum (map (fun x => fmul x c2) (map ThreeStage.uniqueFilesTotal rows)) ≡ s_sum (map phase2HashProcessingMs rows) /\
  s_sum (map (fun x => fmul x c3) (map ThreeStage.uniqueFilesTotal rows)) ≡ s_sum (map phase3UIRenderingMs rows).
Proof.
  intros Hf Hu H1 H2 H3 Hf0 Hu0. unfold ThreeStage.coefficients.
  rewrite Hf, Hu, H1, H2, H3. split_and!; by apply ratio_of_sums.
Qed.

Lemma labels_column g df : labels (column g df) = map fst df.
Proof. unfold labels, column. by rewrite map_map. Qed.

Lemma values_column g df : values (column g df) = map (fun p => g p.2) df.
Proof. unfold values, column. by rewrite map_map. Qed.

(** in [recalibrate_constants.py], when the worker runs are labelled
    [0 .. n-1], the accuracy printed for each run is computed from its
    own duration and its own prediction. *)
Theorem recalibrate_accuracy_aligned df preds :
  map fst df = seq 0 (length df) -> length preds = length df ->
  values (Recalibrate.accuracy_series df preds) =
  zip_with (fun a p => fsub (Fin 100) (fmul (fabs (fdiv (fsub a p) a)) (Fin 100)))
    (map (fun p => totalDurationMs p.2) df) preds.
Proof.
  intros Hl Hn. unfold Recalibrate.accuracy_series.
  set (A := map (fun p => totalDurationMs p.2) df).
  assert (HA : length A = length df) by apply length_map.
  assert (Hz : length (zip_with fsub A preds) = length df) by (rewrite length_zip_with; lia).
  assert (E1 : s_binop fsub (column totalDurationMs df) (range_series preds) =
               zip (seq 0 (length df)) (zip_with fsub A preds)).
  { rewrite s_binop_same; rewrite ?labels_column, ?labels_range, ?values_column, ?values_range, ?Hl, ?Hn; done. }
  rewrite E1. rewrite (s_binop_same fdiv).
  2: { rewrite labels_zip, labels_column; [done|]. rewrite Hz, length_seq. lia. }
  rewrite labels_zip, values_zip, values_column by (rewrite ?Hz, ?length_seq; lia).
  rewrite !values_s_map, values_zip.
  2: { rewrite length_zip_with, Hz, length_seq. lia. }
  fold A. clearbody A. clear -Hn HA. revert df preds HA Hn.
  induction A as [|a A IH]; intros df [|p ps] HA Hn; cbn; [done..|].
  destruct df as [|d df]; [done|]. cbn in HA, Hn. by rewrite (IH df) by lia.
Qed.

(** ** Two worker runs after a main-thread run *)

Definition cal_folders : list folder_rec :=
  [FolderRec (Fin 1) (Fin 100) (Fin 10) (Fin 50) (Fin 2) (Fin 5) (Fin 90) (Fin 40);
   FolderRec (Fin 2) (Fin 200) (Fin 20) (Fin 80) (Fin 2) (Fin 8) (Fin 180) (Fin 70);
   FolderRec (Fin 3) (Fin 300) (Fin 30) (Fin 80) (Fin 2) (Fin 8) (Fin 280) (Fin 70)].

Definition cal_timings : list timing_rec :=
  [TimingRec (Fin 1) false (Fin 1000) (Fin 100) (Fin 500) (Fin 400);
   TimingRec (Fin 2) true (Fin 2000) (Fin 200) (Fin 1000) (Fin 800);
   TimingRec (Fin 3) true (Fin 2900) (Fin 300) (Fin 1400) (Fin 1200)].

(** on this log, [simple_calibration.py] saves [NaN] as the
    prediction of run 3 and gives run 2 the prediction of run 3: the main
    thread run 1 shifts the labels of the worker frame. *)
Example simple_main_misaligned :
  match (Simple.main cal_folders cal_timings).2 with
  | Some s => labels s = [1; 2]%nat /\ s_lookup s 2 = NaN /\
              s_lookup s 1 =
                match (Simple.load_data cal_folders cal_timings : list (nat * mrow)) !! 1%nat with
                | Some (_, r) => Simple.predicted_total
                    (Simple.predict (Simple.simple_calibration (Simple.load_data cal_folders cal_timings)) r)
                | None => NaN
                end
  | None => False
  end.
Proof. vm_compute. split_and!; reflexivity. Qed.

(** on this log, [recalibrate_constants.py] prints [NaN] as the
    accuracy of run 2 although its duration and prediction are numbers:
    [accuracy_percent.iloc[0]] is the value at label 0, the main-thread
    run, which the worker frame lacks. *)
Example recalibrate_main_misaligned :
  match Recalibrate.main cal_folders cal_timings with
  | Some (_, (l :: _, None)) => l.1.1.1.1 = 2%Z /\ l.1.1.1.2 = 2000%Z /\ l.2 = NaN
  | _ => False
  end.
Proof. vm_compute. split_and!; reflexivity. Qed.

(** ** Witnesses *)

Lemma accuracy_percent_exact_witness :
  ~ (2000 == 0)%Q /\ (accuracy_percent (Fin 2000) (Fin 2000) ≡ Fin 100 <-> (2000 == 2000)%Q).
Proof.
  assert (H : ~ (2000 == 0)%Q) by (intros H; vm_compute in H; discriminate).
  split; [exact H|exact (accuracy_percent_exact 2000 2000 H)].
Defined.

(** Run 2 has no [RESULTS_COMPLETE], so no total. *)
Definition cal_timings_missing : list timing_rec :=
  [TimingRec (Fin 1) false (Fin 1000) (Fin 100) (Fin 500) (Fin 400);
   TimingRec (Fin 2) true NaN (Fin 200) (Fin 1000) NaN;
   TimingRec (Fin 3) true (Fin 2900) (Fin 300) (Fin 1400) (Fin 1200)].

Lemma validation_missing_total_raises_witness :
  Exists (fun p => t_isWorkerMode p.2.2 = true /\ totalDurationMs p.2 = NaN)
    (load_and_merge_data cal_folders cal_timings_missing) /\
  Estimation.r_estimates (Estimation.main cal_folders cal_timings_missing) = None /\
  NewFormula.r_estimates (NewFormula.main cal_folders cal_timings_missing) = None.
Proof.
  assert (H : Exists (fun p => t_isWorkerMode p.2.2 = true /\ totalDurationMs p.2 = NaN)
                (load_and_merge_data cal_folders cal_timings_missing)).
  { vm_compute. apply Exists_cons_tl, Exists_cons_hd. split; reflexivity. }
  split; [exact H|exact (validation_missing_total_raises _ _ H)].
Defined.

Lemma estimation_threshold_drop_witness :
  (200 < 250)%Q /\
  Estimation.predicted_total (Estimation.predict
    (FolderRec (Fin 1) (Fin 1000) (Fin 100) (Fin 250) (Fin 3) (Fin 150) (Fin 900) (Fin 240), TimingRec (Fin 1) true (Fin 3000) (Fin 100) (Fin 2000) (Fin 900))) ≡
  fsub (Estimation.predicted_total (Estimation.predict
    (FolderRec (Fin 1) (Fin 1000) (Fin 100) (Fin 200) (Fin 3) (Fin 150) (Fin 900) (Fin 240), TimingRec (Fin 1) true (Fin 3000) (Fin 100) (Fin 2000) (Fin 900))))
    (Fin (8 * 150)).
Proof.
  assert (H : (200 < 250)%Q) by (vm_compute; reflexivity).
  split; [exact H|exact (estimation_threshold_drop (Fin 1) 1000 100 3 150 (Fin 900) (Fin 240) 250 (TimingRec (Fin 1) true (Fin 3000) (Fin 100) (Fin 2000) (Fin 900)) H)].
Defined.

(** No run has duplicate candidates. *)
Definition cal_folders_no_candidates : list folder_rec :=
  [FolderRec (Fin 1) (Fin 100) (Fin 0) (Fin 50) (Fin 2) (Fin 0) (Fin 100) (Fin 40);
   FolderRec (Fin 2) (Fin 200) (Fin 0) (Fin 80) (Fin 2) (Fin 0) (Fin 200) (Fin 70);
   FolderRec (Fin 3) (Fin 300) (Fin 0) (Fin 80) (Fin 2) (Fin 0) (Fin 300) (Fin 70)].

Lemma final_no_candidates_nan_witness :
  Forall (fun p => flt (Fin 0) (duplicateCandidateCount p.2) = false)
    (worker_rows (load_and_merge_data cal_folders_no_candidates cal_timings)) /\
  (Final.constants_of (Final.main cal_folders_no_candidates cal_timings)).1.2 = NaN.
Proof.
  assert (H : Forall (fun p => flt (Fin 0) (duplicateCandidateCount p.2) = false)
                (worker_rows (load_and_merge_data cal_folders_no_candidates cal_timings)))
    by (vm_compute; repeat constructor).
  split; [exact H|exact (proj1 (final_no_candidates_nan _ _ H))].
Defined.

(** Every run in worker mode: the worker frame is labelled [0 .. 2]. *)
Definition cal_timings_workers : list timing_rec :=
  [TimingRec (Fin 1) true (Fin 1000) (Fin 100) (Fin 500) (Fin 400);
   TimingRec (Fin 2) true (Fin 2000) (Fin 200) (Fin 1000) (Fin 800);
   TimingRec (Fin 3) true (Fin 2900) (Fin 300) (Fin 1400) (Fin 1200)].

Definition cal_workers : frame := Simple.load_data cal_folders cal_timings_workers.
Definition cal_predictions : list Simple.prediction :=
  map (fun p => Simple.predict (Simple.simple_calibration cal_workers) p.2) cal_workers.

Lemma simple_saved_column_aligned_witness :
  map fst cal_workers = seq 0 (length cal_workers) /\ length cal_predictions = length cal_workers /\
  values (Simple.saved_column cal_workers Simple.predicted_total cal_predictions) =
  map Simple.predicted_total cal_predictions.
Proof.
  assert (H1 : map fst cal_workers = seq 0 (length cal_workers)) by (vm_compute; reflexivity).
  assert (H2 : length cal_predictions = length cal_workers) by (vm_compute; reflexivity).
  split_and!; [exact H1|exact H2|exact (simple_saved_column_aligned _ _ _ H1 H2)].
Defined.

Lemma three_stage_coefficients_sum_witness :
  let rows := map snd (ThreeStage.load_data cal_folders cal_timings) in
  map totalFiles rows = map Fin [100; 200; 300] /\ ~ (qsum [100; 200; 300] == 0)%Q /\
  s_sum (map (fun x => fmul x (ThreeStage.coefficients rows).1.1) (map totalFiles rows)) ≡
  s_sum (map phase1FileAnalysisMs rows).
Proof.
  cbv zeta.
  assert (Hf : map totalFiles (map snd (ThreeStage.load_data cal_folders cal_timings)) = map Fin [100; 200; 300])
    by (vm_compute; reflexivity).
  assert (Hq : ~ (qsum [100; 200; 300] == 0)%Q) by (intros H; vm_compute in H; discriminate).
  assert (Hq' : ~ (qsum [90; 180; 280] == 0)%Q) by (intros H; vm_compute in H; discriminate).
  pose proof (three_stage_coefficients_sum (map snd (ThreeStage.load_data cal_folders cal_timings))
    [100; 200; 300] [90; 180; 280] [100; 200; 300] [500; 1000; 1400] [400; 800; 1200] Hf
    ltac:(vm_compute; reflexivity) ltac:(vm_compute; reflexivity) ltac:(vm_compute; reflexivity)
    ltac:(vm_compute; reflexivity) Hq Hq') as Hs.
  destruct (ThreeStage.coefficients _) as [[c1 c2] c3]. split_and!; [exact Hf|exact Hq|apply Hs].
Defined.

Definition cal_worker_frame : frame := worker_rows (load_and_merge_data cal_folders cal_timings_workers).

Lemma recalibrate_accuracy_aligned_witness :
  map fst cal_worker_frame = seq 0 (length cal_worker_frame) /\ length [Fin 900; Fin 2100; Fin 2900] = length cal_worker_frame /\
  values (Recalibrate.accuracy_series cal_worker_frame [Fin 900; Fin 2100; Fin 2900]) =
  zip_with (fun a p => fsub (Fin 100) (fmul (fabs (fdiv (fsub a p) a)) (Fin 100)))
    (map (fun p => totalDurationMs p.2) cal_worker_frame) [Fin 900; Fin 2100; Fin 2900].
Proof.
  assert (H1 : map fst cal_worker_frame = seq 0 (length cal_worker_frame)) by (vm_compute; reflexivity).
  assert (H2 : length [Fin 900; Fin 2100; Fin 2900] = length cal_worker_frame) by (vm_compute; reflexivity).
  split_and!; [exact H1|exact H2|exact (recalibrate_accuracy_aligned _ _ H1 H2)].
Defined.
