(* ===== verification/Multifactor.v ===== *)
(** * The robust, size-aware and verified calibrations

    Three scripts of [src/docs] on the merged worker frame of
    [Calibration.v]:
    - [Robust]: [docs/speed_tests/robust_calibration.py], constants as
      medians of the per-unit times, with 5.0 for phase 2 when no run has
      candidates;
    - [SizeAware]: [docs/speed_tests/size_aware_calibration.py], three
      [LinearRegression] fits per phase (file count, size, both) and the
      best by [r2_score];
    - [Verified]: [docs/plans/Bookkeeper/speed_tests/verified_calibration.py],
      the same choice of models, with the detailed table of [Robust].
    The fits go through a solver [solve] that meets the [LeastSquares]
    interface of [Regression.v]; every theorem holds for any such solver,
    [sklearn]'s among them, and the examples run [lstsq]. *)

From S2P Require Import Prelude Stats Regression Calibration.
From Stdlib Require Import QArith Qabs Lqa.

Definition uniqueFilesSizeMB (r : mrow) : pyfloat := f_uniqueFilesSizeMB r.1.

(** [results[name] = pred_df[col]]: the values of [pd.DataFrame(predictions)]
    (labels [0 .. n-1]) placed beside the rows of [df] with the same label. *)
Definition saved_column (df : frame) (xs : list pyfloat) : series := reindex (range_series xs) (map fst df).

(** ** [robust_calibration.py] *)

Module Robust.

Definition load_data (fs : list folder_rec) (ts : list timing_rec) : frame :=
  worker_rows (load_and_merge_data fs ts).

(** [robust_analysis] (lines 44-68): the medians of the per-unit times;
    the correlations and ranges it prints are not modelled. *)
Definition robust_analysis (df : frame) : pyfloat * pyfloat * pyfloat :=
  let phase1_per_file := s_binop fdiv (column phase1FileAnalysisMs df) (column totalFiles df) in
  let valid_phase2 := filter (fun p => flt (Fin 0) (duplicateCandidateCount p.2) = true) df in
  let phase2_per_candidate := s_binop fdiv (column phase2HashProcessingMs valid_phase2)
                                           (column duplicateCandidateCount valid_phase2) in
  let phase3_per_file := s_binop fdiv (column phase3UIRenderingMs df) (column totalFiles df) in
  (s_median (values phase1_per_file),
   if bool_decide (0 < length valid_phase2)%nat then s_median (values phase2_per_candidate) else Fin 5,
   s_median (values phase3_per_file)).

Record prediction := Prediction {
  predicted_total : pyfloat; predicted_phase1 : pyfloat; predicted_phase2 : pyfloat; predicted_phase3 : pyfloat
}.

(** The body of the prediction loop (lines 87-98). *)
Definition predict (c : pyfloat * pyfloat * pyfloat) (r : mrow) : prediction :=
  let '(c1, c2, c3) := c in
  let phase1_pred := fmul (totalFiles r) c1 in
  let phase2_pred := fmul (duplicateCandidateCount r) c2 in
  let phase3_pred := fmul (totalFiles r) c3 in
  Prediction (fadd (fadd phase1_pred phase2_pred) phase3_pred) phase1_pred phase2_pred phase3_pred.

(** Lines 103-105: [total_errors = df['totalDurationMs'] - pred_df[...]]
    aligns the frame's labels with the positions of [pred_df], and
    [100 - (absolute_errors / df['totalDurationMs']) * 100]. *)
Definition accuracy_series (df : frame) (totals : list pyfloat) : series * series :=
  let total_errors := s_binop fsub (column totalDurationMs df) (range_series totals) in
  let absolute_errors := s_map fabs total_errors in
  (total_errors,
   s_map (fsub (Fin 100)) (s_map (fun x => fmul x (Fin 100)) (s_binop fdiv absolute_errors (column totalDurationMs df)))).

(** One line of the detailed table (lines 122-132): [int()] of the run,
    the counts, the duration, [pred_df.iloc[i]] and [total_errors.iloc[i]],
    in this order; [iloc] past the end raises [IndexError]. *)
Definition detail_line (total_errors acc : series) (totals : list pyfloat) (ir : nat * mrow) :
    exc + (Z * Z * Z * pyfloat * Z * Z * Z * pyfloat) :=
  let '(i, r) := ir in
  run_num ← py_int_of_float (t_TestRun r.2);
  files ← py_int_of_float (totalFiles r);
  dup_candidates ← py_int_of_float (duplicateCandidateCount r);
  actual ← py_int_of_float (totalDurationMs r);
  p ← raise_index (totals !! i);
  predicted ← py_int_of_float p;
  e ← raise_index (iloc total_errors i);
  error ← py_int_of_float e;
  accuracy ← raise_index (iloc acc i);
  inr (run_num, files, dup_candidates, uniqueFilesSizeMB r, actual, predicted, error, accuracy).

(** Mean, median, best and worst accuracy, mean and median absolute error. *)
Definition summary (total_errors acc : series) : pyfloat * pyfloat * pyfloat * pyfloat * pyfloat * pyfloat :=
  let absolute_errors := s_map fabs total_errors in
  (s_mean (values acc), s_median (values acc), s_max (values acc), s_min (values acc),
   s_mean (values absolute_errors), s_median (values absolute_errors)).

(** [test_robust_formula] (lines 70-134): the predictions, the summary,
    and the detailed lines with the exception that stopped them. *)
Definition test_robust_formula (df : frame) (c : pyfloat * pyfloat * pyfloat) :
    list prediction * (pyfloat * pyfloat * pyfloat * pyfloat * pyfloat * pyfloat) *
    (list (Z * Z * Z * pyfloat * Z * Z * Z * pyfloat) * option exc) :=
  let preds := map (fun p => predict c p.2) df in
  let totals := map predicted_total preds in
  let '(total_errors, acc) := accuracy_series df totals in
  (preds, summary total_errors acc, print_rows (detail_line total_errors acc totals) (imap pair (map snd df))).

Record result := Result {
  constants : pyfloat * pyfloat * pyfloat;
  stats : pyfloat * pyfloat * pyfloat * pyfloat * pyfloat * pyfloat;
  lines : list (Z * Z * Z * pyfloat * Z * Z * Z * pyfloat);
  (** [results['robust_predicted_total']] as saved, [None] when the table
      raised before the save. *)
  saved : option series
}.

(** [main] (lines 161-181). *)
Definition main (fs : list folder_rec) (ts : list timing_rec) : result :=
  let df := load_data fs ts in
  let c := robust_analysis df in
  let '(preds, st, (ls, raised)) := test_robust_formula df c in
  Result c st ls (if raised is Some _ then None else Some (saved_column df (map predicted_total preds))).

End Robust.

(** ** The models of [size_aware_calibration.py] and [verified_calibration.py] *)

(** The three feature sets: file count, size, and both ("mixed" in one
    script, "combined" in the other). *)
Inductive feature_set := Count | Size | Mixed.

Definition feats (s : feature_set) : list (mrow -> pyfloat) :=
  match s with
  | Count => [totalFiles]
  | Size => [uniqueFilesSizeMB]
  | Mixed => [totalFiles; uniqueFilesSizeMB]
  end.

(** A phase predicted by its chosen model (size_aware lines 181-188 and
    198-208, verified lines 168-175 and 184-191): the intercept plus the
    coefficients times the row's features, in the script's order. *)
Definition formula (s : feature_set) (m : linreg) (r : mrow) : pyfloat :=
  let b := Fin (intercept_ m) in
  match s with
  | Count => fadd b (fmul (coef m 0) (totalFiles r))
  | Size => fadd b (fmul (coef m 0) (uniqueFilesSizeMB r))
  | Mixed => fadd (fadd b (fmul (coef m 0) (totalFiles r))) (fmul (coef m 1) (uniqueFilesSizeMB r))
  end.

Section Models.
Context (solve : nat -> nat -> (nat -> vec) -> vec -> nat -> Q).

(** [model = LinearRegression(fit_intercept=True); model.fit(X, y);
    r2_score(y, model.predict(X))] on the columns of a feature set. *)
Definition fit (s : feature_set) (rows : list mrow) (y : mrow -> pyfloat) : option (linreg * pyfloat) :=
  fit_score solve (length (feats s)) (features (feats s) rows) (map y rows).

(** The runs with duplicate candidates, [df[df['duplicateCandidateCount'] > 0]]. *)
Definition with_candidates (rows : list mrow) : list mrow :=
  filter (fun r => flt (Fin 0) (duplicateCandidateCount r) = true) rows.

(** The phase-2 model on the runs with candidates, [None] when there are
    none; [fit] raising is the outer [None]. *)
Definition fit_phase2 (rows : list mrow) : option (option (linreg * pyfloat)) :=
  let valid := with_candidates rows in
  if bool_decide (0 < length valid)%nat
  then Some <$> fit_score solve 1 (features [duplicateCandidateCount] valid) (map phase2HashProcessingMs valid)
  else Some None.

End Models.

(** The phase-2 prediction: the fitted line, or [candidates * fallback]. *)
Definition phase2_formula (m2 : option (linreg * pyfloat)) (fallback : pyfloat) (r : mrow) : pyfloat :=
  match m2 with
  | Some (m, _) => fadd (Fin (intercept_ m)) (fmul (coef m 0) (duplicateCandidateCount r))
  | None => fmul (duplicateCandidateCount r) fallback
  end.

Module SizeAware.

Definition load_data (fs : list folder_rec) (ts : list timing_rec) : frame :=
  worker_rows (load_and_merge_data fs ts).

(** The table of [analyze_size_relationships] (lines 36-43); the
    correlations it prints are not modelled. *)
Definition size_line (r : mrow) : exc + (Z * Z * Z * pyfloat * Z) :=
  run_num ← py_int_of_float (t_TestRun r.2);
  files ← py_int_of_float (totalFiles r);
  dup_candidates ← py_int_of_float (duplicateCandidateCount r);
  duration ← py_int_of_float (totalDurationMs r);
  inr (run_num, files, dup_candidates, uniqueFilesSizeMB r, duration).

(** The dict returned by [calibrate_mixed_model]. *)
Record models := Models {
  phase1 : feature_set * (linreg * pyfloat);
  phase2 : option (linreg * pyfloat);
  phase3_best : feature_set;
  phase3_count : linreg * pyfloat;
  phase3_size : linreg * pyfloat;
  phase3_mixed : linreg * pyfloat
}.

Section WithSolver.
Context (solve : nat -> nat -> (nat -> vec) -> vec -> nat -> Q).

(** [calibrate_mixed_model] (lines 67-168): [None] when a [fit] raises. *)
Definition calibrate_mixed_model (df : frame) : option models :=
  let rows := map snd df in
  m_count ← fit solve Count rows phase1FileAnalysisMs;
  m_size ← fit solve Size rows phase1FileAnalysisMs;
  m_mixed ← fit solve Mixed rows phase1FileAnalysisMs;
  let best_phase1 := py_max_by (fun x => x.2.2) (Count, m_count) [(Size, m_size); (Mixed, m_mixed)] in
  m2 ← fit_phase2 solve rows;
  m3_count ← fit solve Count rows phase3UIRenderingMs;
  m3_size ← fit solve Size rows phase3UIRenderingMs;
  m3_mixed ← fit solve Mixed rows phase3UIRenderingMs;
  let best_phase3 := py_max_by snd (Count, m3_count.2) [(Size, m3_size.2); (Mixed, m3_mixed.2)] in
  Some (Models best_phase1 m2 best_phase3.1 m3_count m3_size m3_mixed).

End WithSolver.

Definition phase3_model (ms : models) : linreg :=
  match phase3_best ms with
  | Count => (phase3_count ms).1
  | Size => (phase3_size ms).1
  | Mixed => (phase3_mixed ms).1
  end.

(** The body of the loop of [test_mixed_formula] (lines 179-217). *)
Definition predict (ms : models) (r : mrow) : Robust.prediction :=
  let phase1_pred := formula (phase1 ms).1 (phase1 ms).2.1 r in
  let phase2_pred := phase2_formula (phase2 ms) (Fin (4843 # 1000)) r in
  let phase3_pred := formula (phase3_best ms) (phase3_model ms) r in
  Robust.Prediction (fadd (fadd phase1_pred phase2_pred) phase3_pred) phase1_pred phase2_pred phase3_pred.

(** [test_mixed_formula] (lines 170-246): the accuracy series, the mean,
    median, minimum and maximum accuracy and the mean absolute error, and
    the detailed lines with the exception that stopped them. *)
Definition test_mixed_formula (df : frame) (ms : models) :
    list pyfloat * series * (pyfloat * pyfloat * pyfloat * pyfloat * pyfloat) * (list (Z * Z * Z * Z * pyfloat) * option exc) :=
  let totals := map (fun p => Robust.predicted_total (predict ms p.2)) df in
  let total_errors := s_binop fsub (column totalDurationMs df) (range_series totals) in
  let acc := Recalibrate.accuracy_series df totals in
  (totals, acc,
   (s_mean (values acc), s_median (values acc), s_min (values acc), s_max (values acc),
    s_mean (values (s_map fabs total_errors))),
   print_rows (Recalibrate.detail_line acc totals) (imap pair (map snd df))).

(** [main] (lines 248-267): the exception of a table's [int()] or
    [iloc], [ValueError] when a [fit] raises; otherwise the models, the
    accuracy series and the saved [mixed_predicted_total] column. *)
Definition main (solve : nat -> nat -> (nat -> vec) -> vec -> nat -> Q) (fs : list folder_rec) (ts : list timing_rec) :
    exc + (models * series * series) :=
  let df := load_data fs ts in
  if (print_rows size_line (map snd df)).2 is Some e then inl e else
  match calibrate_mixed_model solve df with
  | None => inl ValueError
  | Some ms =>
      let '(totals, acc, _, (_, raised)) := test_mixed_formula df ms in
      if raised is Some e then inl e else inr (ms, acc, saved_column df totals)
  end.

End SizeAware.

(** ** [verified_calibration.py] *)

Module Verified.

(** The dict returned by [calibrate_with_verified_data]: the best model
    of phases 1 and 3 as [(name, model, r2)]. *)
Record models := Models {
  phase1 : feature_set * linreg * pyfloat;
  phase2 : option (linreg * pyfloat);
  phase3 : feature_set * linreg * pyfloat
}.

Section WithSolver.
Context (solve : nat -> nat -> (nat -> vec) -> vec -> nat -> Q).

(** The three fits of a phase and [max(..., key=lambda x: x[2])]. *)
Definition best_of (rows : list mrow) (y : mrow -> pyfloat) : option (feature_set * linreg * pyfloat) :=
  m_count ← fit solve Count rows y;
  m_size ← fit solve Size rows y;
  m_combined ← fit solve Mixed rows y;
  Some (py_max_by (fun x => x.2) (Count, m_count.1, m_count.2)
          [(Size, m_size.1, m_size.2); (Mixed, m_combined.1, m_combined.2)]).

(** [calibrate_with_verified_data] (lines 58-155). *)
Definition calibrate_with_verified_data (df : frame) : option models :=
  let rows := map snd df in
  best_phase1 ← best_of rows phase1FileAnalysisMs;
  m2 ← fit_phase2 solve rows;
  best_phase3 ← best_of rows phase3UIRenderingMs;
  Some (Models best_phase1 m2 best_phase3).

End WithSolver.

(** The body of the loop of [test_calibrated_models] (lines 166-200). *)
Definition predict (ms : models) (r : mrow) : Robust.prediction :=
  let '(n1, m1, _) := phase1 ms in
  let '(n3, m3, _) := phase3 ms in
  let phase1_pred := formula n1 m1 r in
  let phase2_pred := phase2_formula (phase2 ms) (Fin 5) r in
  let phase3_pred := formula n3 m3 r in
  Robust.Prediction (fadd (fadd phase1_pred phase2_pred) phase3_pred) phase1_pred phase2_pred phase3_pred.

(** [test_calibrated_models] (lines 157-233): the accuracy and the table
    are those of [robust_calibration.py], line for line. *)
Definition test_calibrated_models (df : frame) (ms : models) :
    list pyfloat * (pyfloat * pyfloat * pyfloat * pyfloat * pyfloat * pyfloat) *
    (list (Z * Z * Z * pyfloat * Z * Z * Z * pyfloat) * option exc) :=
  let totals := map (fun p => Robust.predicted_total (predict ms p.2)) df in
  let '(total_errors, acc) := Robust.accuracy_series df totals in
  (totals, Robust.summary total_errors acc,
   print_rows (Robust.detail_line total_errors acc totals) (imap pair (map snd df))).

(** [main] (lines 292-315): [ValueError] when a [fit] raises, the
    exception of the table when it raises; otherwise the models, the
    summary and the saved [verified_predicted_total] column. *)
Definition main (solve : nat -> nat -> (nat -> vec) -> vec -> nat -> Q) (fs : list folder_rec) (ts : list timing_rec) :
    exc + (models * (pyfloat * pyfloat * pyfloat * pyfloat * pyfloat * pyfloat) * series) :=
  let df := Robust.load_data fs ts in
  match calibrate_with_verified_data solve df with
  | None => inl ValueError
  | Some ms =>
      let '(totals, st, (_, raised)) := test_calibrated_models df ms in
      if raised is Some e then inl e else inr (ms, st, saved_column df totals)
  end.

End Verified.

(** * Properties *)

(** ** Chosen models predict what the richest model predicts *)

(** The script's formula is the model's prediction on the row's features. *)
Lemma formula_predict s m r qs : length (coef_ m) = length (feats s) ->
  finite_values (map (fun f => f r) (feats s)) = Some qs -> formula s m r ≡ Fin (linreg_predict m qs).
Proof.
  intros Hl Hq. destruct m as [b cs]. cbn [coef_] in Hl. unfold formula, coef, linreg_predict. cbn [coef_ intercept_].
  destruct s; cbn [feats length map] in Hl, Hq;
    destruct cs as [|c0 [|c1 [|? ?]]]; cbn [length] in Hl; try discriminate; unfold finite_values in Hq.
  - destruct (totalFiles r) as [x| | |]; cbn in Hq; try discriminate. injection Hq as <-.
    cbn. apply fin_equiv. ring.
  - destruct (uniqueFilesSizeMB r) as [z| | |]; cbn in Hq; try discriminate. injection Hq as <-.
    cbn. apply fin_equiv. ring.
  - destruct (totalFiles r) as [x| | |], (uniqueFilesSizeMB r) as [z| | |]; cbn in Hq; try discriminate.
    injection Hq as <-. cbn. apply fin_equiv. ring.
Qed.

Lemma feats_nested s : Forall (fun f => f ∈ feats Mixed) (feats s).
Proof. destruct s; cbn; repeat constructor; set_solver. Qed.

Lemma feats_finite s r x z : totalFiles r = Fin x -> uniqueFilesSizeMB r = Fin z ->
  exists qs, finite_values (map (fun f => f r) (feats s)) = Some qs.
Proof. intros Hx Hz. destruct s; cbn; rewrite ?Hx, ?Hz; eauto. Qed.

(** [max] of three: one of them, and not strictly below the last. *)
Lemma py_max_by3 {A} (key : A -> pyfloat) a b c :
  (py_max_by key a [b; c] = a \/ py_max_by key a [b; c] = b \/ py_max_by key a [b; c] = c) /\
  flt (key (py_max_by key a [b; c])) (key c) = false.
Proof.
  split.
  - pose proof (py_max_by_elem key a [b; c]) as H. rewrite !elem_of_cons, elem_of_nil in H. tauto.
  - exact (py_max_by_last key a [b] c).
Qed.

(** Names the [max] of three of the goal and states [py_max_by3] of it. *)
Ltac max3_cases Hb Hl :=
  match goal with
  | |- context [py_max_by ?k ?a [?b; ?c]] => destruct (py_max_by3 k a b c) as [Hb Hl]
  | _ : context [py_max_by ?k ?a [?b; ?c]] |- _ => destruct (py_max_by3 k a b c) as [Hb Hl]
  end.

Section Agreement.
Context (solve : nat -> nat -> (nat -> vec) -> vec -> nat -> Q) `{!LeastSquares solve}.

(** A feature set that does not score strictly below the mixed model
    predicts, on every fitted run, what the mixed model predicts. *)
Lemma select_agrees rows y c mc rc mm rm :
  fit solve c rows y = Some (mc, rc) -> fit solve Mixed rows y = Some (mm, rm) -> flt rc rm = false ->
  forall r x z, r ∈ rows -> totalFiles r = Fin x -> uniqueFilesSizeMB r = Fin z ->
  formula c mc r ≡ formula Mixed mm r.
Proof.
  intros Hc Hm Hf r x z Hr Hx Hz.
  destruct (feats_finite c r x z Hx Hz) as [qa Ha]. destruct (feats_finite Mixed r x z Hx Hz) as [qb Hb].
  rewrite (formula_predict c mc r qa (fit_score_coef_length solve _ _ _ _ _ Hc) Ha).
  rewrite (formula_predict Mixed mm r qb (fit_score_coef_length solve _ _ _ _ _ Hm) Hb).
  apply fin_equiv. exact (fit_score_select solve (feats c) (feats Mixed) rows (map y rows) mc rc mm rm
    (feats_nested c) Hc Hm Hf r qa qb Hr Ha Hb).
Qed.

End Agreement.

(** C37: In [size_aware_calibration.py], choosing the best model by
    [r2_score] never changes a prediction: on every fitted run, the
    phase-1 and phase-3 predictions of the chosen models are those of the
    mixed models (file count and size), whichever name wins. *)
Theorem size_aware_phase_predictions solve `{!LeastSquares solve} df ms m1 r1 :
  SizeAware.calibrate_mixed_model solve df = Some ms ->
  fit solve Mixed (map snd df) phase1FileAnalysisMs = Some (m1, r1) ->
  forall r x z, r ∈ map snd df -> totalFiles r = Fin x -> uniqueFilesSizeMB r = Fin z ->
  Robust.predicted_phase1 (SizeAware.predict ms r) ≡ formula Mixed m1 r /\
  Robust.predicted_phase3 (SizeAware.predict ms r) ≡ formula Mixed (SizeAware.phase3_mixed ms).1 r.
Proof.
  intros Hcal Hm1 r x z Hr Hx Hz. unfold SizeAware.calibrate_mixed_model in Hcal.
  destruct (fit solve Count _ phase1FileAnalysisMs) as [[mc rc]|] eqn:E1c; [|done].
  destruct (fit solve Size _ phase1FileAnalysisMs) as [[ms1 rs1]|] eqn:E1s; [|done].
  rewrite Hm1 in Hcal. cbn [mbind option_bind] in Hcal.
  destruct (fit_phase2 solve _) as [m2|]; [|done]. cbn [mbind option_bind] in Hcal.
  destruct (fit solve Count _ phase3UIRenderingMs) as [[m3c r3c]|] eqn:E3c; [|done].
  destruct (fit solve Size _ phase3UIRenderingMs) as [[m3s r3s]|] eqn:E3s; [|done].
  destruct (fit solve Mixed _ phase3UIRenderingMs) as [[m3m r3m]|] eqn:E3m; [|done].
  cbn [mbind option_bind] in Hcal. injection Hcal as <-.
  unfold SizeAware.predict, SizeAware.phase3_model. cbn [Robust.predicted_phase1 Robust.predicted_phase3
    SizeAware.phase1 SizeAware.phase3_best SizeAware.phase3_count SizeAware.phase3_size SizeAware.phase3_mixed fst snd].
  split.
  - max3_cases Hb Hl.
    destruct Hb as [Hb|[Hb|Hb]]; rewrite Hb in Hl |- *; cbn [fst snd] in Hl |- *; [| |reflexivity].
    + exact (select_agrees solve _ _ Count mc rc m1 r1 E1c Hm1 Hl r x z Hr Hx Hz).
    + exact (select_agrees solve _ _ Size ms1 rs1 m1 r1 E1s Hm1 Hl r x z Hr Hx Hz).
  - max3_cases Hb Hl.
    destruct Hb as [Hb|[Hb|Hb]]; rewrite Hb in Hl |- *; cbn [fst snd] in Hl |- *; [| |reflexivity].
    + exact (select_agrees solve _ _ Count m3c r3c m3m r3m E3c E3m Hl r x z Hr Hx Hz).
    + exact (select_agrees solve _ _ Size m3s r3s m3m r3m E3s E3m Hl r x z Hr Hx Hz).
Qed.

Section VerifiedAgreement.
Context (solve : nat -> nat -> (nat -> vec) -> vec -> nat -> Q) `{!LeastSquares solve}.

(** The model [best_of] keeps predicts what the combined model predicts. *)
Lemma best_of_agrees rows y n m rr mm rm :
  Verified.best_of solve rows y = Some (n, m, rr) -> fit solve Mixed rows y = Some (mm, rm) ->
  forall r x z, r ∈ rows -> totalFiles r = Fin x -> uniqueFilesSizeMB r = Fin z ->
  formula n m r ≡ formula Mixed mm r.
Proof.
  intros Hb Hm r x z Hr Hx Hz. unfold Verified.best_of in Hb.
  destruct (fit solve Count rows y) as [[mc rc]|] eqn:Ec; [|done].
  destruct (fit solve Size rows y) as [[ms rs]|] eqn:Es; [|done].
  rewrite Hm in Hb. cbn [mbind option_bind fst snd] in Hb. injection Hb as Hb.
  max3_cases Hs Hl. destruct Hs as [Hs|[Hs|Hs]]; rewrite Hs in Hl, Hb; cbn [fst snd] in Hl; injection Hb as <- <- <-.
  - exact (select_agrees solve _ _ Count mc rc mm rm Ec Hm Hl r x z Hr Hx Hz).
  - exact (select_agrees solve _ _ Size ms rs mm rm Es Hm Hl r x z Hr Hx Hz).
  - reflexivity.
Qed.

End VerifiedAgreement.

(** In [verified_calibration.py], the phase-1 and phase-3 predictions of
    the chosen models are those of the combined models on every fitted
    run, whichever name wins. *)
Theorem verified_phase_predictions solve `{!LeastSquares solve} df ms m1 r1 m3 r3 :
  Verified.calibrate_with_verified_data solve df = Some ms ->
  fit solve Mixed (map snd df) phase1FileAnalysisMs = Some (m1, r1) ->
  fit solve Mixed (map snd df) phase3UIRenderingMs = Some (m3, r3) ->
  forall r x z, r ∈ map snd df -> totalFiles r = Fin x -> uniqueFilesSizeMB r = Fin z ->
  Robust.predicted_phase1 (Verified.predict ms r) ≡ formula Mixed m1 r /\
  Robust.predicted_phase3 (Verified.predict ms r) ≡ formula Mixed m3 r.
Proof.
  intros Hcal Hm1 Hm3 r x z Hr Hx Hz. unfold Verified.calibrate_with_verified_data in Hcal.
  destruct (Verified.best_of solve _ phase1FileAnalysisMs) as [[[n1 mb1] rb1]|] eqn:E1; [|done].
  cbn [mbind option_bind] in Hcal. destruct (fit_phase2 solve _) as [m2|]; [|done]. cbn [mbind option_bind] in Hcal.
  destruct (Verified.best_of solve _ phase3UIRenderingMs) as [[[n3 mb3] rb3]|] eqn:E3; [|done].
  cbn [mbind option_bind] in Hcal. injection Hcal as <-. unfold Verified.predict. cbn.
  split; eapply best_of_agrees; eauto.
Qed.

(** ** The detailed table of [robust_calibration.py] *)

Lemma label_union_head a b : 0%nat ∈ b -> exists rest, label_union a b = 0%nat :: rest.
Proof.
  intros H. unfold label_union. pose proof (StronglySorted_merge_sort Nat.le (remove_dups (a ++ b))) as Hs.
  assert (Hin : 0%nat ∈ merge_sort Nat.le (remove_dups (a ++ b))).
  { rewrite (merge_sort_Permutation _ _), elem_of_remove_dups, elem_of_app. by right. }
  destruct (merge_sort Nat.le (remove_dups (a ++ b))) as [|h rest]; [by apply elem_of_nil in Hin|].
  exists rest. apply StronglySorted_inv in Hs as [_ Hall]. apply elem_of_cons in Hin as [->|Hin]; [done|].
  rewrite Forall_forall in Hall. specialize (Hall 0%nat Hin). f_equal. lia.
Qed.

Lemma s_lookup_notin s l : l ∉ labels s -> s_lookup s l = NaN.
Proof.
  intros H. unfold s_lookup. destruct (list_find _ s) as [[i [l' v]]|] eqn:E; [|done].
  apply list_find_Some in E as (Hi & Hp & _). cbn in Hp. subst l'. exfalso. apply H.
  unfold labels. apply (list_elem_of_fmap_2 fst s (l, v)). by eapply list_elem_of_lookup_2.
Qed.

(** The first entry of [df['totalDurationMs'] - pd.Series(xs)] is [NaN]
    when the frame has no label 0. *)
Lemma total_errors_head df totals : totals <> [] -> 0%nat ∉ map fst df ->
  iloc (s_binop fsub (column totalDurationMs df) (range_series totals)) 0 = Some NaN.
Proof.
  intros Ht H0. assert (Hr : 0%nat ∈ labels (range_series totals)).
  { rewrite labels_range. destruct totals; [done|]. cbn. by left. }
  unfold s_binop. rewrite bool_decide_false.
  2: { intros E. rewrite <- E, labels_column in Hr. done. }
  destruct (label_union_head (labels (column totalDurationMs df)) _ Hr) as [rest ->].
  cbn. rewrite s_lookup_notin; [done|]. by rewrite labels_column.
Qed.

(** The detailed line of the first position raises when the frame has no
    label 0: [int(total_errors.iloc[0])] is [int(NaN)]. *)
Lemma py_int_of_float_inl x e : py_int_of_float x = inl e -> e = ValueError \/ e = OverflowError.
Proof. destruct x; cbn; intros [= <-]; auto. Qed.

Lemma detail_line_head_raises te acc totals r p : totals !! 0%nat = Some p -> iloc te 0 = Some NaN ->
  exists e, Robust.detail_line te acc totals (0%nat, r) = inl e /\ (e = ValueError \/ e = OverflowError).
Proof.
  intros Hp Hte. unfold Robust.detail_line. rewrite Hp, Hte. cbn [raise_index].
  repeat match goal with
  | |- context [py_int_of_float ?x ≫= _] =>
      let E := fresh in destruct (py_int_of_float x) as [e|] eqn:E; cbn [mbind exc_bind];
      [exists e; split; [done|]; exact (py_int_of_float_inl _ _ E)|]
  end.
  match goal with H : py_int_of_float NaN = inr _ |- _ => discriminate H end.
Qed.

(** C36: [robust_calibration.py] raises on the first line of its
    detailed table, before it saves any result, whenever the worker frame
    has no label 0, that is whenever the first merged run is not a worker
    run: [total_errors] is aligned on the union of the frame's labels and
    [pred_df]'s [0 .. n-1], its first entry is [NaN], and
    [int(total_errors.iloc[0])] raises [ValueError], unless an earlier
    [int()] of that line met an infinity first ([OverflowError]). *)
Theorem robust_table_raises df c : df <> [] -> 0%nat ∉ map fst df ->
  exists e, (Robust.test_robust_formula df c).2 = ([], Some e) /\ (e = ValueError \/ e = OverflowError).
Proof.
  intros Hne H0. destruct df as [|[l r] df']; [done|]. unfold Robust.test_robust_formula, Robust.accuracy_series.
  cbn [snd map]. rewrite imap_cons. cbn [print_rows].
  match goal with |- context [Robust.detail_line ?te ?acc ?tot (0%nat, r)] =>
    assert (Ht : iloc te 0 = Some NaN) by (apply total_errors_head; [cbn; congruence|exact H0]);
    destruct (detail_line_head_raises te acc tot r _ eq_refl Ht) as (e & -> & He)
  end.
  by exists e.
Qed.

(** The table of [verified_calibration.py] is that of
    [robust_calibration.py] and raises in the same case. *)
Theorem verified_table_raises df ms : df <> [] -> 0%nat ∉ map fst df ->
  exists e, (Verified.test_calibrated_models df ms).2 = ([], Some e) /\ (e = ValueError \/ e = OverflowError).
Proof.
  intros Hne H0. destruct df as [|[l r] df']; [done|]. unfold Verified.test_calibrated_models, Robust.accuracy_series.
  cbn [snd map]. rewrite imap_cons. cbn [print_rows].
  match goal with |- context [Robust.detail_line ?te ?acc ?tot (0%nat, r)] =>
    assert (Ht : iloc te 0 = Some NaN) by (apply total_errors_head; [cbn; congruence|exact H0]);
    destruct (detail_line_head_raises te acc tot r _ eq_refl Ht) as (e & -> & He)
  end.
  by exists e.
Qed.

(** ** Witnesses *)

(** The runs of [Calibration.v]: run 1 in the main thread, runs 2 and 3
    in workers; and the same runs all in workers. *)
Definition mf_frame : frame := Robust.load_data cal_folders cal_timings.
Definition mf_workers : frame := cal_worker_frame.
Definition mf_row2 : mrow :=
  (FolderRec (Fin 2) (Fin 200) (Fin 20) (Fin 80) (Fin 2) (Fin 8) (Fin 180) (Fin 70),
   TimingRec (Fin 2) true (Fin 2000) (Fin 200) (Fin 1000) (Fin 800)).

Lemma mf_frame_nonempty : mf_frame <> [].
Proof. vm_compute; discriminate. Qed.

Lemma mf_frame_no_label0 : 0%nat ∉ map fst mf_frame.
Proof.
  vm_compute; intros H; apply elem_of_cons in H as [H|H];
    [discriminate|apply elem_of_cons in H as [H|H]; [discriminate|by apply elem_of_nil in H]].
Qed.

Lemma robust_table_raises_witness :
  mf_frame <> [] /\ (0%nat ∉ map fst mf_frame) /\
  exists e, (Robust.test_robust_formula mf_frame (Robust.robust_analysis mf_frame)).2 = ([], Some e) /\
    (e = ValueError \/ e = OverflowError).
Proof.
  split_and!; [exact mf_frame_nonempty|exact mf_frame_no_label0|
    exact (robust_table_raises _ _ mf_frame_nonempty mf_frame_no_label0)].
Defined.

Definition mf_models : Verified.models :=
  Verified.Models (Count, LinReg 0 [0%Q], Fin 0) None (Count, LinReg 0 [0%Q], Fin 0).

Lemma verified_table_raises_witness :
  mf_frame <> [] /\ (0%nat ∉ map fst mf_frame) /\
  exists e, (Verified.test_calibrated_models mf_frame mf_models).2 = ([], Some e) /\
    (e = ValueError \/ e = OverflowError).
Proof.
  split_and!; [exact mf_frame_nonempty|exact mf_frame_no_label0|
    exact (verified_table_raises _ mf_models mf_frame_nonempty mf_frame_no_label0)].
Defined.

Lemma size_aware_phase_predictions_witness :
  exists ms m1 r1, SizeAware.calibrate_mixed_model lstsq mf_workers = Some ms /\
    fit lstsq Mixed (map snd mf_workers) phase1FileAnalysisMs = Some (m1, r1) /\
    Robust.predicted_phase1 (SizeAware.predict ms mf_row2) ≡
    formula Mixed m1 mf_row2.
Proof.
  destruct (SizeAware.calibrate_mixed_model lstsq mf_workers) as [ms|] eqn:E; [|vm_compute in E; discriminate].
  destruct (fit lstsq Mixed (map snd mf_workers) phase1FileAnalysisMs) as [[m1 r1]|] eqn:E1;
    [|vm_compute in E1; discriminate].
  exists ms, m1, r1. split; [reflexivity|split; [reflexivity|]].
  refine (proj1 (size_aware_phase_predictions lstsq mf_workers ms m1 r1 E E1 mf_row2 200 70 _ eq_refl eq_refl)).
  apply list_elem_of_In. vm_compute. right. left. reflexivity.
Defined.

Lemma verified_phase_predictions_witness :
  exists ms m1 r1 m3 r3, Verified.calibrate_with_verified_data lstsq mf_workers = Some ms /\
    fit lstsq Mixed (map snd mf_workers) phase1FileAnalysisMs = Some (m1, r1) /\
    fit lstsq Mixed (map snd mf_workers) phase3UIRenderingMs = Some (m3, r3) /\
    Robust.predicted_phase1 (Verified.predict ms mf_row2) ≡ formula Mixed m1 mf_row2.
Proof.
  destruct (Verified.calibrate_with_verified_data lstsq mf_workers) as [ms|] eqn:E; [|vm_compute in E; discriminate].
  destruct (fit lstsq Mixed (map snd mf_workers) phase1FileAnalysisMs) as [[m1 r1]|] eqn:E1;
    [|vm_compute in E1; discriminate].
  destruct (fit lstsq Mixed (map snd mf_workers) phase3UIRenderingMs) as [[m3 r3]|] eqn:E3;
    [|vm_compute in E3; discriminate].
  exists ms, m1, r1, m3, r3. split_and!; [reflexivity..|].
  refine (proj1 (verified_phase_predictions lstsq mf_workers ms m1 r1 m3 r3 E E1 E3 mf_row2 200 70 _ eq_refl eq_refl)).
  apply list_elem_of_In. vm_compute. right. left. reflexivity.
Defined.
