(* ===== verification/Trial5Calib.v ===== *)
(** * The trial-5 calibrations

    Two scripts read [5_CompleteAnalysisData.csv], one row per run with
    the folder metrics and the phase times:
    - [Comprehensive]: [docs/plans/Bookkeeper/speed_tests/trial5_comprehensive_calibration.py],
      nested [LinearRegression] models per phase, the best chosen by
      [max] over [(r2, model, name)] tuples, and the JavaScript constants
      printed from the chosen models;
    - [Enhanced]: [docs/speed_tests/trial5_enhanced_optimization.py],
      three or four models per phase, the best by mean accuracy, the
      accuracy clipped to [0, 100].
    The fits go through a solver meeting [LeastSquares] ([Regression.v]). *)

From S2P Require Import Prelude Stats Regression Calibration.
From Stdlib Require Import QArith Qabs Lqa.

(** The columns of [5_CompleteAnalysisData.csv] the scripts read. *)
Record t5_row := T5Row {
  TestRun : pyfloat;
  totalFiles : pyfloat;
  totalSizeMB : pyfloat;
  duplicateCandidateCount : pyfloat;
  duplicateCandidatesSizeMB : pyfloat;
  avgDirectoryDepth : pyfloat;
  totalDirectoryCount : pyfloat;
  avgFilenameLength : pyfloat;
  phase1FileAnalysisMs : pyfloat;
  phase2HashProcessingMs : pyfloat;
  phase3UIRenderingMs : pyfloat;
  totalDurationMs : pyfloat
}.

(** [pd.read_csv]: the rows labelled [0 .. n-1]. *)
Definition t5_frame : Type := list (nat * t5_row).

Definition read_csv (rows : list t5_row) : t5_frame := imap pair rows.

(** [df.notna()] of a cell. *)
Definition notna (x : pyfloat) : bool := negb (is_nan x).

(** [model.predict([[...]])[0]] on a row's features: [ValueError] on a
    value that is not finite. *)
Definition predict_row (m : linreg) (fs : list (t5_row -> pyfloat)) (r : t5_row) : exc + Q :=
  match finite_values (map (fun f => f r) fs) with
  | Some qs => inr (linreg_predict m qs)
  | None => inl ValueError
  end.

(** [fit_score] with [fit]'s [ValueError]. *)
Definition fit_or_raise (solve : nat -> nat -> (nat -> vec) -> vec -> nat -> Q)
    (fs : list (t5_row -> pyfloat)) (rows : list t5_row) (y : t5_row -> pyfloat) : exc + (linreg * pyfloat) :=
  raise_none (fit_score solve (length fs) (features fs rows) (map y rows)).

(** ** [trial5_comprehensive_calibration.py] *)

Module Comprehensive.

(** [df.dropna(subset=['totalDurationMs', 'totalSizeMB', 'avgDirectoryDepth'])]
    (line 17): the labels are kept. *)
Definition load_complete_data (df : t5_frame) : t5_frame :=
  filter (fun p => notna (totalDurationMs p.2) && notna (totalSizeMB p.2) && notna (avgDirectoryDepth p.2)) df.

(** The names of the models. *)
Inductive name := Simple | Multi | SizeName | Directory | Full.

(** The feature lists of the eight models (lines 95-163). *)
Definition X1a : list (t5_row -> pyfloat) := [totalFiles].
Definition X1b : list (t5_row -> pyfloat) := [totalFiles; avgDirectoryDepth; totalDirectoryCount].
Definition X2a : list (t5_row -> pyfloat) := [duplicateCandidateCount].
Definition X2b : list (t5_row -> pyfloat) := [duplicateCandidateCount; duplicateCandidatesSizeMB].
Definition X2c : list (t5_row -> pyfloat) := [duplicateCandidateCount; duplicateCandidatesSizeMB; avgDirectoryDepth].
Definition X3a : list (t5_row -> pyfloat) := [totalFiles].
Definition X3b : list (t5_row -> pyfloat) := [totalFiles; avgDirectoryDepth; totalDirectoryCount].
Definition X3c : list (t5_row -> pyfloat) :=
  [totalFiles; avgDirectoryDepth; totalDirectoryCount; avgFilenameLength].

(** A phase's model: the fitted model, its name and its score. *)
Definition phase_model : Type := linreg * name * pyfloat.

Record models := Models { phase1 : phase_model; phase2 : phase_model; phase3 : phase_model }.

Section WithSolver.
Context (solve : nat -> nat -> (nat -> vec) -> vec -> nat -> Q).

(** [max] of the [(r2, model, name)] tuples, as a phase model. *)
Definition best_tuple (a b c : linreg * pyfloat) (na nb nc : name) : exc + phase_model :=
  t ← py_max_tuples (a.2, (a.1, na)) [(b.2, (b.1, nb)); (c.2, (c.1, nc))];
  inr (t.2.1, t.2.2, t.1).

(** [calibrate_multi_factor_models] (lines 80-178). *)
Definition calibrate_multi_factor_models (df : t5_frame) : exc + models :=
  let rows := map snd df in
  m1a ← fit_or_raise solve X1a rows phase1FileAnalysisMs;
  m1b ← fit_or_raise solve X1b rows phase1FileAnalysisMs;
  let phase1 := if flt m1a.2 m1b.2 then (m1b.1, Multi, m1b.2) else (m1a.1, Simple, m1a.2) in
  m2a ← fit_or_raise solve X2a rows phase2HashProcessingMs;
  m2b ← fit_or_raise solve X2b rows phase2HashProcessingMs;
  m2c ← fit_or_raise solve X2c rows phase2HashProcessingMs;
  phase2 ← best_tuple m2a m2b m2c Simple SizeName Full;
  m3a ← fit_or_raise solve X3a rows phase3UIRenderingMs;
  m3b ← fit_or_raise solve X3b rows phase3UIRenderingMs;
  m3c ← fit_or_raise solve X3c rows phase3UIRenderingMs;
  phase3 ← best_tuple m3a m3b m3c Simple Directory Full;
  inr (Models phase1 phase2 phase3).

End WithSolver.

(** The features a phase model predicts from (lines 192-214). *)
Definition phase1_features (n : name) : list (t5_row -> pyfloat) := if n is Multi then X1b else X1a.
Definition phase2_features (n : name) : list (t5_row -> pyfloat) :=
  match n with Full => X2c | SizeName => X2b | _ => X2a end.
Definition phase3_features (n : name) : list (t5_row -> pyfloat) :=
  match n with Full => X3c | Directory => X3b | _ => X3a end.

(** The predicted total of a row (lines 190-216). *)
Definition predict (ms : models) (r : t5_row) : exc + Q :=
  let '(m1, n1, _) := phase1 ms in
  let '(m2, n2, _) := phase2 ms in
  let '(m3, n3, _) := phase3 ms in
  p1 ← predict_row m1 (phase1_features n1) r;
  p2 ← predict_row m2 (phase2_features n2) r;
  p3 ← predict_row m3 (phase3_features n3) r;
  inr (p1 + p2 + p3)%Q.

(** [np.abs(actual - predicted)] and [100 - (errors / actual) * 100]
    (lines 228-232), position by position. *)
Definition accuracy_percent (actual : pyfloat) (predicted : Q) : pyfloat :=
  fsub (Fin 100) (fmul (fdiv (fabs (fsub actual (Fin predicted))) actual) (Fin 100)).

(** A line of the detailed table (lines 247-257): [int(nan)] raises
    [ValueError], [int(inf)] [OverflowError]. *)
Definition detail_line (ipr : nat * (t5_row * Q)) : exc + (Z * Z * pyfloat * pyfloat * Z * Z * Z * pyfloat) :=
  let '(_, (r, p)) := ipr in
  run_num ← py_int_of_float (TestRun r);
  files ← py_int_of_float (totalFiles r);
  actual ← py_int_of_float (totalDurationMs r);
  predicted ← py_int_of_float (Fin p);
  inr (run_num, files, avgDirectoryDepth r, totalSizeMB r, actual, predicted, (actual - predicted)%Z,
        accuracy_percent (totalDurationMs r) p).

(** [model.coef_[j]]: [IndexError] past the last coefficient. *)
Definition coef_at (m : linreg) (j : nat) : exc + Q :=
  match coef_ m !! j with Some c => inr c | None => inl IndexError end.

(** The constants [PHASE<k>_<label>_MS] printed for [fileAnalysis.js]. *)
Inductive const_label := BASE | FILE | DEPTH | DIR | CANDIDATE | SIZE | FILENAME.

Definition label_text (l : const_label) : text :=
  match l with
  | BASE => U"BASE" | FILE => U"FILE" | DEPTH => U"DEPTH" | DIR => U"DIR"
  | CANDIDATE => U"CANDIDATE" | SIZE => U"SIZE" | FILENAME => U"FILENAME"
  end.

Definition const_name (k : Z) (l : const_label) : text :=
  U"PHASE" ++ [48 + k]%Z ++ U"_" ++ label_text l ++ U"_MS".

(** The printed lines: the [// Phase k: ... (kind: R² = r2)] comment, a
    [const] line, the [// phase1Time = ...] comment of line 297 and an
    empty line.  Each number is the value of the decimal printed: [:.3f]
    for [R²] and the intercepts, [:.6f] for the coefficients. *)
Inductive js_line :=
  | JsHeader (k : Z) (kind : text) (r2 : pyfloat)
  | JsConst (k : Z) (l : const_label) (v : Q)
  | JsFormula (base : Q) (terms : list (text * Q))
  | JsBlank.

(** Lines 291-302. *)
Definition phase1_block (pm : phase_model) : exc + list js_line :=
  let '(m, n, r2) := pm in
  if n is Multi then
    c0 ← coef_at m 0; c1 ← coef_at m 1; c2 ← coef_at m 2;
    inr [JsHeader 1 U"Multi-factor" (format_float 3 r2);
         JsConst 1 BASE (format_fixed 3 (intercept_ m));
         JsConst 1 FILE (format_fixed 6 c0);
         JsConst 1 DEPTH (format_fixed 6 c1);
         JsConst 1 DIR (format_fixed 6 c2);
         JsFormula (format_fixed 3 (intercept_ m))
           [(U"files", format_fixed 6 c0); (U"depth", format_fixed 6 c1); (U"dirs", format_fixed 6 c2)]]
  else
    c0 ← coef_at m 0;
    inr [JsHeader 1 U"Simple" (format_float 3 r2);
         JsConst 1 BASE (format_fixed 3 (intercept_ m));
         JsConst 1 FILE (format_fixed 6 c0)].

(** Lines 306-320. *)
Definition phase2_block (pm : phase_model) : exc + list js_line :=
  let '(m, n, r2) := pm in
  match n with
  | Full =>
    c0 ← coef_at m 0; c1 ← coef_at m 1; c2 ← coef_at m 2;
    inr [JsHeader 2 U"Full model" (format_float 3 r2);
         JsConst 2 BASE (format_fixed 3 (intercept_ m));
         JsConst 2 CANDIDATE (format_fixed 6 c0);
         JsConst 2 SIZE (format_fixed 6 c1);
         JsConst 2 DEPTH (format_fixed 6 c2)]
  | SizeName =>
    c0 ← coef_at m 0; c1 ← coef_at m 1;
    inr [JsHeader 2 U"Size-aware" (format_float 3 r2);
         JsConst 2 BASE (format_fixed 3 (intercept_ m));
         JsConst 2 CANDIDATE (format_fixed 6 c0);
         JsConst 2 SIZE (format_fixed 6 c1)]
  | _ =>
    c0 ← coef_at m 0;
    inr [JsHeader 2 U"Simple" (format_float 3 r2);
         JsConst 2 BASE (format_fixed 3 (intercept_ m));
         JsConst 2 CANDIDATE (format_fixed 6 c0)]
  end.

(** Lines 324-340. *)
Definition phase3_block (pm : phase_model) : exc + list js_line :=
  let '(m, n, r2) := pm in
  match n with
  | Full =>
    c0 ← coef_at m 0; c1 ← coef_at m 1; c2 ← coef_at m 2; c3 ← coef_at m 3;
    inr [JsHeader 3 U"Full complexity" (format_float 3 r2);
         JsConst 3 BASE (format_fixed 3 (intercept_ m));
         JsConst 3 FILE (format_fixed 6 c0);
         JsConst 3 DEPTH (format_fixed 6 c1);
         JsConst 3 DIR (format_fixed 6 c2);
         JsConst 3 FILENAME (format_fixed 6 c3)]
  | Directory =>
    c0 ← coef_at m 0; c1 ← coef_at m 1; c2 ← coef_at m 2;
    inr [JsHeader 3 U"Directory-aware" (format_float 3 r2);
         JsConst 3 BASE (format_fixed 3 (intercept_ m));
         JsConst 3 FILE (format_fixed 6 c0);
         JsConst 3 DEPTH (format_fixed 6 c1);
         JsConst 3 DIR (format_fixed 6 c2)]
  | _ =>
    c0 ← coef_at m 0;
    inr [JsHeader 3 U"Simple" (format_float 3 r2);
         JsConst 3 BASE (format_fixed 3 (intercept_ m));
         JsConst 3 FILE (format_fixed 6 c0)]
  end.

(** What [generate_implementation_formula] returns and prints: the mean
    accuracy, and as printed with [:.1f] that accuracy and its difference
    to trial 4's [83.6], then the constants. *)
Record formula_out := FormulaOut {
  current_accuracy : pyfloat; printed_accuracy : pyfloat; improvement : pyfloat; js : list js_line }.

(** [generate_implementation_formula] (lines 261-342): the accuracy of
    line 270 on the arrays of [df] and [pred_df], then the three blocks. *)
Definition generate_implementation_formula (df : t5_frame) (ms : models) (preds : list Q) : exc + formula_out :=
  let cur := np_mean (zip_with accuracy_percent (map (fun p => totalDurationMs p.2) df) preds) in
  b1 ← phase1_block (phase1 ms);
  b2 ← phase2_block (phase2 ms);
  b3 ← phase3_block (phase3 ms);
  inr (FormulaOut cur (format_float 1 cur) (format_float 1 (fsub cur (Fin (836 # 10))))
                  (b1 ++ JsBlank :: b2 ++ JsBlank :: b3)).

Record result := Result {
  models_of : models;
  (** mean accuracy, the detailed lines, and the saved
      [comprehensive_predicted_total] column *)
  mean_accuracy : pyfloat;
  lines : list (Z * Z * pyfloat * pyfloat * Z * Z * Z * pyfloat);
  formula : formula_out;
  saved : series
}.

(** [main] (lines 344-366): [load_complete_data], the calibration,
    [test_comprehensive_models], [generate_implementation_formula] and the
    saved frame. *)
Definition main (solve : nat -> nat -> (nat -> vec) -> vec -> nat -> Q) (rows : list t5_row) : exc + result :=
  let df := load_complete_data (read_csv rows) in
  ms ← calibrate_multi_factor_models solve df;
  preds ← mapM (predict ms) (map snd df);
  let acc := zip_with accuracy_percent (map (fun p => totalDurationMs p.2) df) preds in
  let '(ls, raised) := print_rows detail_line (imap pair (zip (map snd df) preds)) in
  if raised is Some e then inl e else
  f ← generate_implementation_formula df ms preds;
  inr (Result ms (np_mean acc) ls f (reindex (range_series (map Fin preds)) (map fst df))).

(** ** The reading of the printed constants

    What the constants mean in [fileAnalysis.js], as their names and the
    comment of line 297 say: [BASE] is added as it is, every other
    constant multiplies the column of its label. *)
Definition label_column (l : const_label) : option (t5_row -> pyfloat) :=
  match l with
  | BASE => None | FILE => Some totalFiles | DEPTH => Some avgDirectoryDepth
  | DIR => Some totalDirectoryCount | CANDIDATE => Some duplicateCandidateCount
  | SIZE => Some duplicateCandidatesSizeMB | FILENAME => Some avgFilenameLength
  end.

Definition js_term (r : t5_row) (ln : js_line) : option Q :=
  match ln with
  | JsConst _ l v =>
    match label_column l with
    | None => Some v
    | Some f => match f r with Fin x => Some (v * x)%Q | _ => None end
    end
  | _ => Some 0%Q
  end.

(** The estimate of the total time the printed constants give on a row;
    [None] on a column that is not finite. *)
Definition js_estimate (ls : list js_line) (r : t5_row) : option Q := qsum <$> mapM (js_term r) ls.

(** The sum of the magnitudes of a row's columns. *)
Definition col_abs (x : pyfloat) : Q := match x with Fin q => Qabs q | _ => 0%Q end.
Definition colsum (fs : list (t5_row -> pyfloat)) (r : t5_row) : Q := qsum (map (fun f => col_abs (f r)) fs).

(** The error the printout allows on a row: half a unit of the third
    decimal for each of the three intercepts, and half a unit of the sixth
    decimal times the column for each coefficient, over the columns of the
    largest model of each phase. *)
Definition print_tolerance (r : t5_row) : Q :=
  3 * (1 # 2000) + (1 # 2000000) * (colsum X1b r + colsum X2c r + colsum X3c r).

End Comprehensive.

(** ** [trial5_enhanced_optimization.py] *)

Module Enhanced.

(** [load_trial5_data] (lines 14-29): the rows with the seven columns. *)
Definition load_trial5_data (df : t5_frame) : t5_frame :=
  filter (fun p => let r := p.2 in
    notna (totalFiles r) && notna (totalSizeMB r) && notna (totalDurationMs r) &&
    notna (phase1FileAnalysisMs r) && notna (phase2HashProcessingMs r) && notna (phase3UIRenderingMs r) &&
    notna (avgDirectoryDepth r)) df.

(** [np.clip(x, 0, 1)]: [NaN] stays [NaN]. *)
Definition clip01 (x : pyfloat) : pyfloat :=
  if is_nan x then NaN else if flt x (Fin 0) then Fin 0 else if flt (Fin 1) x then Fin 1 else x.

Record accuracy := Accuracy {
  mean_accuracy : pyfloat; median_accuracy : pyfloat; min_accuracy : pyfloat; max_accuracy : pyfloat;
  mean_abs_error : pyfloat; r2 : pyfloat
}.

(** The accuracies of [evaluate_model_accuracy]:
    [np.clip(1 - errors / actual, 0, 1) * 100]. *)
Definition accuracies (actual predicted : list pyfloat) : list pyfloat :=
  zip_with (fun a p => fmul (clip01 (fsub (Fin 1) (fdiv (fabs (fsub a p)) a))) (Fin 100)) actual predicted.

(** [evaluate_model_accuracy] (lines 31-44): [np.min] and [np.max] raise
    on no values, [r2_score] on values that are not finite. *)
Definition evaluate_model_accuracy (actual predicted : list pyfloat) : exc + accuracy :=
  let errors := zip_with (fun a p => fabs (fsub a p)) actual predicted in
  let acc := accuracies actual predicted in
  mn ← raise_none (np_min acc);
  mx ← raise_none (np_max acc);
  ya ← raise_none (finite_values actual);
  yp ← raise_none (finite_values predicted);
  inr (Accuracy (np_mean acc) (np_median acc) mn mx (np_mean errors) (r2_score ya yp)).

(** The names of the models. *)
Inductive mname :=
| SimpleFile | MultiFactor | DuplicateFocused
| Current | CandidateFocused | DuplicateSize | CombinedOptimal
| FileOnly | WithFilename.

Section WithSolver.
Context (solve : nat -> nat -> (nat -> vec) -> vec -> nat -> Q).

(** [reg = LinearRegression().fit(X, y); pred = reg.predict(X)] and the
    model's entry of the [models] dict. *)
Definition try_model (fs : list (t5_row -> pyfloat)) (rows : list t5_row) (y : t5_row -> pyfloat) :
    exc + (linreg * accuracy) :=
  m ← raise_none (linreg_fit solve (length fs) (features fs rows) (map y rows));
  Xq ← raise_none (mapM finite_values (features fs rows));
  acc ← evaluate_model_accuracy (map y rows) (map (fun q => Fin (linreg_predict m q)) Xq);
  inr (m, acc).

Definition best {A} (x : A * (linreg * accuracy)) (xs : list (A * (linreg * accuracy))) : A * (linreg * accuracy) :=
  py_max_by (fun x => mean_accuracy x.2.2) x xs.

(** [test_phase1_models] (lines 46-96). *)
Definition test_phase1_models (rows : list t5_row) : exc + (mname * (linreg * accuracy)) :=
  m1 ← try_model [totalFiles] rows phase1FileAnalysisMs;
  m2 ← try_model [totalFiles; avgDirectoryDepth; totalDirectoryCount] rows phase1FileAnalysisMs;
  m3 ← try_model [duplicateCandidateCount] rows phase1FileAnalysisMs;
  inr (best (SimpleFile, m1) [(MultiFactor, m2); (DuplicateFocused, m3)]).

(** [test_phase2_models] (lines 98-158). *)
Definition test_phase2_models (rows : list t5_row) : exc + (mname * (linreg * accuracy)) :=
  m1 ← try_model [totalFiles; totalSizeMB] rows phase2HashProcessingMs;
  m2 ← try_model [duplicateCandidateCount] rows phase2HashProcessingMs;
  m3 ← try_model [duplicateCandidatesSizeMB] rows phase2HashProcessingMs;
  m4 ← try_model [duplicateCandidateCount; duplicateCandidatesSizeMB] rows phase2HashProcessingMs;
  inr (best (Current, m1) [(CandidateFocused, m2); (DuplicateSize, m3); (CombinedOptimal, m4)]).

(** [test_phase3_models] (lines 160-223). *)
Definition test_phase3_models (rows : list t5_row) : exc + (mname * (linreg * accuracy)) :=
  m1 ← try_model [totalFiles; avgDirectoryDepth] rows phase3UIRenderingMs;
  m2 ← try_model [totalFiles] rows phase3UIRenderingMs;
  m3 ← try_model [totalFiles; avgDirectoryDepth; totalDirectoryCount] rows phase3UIRenderingMs;
  m4 ← try_model [totalFiles; avgDirectoryDepth; avgFilenameLength] rows phase3UIRenderingMs;
  inr (best (Current, m1) [(FileOnly, m2); (MultiFactor, m3); (WithFilename, m4)]).

End WithSolver.

(** [intercept + x1 * c1 + ...] on a row, in the script's order. *)
Definition affine (m : linreg) (xs : list pyfloat) : pyfloat :=
  foldl (fun acc jx => fadd acc (fmul jx.2 (coef m jx.1))) (Fin (intercept_ m)) (imap pair xs).

(** The phase predictions of [test_combined_optimization] (lines 237-275). *)
Definition phase1_pred (n : mname) (m : linreg) (r : t5_row) : pyfloat :=
  match n with
  | DuplicateFocused => affine m [duplicateCandidateCount r]
  | MultiFactor => affine m [totalFiles r; avgDirectoryDepth r; totalDirectoryCount r]
  | _ => affine m [totalFiles r]
  end.

Definition phase2_pred (n : mname) (m : linreg) (r : t5_row) : pyfloat :=
  match n with
  | CandidateFocused => affine m [duplicateCandidateCount r]
  | DuplicateSize => affine m [duplicateCandidatesSizeMB r]
  | CombinedOptimal => affine m [duplicateCandidateCount r; duplicateCandidatesSizeMB r]
  | _ => affine m [totalFiles r; totalSizeMB r]
  end.

Definition phase3_pred (n : mname) (m : linreg) (r : t5_row) : pyfloat :=
  match n with
  | FileOnly => affine m [totalFiles r]
  | MultiFactor => affine m [totalFiles r; avgDirectoryDepth r; totalDirectoryCount r]
  | WithFilename => affine m [totalFiles r; avgDirectoryDepth r; avgFilenameLength r]
  | _ => affine m [totalFiles r; avgDirectoryDepth r]
  end.

(** [test_combined_optimization] (lines 225-294): the accuracy of the
    summed phase predictions against [totalDurationMs]. *)
Definition test_combined_optimization (rows : list t5_row) (b1 b2 b3 : mname * (linreg * accuracy)) :
    exc + (accuracy * list pyfloat) :=
  let total_pred := map (fun r => fadd (fadd (phase1_pred b1.1 b1.2.1 r) (phase2_pred b2.1 b2.2.1 r))
                                       (phase3_pred b3.1 b3.2.1 r)) rows in
  acc ← evaluate_model_accuracy (map totalDurationMs rows) total_pred;
  inr (acc, total_pred).

(** [main] (lines 377-398): the three best models and the combined
    accuracy. *)
Definition main (solve : nat -> nat -> (nat -> vec) -> vec -> nat -> Q) (rows : list t5_row) :
    exc + (mname * mname * mname * accuracy) :=
  let df := map snd (load_trial5_data (read_csv rows)) in
  b1 ← test_phase1_models solve df;
  b2 ← test_phase2_models solve df;
  b3 ← test_phase3_models solve df;
  c ← test_combined_optimization df b1 b2 b3;
  inr (b1.1, b2.1, b3.1, c.1).

End Enhanced.

(** * Properties *)

Lemma raise_none_inr {A} (o : option A) a : raise_none o = inr a -> o = Some a.
Proof. destruct o; cbn; congruence. Qed.

Module ComprehensiveProps.
Import Comprehensive.

(** The feature lists of the comprehensive models are nested. *)
Lemma X2a_X2b : Forall (fun f => f ∈ X2b) X2a.
Proof. unfold X2a, X2b. repeat constructor. Qed.
Lemma X2b_X2c : Forall (fun f => f ∈ X2c) X2b.
Proof. unfold X2b, X2c. repeat constructor. Qed.
Lemma X3a_X3b : Forall (fun f => f ∈ X3b) X3a.
Proof. unfold X3a, X3b. repeat constructor. Qed.
Lemma X3b_X3c : Forall (fun f => f ∈ X3c) X3b.
Proof. unfold X3b, X3c. apply Forall_forall. intros f Hf. apply list_elem_of_In in Hf. apply list_elem_of_In. cbn in *. tauto. Qed.

(** The fits and choices behind a completed calibration. *)
Lemma calibrate_inv solve df ms : calibrate_multi_factor_models solve df = inr ms ->
  exists m2a m2b m2c m3a m3b m3c,
    fit_score solve 1 (features X2a (map snd df)) (map phase2HashProcessingMs (map snd df)) = Some m2a /\
    fit_score solve 2 (features X2b (map snd df)) (map phase2HashProcessingMs (map snd df)) = Some m2b /\
    fit_score solve 3 (features X2c (map snd df)) (map phase2HashProcessingMs (map snd df)) = Some m2c /\
    best_tuple m2a m2b m2c Simple SizeName Full = inr (phase2 ms) /\
    fit_score solve 1 (features X3a (map snd df)) (map phase3UIRenderingMs (map snd df)) = Some m3a /\
    fit_score solve 3 (features X3b (map snd df)) (map phase3UIRenderingMs (map snd df)) = Some m3b /\
    fit_score solve 4 (features X3c (map snd df)) (map phase3UIRenderingMs (map snd df)) = Some m3c /\
    best_tuple m3a m3b m3c Simple Directory Full = inr (phase3 ms).
Proof.
  unfold calibrate_multi_factor_models.
  repeat match goal with
  | |- (?x ≫= _) = _ -> _ => let E := fresh "E" in destruct x as [?|?] eqn:E; cbn [mbind exc_bind]; [intros [=]|]
  end.
  intros [= <-]. cbn [phase2 phase3]. unfold fit_or_raise in *. repeat match goal with H : raise_none _ = inr _ |- _ => apply raise_none_inr in H end.
  eexists _, _, _, _, _, _. split_and!; eassumption.
Qed.

(** On scores that never decrease, the tuple [max] picks the last model. *)
Lemma best_tuple_chain a b c na nb nc p : fle a.2 b.2 = true -> fle b.2 c.2 = true ->
  best_tuple a b c na nb nc = inr p -> p = (c.1, nc, c.2).
Proof.
  intros Hab Hbc. unfold best_tuple.
  destruct (py_max_tuples_chain (a.2, (a.1, na)) [(b.2, (b.1, nb)); (c.2, (c.1, nc))]) as [H|H].
  - repeat constructor; done.
  - rewrite H. cbn. intros [=].
  - rewrite H. cbn. by intros [= <-].
Qed.

(** C31: With two runs or more, [trial5_comprehensive_calibration.py]
    either raises or chooses the full model for phases 2 and 3: the
    models are nested, so their scores never decrease, and [max] of the
    [(r2, model, name)] tuples raises [TypeError] on a tie. *)
Theorem comprehensive_selects_full solve `{!LeastSquares solve} df ms : (2 <= length df)%nat ->
  calibrate_multi_factor_models solve df = inr ms -> (phase2 ms).1.2 = Full /\ (phase3 ms).1.2 = Full.
Proof.
  intros H2 Hc. destruct (calibrate_inv solve df ms Hc) as
    ([m2a r2a] & [m2b r2b] & [m2c r2c] & [m3a r3a] & [m3b r3b] & [m3c r3c] & Ha2 & Hb2 & Hc2 & E2 & Ha3 & Hb3 & Hc3 & E3).
  assert (Hl : (2 <= length (map snd df))%nat) by (by rewrite length_map).
  split.
  - rewrite (best_tuple_chain (m2a, r2a) (m2b, r2b) (m2c, r2c) _ _ _ _ (fit_score_nested_le solve X2a X2b _ _ _ _ _ _ X2a_X2b Hl Ha2 Hb2)
      (fit_score_nested_le solve X2b X2c _ _ _ _ _ _ X2b_X2c Hl Hb2 Hc2) E2). done.
  - rewrite (best_tuple_chain (m3a, r3a) (m3b, r3b) (m3c, r3c) _ _ _ _ (fit_score_nested_le solve X3a X3b _ _ _ _ _ _ X3a_X3b Hl Ha3 Hb3)
      (fit_score_nested_le solve X3b X3c _ _ _ _ _ _ X3b_X3c Hl Hb3 Hc3) E3). done.
Qed.

(** C32: When the phase-2 time is the same on every run, as when no run
    hashes anything, [trial5_comprehensive_calibration.py] never
    completes from two runs on: every phase-2 fit is exact, the scores
    tie at [1.0], and [max] compares two [LinearRegression] objects. *)
Theorem comprehensive_constant_phase2_raises solve `{!LeastSquares solve} df c ms : (2 <= length df)%nat ->
  Forall (fun p => phase2HashProcessingMs p.2 = Fin c) df ->
  calibrate_multi_factor_models solve df <> inr ms.
Proof.
  intros H2 Hc Hcal. destruct (calibrate_inv solve df ms Hcal) as
    ([m2a r2a] & [m2b r2b] & m2c & ? & ? & ? & Ha2 & Hb2 & _ & E2 & _).
  assert (Hy : Forall (fun v => v = Fin c) (map phase2HashProcessingMs (map snd df))).
  { rewrite map_map. apply Forall_fmap. eapply Forall_impl; [exact Hc|]. done. }
  assert (Hl : (2 <= length (map phase2HashProcessingMs (map snd df)))%nat) by (by rewrite !length_map).
  rewrite (fit_score_constant solve _ _ _ _ _ c (features_length X2a _) Hy Hl Ha2) in *.
  rewrite (fit_score_constant solve _ _ _ _ _ c (features_length X2b _) Hy Hl Hb2) in *.
  unfold best_tuple in E2. rewrite py_max_tuples_tie in E2 by done. discriminate.
Qed.


(** ** The printed constants *)

Lemma best_tuple_cases a b c na nb nc p : best_tuple a b c na nb nc = inr p ->
  p = (a.1, na, a.2) \/ p = (b.1, nb, b.2) \/ p = (c.1, nc, c.2).
Proof.
  unfold best_tuple. destruct (py_max_tuples _ _) as [|t] eqn:E; cbn [mbind exc_bind]; [done|].
  intros [= <-]. apply py_max_tuples_elem in E. set_solver.
Qed.

Lemma fit_or_raise_coef_length solve fs rows y m : fit_or_raise solve fs rows y = inr m ->
  length (coef_ m.1) = length fs.
Proof. destruct m. intros H%raise_none_inr. by eapply fit_score_coef_length. Qed.

(** A phase model has one coefficient per feature it predicts from. *)
Definition coef_fits (feats : name -> list (t5_row -> pyfloat)) (pm : phase_model) : Prop :=
  length (coef_ pm.1.1) = length (feats pm.1.2).

Lemma calibrate_coef_fits solve df ms : calibrate_multi_factor_models solve df = inr ms ->
  coef_fits phase1_features (phase1 ms) /\ coef_fits phase2_features (phase2 ms) /\
  coef_fits phase3_features (phase3 ms).
Proof.
  unfold calibrate_multi_factor_models.
  repeat match goal with
  | |- (?x ≫= _) = _ -> _ => let E := fresh "E" in destruct x as [?|?] eqn:E; cbn [mbind exc_bind]; [intros [=]|]
  end.
  intros [= <-]. cbn [phase1 phase2 phase3].
  repeat match goal with H : fit_or_raise _ _ _ _ = inr _ |- _ => apply fit_or_raise_coef_length in H end.
  repeat match goal with H : best_tuple _ _ _ _ _ _ = inr _ |- _ =>
    apply best_tuple_cases in H as [->|[-> | ->]] end.
  all: unfold coef_fits; split_and!; [destruct (flt _ _)|..]; done.
Qed.

Lemma js_estimate_app l1 l2 r q1 q2 : js_estimate l1 r = Some q1 -> js_estimate l2 r = Some q2 ->
  exists q, js_estimate (l1 ++ l2) r = Some q /\ (q == q1 + q2)%Q.
Proof.
  unfold js_estimate. intros (ts1 & E1 & ->)%fmap_Some (ts2 & E2 & ->)%fmap_Some.
  apply mapM_Some in E1, E2. exists (qsum (ts1 ++ ts2)). split.
  - apply fmap_Some. exists (ts1 ++ ts2). split; [apply mapM_Some; by apply Forall2_app|done].
  - apply qsum_app.
Qed.

(** ** The rounding of the printed constants *)

(** The model the printed constants describe: the intercept to three
    decimals, the coefficients to six. *)
Definition printed_model (m : linreg) : linreg :=
  LinReg (format_fixed 3 (intercept_ m)) (map (format_fixed 6) (coef_ m)).


Lemma coef_round_err c : (Qabs (format_fixed 6 c - c) <= 1 # 2000000)%Q.
Proof. exact (format_fixed_err 6 c). Qed.

Lemma base_round_err b : (Qabs (format_fixed 3 b - b) <= 1 # 2000)%Q.
Proof. exact (format_fixed_err 3 b). Qed.

(** The printed coefficients move the weighted sum by at most half a unit
    of their sixth decimal per unit of each column. *)
Lemma zip_round_err cs xs : length xs = length cs ->
  (Qabs (qsum (zip_with Qmult xs (map (format_fixed 6) cs)) - qsum (zip_with Qmult xs cs))
   <= (1 # 2000000) * qsum (map Qabs xs))%Q.
Proof.
  revert xs. induction cs as [|c cs IH]; intros [|x xs] Hl; cbn in Hl; try discriminate.
  - injection Hl as Hl. specialize (IH xs Hl). unfold qsum in *. cbn [map zip_with fold_right].
    set (A := fold_right Qplus 0 (zip_with Qmult xs (map (format_fixed 6) cs))) in *.
    set (B := fold_right Qplus 0 (zip_with Qmult xs cs)) in *.
    set (S := fold_right Qplus 0 (map Qabs xs)) in *.
    setoid_replace (x * format_fixed 6 c + A - (x * c + B))%Q with ((format_fixed 6 c - c) * x + (A - B))%Q
      using relation Qeq by ring.
    eapply Qle_trans; [apply Qabs_triangle|]. rewrite Qabs_Qmult.
    assert (Hx : (Qabs (format_fixed 6 c - c) * Qabs x <= (1 # 2000000) * Qabs x)%Q).
    { apply Qmult_le_compat_r; [apply coef_round_err|apply Qabs_nonneg]. }
    lra.
Qed.

(** The printed affine formula of a model is within half a unit of the
    intercept's third decimal and of the coefficients' sixth decimal of
    the model's prediction. *)
Lemma printed_affine m xs : length xs = length (coef_ m) ->
  (Qabs (linreg_predict (printed_model m) xs - linreg_predict m xs)
   <= (1 # 2000) + (1 # 2000000) * qsum (map Qabs xs))%Q.
Proof.
  intros Hl. unfold linreg_predict, printed_model. cbn [intercept_ coef_].
  pose proof (zip_round_err _ _ Hl) as Hz. pose proof (base_round_err (intercept_ m)) as Hb.
  setoid_replace (qsum (zip_with Qmult xs (map (format_fixed 6) (coef_ m))) + format_fixed 3 (intercept_ m)
                  - (qsum (zip_with Qmult xs (coef_ m)) + intercept_ m))%Q
    with ((format_fixed 3 (intercept_ m) - intercept_ m)
          + (qsum (zip_with Qmult xs (map (format_fixed 6) (coef_ m))) - qsum (zip_with Qmult xs (coef_ m))))%Q
    using relation Qeq by ring.
  eapply Qle_trans; [apply Qabs_triangle|]. lra.
Qed.

Lemma finite_colsum fs r qs : finite_values (map (fun f => f r) fs) = Some qs ->
  (qsum (map Qabs qs) == colsum fs r)%Q.
Proof.
  revert qs. induction fs as [|f fs IH]; intros qs; cbn.
  - intros [= <-]. reflexivity.
  - destruct (f r) as [x| | |]; cbn; try done.
    destruct (mapM _ (map (fun f => f r) fs)) as [qs'|] eqn:E; cbn; [|done]. intros [= <-].
    unfold colsum, qsum in *. cbn [map fold_right]. rewrite (IH qs' E). reflexivity.
Qed.

(** A prediction of the printed model is within the rounding of the
    printout of the model's own prediction. *)
Lemma predict_row_printed m fs r p : length (coef_ m) = length fs -> predict_row m fs r = inr p ->
  exists p', predict_row (printed_model m) fs r = inr p' /\
    (Qabs (p' - p) <= (1 # 2000) + (1 # 2000000) * colsum fs r)%Q.
Proof.
  intros Hl. unfold predict_row. destruct (finite_values _) as [qs|] eqn:Hf; [|done]. intros [= <-].
  eexists. split; [reflexivity|]. rewrite <- (finite_colsum _ _ _ Hf).
  apply printed_affine. apply finite_values_length in Hf. rewrite length_map in Hf. lia.
Qed.

Lemma col_abs_nonneg x : (0 <= col_abs x)%Q.
Proof. destruct x; cbn; [apply Qabs_nonneg|..]; apply Qle_refl. Qed.

Lemma colsum_prefix fs gs r : fs `prefix_of` gs -> (colsum fs r <= colsum gs r)%Q.
Proof.
  intros [k ->]. unfold colsum. rewrite map_app, qsum_app.
  assert (0 <= qsum (map (fun f => col_abs (f r)) k))%Q.
  { induction k as [|f k IH]; [apply Qle_refl|]. unfold qsum in *. cbn [map fold_right].
    pose proof (col_abs_nonneg (f r)). lra. }
  lra.
Qed.

Lemma phase1_features_prefix n : phase1_features n `prefix_of` X1b.
Proof. destruct n; eexists; reflexivity. Qed.
Lemma phase2_features_prefix n : phase2_features n `prefix_of` X2c.
Proof. destruct n; eexists; reflexivity. Qed.
Lemma phase3_features_prefix n : phase3_features n `prefix_of` X3c.
Proof. destruct n; eexists; reflexivity. Qed.

(** A block of constants gives, on every row, the prediction of the
    printed model: the row's columns are evaluated as [predict_row] reads
    them. *)
Local Ltac block_estimate_tac r :=
  let Hp := fresh in intros Hp [= <-]; revert Hp; unfold js_estimate; cbn;
  repeat match goal with |- context [?f r] => match type of (f r) with pyfloat => destruct (f r); cbn end end;
  let Hq := fresh in intros Hq; first [discriminate Hq | injection Hq as Hq;
    eexists; split; [reflexivity|]; rewrite <- Hq; unfold linreg_predict; cbn; ring].

Local Ltac block_cases pm :=
  let b0 := fresh "b0" in let cs := fresh "cs" in let n := fresh "n" in let Hl := fresh "Hl" in
  destruct pm as [[[b0 cs] n] ?]; unfold coef_fits; cbn [fst coef_]; intros Hl;
  destruct n; cbn in Hl; (destruct cs as [|? [|? [|? [|? cs]]]]; try discriminate).

Lemma phase1_block_estimate pm r p b : coef_fits phase1_features pm ->
  predict_row (printed_model pm.1.1) (phase1_features pm.1.2) r = inr p -> phase1_block pm = inr b ->
  exists q, js_estimate b r = Some q /\ (q == p)%Q.
Proof.
  block_cases pm.
  all: unfold printed_model, predict_row, phase1_block, phase1_features, X1a, X1b, finite_values; cbn; block_estimate_tac r.
Qed.

Lemma phase2_block_estimate pm r p b : coef_fits phase2_features pm ->
  predict_row (printed_model pm.1.1) (phase2_features pm.1.2) r = inr p -> phase2_block pm = inr b ->
  exists q, js_estimate b r = Some q /\ (q == p)%Q.
Proof.
  block_cases pm.
  all: unfold printed_model, predict_row, phase2_block, phase2_features, X2a, X2b, X2c, finite_values; cbn; block_estimate_tac r.
Qed.

Lemma phase3_block_estimate pm r p b : coef_fits phase3_features pm ->
  predict_row (printed_model pm.1.1) (phase3_features pm.1.2) r = inr p -> phase3_block pm = inr b ->
  exists q, js_estimate b r = Some q /\ (q == p)%Q.
Proof.
  block_cases pm.
  all: unfold printed_model, predict_row, phase3_block, phase3_features, X3a, X3b, X3c, finite_values; cbn; block_estimate_tac r.
Qed.

Lemma predict_inv ms r p : predict ms r = inr p ->
  exists p1 p2 p3, predict_row (phase1 ms).1.1 (phase1_features (phase1 ms).1.2) r = inr p1 /\
    predict_row (phase2 ms).1.1 (phase2_features (phase2 ms).1.2) r = inr p2 /\
    predict_row (phase3 ms).1.1 (phase3_features (phase3 ms).1.2) r = inr p3 /\ p = (p1 + p2 + p3)%Q.
Proof.
  unfold predict. destruct (phase1 ms) as [[m1 n1] s1], (phase2 ms) as [[m2 n2] s2], (phase3 ms) as [[m3 n3] s3].
  cbn [fst]. destruct (predict_row m1 _ r) as [|p1]; [done|]. destruct (predict_row m2 _ r) as [|p2]; [done|].
  destruct (predict_row m3 _ r) as [|p3]; [done|]. intros [= <-]. by exists p1, p2, p3.
Qed.

Lemma generate_inv df ms preds f : generate_implementation_formula df ms preds = inr f ->
  exists b1 b2 b3, phase1_block (phase1 ms) = inr b1 /\ phase2_block (phase2 ms) = inr b2 /\
    phase3_block (phase3 ms) = inr b3 /\ js f = b1 ++ JsBlank :: b2 ++ JsBlank :: b3.
Proof.
  unfold generate_implementation_formula.
  destruct (phase1_block _) as [|b1]; [done|]. destruct (phase2_block _) as [|b2]; [done|].
  destruct (phase3_block _) as [|b3]; [done|]. intros [= <-]. by exists b1, b2, b3.
Qed.

Lemma mapM_exc_elem {A B} (f : A -> exc + B) l ys x : mapM f l = inr ys -> x ∈ l -> exists y, f x = inr y.
Proof.
  intros Hm%mapM_exc_inr (i & Hi)%list_elem_of_lookup.
  destruct (Forall2_lookup_l _ _ _ _ _ Hm Hi) as (y & _ & Hy). by exists y.
Qed.

(** C33: Every run of [trial5_comprehensive_calibration.py] that completes
    prints JavaScript constants that reproduce its validated model up to
    their printed digits: on every run of the data, the [BASE] constants
    plus every other constant times the column its name gives differ from
    the predicted total of [test_comprehensive_models] by at most half a
    unit of the last printed decimal per constant, times its column. *)
Theorem implementation_constants_reproduce solve rows res : main solve rows = inr res ->
  forall r, r ∈ map snd (load_complete_data (read_csv rows)) ->
  exists p q, predict (models_of res) r = inr p /\ js_estimate (js (formula res)) r = Some q /\
    (Qabs (q - p) <= print_tolerance r)%Q.
Proof.
  unfold main. set (df := load_complete_data (read_csv rows)).
  destruct (calibrate_multi_factor_models solve df) as [|ms] eqn:Hc; [done|]. cbn [mbind exc_bind].
  destruct (mapM (predict ms) (map snd df)) as [|preds] eqn:Hp; [done|]. cbn [mbind exc_bind].
  destruct (print_rows detail_line _) as [ls []]; [done|].
  destruct (generate_implementation_formula df ms preds) as [|f] eqn:Hg; [done|]. intros [= <-] r Hr.
  cbn [models_of formula]. destruct (mapM_exc_elem _ _ _ r Hp Hr) as [p Hpr]. exists p.
  destruct (predict_inv _ _ _ Hpr) as (p1 & p2 & p3 & H1 & H2 & H3 & ->).
  destruct (generate_inv _ _ _ _ Hg) as (b1 & b2 & b3 & E1 & E2 & E3 & ->).
  destruct (calibrate_coef_fits _ _ _ Hc) as (F1 & F2 & F3).
  destruct (predict_row_printed _ _ _ _ F1 H1) as (p1' & H1' & Hp1).
  destruct (predict_row_printed _ _ _ _ F2 H2) as (p2' & H2' & Hp2).
  destruct (predict_row_printed _ _ _ _ F3 H3) as (p3' & H3' & Hp3).
  destruct (phase1_block_estimate _ _ _ _ F1 H1' E1) as (q1 & Q1 & Hq1).
  destruct (phase2_block_estimate _ _ _ _ F2 H2' E2) as (q2 & Q2 & Hq2).
  destruct (phase3_block_estimate _ _ _ _ F3 H3' E3) as (q3 & Q3 & Hq3).
  assert (B : forall l q, js_estimate l r = Some q -> exists q', js_estimate (JsBlank :: l) r = Some q' /\ (q' == q)%Q).
  { intros l q Hl. destruct (js_estimate_app [JsBlank] l r 0%Q q eq_refl Hl) as (q' & Hq' & Hq).
    exists q'. split; [done|]. rewrite Hq; ring. }
  destruct (B _ _ Q3) as (s3 & S3 & Hs3). destruct (js_estimate_app _ _ _ _ _ Q2 S3) as (s2 & S2 & Hs2).
  destruct (B _ _ S2) as (s2' & S2' & Hs2'). destruct (js_estimate_app _ _ _ _ _ Q1 S2') as (s & S & Hs).
  exists s. split_and!; [done|done|].
  pose proof (colsum_prefix _ _ r (phase1_features_prefix (phase1 ms).1.2)) as C1.
  pose proof (colsum_prefix _ _ r (phase2_features_prefix (phase2 ms).1.2)) as C2.
  pose proof (colsum_prefix _ _ r (phase3_features_prefix (phase3 ms).1.2)) as C3.
  assert (E : (s - (p1 + p2 + p3) == (p1' - p1) + ((p2' - p2) + (p3' - p3)))%Q)
    by (rewrite Hs, Hs2', Hs2, Hs3, Hq1, Hq2, Hq3; ring).
  rewrite E. unfold print_tolerance.
  eapply Qle_trans; [apply Qabs_triangle|].
  eapply Qle_trans; [apply Qplus_le_compat; [apply Qle_refl|apply Qabs_triangle]|].
  lra.
Qed.

End ComprehensiveProps.

(** ** Percentages *)

(** A value of [0, 100], or [NaN]. *)
Definition pct (x : pyfloat) : bool :=
  match x with NaN => true | Fin q => Qle_bool 0 q && Qle_bool q 100 | _ => false end.

Lemma pct_fin q : pct (Fin q) = true <-> 0 <= q <= 100.
Proof. cbn. rewrite andb_true_iff, !Qle_bool_iff. done. Qed.

Lemma pct_cases x : pct x = true -> x = NaN \/ exists q, x = Fin q /\ 0 <= q <= 100.
Proof. destruct x as [q| | |]; try discriminate; [|by left]. intros H%pct_fin. right. by exists q. Qed.

Lemma Forall_pct_nan xs : Forall (fun x => pct x = true) xs -> existsb is_nan xs = false ->
  exists qs, xs = map Fin qs /\ Forall (fun q => 0 <= q <= 100) qs.
Proof.
  induction xs as [|x xs IH]; intros Hf Hn; [by exists []|].
  apply Forall_cons in Hf as [Hx Hf]. cbn in Hn. apply orb_false_iff in Hn as [Hx' Hn].
  destruct (pct_cases x Hx) as [->|(q & -> & Hq)]; [discriminate|].
  destruct (IH Hf Hn) as (qs & -> & Hqs). exists (q :: qs). split; [done|by constructor].
Qed.

(** [np.clip(x, 0, 1)] is [NaN] or a value of [0, 1]. *)
Lemma clip01_range x : Enhanced.clip01 x = NaN \/ exists q, Enhanced.clip01 x = Fin q /\ 0 <= q <= 1.
Proof.
  unfold Enhanced.clip01. destruct x as [q| | |]; cbn; [|right; exists 1; split; [done|lra]|right; exists 0; split; [done|lra]|by left].
  destruct (Qle_bool 0 q) eqn:E0; cbn; [|right; exists 0; split; [done|lra]].
  destruct (Qle_bool q 1) eqn:E1; cbn; [|right; exists 1; split; [done|lra]].
  apply Qle_bool_iff in E0, E1. right. by exists q.
Qed.

Lemma accuracies_pct a p : Forall (fun x => pct x = true) (Enhanced.accuracies a p).
Proof.
  unfold Enhanced.accuracies. revert p. induction a as [|x a IH]; intros [|y p]; cbn [zip_with]; constructor; [|apply IH].
  destruct (clip01_range (fsub (Fin 1) (fdiv (fabs (fsub x y)) x))) as [->|(q & -> & Hq)]; [done|].
  apply pct_fin. lra.
Qed.

(** The sum of [k] percentages lies in [0, 100 k]. *)
Lemma foldl_fadd_pct qs : forall c a, 0 <= a <= c * 100 -> Forall (fun q => 0 <= q <= 100) qs ->
  exists s, foldl fadd (Fin a) (map Fin qs) = Fin s /\ 0 <= s <= (c + qlen qs) * 100.
Proof.
  induction qs as [|q qs IH]; intros c a Ha Hqs; cbn [map foldl fadd].
  - exists a. change (qlen (@nil Q)) with 0. split; [done|lra].
  - apply Forall_cons in Hqs as [Hq Hqs]. destruct (IH (c + 1) (a + q) ltac:(lra) Hqs) as (s & -> & Hs).
    exists s. rewrite qlen_cons. split; [done|lra].
Qed.

Lemma qlen_pos {A} (l : list A) : l <> [] -> 0 < qlen l.
Proof.
  destruct l as [|x l]; [done|]. intros _. unfold qlen. cbn [length].
  change 0 with (inject_Z 0). rewrite <- Zlt_Qlt. lia.
Qed.

(** [NaN] anywhere makes the sum [NaN]. *)
Lemma foldl_fadd_has_nan xs : forall a, existsb is_nan xs = true -> foldl fadd a xs = NaN.
Proof.
  induction xs as [|x xs IH]; intros a; [done|]. cbn [existsb foldl]. intros [Hx|Hx]%orb_true_iff.
  - destruct x; try discriminate. rewrite fadd_nan_r. apply foldl_fadd_nan.
  - by apply IH.
Qed.

Lemma np_mean_pct xs : Forall (fun x => pct x = true) xs -> pct (np_mean xs) = true.
Proof.
  intros Hf. destruct (existsb is_nan xs) eqn:En.
  - unfold np_mean. destruct xs as [|x xs]; [done|]. unfold fsum. by rewrite foldl_fadd_has_nan.
  - destruct (Forall_pct_nan xs Hf En) as (qs & -> & Hqs). unfold np_mean.
    destruct qs as [|q qs]; [done|]. set (l := q :: qs). change (q :: qs) with l in Hqs.
    destruct (foldl_fadd_pct l 0 0 ltac:(lra) Hqs) as (s & Hs & Hb).
    unfold fsum. change (Fin q :: map Fin qs) with (map Fin l). rewrite Hs.
    assert (Hl : 0 < qlen l) by (apply qlen_pos; done).
    unfold of_nat, fdiv. rewrite length_map. fold (qlen l).
    destruct (Qeq_bool (qlen l) 0) eqn:E; [apply Qeq_bool_iff in E; lra|].
    apply pct_fin. split.
    + apply Qle_shift_div_l; lra.
    + apply Qle_shift_div_r; lra.
Qed.

Lemma pct_half_sum a b : pct a = true -> pct b = true -> pct (fdiv (fadd a b) (Fin 2)) = true.
Proof.
  intros [->|(p & -> & Hp)]%pct_cases [->|(q & -> & Hq)]%pct_cases; try done.
  cbn [fadd fdiv]. replace (Qeq_bool 2 0) with false by done. apply pct_fin.
  split; [apply Qle_shift_div_l|apply Qle_shift_div_r]; lra.
Qed.

Lemma Forall_pct_lookup ys i : Forall (fun x => pct x = true) ys -> pct (default NaN (ys !! i)) = true.
Proof. intros Hf. destruct (ys !! i) eqn:E; [|done]. cbn. exact (Forall_lookup_1 _ _ _ _ Hf E). Qed.

Lemma Forall_pct_dropna xs : Forall (fun x => pct x = true) xs -> Forall (fun x => pct x = true) (dropna xs).
Proof. intros Hf. apply Forall_forall. intros x Hx. apply (proj1 (Forall_forall _ _) Hf). unfold dropna in Hx. apply list_elem_of_filter in Hx. tauto. Qed.

Lemma np_median_pct xs : Forall (fun x => pct x = true) xs -> pct (np_median xs) = true.
Proof.
  intros Hf. unfold np_median. destruct (existsb is_nan xs); [done|]. unfold s_median.
  pose proof (Forall_pct_dropna xs Hf) as Hd.
  assert (Hs : Forall (fun x => pct x = true) (merge_sort fkey_le (dropna xs))).
  { by rewrite (merge_sort_Permutation fkey_le (dropna xs)). }
  destruct (bool_decide _); [done|]. destruct (Nat.odd _).
  - by apply Forall_pct_lookup.
  - apply pct_half_sum; by apply Forall_pct_lookup.
Qed.

(** A fold whose step returns one of its arguments stays among them. *)
Lemma foldl_choose {A} (P : A -> Prop) (f : A -> A -> A) (Hf : forall m x, f m x = m \/ f m x = x) ys :
  forall y, P y -> Forall P ys -> P (foldl f y ys).
Proof.
  induction ys as [|x ys IH]; intros y Hy Hys; [done|]. apply Forall_cons in Hys as [Hx Hys].
  cbn [foldl]. apply IH; [|done]. by destruct (Hf y x) as [->| ->].
Qed.

Lemma np_max_pct xs m : Forall (fun x => pct x = true) xs -> np_max xs = Some m -> pct m = true.
Proof.
  intros Hf. unfold np_max. destruct xs as [|x xs]; [done|]. intros [= <-].
  destruct (_ || _); [done|]. unfold s_max.
  pose proof (Forall_pct_dropna _ Hf) as Hd. destruct (dropna _) as [|y ys]; [done|].
  apply Forall_cons in Hd as [Hy Hys]. apply (foldl_choose (fun x => pct x = true)); [|done..].
  intros a b. unfold fmax_step. destruct (flt a b); auto.
Qed.

Lemma np_min_pct xs m : Forall (fun x => pct x = true) xs -> np_min xs = Some m -> pct m = true.
Proof.
  intros Hf. unfold np_min. destruct xs as [|x xs]; [done|]. intros [= <-].
  destruct (_ || _); [done|]. unfold s_min.
  pose proof (Forall_pct_dropna _ Hf) as Hd. destruct (dropna _) as [|y ys]; [done|].
  apply Forall_cons in Hd as [Hy Hys]. apply (foldl_choose (fun x => pct x = true)); [|done..].
  intros a b. unfold fmin_step. destruct (flt b a); auto.
Qed.

Module EnhancedProps.
Import Enhanced.

(** C34: Every accuracy [evaluate_model_accuracy] of
    [trial5_enhanced_optimization.py] reports, the mean, median, minimum
    and maximum, is [NaN] or a percentage in [0, 100]: the per-run
    accuracies are clipped to [0, 1] before they are scaled. *)
Theorem evaluate_accuracy_bounded a p acc : evaluate_model_accuracy a p = inr acc ->
  Forall (fun x => pct x = true) [mean_accuracy acc; median_accuracy acc; min_accuracy acc; max_accuracy acc].
Proof.
  unfold evaluate_model_accuracy. pose proof (accuracies_pct a p) as Hf.
  destruct (np_min _) as [mn|] eqn:Emn; [|done]. destruct (np_max _) as [mx|] eqn:Emx; [|done].
  cbn [raise_none mbind exc_bind].
  destruct (finite_values a), (finite_values p); cbn [raise_none mbind exc_bind]; try done.
  intros [= <-]. cbn. repeat constructor.
  - by apply np_mean_pct.
  - by apply np_median_pct.
  - exact (np_min_pct _ _ Hf Emn).
  - exact (np_max_pct _ _ Hf Emx).
Qed.

(** C35: In [trial5_enhanced_optimization.py], when the mean accuracy of
    the first phase-2 model ([current]) is [NaN], as when a run's phase-2
    time is 0 and the model predicts it exactly, [max] by mean accuracy
    keeps that model whatever the others score. *)
Theorem phase2_nan_keeps_current solve rows m1 b :
  try_model solve [totalFiles; totalSizeMB] rows phase2HashProcessingMs = inr m1 ->
  mean_accuracy m1.2 = NaN -> test_phase2_models solve rows = inr b -> b = (Current, m1).
Proof.
  intros H1 Hn. unfold test_phase2_models. rewrite H1. cbn [mbind exc_bind].
  repeat match goal with |- (?x ≫= _) = _ -> _ => destruct x; cbn [mbind exc_bind]; [intros [=]|] end.
  intros [= <-]. unfold best. by rewrite py_max_by_nan_head.
Qed.

End EnhancedProps.

(** ** Examples *)

Module Trial5Examples.

Definition mk (a b c d e f g h i j k l : Z) : t5_row :=
  T5Row (of_Z a) (of_Z b) (of_Z c) (of_Z d) (of_Z e) (of_Z f) (of_Z g) (of_Z h) (of_Z i) (of_Z j) (of_Z k) (of_Z l).

(** Six runs: test run, files, size, candidates, candidate size, depth,
    directories, name length, the three phase times and the total. *)
Definition t5_sample : list t5_row :=
  [mk 1 100 10 20 5 2 10 12 50 30 40 120;
   mk 2 200 25 35 9 3 18 15 95 61 70 226;
   mk 3 150 12 10 7 4 25 9 80 22 66 168;
   mk 4 400 60 80 20 2 30 20 190 140 150 480;
   mk 5 320 33 50 11 5 27 11 160 77 135 372;
   mk 6 250 40 44 25 3 15 14 120 99 101 320].

(** Three runs with no duplicate candidates: no phase-2 time. *)
Definition t5_flat : list t5_row :=
  [mk 1 100 10 0 0 2 10 12 50 0 40 90;
   mk 2 200 25 0 0 3 18 15 95 0 70 165;
   mk 3 150 12 0 0 4 25 9 80 0 66 146].

Definition t5_dummy_models : Comprehensive.models :=
  let pm := (LinReg 0 [], Comprehensive.Simple, NaN) in Comprehensive.Models pm pm pm.

Lemma comprehensive_selects_full_witness :
  exists ms, Comprehensive.calibrate_multi_factor_models lstsq (read_csv t5_sample) = inr ms /\
    (Comprehensive.phase2 ms).1.2 = Comprehensive.Full /\ (Comprehensive.phase3 ms).1.2 = Comprehensive.Full.
Proof.
  destruct (Comprehensive.calibrate_multi_factor_models lstsq (read_csv t5_sample)) as [e|ms] eqn:E;
    [vm_compute in E; discriminate|].
  exists ms. split; [reflexivity|].
  refine (ComprehensiveProps.comprehensive_selects_full lstsq _ ms _ E). vm_compute. lia.
Defined.

Lemma comprehensive_constant_phase2_raises_witness :
  (2 <= length (read_csv t5_flat))%nat /\
  Forall (fun p => phase2HashProcessingMs p.2 = Fin 0) (read_csv t5_flat) /\
  Comprehensive.calibrate_multi_factor_models lstsq (read_csv t5_flat) <> inr t5_dummy_models.
Proof.
  assert (H2 : (2 <= length (read_csv t5_flat))%nat) by (vm_compute; lia).
  assert (Hc : Forall (fun p => phase2HashProcessingMs p.2 = Fin 0) (read_csv t5_flat)) by (vm_compute; repeat constructor).
  split_and!; [exact H2|exact Hc|exact (ComprehensiveProps.comprehensive_constant_phase2_raises lstsq _ 0 _ H2 Hc)].
Defined.

Definition acc_actual : list pyfloat := [Fin 100; Fin 50; Fin 20].
Definition acc_predicted : list pyfloat := [Fin 90; Fin 120; Fin 25].

Lemma evaluate_accuracy_bounded_witness :
  exists acc, Enhanced.evaluate_model_accuracy acc_actual acc_predicted = inr acc /\
    Forall (fun x => pct x = true)
      [Enhanced.mean_accuracy acc; Enhanced.median_accuracy acc; Enhanced.min_accuracy acc; Enhanced.max_accuracy acc].
Proof.
  destruct (Enhanced.evaluate_model_accuracy acc_actual acc_predicted) as [e|acc] eqn:E; [vm_compute in E; discriminate|].
  exists acc. split; [reflexivity|]. exact (EnhancedProps.evaluate_accuracy_bounded _ _ _ E).
Defined.

Lemma phase2_nan_keeps_current_witness :
  exists m1 b, Enhanced.try_model lstsq [totalFiles; totalSizeMB] t5_flat phase2HashProcessingMs = inr m1 /\
    Enhanced.mean_accuracy m1.2 = NaN /\ Enhanced.test_phase2_models lstsq t5_flat = inr b /\ b = (Enhanced.Current, m1).
Proof.
  destruct (Enhanced.try_model lstsq [totalFiles; totalSizeMB] t5_flat phase2HashProcessingMs) as [e|m1] eqn:E1;
    [vm_compute in E1; discriminate|].
  destruct (Enhanced.test_phase2_models lstsq t5_flat) as [e|b] eqn:E; [vm_compute in E; discriminate|].
  assert (Hn : Enhanced.mean_accuracy m1.2 = NaN) by (revert E1; vm_compute; intros [= <-]; reflexivity).
  exists m1, b. split_and!; [reflexivity|exact Hn|reflexivity|exact (EnhancedProps.phase2_nan_keeps_current lstsq _ _ _ E1 Hn E)].
Defined.

Lemma implementation_constants_reproduce_witness :
  exists res, Comprehensive.main lstsq t5_sample = inr res /\
    exists p q, Comprehensive.predict (Comprehensive.models_of res) (mk 1 100 10 20 5 2 10 12 50 30 40 120) = inr p /\
      Comprehensive.js_estimate (Comprehensive.js (Comprehensive.formula res)) (mk 1 100 10 20 5 2 10 12 50 30 40 120) = Some q /\
      (Qabs (q - p) <= Comprehensive.print_tolerance (mk 1 100 10 20 5 2 10 12 50 30 40 120))%Q.
Proof.
  destruct (Comprehensive.main lstsq t5_sample) as [e|res] eqn:E; [vm_compute in E; discriminate|].
  exists res. split; [reflexivity|].
  apply (ComprehensiveProps.implementation_constants_reproduce lstsq t5_sample res E).
  vm_compute. constructor.
Defined.

End Trial5Examples.
