(* ===== verification/ImprovedParser.v ===== *)
(** * [docs/speed_tests/improved_parser.py]

    The script extracts one CSV row per [FOLDER_ANALYSIS_DATA] blob of a
    console log.  Its pattern (line 15) is a lazy [(.+?)] under [DOTALL]
    that stops before the first newline followed by a non-space or before
    a newline at the end ([(?=\n[^\s]|\n$)]).  Its marker is written
    double-encoded: the four code points [U+00F0 U+0178 U+201D U+00AC] are
    the UTF-8 bytes of [U+1F52C] read as cp1252, and [main] reads the log
    as UTF-8.  Each field is found by [re.search] of [key:\s*([0-9]+)] or
    [key:\s*([0-9.]+)] (ASCII digits) and converted by [int] or [float];
    nothing catches the [ValueError] of a conversion.  [main] writes the
    rows with [csv.DictWriter] when there is at least one. *)

From S2P Require Import Prelude Pattern Stats Regression FolderData JsonData.
From Stdlib Require Import QArith.
Local Open Scope Z_scope.

Module Improved.

(** ** The pattern of line 15 *)

(** ['ðŸ”¬'], the marker as the source writes it. *)
Definition ip_marker : text := [240; 376; 8221; 172].

Definition improved_prefix : text :=
  Eval vm_compute in ip_marker ++ U" FOLDER_ANALYSIS_DATA (Modal Predictors): ".

(** [(?=\n[^\s]|\n$)] at the start of [r]: without [MULTILINE], [$]
    matches at the end and before a final newline. *)
Definition eol_ahead (r : text) : bool :=
  match r with
  | [10] => true
  | 10 :: c :: r' => negb (is_space c) || ((c =? 10) && negb (nonempty r'))
  | _ => false
  end.

(** [.*?] followed by the look-ahead: the shortest run first. *)
Fixpoint lazy_until (r : text) : option (text * text) :=
  if eol_ahead r then Some ([], r)
  else match r with
       | [] => None
       | c :: r' => '(b, rest) ← lazy_until r'; Some (c :: b, rest)
       end.

(** [(.+?)] under [DOTALL]: one character of any kind, then [.*?]. *)
Definition lazy_plus (r : text) : option (text * text) :=
  match r with
  | [] => None
  | c :: r' => '(b, rest) ← lazy_until r'; Some (c :: b, rest)
  end.

Definition match_improved (s : text) : option (text * text) :=
  strip_prefix improved_prefix s ≫= lazy_plus.

(** ** The fields of lines 31-56 *)

(** [[0-9]] and [[0-9.]]: ASCII only, unlike [\d]. *)
Definition ascii_digit (c : Z) : bool := (48 <=? c) && (c <=? 57).
Definition ascii_digit_or_dot (c : Z) : bool := ascii_digit c || (c =? 46).

Inductive kind := KInt | KFloat.

(** [field_patterns] in its order; the kind is the test of line 49. *)
Definition field_patterns : list (text * kind) :=
  [(K_timestamp, KInt); (K_totalFiles, KInt); (K_duplicateCandidateCount, KInt);
   (K_duplicateCandidatePercent, KInt); (K_uniqueFilesSizeMB, KFloat);
   (K_duplicateCandidatesSizeMB, KFloat); (K_totalSizeMB, KFloat);
   (K_totalDirectoryCount, KInt); (K_maxDirectoryDepth, KInt);
   (K_avgDirectoryDepth, KFloat); (K_uniqueFilesTotal, KInt)].

(** One iteration of the loop of lines 45-56: the conversion raises
    [ValueError], a missing field is [0] or [0.0]. *)
Definition extract_field (body : text) (fk : text * kind) : exc + (text * pyval) :=
  match fk.2 with
  | KInt =>
      match re_search_first (match_field ascii_digit fk.1) body with
      | Some ds => z ← raise_none (py_int_checked ds); inr (fk.1, VInt z)
      | None => inr (fk.1, VInt 0)
      end
  | KFloat =>
      match re_search_first (match_field ascii_digit_or_dot fk.1) body with
      | Some ds => f ← raise_none (py_float ds); inr (fk.1, VFloat f)
      | None => inr (fk.1, VFloat (Fin 0%Q))
      end
  end.

Definition extract_data (body : text) : exc + dict :=
  kvs ← mapM (extract_field body) field_patterns; inr (list_to_map kvs).

(** The row of lines 59-72. *)
Definition row_keys : list text :=
  [K_timestamp; K_totalFiles; K_duplicateCandidateCount; K_duplicateCandidatePercent;
   K_uniqueFilesSizeMB; K_duplicateCandidatesSizeMB; K_totalSizeMB; K_totalDirectoryCount;
   K_maxDirectoryDepth; K_uniqueFilesTotal; K_avgDirectoryDepth].

Definition row (test_run : nat) (data : dict) : dict :=
  list_to_map ((K_TestRun_num, VInt (Z.of_nat test_run)) :: map (fun k => (k, default VNone (data !! k))) row_keys).

(** The loop of lines 23-75: [test_run] counts every match, and an
    exception of a conversion ends the script. *)
Fixpoint folder_loop (test_run : nat) (ms : list text) : exc + list dict :=
  match ms with
  | [] => inr []
  | m :: ms' => data ← extract_data m; rest ← folder_loop (S test_run) ms'; inr (row test_run data :: rest)
  end.

Definition extract_complete_folder_data (content : text) : exc + list dict :=
  folder_loop 1 (findall_blobs match_improved content).

(** ** [show_sample_matches] (lines 79-91) *)

(** [content.split('\n')]. *)
Fixpoint split_nl (s : text) : list text :=
  match s with
  | [] => [[]]
  | c :: s' =>
      let ls := split_nl s' in
      if c =? 10 then [] :: ls
      else match ls with l :: ls' => (c :: l) :: ls' | [] => [[c]] end
  end.

Definition sample_marker : text := Eval vm_compute in ip_marker ++ U" FOLDER_ANALYSIS_DATA".

(** The numbers of the lines it prints: each line holding the marker and
    the (at most) three lines after it. *)
Definition show_sample_matches (content : text) : list nat :=
  let lines := split_nl content in
  let n := length lines in
  flat_map (fun i => if contains sample_marker (nth i lines [])
                     then S i :: map (fun j => S (i + j)) (filter (fun j => (i + j < n)%nat) [1; 2; 3]%nat)
                     else [])
           (seq 0 n).

(** ** [main] (lines 93-138) *)

Definition improved_fieldnames : list text := K_TestRun_num :: row_keys.

Inductive outcome :=
| Usage                       (** [sys.exit(1)] of line 96 *)
| NotFound                    (** [sys.exit(1)] of line 101 *)
| Raised (e : exc)            (** an uncaught exception *)
| NoRecords                   (** [if folder_data:] is false: no file *)
| Written (header : list text) (cells : list (list (option pyval))).

(** [argv] is [sys.argv]; [read] is what [open(...).read()] returns for a
    path, [None] when [exists()] is false. *)
Definition main (argv : list text) (read : text -> option text) : outcome :=
  match argv with
  | [_; path] =>
      match read path with
      | None => NotFound
      | Some content =>
          match extract_complete_folder_data content with
          | inl e => Raised e
          | inr [] => NoRecords
          | inr rows =>
              match write_csv rows improved_fieldnames with
              | inl e => Raised e
              | inr (h, cells) => Written h cells
              end
          end
      end
  | _ => Usage
  end.

(** ** The column types of the CSV *)

(** The floats [float()] returns on [[0-9.]+] and the default [0.0]:
    never negative and never [NaN], [inf] beyond the range of binary64. *)
Definition read_float (f : pyfloat) : Prop := f = PInf \/ exists q, f = Fin q /\ (0 <= q)%Q.

(** The Python type of a cell: [int], or a [float] as [float()] reads it. *)
Inductive has_kind : pyval -> kind -> Prop :=
| has_kind_int z : has_kind (VInt z) KInt
| has_kind_float f : read_float f -> has_kind (VFloat f) KFloat.

Definition row_schema : list (text * kind) := (K_TestRun_num, KInt) :: field_patterns.

(** A row has exactly the field names, each with the type of its column. *)
Definition row_typed (d : dict) : Prop :=
  dom d = list_to_set improved_fieldnames /\
  Forall (fun fk => exists v, d !! fk.1 = Some v /\ has_kind v fk.2) row_schema.

(** A field whose capture [int()] or [float()] rejects: an integer of more
    than 4300 digits, or a [[0-9.]+] capture without a digit or with two
    dots. *)
Definition malformed (body : text) (fk : text * kind) : Prop :=
  match fk.2 with
  | KInt => exists ds, re_search_first (match_field ascii_digit fk.1) body = Some ds /\
              (int_max_str_digits < length ds)%nat
  | KFloat => exists ds, re_search_first (match_field ascii_digit_or_dot fk.1) body = Some ds /\
              (Forall (fun c => ascii_digit c = false) ds \/ (2 <= dots ds)%nat)
  end.

End Improved.

(** * Properties *)

Module ImprovedProps.
Import Improved.

(** ** The lazy pattern *)

(** [.*?(?=...)] returns the shortest run before a position where the
    look-ahead holds. *)
Lemma lazy_until_spec r b rest :
  lazy_until r = Some (b, rest) <->
  r = b ++ rest /\ eol_ahead rest = true /\ forall k, (k < length b)%nat -> eol_ahead (drop k r) = false.
Proof.
  revert b rest. induction r as [|c r IH]; intros b rest.
  - cbn. split; [done|]. intros (Hr & Ha & _). by destruct b, rest.
  - cbn [lazy_until]. destruct (eol_ahead (c :: r)) eqn:Ea.
    + split.
      * intros [= <- <-]. split_and!; [done|done|]. cbn. lia.
      * intros (Hr & Ha & Hk). destruct b as [|c' b]; [by rewrite Hr|].
        specialize (Hk 0%nat ltac:(cbn; lia)). rewrite drop_0 in Hk. by rewrite Ea in Hk.
    + case_eq (lazy_until r); [intros [b' rest'] Hl|intros Hl]; cbn.
      * apply IH in Hl as (-> & Ha' & Hk'). split.
        { intros [= <- <-]. split_and!; [done|done|]. intros [|k] Hk; [done|]. cbn in *. apply Hk'. lia. }
        { intros (Hr & Ha & Hk). destruct b as [|c'' b]; [cbn in Hr; subst rest; by rewrite Ea in Ha|].
          injection Hr as <- Hr.
          assert (Hs : lazy_until (b' ++ rest') = Some (b, rest)).
          { apply IH. split_and!; [done|done|]. intros k Hkl. apply (Hk (S k)). cbn. lia. }
          rewrite (proj2 (IH b' rest') (conj eq_refl (conj Ha' Hk'))) in Hs. by injection Hs as -> ->. }
      * split; [done|]. intros (Hr & Ha & Hk). destruct b as [|c'' b]; [cbn in Hr; subst rest; by rewrite Ea in Ha|].
        injection Hr as <- Hr. enough (lazy_until r = Some (b, rest)) by congruence.
        apply IH. split_and!; [done|done|]. intros k Hkl. apply (Hk (S k)). cbn. lia.
Qed.

(** [(.+?)(?=...)]: a run of at least one character, the shortest such. *)
Lemma lazy_plus_spec r b rest :
  lazy_plus r = Some (b, rest) <->
  r = b ++ rest /\ b <> [] /\ eol_ahead rest = true /\
  forall k, (1 <= k < length b)%nat -> eol_ahead (drop k r) = false.
Proof.
  destruct r as [|c r]; cbn [lazy_plus].
  - split; [done|]. intros (Hr & Hb & _). by destruct b.
  - case_eq (lazy_until r); [intros [b' rest'] Hl|intros Hl]; cbn.
    + apply lazy_until_spec in Hl as (-> & Ha & Hk). split.
      * intros [= <- <-]. split_and!; [done|done|done|]. intros [|k] Hk1; [lia|]. apply Hk. cbn in Hk1. lia.
      * intros (Hr & Hb & Ha' & Hk'). destruct b as [|c' b]; [done|]. injection Hr as <- Hr.
        assert (Hs : lazy_until (b' ++ rest') = Some (b, rest)).
        { apply lazy_until_spec. split_and!; [done|done|]. intros k Hkl. apply (Hk' (S k)). cbn. lia. }
        rewrite (proj2 (lazy_until_spec _ b' rest') (conj eq_refl (conj Ha Hk))) in Hs.
        by injection Hs as -> ->.
    + split; [done|]. intros (Hr & Hb & Ha & Hk). destruct b as [|c' b]; [done|]. injection Hr as <- Hr.
      enough (lazy_until r = Some (b, rest)) by congruence.
      apply lazy_until_spec. split_and!; [done|done|]. intros k Hkl. apply (Hk (S k)). cbn. lia.
Qed.

(** C11: The pattern of line 15 matches exactly a text that starts with the
    marker and its label, followed by a non-empty body that ends where the
    look-ahead holds; the body is the shortest such ([+?] is lazy), and
    [DOTALL] lets it span lines. *)
Theorem match_improved_spec s b rest :
  match_improved s = Some (b, rest) <->
  s = improved_prefix ++ b ++ rest /\ b <> [] /\ eol_ahead rest = true /\
  forall k, (1 <= k < length b)%nat -> eol_ahead (drop k (b ++ rest)) = false.
Proof.
  unfold match_improved. destruct (strip_prefix improved_prefix s) as [r|] eqn:E; cbn [mbind option_bind].
  - apply strip_prefix_Some in E as ->. rewrite lazy_plus_spec. split.
    + intros (-> & Hb & Ha & Hk). auto.
    + intros (Hs & Hb & Ha & Hk). apply app_inv_head in Hs as ->. auto.
  - split; [done|]. intros (-> & _). by rewrite strip_prefix_app in E.
Qed.

Lemma match_improved_app s b r : match_improved s = Some (b, r) -> s = improved_prefix ++ b ++ r.
Proof.
  unfold match_improved. destruct (strip_prefix improved_prefix s) as [t|] eqn:E; [|done].
  cbn [mbind option_bind]. intros (-> & _)%lazy_plus_spec. by apply strip_prefix_Some.
Qed.

Lemma match_improved_consumes s b r : match_improved s = Some (b, r) -> exists c pre, s = c :: pre ++ r.
Proof.
  intros ->%match_improved_app. exists 240, (drop 1 improved_prefix ++ b).
  by rewrite <- !app_assoc.
Qed.

Lemma match_improved_head s b r : match_improved s = Some (b, r) -> exists s', s = 240 :: s'.
Proof. intros ->%match_improved_app. by eexists. Qed.

(** ** A log written in UTF-8 *)

(** Without [U+00F0] the pattern finds nothing. *)
Lemma findall_improved_blind s : 240 ∉ s -> findall_blobs match_improved s = [].
Proof.
  unfold findall_blobs. induction s as [|c s IH]; intros Hn.
  - by rewrite finditer_nil.
  - assert (Hm : match_improved (c :: s) = None).
    { destruct (match_improved (c :: s)) as [[b r]|] eqn:E; [|done].
      apply match_improved_head in E as [s' [= -> _]]. set_solver. }
    rewrite (finditer_snd_skip match_improved c s Hm). apply IH. set_solver.
Qed.

Lemma split_nl_elem s l x : l ∈ split_nl s -> x ∈ l -> x ∈ s.
Proof.
  revert l. induction s as [|c s IH]; intros l; cbn [split_nl].
  - intros ->%list_elem_of_singleton. set_solver.
  - destruct (c =? 10).
    + intros [->|Hl]%elem_of_cons Hx; [set_solver|]. apply elem_of_cons. eauto.
    + destruct (split_nl s) as [|l0 ls] eqn:E.
      * intros Hl%list_elem_of_singleton. subst l. set_solver.
      * intros [->|Hl]%elem_of_cons Hx; apply elem_of_cons.
        -- apply elem_of_cons in Hx as [->|Hx]; [by left|right]. apply (IH l0); [by left|done].
        -- right. apply (IH l); [by right|done].
Qed.

Lemma flat_map_nil {A B} (f : A -> list B) l : (forall x, x ∈ l -> f x = []) -> flat_map f l = [].
Proof. induction l as [|x l IH]; intros Hf; cbn; [done|]. rewrite Hf by left. apply IH. set_solver. Qed.

Lemma show_sample_blind s : 240 ∉ s -> show_sample_matches s = [].
Proof.
  intros Hn. unfold show_sample_matches. apply flat_map_nil. intros i _.
  destruct (contains sample_marker _) eqn:E; [|done]. exfalso.
  apply contains_spec in E as (a & b & Hab).
  assert (H240 : 240 ∈ nth i (split_nl s) []) by (rewrite Hab; set_solver).
  destruct (nth_in_or_default i (split_nl s) []) as [Hin|Hd].
  - apply Hn, (split_nl_elem s _ _ (proj2 (list_elem_of_In _ _) Hin) H240).
  - rewrite Hd in H240. set_solver.
Qed.

(** ** The rows *)

#[local] Hint Constructors has_kind : core.

Lemma extract_field_typed body fk kv : extract_field body fk = inr kv -> kv.1 = fk.1 /\ has_kind kv.2 fk.2.
Proof.
  destruct fk as [k []]; cbn; destruct (re_search_first _ body) as [ds|];
    [destruct (py_int_checked ds)|idtac|destruct (py_float ds) eqn:Ef|idtac]; cbn;
    try done.
  all: intros [= <-]; split; [done|]; cbn; constructor.
  - exact (py_float_nonneg ds _ Ef).
  - right. by exists 0%Q.
Qed.

Lemma Forall2_fst {A B C} (P : A -> B * C -> Prop) (f : A -> B) l kvs :
  Forall2 (fun x y => P x y /\ y.1 = f x) l kvs -> kvs.*1 = f <$> l.
Proof. induction 1 as [|x y l kvs [_ Hy] _ IH]; cbn; [done|]. by rewrite Hy, IH. Qed.

Lemma extract_data_typed body data : extract_data body = inr data ->
  Forall (fun fk => exists v, data !! fk.1 = Some v /\ has_kind v fk.2) field_patterns.
Proof.
  unfold extract_data. destruct (mapM (extract_field body) field_patterns) as [e|kvs] eqn:Hm; [done|].
  cbn. intros [= <-]. apply mapM_exc_inr in Hm.
  assert (HF : Forall2 (fun fk kv => has_kind kv.2 fk.2 /\ kv.1 = fk.1) field_patterns kvs).
  { eapply Forall2_impl; [exact Hm|]. intros fk kv ?%extract_field_typed. naive_solver. }
  assert (Hnd : NoDup kvs.*1) by (rewrite (Forall2_fst _ fst _ _ HF); decide_vm).
  apply Forall_lookup. intros i fk Hi. destruct (Forall2_lookup_l _ _ _ _ _ HF Hi) as ([k v] & Hkv & Ht & Hk).
  cbn in Ht, Hk. subst k. exists v. split; [|done].
  apply elem_of_list_to_map_1; [done|]. by eapply list_elem_of_lookup_2.
Qed.

Lemma field_patterns_keys : Forall (fun fk => fk.1 ∈ row_keys) field_patterns.
Proof. decide_vm. Qed.

Lemma improved_fieldnames_NoDup : NoDup improved_fieldnames.
Proof. decide_vm. Qed.

Lemma row_typed_row n data :
  Forall (fun fk => exists v, data !! fk.1 = Some v /\ has_kind v fk.2) field_patterns -> row_typed (row n data).
Proof.
  intros Hd. split.
  - unfold row. rewrite dom_list_to_map_L. reflexivity.
  - constructor.
    + eexists. split; [unfold row; cbn [list_to_map foldr]; by rewrite lookup_insert_eq|constructor].
    + apply Forall_forall. intros [k t] Hin.
      destruct (proj1 (Forall_forall _ _) Hd _ Hin) as (v & Hv & Ht). exists v. split; [|done].
      apply elem_of_list_to_map_1; [exact improved_fieldnames_NoDup|]. apply elem_of_cons. right.
      apply list_elem_of_fmap. exists k. cbn in Hv |- *. rewrite Hv. split; [done|].
      exact (proj1 (Forall_forall _ _) field_patterns_keys _ Hin).
Qed.

Lemma row_run n data : row n data !! K_TestRun_num = Some (VInt (Z.of_nat n)).
Proof. unfold row. cbn [list_to_map foldr]. by rewrite lookup_insert_eq. Qed.

Lemma mapM_exc_inl {A B} (f : A -> exc + B) l e :
  mapM f l = inl e -> exists x, x ∈ l /\ f x = inl e.
Proof.
  induction l as [|x l IH]; cbn [mapM]; [done|]. cbn [mbind exc_bind].
  destruct (f x) as [e'|y] eqn:Hx; [intros [= <-]; exists x; split; [left|]; done|].
  destruct (mapM f l) as [e'|ys] eqn:Hl; cbn [mret exc_ret]; [|done].
  intros [= <-]. destruct (IH eq_refl) as (x' & Hin & Hx'). exists x'. split; [by right|done].
Qed.

(** Every row of the loop is typed and numbered from [n]. *)
Lemma folder_loop_inr n ms rows : folder_loop n ms = inr rows ->
  length rows = length ms /\ Forall row_typed rows /\
  map (fun d => d !! K_TestRun_num) rows = map (fun i => Some (VInt (Z.of_nat i))) (seq n (length rows)).
Proof.
  revert n rows. induction ms as [|m ms IH]; intros n rows; cbn [folder_loop].
  - intros [= <-]. done.
  - cbn [mbind exc_bind]. destruct (extract_data m) as [e|data] eqn:Hd; [done|].
    destruct (folder_loop (S n) ms) as [e|rest] eqn:Hl; [done|]. intros [= <-].
    destruct (IH _ _ Hl) as (Hlen & Ht & Hn). cbn [length map seq]. rewrite Hn, row_run, Hlen.
    split_and!; [done| |done]. constructor; [|done]. by apply row_typed_row, (extract_data_typed m).
Qed.

(** C12: Every row [extract_complete_folder_data] returns has exactly the
    twelve field names, [TestRun#] and the integer fields holding an [int]
    and the four size and depth fields a [float] as [float()] reads it:
    never negative and never [NaN], [inf] when the digits exceed the range
    of binary64. *)
Theorem improved_rows_typed content rows :
  extract_complete_folder_data content = inr rows -> Forall row_typed rows.
Proof. intros H. apply (folder_loop_inr _ _ _ H). Qed.

(** C13: When the log yields records, [main] writes the header and one line
    per record, every cell filled (no [restval]), the first cell of the
    lines numbering them 1, 2, ...; [DictWriter] never raises. *)
Theorem improved_main_writes prog path read content rows :
  read path = Some content -> extract_complete_folder_data content = inr rows -> rows <> [] ->
  exists cells, main [prog; path] read = Written improved_fieldnames cells /\
    map (fun cs => head cs) cells = map (fun i => Some (Some (VInt (Z.of_nat i)))) (seq 1 (length rows)) /\
    Forall (fun cs => length cs = length improved_fieldnames /\ Forall is_Some cs) cells.
Proof.
  intros Hr He Hne. destruct (folder_loop_inr _ _ _ He) as (_ & Ht & Hn).
  assert (Hdom : Forall (fun d => dom d ⊆ list_to_set improved_fieldnames) rows).
  { eapply Forall_impl; [exact Ht|]. intros d [-> _]. done. }
  exists (map (fun d => map (fun f => d !! f) improved_fieldnames) rows).
  unfold main. rewrite Hr, He, (write_csv_ok _ _ Hdom). destruct rows as [|r rows']; [done|].
  split_and!; [done| |].
  - transitivity (map Some (map (fun d => d !! K_TestRun_num) (r :: rows'))); [rewrite !map_map; by apply map_ext|].
    rewrite Hn. by rewrite map_map.
  - apply Forall_map. eapply Forall_impl; [exact Ht|]. intros d [Hd _]. split; [by rewrite length_map|].
    apply Forall_map, Forall_forall. intros f Hf. apply elem_of_dom. rewrite Hd. set_solver.
Qed.

(** ** When the script raises *)

Lemma match_field_chars cls key s ds : match_field cls key s = Some ds -> Forall (fun c => cls c = true) ds.
Proof.
  unfold match_field. destruct (strip_prefix _ s) as [r|]; [|done].
  destruct (span cls (span is_space r).2) as [a b] eqn:E. cbn. destruct (nonempty a); [|done].
  intros [= <-]. by apply span_inv in E as (_ & ? & _).
Qed.

Lemma capture_chars cls key body ds :
  re_search_first (match_field cls key) body = Some ds -> Forall (fun c => cls c = true) ds.
Proof.
  induction body as [|c body IH]; cbn [re_search_first];
    destruct (match_field cls key _) eqn:E; try (intros [= <-]; by eapply match_field_chars).
  all: done.
Qed.

Lemma ascii_is_digit c : ascii_digit_or_dot c = true -> is_digit_or_dot c = true /\ is_digit c = ascii_digit c.
Proof.
  unfold ascii_digit_or_dot. intros [H|H]%orb_true_iff.
  - unfold ascii_digit in H. apply andb_true_iff in H as [H1 H2]. apply Z.leb_le in H1. apply Z.leb_le in H2.
    assert (c = 48 \/ c = 49 \/ c = 50 \/ c = 51 \/ c = 52 \/ c = 53 \/ c = 54 \/ c = 55 \/ c = 56 \/ c = 57)
      as Hc by lia.
    destruct_or! Hc; subst; split; vm_compute; reflexivity.
  - apply Z.eqb_eq in H as ->. split; vm_compute; reflexivity.
Qed.

(** [float()] of a [[0-9.]+] capture raises exactly when it has no digit
    or two dots. *)
Lemma py_float_ascii ds : Forall (fun c => ascii_digit_or_dot c = true) ds ->
  py_float ds = None <-> Forall (fun c => ascii_digit c = false) ds \/ (2 <= dots ds)%nat.
Proof.
  intros H. rewrite (py_float_error ds).
  - assert (Forall (fun c => is_digit c = false) ds <-> Forall (fun c => ascii_digit c = false) ds) as ->; [|done].
    rewrite Forall_forall in H. rewrite !Forall_forall.
    split; intros Hf c Hc; specialize (Hf c Hc); destruct (ascii_is_digit c (H c Hc)) as [_ E]; congruence.
  - eapply Forall_impl; [exact H|]. intros c Hc. apply (ascii_is_digit c Hc).
Qed.

Lemma extract_field_inl body fk e : extract_field body fk = inl e <-> e = ValueError /\ malformed body fk.
Proof.
  destruct fk as [k []]; unfold malformed; cbn.
  - destruct (re_search_first _ body) as [ds|] eqn:Es.
    + unfold py_int_checked. case_bool_decide; cbn.
      * split; [intros [= <-]; split; [done|]; by exists ds|]. by intros [-> _].
      * split; [done|]. intros [_ (ds' & Es' & Hl)]. assert (ds' = ds) as -> by (cbn in Es'; congruence). lia.
    + split; [done|]. intros [_ (ds' & Es' & _)]. congruence.
  - destruct (re_search_first _ body) as [ds|] eqn:Es.
    + pose proof (py_float_ascii ds (capture_chars _ _ _ _ Es)) as Hf.
      destruct (py_float ds) eqn:Ef; cbn.
      * split; [done|]. intros [_ (ds' & Es' & Hm)]. assert (ds' = ds) as -> by (cbn in Es'; congruence).
        apply Hf in Hm. done.
      * split; [intros [= <-]; split; [done|]; exists ds; split; [done|]; by apply Hf|]. by intros [-> _].
    + split; [done|]. intros [_ (ds' & Es' & _)]. congruence.
Qed.

Lemma extract_data_inl m e : extract_data m = inl e <-> e = ValueError /\ Exists (malformed m) field_patterns.
Proof.
  unfold extract_data. destruct (mapM (extract_field m) field_patterns) as [e'|kvs] eqn:Hm; cbn.
  - destruct (mapM_exc_inl _ _ _ Hm) as (fk & Hin & Hfk).
    pose proof (proj1 (extract_field_inl _ _ _) Hfk) as [-> Hmal].
    split; [intros [= <-]; split; [done|]; apply Exists_exists; by exists fk|]. by intros [-> _].
  - split; [done|]. intros [_ (fk & Hin & Hmal)%Exists_exists].
    apply mapM_exc_inr in Hm. apply list_elem_of_lookup in Hin as [i Hi].
    destruct (Forall2_lookup_l _ _ _ _ _ Hm Hi) as (kv & _ & Hkv).
    assert (extract_field m fk = inl ValueError) as Hv by (by apply extract_field_inl). congruence.
Qed.

(** The loop raises exactly when a record has a malformed field, and then
    [ValueError]. *)
Lemma folder_loop_inl_iff n ms e :
  folder_loop n ms = inl e <-> e = ValueError /\ Exists (fun m => Exists (malformed m) field_patterns) ms.
Proof.
  revert n e. induction ms as [|m ms IH]; intros n e; cbn [folder_loop].
  - split; [done|]. intros [_ H]. inversion H.
  - cbn [mbind exc_bind]. destruct (extract_data m) as [e'|data] eqn:Hd.
    + pose proof (proj1 (extract_data_inl _ _) Hd) as [-> Hmal].
      split; [intros [= <-]; split; [done|]; by left|]. by intros [-> _].
    + destruct (folder_loop (S n) ms) as [e''|rest] eqn:Hl.
      * pose proof (proj1 (IH _ _) Hl) as [-> Hex].
        split; [intros [= <-]; split; [done|]; by right|]. by intros [-> _].
      * split; [done|]. intros [-> Hex]. inversion Hex as [? ? Hh|? ? Ht]; subst.
        -- assert (extract_data m = inl ValueError) by (by apply extract_data_inl). congruence.
        -- assert (folder_loop (S n) ms = inl ValueError) by (apply IH; by split). congruence.
Qed.

(** C14: Given the log, [main] raises exactly when a record the pattern
    finds has a field that [int()] or [float()] rejects (an integer of
    more than 4300 digits, or a size without a digit or with two dots),
    and then [ValueError]: one malformed number ends the script, and
    writing the CSV never raises. *)
Theorem improved_main_raises prog path read content e :
  read path = Some content ->
  main [prog; path] read = Raised e <->
  e = ValueError /\ Exists (fun m => Exists (malformed m) field_patterns) (findall_blobs match_improved content).
Proof.
  intros Hr. rewrite <- (folder_loop_inl_iff 1). unfold main. rewrite Hr. unfold extract_complete_folder_data.
  destruct (folder_loop 1 _) as [e'|rows] eqn:He; [split; congruence|].
  split; [|done]. destruct rows as [|r rows']; [done|].
  destruct (folder_loop_inr _ _ _ He) as (_ & Ht & _).
  rewrite write_csv_ok; [done|]. eapply Forall_impl; [exact Ht|]. intros d [-> _]. done.
Qed.

(** C10: The marker of the pattern and of [show_sample_matches] is
    mis-encoded: on a log without [U+00F0], which a UTF-8 log of the
    application writes as its own [U+1F52C], the script prints no sample,
    finds no record and writes no file. *)
Theorem improved_parser_blind prog path read content :
  read path = Some content -> 240 ∉ content ->
  show_sample_matches content = [] /\ main [prog; path] read = NoRecords.
Proof.
  intros Hr Hn. split; [by apply show_sample_blind|].
  unfold main, extract_complete_folder_data. by rewrite Hr, findall_improved_blind.
Qed.

End ImprovedProps.

Module ImprovedExamples.
Import Improved ImprovedProps.

(** A line as the application writes it, with [U+1F52C]; the v2 parser
    reads it. *)
Definition ex_utf8 : text :=
  Eval vm_compute in 128300 :: U" FOLDER_ANALYSIS_DATA (Modal Predictors): {timestamp: 17, totalFiles: 24}"
    ++ [10] ++ U"next".

(** The same line mis-decoded as cp1252, which the pattern matches. *)
Definition ex_moji : text :=
  Eval vm_compute in improved_prefix ++ U"{timestamp: 17, totalFiles: 24, totalSizeMB: 2.5}" ++ [10] ++ U"next".

Definition ex_bad : text := Eval vm_compute in improved_prefix ++ U"totalSizeMB: 1.2.3" ++ [10] ++ U"x".

(** The pattern matches [ex_moji] once and its fields convert. *)
Lemma ex_moji_one_row : match extract_complete_folder_data ex_moji with inr [_] => True | _ => False end.
Proof. vm_compute. exact I. Qed.

Lemma improved_rows_typed_witness :
  exists rows, extract_complete_folder_data ex_moji = inr rows /\ Forall row_typed rows.
Proof.
  pose proof ex_moji_one_row as H1. destruct (extract_complete_folder_data ex_moji) as [e|rows] eqn:E; [done|].
  exists rows. split; [done|]. exact (improved_rows_typed ex_moji rows E).
Defined.

Lemma improved_main_writes_witness :
  exists rows cells, extract_complete_folder_data ex_moji = inr rows /\
    main [U"p"; U"log.md"] (fun _ => Some ex_moji) = Written improved_fieldnames cells /\
    map (fun cs => head cs) cells = map (fun i => Some (Some (VInt (Z.of_nat i)))) (seq 1 (length rows)) /\
    Forall (fun cs => length cs = length improved_fieldnames /\ Forall is_Some cs) cells.
Proof.
  pose proof ex_moji_one_row as H1. destruct (extract_complete_folder_data ex_moji) as [e|rows] eqn:E; [done|].
  assert (Hne : rows <> []) by (destruct rows; done).
  destruct (improved_main_writes U"p" U"log.md" (fun _ => Some ex_moji) ex_moji rows eq_refl E Hne) as [cells Hc].
  by exists rows, cells.
Defined.

Lemma improved_main_raises_witness :
  (fun _ : text => Some ex_bad) (U"log.md") = Some ex_bad /\
  main [U"p"; U"log.md"] (fun _ => Some ex_bad) = Raised ValueError.
Proof.
  split; [reflexivity|]. apply (improved_main_raises U"p" U"log.md" (fun _ => Some ex_bad) ex_bad ValueError eq_refl).
  split; [reflexivity|]. apply Exists_exists. eexists. split; [apply list_elem_of_In; vm_compute; left; reflexivity|].
  apply Exists_exists. exists (K_totalSizeMB, KFloat). split; [apply list_elem_of_In; do 6 right; left; reflexivity|].
  cbn [malformed fst snd]. eexists. split; [reflexivity|]. right. vm_compute. lia.
Defined.

Lemma improved_parser_blind_witness :
  length (folder_data (V2.parse_folder_analysis_data ex_utf8)) = 1%nat /\
  show_sample_matches ex_utf8 = [] /\ main [U"p"; U"log.md"] (fun _ => Some ex_utf8) = NoRecords.
Proof.
  split; [vm_compute; reflexivity|].
  apply (improved_parser_blind U"p" U"log.md" (fun _ => Some ex_utf8) ex_utf8 eq_refl). decide_vm.
Defined.

End ImprovedExamples.
