(* ===== verification/PerfGraph.v ===== *)
(** * [docs/test_results/generate_performance_graph.py]

    A module-level script: it takes the columns of its table [test_data],
    fits a trend line to three of them with [np.polyfit(..., 1)], draws a
    stacked bar of worker and UI times, and saves the figure.  It then
    prints statistics that read [ww_rates], [mt_rates],
    [mt_files_no_outlier] and [mt_times_no_outlier], names that no line of
    the script assigns.  The model runs the statements in order over the
    set of bound global names; a name read when not bound raises
    [NameError], as Python's name lookup does.  The figure is modelled by
    what the script computes for it: the trend slopes of the labels and the
    tops of the stacked bars.  [np.polyfit] of degree 1 is a least-squares
    solver of the interface [LeastSquares] on the design [[1, x]]; its
    coefficients are [[slope, intercept]]. *)

From S2P Require Import Prelude Stats Regression.
From Stdlib Require Import QArith.
Local Open Scope Z_scope.

Module PerfGraph.

(** ** The table of lines 11-19 *)

Record perf_row := PerfRow {
  files_after_dedup : Z;
  web_worker_time_ms : Z;
  ui_update_time_ms : Z;
  total_time_ms : Z
}.

Definition test_data : list perf_row :=
  [PerfRow 3305 2347 13121 15468; PerfRow 2695 11238 10426 21664; PerfRow 707 179 3403 3582;
   PerfRow 483 76 2588 2664; PerfRow 95 38 0 38; PerfRow 24 32 1 33].

(** ** The columns of lines 22-25 and the filter of lines 57-58 *)

Definition files (data : list perf_row) : list Z := map files_after_dedup data.
Definition worker_times (data : list perf_row) : list Z := map web_worker_time_ms data.
Definition ui_times (data : list perf_row) : list Z := map ui_update_time_ms data.
Definition total_times (data : list perf_row) : list Z := map total_time_ms data.

(** [[f for f, ui in zip(files, ui_times) if ui > 0]] *)
Definition ui_files_nonzero (data : list perf_row) : list Z :=
  map fst (filter (fun p => 0 < p.2) (zip (files data) (ui_times data))).

(** [[ui for ui in ui_times if ui > 0]] *)
Definition ui_times_nonzero (data : list perf_row) : list Z := filter (fun ui => 0 < ui) (ui_times data).

(** ** [np.polyfit(xs, ys, 1)] *)

Section Polyfit.
Context (solve : nat -> nat -> (nat -> vec) -> vec -> nat -> Q).

Definition qs (zs : list Z) : list Q := map inject_Z zs.

(** [[slope, intercept]]. *)
Definition polyfit1 (xs ys : list Z) : Q * Q :=
  let a := solve (length xs) 2 (design1 (qs xs)) (col (qs ys)) in (a 1%nat, a 0%nat).

(** ** The script *)

(** What the script produces before it stops: the label of a trend line
    (panel, slope), the tops of the stacked bars, the saved figure, a
    printed line. *)
Inductive output :=
| TrendLabel (panel : nat) (slope : Q)
| BarTops (tops : list Z)
| SavedFigure
| PrintLine (n : nat).    (** the line of the source that prints *)

Record script_state := ScriptState { bound : list text; outputs : list output }.

Definition bind_names (ns : list text) (st : script_state) : script_state :=
  ScriptState (ns ++ bound st) (outputs st).

Definition emit (o : output) (st : script_state) : script_state :=
  ScriptState (bound st) (outputs st ++ [o]).

(** Reading a global name: [NameError] when no statement bound it. *)
Definition read_name (n : text) (st : script_state) : exc + unit :=
  if bool_decide (n ∈ bound st) then inr tt else inl NameError.

(** The imports and lines 11-28. *)
Definition prelude_names : list text :=
  [U"plt"; U"np"; U"Path"; U"test_data"; U"files"; U"worker_times"; U"ui_times"; U"total_times";
   U"fig"; U"ax1"; U"ax2"; U"ax3"; U"ax4"].

(** A trend block ([if len(xs) > 1:]): the fit, the trend and the range
    are bound and the label shows the slope. *)
Definition trend_block (panel : nat) (fit trend : text) (xs ys : list Z) (st : script_state) : script_state :=
  if bool_decide (1 < length xs)%nat
  then emit (TrendLabel panel (polyfit1 xs ys).1) (bind_names [fit; trend; U"x_range"] st)
  else st.

(** Lines 11-105: everything up to the saved figure. *)
Definition draw (data : list perf_row) : script_state :=
  let st0 := ScriptState prelude_names [] in
  let st1 := trend_block 1 U"worker_fit" U"worker_trend" (files data) (worker_times data) st0 in
  let st2 := bind_names [U"ui_files_nonzero"; U"ui_times_nonzero"] st1 in
  let st3 := trend_block 2 U"ui_fit" U"ui_trend" (ui_files_nonzero data) (ui_times_nonzero data) st2 in
  let st4 := trend_block 3 U"total_fit" U"total_trend" (files data) (total_times data) st3 in
  let st5 := emit (BarTops (zip_with Z.add (worker_times data) (ui_times data)))
                  (bind_names [U"bar_width"; U"indices"] st4) in
  emit (PrintLine 105) (emit SavedFigure (bind_names [U"output_path"] st5)).

(** Lines 108-110: the header, then the f-string of line 109 reads
    [ww_rates].  The lines after it (the main-thread statistics and
    [plt.show()]) are reached only when that read returns, and they read
    names whose values the script never computes; the model stops at the
    first read that raises. *)
Definition statistics (st : script_state) : script_state * (exc + unit) :=
  let st := emit (PrintLine 108) st in
  match read_name U"ww_rates" st with
  | inl e => (st, inl e)
  | inr _ => let st := emit (PrintLine 109) st in (st, read_name U"mt_rates" st)
  end.

Definition script (data : list perf_row) : list output * (exc + unit) :=
  let '(st, r) := statistics (draw data) in (outputs st, r).

End Polyfit.

End PerfGraph.

(** * Properties *)

Module PerfGraphProps.
Import PerfGraph.

(** ** Name binding *)

(** Every name the script binds before line 108. *)
Definition script_names : list text :=
  prelude_names ++
  [U"worker_fit"; U"worker_trend"; U"x_range"; U"ui_files_nonzero"; U"ui_times_nonzero"; U"ui_fit";
   U"ui_trend"; U"total_fit"; U"total_trend"; U"bar_width"; U"indices"; U"output_path"].

Lemma bind_names_bound ns st : ns ⊆ script_names -> bound st ⊆ script_names ->
  bound (bind_names ns st) ⊆ script_names.
Proof. intros Hn Hs. cbn. by apply list_subseteq_app_iff_l. Qed.

Section Names.
Context (solve : nat -> nat -> (nat -> vec) -> vec -> nat -> Q).

Lemma trend_block_bound p f t xs ys st :
  [f; t; U"x_range"] ⊆ script_names -> bound st ⊆ script_names ->
  bound (trend_block solve p f t xs ys st) ⊆ script_names.
Proof. intros Hn Hs. unfold trend_block. case_bool_decide; [|done]. by apply bind_names_bound. Qed.

Lemma trend_block_outputs p f t xs ys st : exists o, outputs (trend_block solve p f t xs ys st) = outputs st ++ o.
Proof. unfold trend_block. case_bool_decide; cbn; [by eexists|exists []; by rewrite app_nil_r]. Qed.

Lemma draw_bound data : bound (draw solve data) ⊆ script_names.
Proof.
  unfold draw. cbn [bound emit].
  repeat first [ apply bind_names_bound | apply trend_block_bound | decide_vm ].
Qed.

Lemma draw_outputs data : exists pre, outputs (draw solve data) = pre ++ [SavedFigure; PrintLine 105].
Proof.
  unfold draw. cbn [outputs emit bind_names]. eexists. by rewrite <- app_assoc.
Qed.

(** C23: Whatever its table, the script saves the figure, prints its two
    lines, and then raises [NameError] on [ww_rates] at line 109: no
    statistic, no prediction formula, no window. *)
Theorem perf_graph_name_error data :
  exists pre, script solve data = (pre ++ [SavedFigure; PrintLine 105; PrintLine 108], inl NameError).
Proof.
  destruct (draw_outputs data) as [pre Hpre]. exists pre.
  assert (Hr : read_name U"ww_rates" (emit (PrintLine 108) (draw solve data)) = inl NameError).
  { unfold read_name. rewrite bool_decide_false; [done|]. intros Hin%(draw_bound data). revert Hin. decide_vm. }
  unfold script, statistics. rewrite Hr. unfold emit at 1. cbn [outputs]. by rewrite Hpre, <- app_assoc.
Qed.

End Names.

(** ** The trend of the UI panel *)

(** The two comprehensions of lines 57-58 keep the same positions. *)
Lemma zip_filter_fst {A} (P : A -> Prop) `{!forall a, Decision (P a)} (xs : list Z) (ys : list A) :
  length xs = length ys ->
  zip (map fst (filter (fun p => P p.2) (zip xs ys))) (filter P ys) = filter (fun p => P p.2) (zip xs ys).
Proof.
  revert ys. induction xs as [|x xs IH]; intros [|y ys] Hl; cbn in Hl; try lia; [done|].
  cbn [zip]. rewrite !filter_cons. cbn [snd]. case_decide; cbn; [|by apply IH; lia].
  f_equal. apply IH. lia.
Qed.

(** The sum of squared residuals of [Regression.v] on the design [[1, x]]
    is [sse] of [Stats.v]. *)
Lemma rss_design1 xs ys a : length xs = length ys ->
  rss (length xs) 2 (design1 xs) (col ys) a == sse (a 0%nat) (a 1%nat) xs ys.
Proof.
  intros Hl. unfold sse. rewrite qsum_zip_sumq by done. unfold rss, dot.
  apply sumq_ext. intros i Hi. unfold lincomb. cbn [sumq]. rewrite design1_entry by done.
  unfold design1, design, col. ring.
Qed.

Lemma zip_filter_length {A} (P : A -> Prop) `{!forall a, Decision (P a)} (xs : list Z) (ys : list A) :
  length xs = length ys -> length (map fst (filter (fun p => P p.2) (zip xs ys))) = length (filter P ys).
Proof.
  rewrite length_map. revert ys. induction xs as [|x xs IH]; intros [|y ys] Hl; cbn in Hl; try lia; [done|].
  cbn [zip]. rewrite !filter_cons. cbn [snd]. case_decide; cbn; rewrite IH; lia.
Qed.

Section UiTrend.
Context (solve : nat -> nat -> (nat -> vec) -> vec -> nat -> Q) `{!LeastSquares solve}.

(** C24: The UI trend of lines 57-60 is fitted on exactly the pairs
    [(files, ui)] whose UI time is positive, and no line fits these pairs
    with a smaller sum of squared errors. *)
Theorem ui_trend_least_squares data (a' b' : Q) :
  zip (ui_files_nonzero data) (ui_times_nonzero data) = filter (fun p => 0 < p.2) (zip (files data) (ui_times data)) /\
  let '(b, a) := polyfit1 solve (ui_files_nonzero data) (ui_times_nonzero data) in
  (sse a b (qs (ui_files_nonzero data)) (qs (ui_times_nonzero data))
   <= sse a' b' (qs (ui_files_nonzero data)) (qs (ui_times_nonzero data)))%Q.
Proof.
  assert (Hlen : length (files data) = length (ui_times data)) by (unfold files, ui_times; by rewrite !length_map).
  split; [by apply zip_filter_fst|].
  assert (Hl : length (qs (ui_files_nonzero data)) = length (qs (ui_times_nonzero data))).
  { unfold qs. rewrite !length_map. exact (zip_filter_length (fun z => 0 < z) _ _ Hlen). }
  unfold polyfit1. set (xs := ui_files_nonzero data) in *. set (ys := ui_times_nonzero data) in *.
  replace (length xs) with (length (qs xs)) by (unfold qs; apply length_map).
  rewrite <- !rss_design1 by done.
  rewrite <- (rss_design1 _ _ (fun m => match m with O => a' | _ => b' end)) by done.
  apply lstsq_spec_minimal, solve_normal.
Qed.

End UiTrend.


End PerfGraphProps.

Module PerfGraphExamples.
Import PerfGraph PerfGraphProps.

(** On the script's own table the UI trend drops the run with 0 ms and
    fits the five others. *)
Lemma ui_trend_least_squares_witness :
  ui_files_nonzero test_data = [3305; 2695; 707; 483; 24] /\
  (zip (ui_files_nonzero test_data) (ui_times_nonzero test_data)
   = filter (fun p => 0 < p.2) (zip (files test_data) (ui_times test_data)) /\
  let '(b, a) := polyfit1 lstsq (ui_files_nonzero test_data) (ui_times_nonzero test_data) in
  (sse a b (qs (ui_files_nonzero test_data)) (qs (ui_times_nonzero test_data))
   <= sse 0 0 (qs (ui_files_nonzero test_data)) (qs (ui_times_nonzero test_data)))%Q).
Proof. split; [reflexivity|]. exact (ui_trend_least_squares lstsq test_data 0 0). Defined.

(** The stacked bars of the table reach its total times. *)
Example test_data_bars : zip_with Z.add (worker_times test_data) (ui_times test_data) = total_times test_data.
Proof. reflexivity. Qed.

End PerfGraphExamples.
