(* ===== verification/Phase2Rel.v ===== *)
(** * [docs/plans/Bookkeeper/speed_tests/phase2_relationship_analysis.py]

    A module-level script on a fixed table of six runs (lines 14-22).  It
    adds the column [H = Files / T] (line 28), fits five models of the
    phase-2 time on the duplicate candidates and their size with
    [scipy.optimize.curve_fit], scores each by [R^2] and the mean absolute
    error (lines 109-123), picks the model of largest [R^2] with [max] over
    the keys of [results] (line 135), prints its errors per run (lines
    146-149) and the statistics of [H] (lines 160-161).

    The linear model is linear in its parameters: there [curve_fit]
    minimises the sum of squared residuals, and the model takes its
    parameters from a solver of the interface [LeastSquares] on the design
    [[1, candidates, sizeMB]].  The four other models need [log], [pow],
    [exp] and [sqrt] and an iterative optimiser; their outcomes are an
    oracle ([nonlinear]): a result, or [None] when [curve_fit] raises and
    the [except] of line 130 skips the model. *)

From S2P Require Import Prelude Stats Regression.
From Stdlib Require Import QArith Qabs Lqa.
Local Open Scope Z_scope.

Module Phase2.

(** ** The table of lines 14-22 and the column [H] *)

Record p2row := P2Row {
  test_no : Z;
  files_n : Z;
  folder_t : Z;
  dup_candidates : Z;
  dup_size_mb : Q;
  phase1_ms : Z;
  phase2_ms : Z;
  phase3_ms : Z;
  total_ms : Z
}.

Definition data : list p2row :=
  [P2Row 1 24 63 2 (14 # 10) 61 35 50 146;
   P2Row 2 96 82 84 80 64 592 57 713;
   P2Row 3 488 258 21 (27 # 10) 61 123 1658 1842;
   P2Row 4 707 324 39 (152 # 10) 57 179 1771 2007;
   P2Row 5 3398 1603 588 (2011 # 10) 59 2773 2404 5236;
   P2Row 6 2994 1567 1911 1539 65 13179 2199 15443].

(** [df['H'] = df['Files'] / df['T']]: true division of floats. *)
Definition h_col (rows : list p2row) : list pyfloat :=
  map (fun r => fdiv (Fin (inject_Z (files_n r))) (Fin (inject_Z (folder_t r)))) rows.

(** The arrays of lines 36-38. *)
Definition candidates (rows : list p2row) : list Q := map (fun r => inject_Z (dup_candidates r)) rows.
Definition sizeMB (rows : list p2row) : list Q := map dup_size_mb rows.
Definition phase2_time (rows : list p2row) : list Q := map (fun r => inject_Z (phase2_ms r)) rows.

(** [linear_model] of lines 45-48. *)
Definition linear_model (cand size a b c : Q) : Q := (a + b * cand + c * size)%Q.

(** ** The scores of lines 109-116 *)

Definition ss_res (y p : list Q) : Q := qsum (zip_with (fun a b => (a - b) * (a - b))%Q y p).
Definition ss_tot (y : list Q) : Q := qsum (map (fun a => (a - qmean y) * (a - qmean y))%Q y).

(** [1 - ss_res / ss_tot] in floats: a zero [ss_tot] gives [NaN] or
    [-inf]. *)
Definition r_squared (y p : list Q) : pyfloat := fsub (Fin 1) (fdiv (Fin (ss_res y p)) (Fin (ss_tot y))).

Definition mae (y p : list Q) : Q := qmean (zip_with (fun a b => Qabs (a - b))%Q y p).

(** The dict of lines 118-123. *)
Record fit_result := FitResult { params : list Q; r2 : pyfloat; mae_ : Q; predictions : list Q }.

Definition score (y p : list Q) (ps : list Q) : fit_result := FitResult ps (r_squared y p) (mae y p) p.

(** ** The fits and the choice of lines 90-135 *)

Section Fits.
Context (solve : nat -> nat -> (nat -> vec) -> vec -> nat -> Q).

(** The rows [[candidates, sizeMB]] of [X]. *)
Definition features_X (rows : list p2row) : list (list Q) :=
  map (fun r => [inject_Z (dup_candidates r); dup_size_mb r]) rows.

(** [popt] of the linear model: [[a, b, c]]. *)
Definition linear_popt (rows : list p2row) : Q * Q * Q :=
  let sol := solve (length rows) 3 (design (features_X rows)) (col (phase2_time rows)) in
  (sol 0%nat, sol 1%nat, sol 2%nat).

Definition linear_result (rows : list p2row) : fit_result :=
  let '(a, b, c) := linear_popt rows in
  let p := map (fun r => linear_model (inject_Z (dup_candidates r)) (dup_size_mb r) a b c) rows in
  score (phase2_time rows) p [a; b; c].

Definition model_names : list text :=
  [U"Linear"; U"Logarithmic"; U"Power"; U"Exponential"; U"Square Root"].

(** [results] in insertion order: the linear fit first, then each other
    model whose fit did not raise. *)
Definition results (nonlinear : text -> option fit_result) (rows : list p2row) : list (text * fit_result) :=
  (U"Linear", linear_result rows) :: omap (fun n => (fun r => (n, r)) <$> nonlinear n) (tail model_names).

(** [max(results.keys(), key=lambda k: results[k]['r_squared'])]; [None]
    when [results] is empty. *)
Definition best_model (res : list (text * fit_result)) : option (text * fit_result) :=
  match res with [] => None | r :: rs => Some (py_max_by (fun kr => r2 kr.2) r rs) end.

End Fits.

(** ** The printed tables *)

(** Lines 146-149: [error] and [error_pct = abs(error) / actual * 100]. *)
Definition error_rows (y p : list Q) : list (Q * pyfloat) :=
  zip_with (fun a b => ((a - b)%Q, fmul (fdiv (Fin (Qabs (a - b))) (Fin a)) (Fin 100))) y p.

(** Lines 160-161: the mean, minimum and maximum of [H]. *)
Definition h_stats (rows : list p2row) : pyfloat * pyfloat * pyfloat :=
  (s_mean (h_col rows), s_min (h_col rows), s_max (h_col rows)).

End Phase2.

(** * Properties *)

Module Phase2Props.
Import Phase2.
Local Open Scope Q_scope.

(** ** The scores as the sums of [Regression.v] *)

Lemma qsum_map_sumq (f : Q -> Q) l : qsum (map f l) == sumq (length l) (fun i => f (col l i)).
Proof.
  induction l as [|x l IH]; [reflexivity|]. cbn [map qsum fold_right length].
  fold (qsum (map f l)). rewrite IH, sumq_shift. reflexivity.
Qed.

Lemma qmean_vmean y : qmean y == vmean (length y) (col y).
Proof.
  unfold qmean, vmean, qlen. rewrite <- (qsum_map_sumq (fun a => a)), map_id. reflexivity.
Qed.

(** [ss_tot] is the total sum of squares [tss]. *)
Lemma ss_tot_tss y : ss_tot y == tss (length y) (col y).
Proof.
  unfold ss_tot, tss. rewrite qsum_map_sumq. apply sumq_ext. intros i _.
  rewrite qmean_vmean. reflexivity.
Qed.

Definition row0 : p2row := P2Row 0 0 0 0 0 0 0 0 0.

(** [ss_res] of the linear predictions is the [rss] of the fit. *)
Lemma ss_res_rss rows (sol : nat -> Q) :
  ss_res (phase2_time rows)
    (map (fun r => linear_model (inject_Z (dup_candidates r)) (dup_size_mb r) (sol 0%nat) (sol 1%nat) (sol 2%nat)) rows)
  == rss (length rows) 3 (design (features_X rows)) (col (phase2_time rows)) sol.
Proof.
  unfold ss_res. rewrite qsum_zip_sumq by (unfold phase2_time; by rewrite !length_map).
  unfold phase2_time at 1. rewrite length_map. unfold rss, dot. apply sumq_ext. intros i Hi.
  unfold lincomb, design, features_X, col. cbn [sumq].
  rewrite !(nth_map_lt _ _ _ _ row0) by done. unfold linear_model. cbn [nth]. ring.
Qed.

Section Bounds.
Context (solve : nat -> nat -> (nat -> vec) -> vec -> nat -> Q) `{!LeastSquares solve}.

(** C38: With a phase-2 time that is not constant, the [R^2] of the linear
    fit is a finite number between 0 and 1: the fit with an intercept is
    never worse than the mean. *)
Theorem linear_r2_bounded rows :
  ~ ss_tot (phase2_time rows) == 0 ->
  exists r, r2 (linear_result solve rows) = Fin r /\ 0 <= r <= 1.
Proof.
  intros Ht. unfold linear_result, linear_popt, score. cbn [r2].
  set (sol := solve (length rows) 3 (design (features_X rows)) (col (phase2_time rows))).
  pose proof (ss_res_rss rows sol) as Hres.
  assert (Hle : rss (length rows) 3 (design (features_X rows)) (col (phase2_time rows)) sol
                <= ss_tot (phase2_time rows)).
  { rewrite ss_tot_tss. unfold phase2_time at 2. rewrite length_map.
    apply rss_intercept_le_tss; [lia|done|apply solve_normal]. }
  assert (H0 : 0 <= rss (length rows) 3 (design (features_X rows)) (col (phase2_time rows)) sol) by apply dot_self_nonneg.
  assert (Hpos : 0 < ss_tot (phase2_time rows)).
  { rewrite ss_tot_tss. pose proof (tss_nonneg (length (phase2_time rows)) (col (phase2_time rows))).
    rewrite ss_tot_tss in Ht. apply Qle_lteq in H as [?|?]; [done|]. exfalso. apply Ht. by symmetry. }
  unfold r_squared, fdiv. destruct (Qeq_bool _ 0) eqn:E; [apply Qeq_bool_eq in E; lra|].
  set (q := ss_res _ _) in *. eexists. split; [reflexivity|].
  assert (Hq : 0 <= q / ss_tot (phase2_time rows) <= 1).
  { split; [apply Qle_shift_div_l; lra|]. apply Qle_shift_div_r; lra. }
  lra.
Qed.

End Bounds.

End Phase2Props.

Module Phase2Examples.
Import Phase2 Phase2Props.

Lemma linear_r2_bounded_witness :
  ~ (ss_tot (phase2_time data) == 0)%Q /\
  exists r, r2 (linear_result lstsq data) = Fin r /\ (0 <= r <= 1)%Q.
Proof.
  assert (H : ~ (ss_tot (phase2_time data) == 0)%Q) by (vm_compute; discriminate).
  split; [exact H|]. exact (linear_r2_bounded lstsq data H).
Defined.

End Phase2Examples.
